(** * Tsinda payment backend: token cache, webhooks, subscription payments

    A shallow embedding of the service classes, Mongoose models and
    controllers of the backend, and the properties of its credential cache,
    webhook reconciliation, status handling and retry helper.

    Conventions of the embedding:
    - a JavaScript string is a [string], the bytes of its UTF-8 encoding; a
      value that may be [undefined] or [null] is an [option]; a [Date] is
      its epoch time in milliseconds, a [Z];
    - numbers are integers ([Z]); the counters and amounts the code handles
      are far below 2^53, where JavaScript arithmetic on them is exact;
    - an [async] method is a computation in the monad [M] of the part
      "Effects": it reads the clock and the environment, talks to the
      provider and to the document store, and either returns or throws;
    - [save()] of a document validates it against its schema before it
      writes; what the database itself may refuse (a lost connection, a
      duplicate key of a unique index) is an input of the run, [faults];
    - [console.log] and friends leave no trace in the model.

    The first half of the file holds the model, the second half what is
    proved about it. *)

From Stdlib Require Import String Ascii List ZArith Bool Lia DecimalString.
Import ListNotations.

Local Open Scope list_scope.
Local Open Scope Z_scope.
Local Open Scope string_scope.

Set Warnings "-register-all".

(* ===================================================================== *)
(** * JavaScript values                                                   *)
(* ===================================================================== *)

(** A JSON document. [undefined] is the [None] of an [option Json]. *)
Inductive Json :=
| JNull
| JBool (b : bool)
| JNum (n : Z)
| JStr (s : string)
| JArr (items : list Json)
| JObj (fields : list (string * Json)).

(** The first binding of a key. *)
Fixpoint assoc {A : Type} (k : string) (l : list (string * A)) : option A :=
  match l with
  | [] => None
  | (k', v) :: l' => if String.eqb k k' then Some v else assoc k l'
  end.

(** [obj[k] = v]: the binding is replaced where it stands, or added last. *)
Fixpoint setKey {A : Type} (k : string) (v : A) (l : list (string * A))
  : list (string * A) :=
  match l with
  | [] => [(k, v)]
  | (k', v') :: l' =>
      if String.eqb k k' then (k, v) :: l' else (k', v') :: setKey k v l'
  end.

(** [v.k] where [v] is neither [null] nor [undefined]. *)
Definition prop (k : string) (v : option Json) : option Json :=
  match v with
  | Some (JObj fields) => assoc k fields
  | _ => None
  end.

(** What [if (v)], [!v], [v || d] and [v && w] test. *)
Definition truthy (v : option Json) : bool :=
  match v with
  | None => false
  | Some JNull => false
  | Some (JBool b) => b
  | Some (JNum n) => negb (Z.eqb n 0)
  | Some (JStr s) => negb (String.eqb s "")
  | Some (JArr _) => true
  | Some (JObj _) => true
  end.

(** The same test on a value known to be a string or absent. *)
Definition truthyS (v : option string) : bool :=
  match v with
  | Some s => negb (String.eqb s "")
  | None => false
  end.

(** [a || b] on strings that may be absent. *)
Definition orS (a b : option string) : option string :=
  if truthyS a then a else b.

(** A field read at the type the schemas store it: a string. *)
Definition asString (v : option Json) : option string :=
  match v with
  | Some (JStr s) => Some s
  | _ => None
  end.

(** A field read as a number. *)
Definition asNumber (v : option Json) : option Z :=
  match v with
  | Some (JNum n) => Some n
  | _ => None
  end.

(** [String(n)] and [`${n}`] for an integer. *)
Definition showZ (n : Z) : string := NilZero.string_of_int (Z.to_int n).

(** [`${s}`] for a string that may be [undefined]. *)
Definition showS (v : option string) : string :=
  match v with
  | Some s => s
  | None => "undefined"
  end.

Definition quote : string := String (ascii_of_nat 34) "".
Definition backslash : string := String (ascii_of_nat 92) "".

Definition hexDigit (n : nat) : string :=
  String (ascii_of_nat (if Nat.ltb n 10 then Nat.add 48 n else Nat.add 87 n)) "".

(** How [JSON.stringify] writes one character of a string. *)
Definition escapeChar (c : ascii) : string :=
  let n := nat_of_ascii c in
  if Nat.eqb n 34 then backslash ++ quote
  else if Nat.eqb n 92 then backslash ++ backslash
  else if Nat.eqb n 8 then backslash ++ "b"
  else if Nat.eqb n 9 then backslash ++ "t"
  else if Nat.eqb n 10 then backslash ++ "n"
  else if Nat.eqb n 12 then backslash ++ "f"
  else if Nat.eqb n 13 then backslash ++ "r"
  else if Nat.ltb n 32
       then backslash ++ "u00" ++ hexDigit (Nat.div n 16) ++ hexDigit (Nat.modulo n 16)
  else String c "".

Fixpoint escapeString (s : string) : string :=
  match s with
  | EmptyString => ""
  | String c s' => escapeChar c ++ escapeString s'
  end.

Definition quoted (s : string) : string := quote ++ escapeString s ++ quote.

(** [JSON.stringify(v)], without indentation. *)
Fixpoint stringify (v : Json) : string :=
  match v with
  | JNull => "null"
  | JBool true => "true"
  | JBool false => "false"
  | JNum n => showZ n
  | JStr s => quoted s
  | JArr items =>
      "[" ++ String.concat "," (map stringify items) ++ "]"
  | JObj fields =>
      "{" ++ String.concat ","
               (map (fun kv => quoted (fst kv) ++ ":" ++ stringify (snd kv)) fields)
          ++ "}"
  end.

(** [String(v)] for a value that is there. An array joins its elements
    with commas, each written by [String] again and [null] as nothing. *)
Fixpoint stringOf (v : Json) : string :=
  match v with
  | JNull => "null"
  | JBool true => "true"
  | JBool false => "false"
  | JNum n => showZ n
  | JStr s => s
  | JArr items =>
      String.concat ","
        (map (fun item => match item with
                          | JNull => ""
                          | _ => stringOf item
                          end) items)
  | JObj _ => "[object Object]"
  end.

(** [String(v)] and [`${v}`]. *)
Definition jsString (v : option Json) : string :=
  match v with
  | None => "undefined"
  | Some j => stringOf j
  end.

(** [s.toUpperCase()] on the ASCII letters. *)
Definition upperChar (c : ascii) : ascii :=
  let n := nat_of_ascii c in
  if andb (Nat.leb 97 n) (Nat.leb n 122) then ascii_of_nat (Nat.sub n 32) else c.

Fixpoint toUpperCase (s : string) : string :=
  match s with
  | EmptyString => ""
  | String c s' => String (upperChar c) (toUpperCase s')
  end.

(** [list.includes(s)]. *)
Definition includes (s : string) (l : list string) : bool :=
  existsb (String.eqb s) l.

(** [s.length]: the UTF-16 code units of the string. A byte that starts a
    character of up to three bytes stands for one unit, one that starts a
    character of four bytes for two (a surrogate pair), a continuation byte
    for none. *)
Fixpoint jsLength (s : string) : Z :=
  match s with
  | EmptyString => 0
  | String c s' =>
      let n := nat_of_ascii c in
      (if andb (Nat.leb 128 n) (Nat.ltb n 192) then 0
       else if Nat.leb 240 n then 2
       else 1) + jsLength s'
  end.

(** [Buffer.from(s).toString('base64')]: the RFC 4648 alphabet, three bytes
    to four characters, padded with [=]. *)
Definition base64Char (n : N) : ascii :=
  if N.ltb n 26 then ascii_of_N (65 + n)
  else if N.ltb n 52 then ascii_of_N (97 + (n - 26))
  else if N.ltb n 62 then ascii_of_N (48 + (n - 52))
  else if N.eqb n 62 then ascii_of_N 43
  else ascii_of_N 47.

Definition base64Quad (a b c : N) (bytes : nat) : string :=
  let n := (a * 65536 + b * 256 + c)%N in
  let c1 := base64Char (n / 262144)%N in
  let c2 := base64Char ((n / 4096) mod 64)%N in
  let c3 := base64Char ((n / 64) mod 64)%N in
  let c4 := base64Char (n mod 64)%N in
  let pad := ascii_of_N 61 in
  match bytes with
  | 1%nat => String c1 (String c2 (String pad (String pad "")))
  | 2%nat => String c1 (String c2 (String c3 (String pad "")))
  | _ => String c1 (String c2 (String c3 (String c4 "")))
  end.

Fixpoint base64 (s : string) : string :=
  match s with
  | EmptyString => ""
  | String a EmptyString => base64Quad (N_of_ascii a) 0 0 1
  | String a (String b EmptyString) =>
      base64Quad (N_of_ascii a) (N_of_ascii b) 0 2
  | String a (String b (String c rest)) =>
      base64Quad (N_of_ascii a) (N_of_ascii b) (N_of_ascii c) 3
      ++ base64 rest
  end.

(* ===================================================================== *)
(** * HTTP exchanges and errors                                           *)
(* ===================================================================== *)

Module Http.

(** What the backend sends: the arguments of [axios.post], [axios.get] and
    [fetch]. *)
Record Request := {
  method : string;
  url : string;
  headers : list (string * string);
  data : option Json
}.

(** What a provider answers: the status line, the body as text and, when
    the text is JSON, the document it parses to. *)
Record Response := {
  status : Z;
  statusText : string;
  text : string;
  json : option Json
}.

(** The provider answers, or the request fails on the way (no route, a
    timeout), with the message of the failure. *)
Inductive Reply :=
| Answered (r : Response)
| Failed (msg : string).

(** [response.ok] of [fetch]; the statuses [axios] resolves on. *)
Definition ok (r : Response) : bool :=
  andb (Z.leb 200 (status r)) (Z.leb (status r) 299).

(** [response.data] of [axios]: the parsed body, or the text as it came. *)
Definition body (r : Response) : Json :=
  match json r with
  | Some j => j
  | None => JStr (text r)
  end.

End Http.

(** A thrown [Error]: its message and, for the errors [axios] throws on a
    status outside 2xx, the response it carries. *)
Record Error := {
  message : string;
  response : option Http.Response
}.

Definition mkError (msg : string) : Error :=
  {| message := msg; response := None |}.

(** [error.response?.status]. *)
Definition responseStatus (e : Error) : option Z :=
  match response e with
  | Some r => Some (Http.status r)
  | None => None
  end.

Inductive Result (A : Type) :=
| Ok (a : A)
| Throw (e : Error).
Arguments Ok {A} a.
Arguments Throw {A} e.

(* ===================================================================== *)
(** * The Mongoose models: documents                                      *)
(* ===================================================================== *)

(** ** Validation

    [doc.save()] validates every path of the schema before it writes. A path
    reports the first of its validators that fails, [required] before
    [enum], [min] and [maxlength], in the words below. When several paths
    fail, the model lists them in the order of the schema. *)

Definition requiredError (path : string) : string :=
  path ++ ": Path `" ++ path ++ "` is required.".

Definition enumError (path value : string) : string :=
  path ++ ": `" ++ value ++ "` is not a valid enum value for path `" ++ path ++ "`.".

Definition minError (path : string) (value minimum : Z) : string :=
  path ++ ": Path `" ++ path ++ "` (" ++ showZ value
       ++ ") is less than minimum allowed value (" ++ showZ minimum ++ ").".

Definition maxlengthError (path value : string) (maximum : Z) : string :=
  path ++ ": Path `" ++ path ++ "` (`" ++ value
       ++ "`) is longer than the maximum allowed length (" ++ showZ maximum ++ ").".

Definition castError (type path : string) (value : Json) : string :=
  path ++ ": Cast to " ++ type ++ " failed for value " ++ quote ++ stringOf value ++ quote
       ++ " at path " ++ quote ++ path ++ quote.

(** The errors of the first validator that has any. *)
Definition firstOf (a b : list string) : list string :=
  match a with
  | [] => b
  | _ :: _ => a
  end.

(** [required: true] on a String path: [undefined], [null] and the empty
    string fail. *)
Definition requiredString (path : string) (v : option string) : list string :=
  if truthyS v then [] else [requiredError path].

(** [required: true] on a Number, Date or Mixed path: [undefined] and [null]
    fail. *)
Definition requiredValue {A : Type} (path : string) (v : option A) : list string :=
  match v with
  | Some _ => []
  | None => [requiredError path]
  end.

(** [enum: values]: a value that is set is one of them. *)
Definition enumString (path : string) (values : list string) (v : option string)
  : list string :=
  match v with
  | Some s => if includes s values then [] else [enumError path s]
  | None => []
  end.

(** [min: minimum]. *)
Definition minNumber (path : string) (minimum : Z) (v : option Z) : list string :=
  match v with
  | Some n => if Z.ltb n minimum then [minError path n minimum] else []
  | None => []
  end.

(** [maxlength: maximum]. *)
Definition maxlengthString (path : string) (maximum : Z) (v : option string)
  : list string :=
  match v with
  | Some s => if Z.ltb maximum (jsLength s) then [maxlengthError path s maximum] else []
  | None => []
  end.

(** What a String path holds after the value [v] was assigned to it: a
    string stays, a number or a boolean is written out, an object with a
    string [_id] gives that; an array and any other object do not cast, and
    the path reports that when the document is validated. *)
Inductive Cast :=
| Unset
| Text (s : string)
| NoCast (v : Json).

Definition castToString (v : option Json) : Cast :=
  match v with
  | None => Unset
  | Some JNull => Unset
  | Some (JStr s) => Text s
  | Some (JNum n) => Text (showZ n)
  | Some (JBool true) => Text "true"
  | Some (JBool false) => Text "false"
  | Some (JArr items) => NoCast (JArr items)
  | Some (JObj fields) =>
      match assoc "_id" fields with
      | Some (JStr s) => Text s
      | _ => NoCast (JObj fields)
      end
  end.

(** The validators of a String path on a value as it was assigned. *)
Definition castPath (path : string) (v : option Json)
           (validators : option string -> list string) : list string :=
  match castToString v with
  | Unset => validators None
  | Text s => validators (Some s)
  | NoCast j => [castError "string" path j]
  end.

(** The enumeration of [partyIdType] in the payment and callback schemas. *)
Definition partyIdTypes : list string := ["MSISDN"; "EMAIL"; "PARTY_CODE"].

(** [usageStats] of both credential schemas. *)
Record UsageStats := {
  totalTransactions : Z;
  successfulTransactions : Z;
  failedTransactions : Z;
  lastUsedAt : option Z
}.

(** The schema defaults. *)
Definition noUsage : UsageStats :=
  {| totalTransactions := 0; successfulTransactions := 0;
     failedTransactions := 0; lastUsedAt := None |}.

(** The body of [incrementUsage(success = true)] on the counters. *)
Definition bumpUsage (success : option bool) (now : Z) (u : UsageStats) : UsageStats :=
  let success := match success with Some b => b | None => true end in
  let total := totalTransactions u + 1 in
  let successful :=
    if success then successfulTransactions u + 1 else successfulTransactions u in
  let failed :=
    if success then failedTransactions u else failedTransactions u + 1 in
  {| totalTransactions := total; successfulTransactions := successful;
     failedTransactions := failed; lastUsedAt := Some now |}.

Record SubscriptionKeys := {
  collectionWidget : string;
  collections : string;
  disbursements : string;
  remittances : string
}.

(** models/MTNUser.js. Paths no modelled method reads or writes ([config],
    [metadata]) are left out. *)
Module MTNUser.

Record t := {
  _id : nat;
  xReferenceId : string;
  apiKey : option string;
  providerCallbackHost : string;
  collectionToken : option string;
  disbursementToken : option string;
  collectionTokenExpiresAt : option Z;
  disbursementTokenExpiresAt : option Z;
  subscriptionKeys : SubscriptionKeys;
  isActive : bool;
  usageStats : UsageStats;
  createdAt : option Z;
  updatedAt : option Z
}.

(** [virtual('collectionTokenValid')], read at the instant [now]. The
    getter returns the last operand it evaluates; callers only test it. *)
Definition collectionTokenValid (u : t) (now : Z) : bool :=
  andb (truthyS (collectionToken u))
       (match collectionTokenExpiresAt u with
        | Some expiresAt => Z.ltb now expiresAt
        | None => false
        end).

(** [virtual('disbursementTokenValid')]. *)
Definition disbursementTokenValid (u : t) (now : Z) : bool :=
  andb (truthyS (disbursementToken u))
       (match disbursementTokenExpiresAt u with
        | Some expiresAt => Z.ltb now expiresAt
        | None => false
        end).

(** The assignments of [updateCollectionToken(token, expiresIn = 3600)];
    the method then saves. *)
Definition setCollectionToken (token : option string) (expiresIn : option Z)
           (now : Z) (u : t) : t :=
  let expiresIn := match expiresIn with Some n => n | None => 3600 end in
  {| _id := _id u; xReferenceId := xReferenceId u; apiKey := apiKey u;
     providerCallbackHost := providerCallbackHost u;
     collectionToken := token;
     disbursementToken := disbursementToken u;
     collectionTokenExpiresAt := Some (now + expiresIn * 1000);
     disbursementTokenExpiresAt := disbursementTokenExpiresAt u;
     subscriptionKeys := subscriptionKeys u; isActive := isActive u;
     usageStats := usageStats u;
     createdAt := createdAt u; updatedAt := updatedAt u |}.

(** The assignments of [updateDisbursementToken(token, expiresIn = 3600)]. *)
Definition setDisbursementToken (token : option string) (expiresIn : option Z)
           (now : Z) (u : t) : t :=
  let expiresIn := match expiresIn with Some n => n | None => 3600 end in
  {| _id := _id u; xReferenceId := xReferenceId u; apiKey := apiKey u;
     providerCallbackHost := providerCallbackHost u;
     collectionToken := collectionToken u;
     disbursementToken := token;
     collectionTokenExpiresAt := collectionTokenExpiresAt u;
     disbursementTokenExpiresAt := Some (now + expiresIn * 1000);
     subscriptionKeys := subscriptionKeys u; isActive := isActive u;
     usageStats := usageStats u;
     createdAt := createdAt u; updatedAt := updatedAt u |}.

(** The assignments of [incrementUsage(success = true)]. *)
Definition bump (success : option bool) (now : Z) (u : t) : t :=
  {| _id := _id u; xReferenceId := xReferenceId u; apiKey := apiKey u;
     providerCallbackHost := providerCallbackHost u;
     collectionToken := collectionToken u;
     disbursementToken := disbursementToken u;
     collectionTokenExpiresAt := collectionTokenExpiresAt u;
     disbursementTokenExpiresAt := disbursementTokenExpiresAt u;
     subscriptionKeys := subscriptionKeys u; isActive := isActive u;
     usageStats := bumpUsage success now (usageStats u);
     createdAt := createdAt u; updatedAt := updatedAt u |}.

(** The validators of the schema: [xReferenceId], [apiKey] and
    [providerCallbackHost] are required. *)
Definition validationErrors (u : t) : list string :=
  (requiredString "xReferenceId" (Some (xReferenceId u))
   ++ requiredString "apiKey" (apiKey u)
   ++ requiredString "providerCallbackHost" (Some (providerCallbackHost u)))%list.

(** [timestamps: true]: what a save writes into the document. *)
Definition stamp (now : Z) (u : t) : t :=
  {| _id := _id u; xReferenceId := xReferenceId u; apiKey := apiKey u;
     providerCallbackHost := providerCallbackHost u;
     collectionToken := collectionToken u;
     disbursementToken := disbursementToken u;
     collectionTokenExpiresAt := collectionTokenExpiresAt u;
     disbursementTokenExpiresAt := disbursementTokenExpiresAt u;
     subscriptionKeys := subscriptionKeys u; isActive := isActive u;
     usageStats := usageStats u;
     createdAt := match createdAt u with Some c => Some c | None => Some now end;
     updatedAt := Some now |}.

End MTNUser.

(** models/AirtelUser.js, the credential schema. *)
Module AirtelUser.

Record t := {
  _id : nat;
  clientId : string;
  accessToken : option string;
  tokenExpiresAt : option Z;
  tokenType : option string;
  scope : option string;
  isActive : bool;
  usageStats : UsageStats;
  createdAt : option Z;
  updatedAt : option Z
}.

(** [virtual('tokenValid')], read at the instant [now]. *)
Definition tokenValid (u : t) (now : Z) : bool :=
  andb (truthyS (accessToken u))
       (match tokenExpiresAt u with
        | Some expiresAt => Z.ltb now expiresAt
        | None => false
        end).

(** The assignments of
    [updateToken(token, expiresIn = 3600, tokenType = 'Bearer', scope = null)]. *)
Definition setToken (token : option string) (expiresIn : option Z)
           (type : option string) (newScope : option string) (now : Z) (u : t) : t :=
  let expiresIn := match expiresIn with Some n => n | None => 3600 end in
  let type := match type with Some ty => ty | None => "Bearer" end in
  {| _id := _id u; clientId := clientId u;
     accessToken := token;
     tokenExpiresAt := Some (now + expiresIn * 1000);
     tokenType := Some type;
     scope := if truthyS newScope then newScope else scope u;
     isActive := isActive u; usageStats := usageStats u;
     createdAt := createdAt u; updatedAt := updatedAt u |}.

(** The assignments of [incrementUsage(success = true)]. *)
Definition bump (success : option bool) (now : Z) (u : t) : t :=
  {| _id := _id u; clientId := clientId u; accessToken := accessToken u;
     tokenExpiresAt := tokenExpiresAt u; tokenType := tokenType u;
     scope := scope u; isActive := isActive u;
     usageStats := bumpUsage success now (usageStats u);
     createdAt := createdAt u; updatedAt := updatedAt u |}.

(** The validators of the schema: [clientId], [accessToken] and
    [tokenExpiresAt] are required. *)
Definition validationErrors (u : t) : list string :=
  (requiredString "clientId" (Some (clientId u))
   ++ requiredString "accessToken" (accessToken u)
   ++ requiredValue "tokenExpiresAt" (tokenExpiresAt u))%list.

Definition stamp (now : Z) (u : t) : t :=
  {| _id := _id u; clientId := clientId u; accessToken := accessToken u;
     tokenExpiresAt := tokenExpiresAt u; tokenType := tokenType u;
     scope := scope u; isActive := isActive u; usageStats := usageStats u;
     createdAt := match createdAt u with Some c => Some c | None => Some now end;
     updatedAt := Some now |}.

End AirtelUser.

(** [payer] and [payee] of a payment. *)
Record Party := {
  partyIdType : string;
  partyId : option string
}.

(** The enumeration of the [status] path of the payment and subscription
    schemas. *)
Definition statusEnum : list string :=
  ["PENDING"; "SUCCESSFUL"; "FAILED"; "CANCELLED"].

(** The Payment schema (kept in models/AirtelCallback.js). [failedAt],
    which the MTN callback assigns, is not a path of the schema and so never
    reaches the store; it has no field here. *)
Module Payment.

Record t := {
  _id : nat;
  xReferenceId : string;
  apiUserId : option string;
  apiKey : option string;
  transactionType : string;
  transactionSubType : string;
  amount : option Z;
  currency : string;
  externalId : option string;
  payer : option Party;
  payee : option Party;
  payerMessage : option string;
  payeeNote : option string;
  referenceIdToRefund : option string;
  status : string;
  mtnStatus : option string;
  mtnResponse : option Json;
  mtnError : option Json;
  processedAt : option Z;
  completedAt : option Z;
  metadata : list (string * Json);
  serviceType : string;
  subscriptionKey : option string;
  createdAt : option Z;
  updatedAt : option Z
}.

(** The assignments a handler makes after a provider answer: the response,
    the provider's status, the main status and the completion date. [None]
    leaves a path as it is. *)
Definition assign (newResponse : option (option Json)) (newMtnStatus : option (option string))
           (newStatus : option string) (newCompletedAt : option (option Z))
           (newMetadata : option (list (string * Json))) (p : t) : t :=
  {| _id := _id p; xReferenceId := xReferenceId p; apiUserId := apiUserId p;
     apiKey := apiKey p; transactionType := transactionType p;
     transactionSubType := transactionSubType p; amount := amount p;
     currency := currency p; externalId := externalId p;
     payer := payer p; payee := payee p;
     payerMessage := payerMessage p; payeeNote := payeeNote p;
     referenceIdToRefund := referenceIdToRefund p;
     status := match newStatus with Some s => s | None => status p end;
     mtnStatus := match newMtnStatus with Some s => s | None => mtnStatus p end;
     mtnResponse := match newResponse with Some r => r | None => mtnResponse p end;
     mtnError := mtnError p;
     processedAt := processedAt p;
     completedAt := match newCompletedAt with Some c => c | None => completedAt p end;
     metadata := match newMetadata with Some m => m | None => metadata p end;
     serviceType := serviceType p; subscriptionKey := subscriptionKey p;
     createdAt := createdAt p; updatedAt := updatedAt p |}.

(** The assignments of [updateStatus(newStatus, mtnResponse = null)]. *)
Definition setStatus (newStatus : string) (newResponse : option Json) (now : Z) (p : t) : t :=
  assign (if truthy newResponse then Some newResponse else None)
         None
         (Some newStatus)
         (if orb (String.eqb newStatus "SUCCESSFUL") (String.eqb newStatus "FAILED")
          then Some (Some now) else None)
         None p.

(** The validators of the schema. *)
Definition validationErrors (p : t) : list string :=
  let payerType := match payer p with Some q => Some (partyIdType q) | None => None end in
  let payerId := match payer p with Some q => partyId q | None => None end in
  let payeeType := match payee p with Some q => Some (partyIdType q) | None => None end in
  (requiredString "xReferenceId" (Some (xReferenceId p))
   ++ requiredString "apiUserId" (apiUserId p)
   ++ requiredString "apiKey" (apiKey p)
   ++ firstOf (requiredString "transactionType" (Some (transactionType p)))
              (enumString "transactionType" ["collection"; "disbursement"; "refund"]
                          (Some (transactionType p)))
   ++ firstOf (requiredString "transactionSubType" (Some (transactionSubType p)))
              (enumString "transactionSubType"
                          ["request_to_pay"; "transfer"; "refund"; "status_check";
                           "balance_check"; "account_status"; "basic_user_info"]
                          (Some (transactionSubType p)))
   ++ firstOf (requiredValue "amount" (amount p)) (minNumber "amount" 0 (amount p))
   ++ firstOf (requiredString "currency" (Some (currency p)))
              (enumString "currency" ["EUR"; "USD"; "XAF"; "XOF"] (Some (currency p)))
   ++ requiredString "externalId" (externalId p)
   ++ firstOf (requiredString "payer.partyIdType" payerType)
              (enumString "payer.partyIdType" partyIdTypes payerType)
   ++ requiredString "payer.partyId" payerId
   ++ enumString "payee.partyIdType" partyIdTypes payeeType
   ++ maxlengthString "payerMessage" 160 (payerMessage p)
   ++ maxlengthString "payeeNote" 160 (payeeNote p)
   ++ enumString "status" statusEnum (Some (status p))
   ++ enumString "mtnStatus" statusEnum (mtnStatus p)
   ++ firstOf (requiredString "serviceType" (Some (serviceType p)))
              (enumString "serviceType"
                          ["collection_widget"; "collections"; "disbursements"; "remittances"]
                          (Some (serviceType p)))
   ++ requiredString "subscriptionKey" (subscriptionKey p))%list.

Definition stamp (now : Z) (p : t) : t :=
  {| _id := _id p; xReferenceId := xReferenceId p; apiUserId := apiUserId p;
     apiKey := apiKey p; transactionType := transactionType p;
     transactionSubType := transactionSubType p; amount := amount p;
     currency := currency p; externalId := externalId p;
     payer := payer p; payee := payee p;
     payerMessage := payerMessage p; payeeNote := payeeNote p;
     referenceIdToRefund := referenceIdToRefund p;
     status := status p; mtnStatus := mtnStatus p;
     mtnResponse := mtnResponse p; mtnError := mtnError p;
     processedAt := processedAt p; completedAt := completedAt p;
     metadata := metadata p;
     serviceType := serviceType p; subscriptionKey := subscriptionKey p;
     createdAt := match createdAt p with Some c => Some c | None => Some now end;
     updatedAt := Some now |}.

End Payment.

(** The Subscription schema (kept in models/AirtelUser.js). *)
Module Subscription.

Record t := {
  _id : nat;
  userId : string;
  amount : Z;
  currency : string;
  numberOfMonths : Z;
  paymentChannel : string;
  msisdn : string;
  transactionId : option string;
  airtelMoneyId : option string;
  mtnReferenceId : option string;
  status : string;
  airtelStatus : option string;
  mtnStatus : option string;
  startDate : option Z;
  endDate : option Z;
  airtelResponse : option Json;
  airtelError : option Json;
  mtnResponse : option Json;
  mtnError : option Json;
  processedAt : option Z;
  completedAt : option Z;
  createdAt : option Z;
  updatedAt : option Z
}.

(** The paths a handler assigns, each with its new value or [None] to leave
    it as it is. *)
Record Patch := {
  setAirtelMoneyId : option (option string);
  setMtnReferenceId : option (option string);
  setStatus : option string;
  setAirtelStatus : option (option string);
  setMtnStatus : option (option string);
  setStartDate : option (option Z);
  setEndDate : option (option Z);
  setAirtelResponse : option (option Json);
  setAirtelError : option (option Json);
  setMtnResponse : option (option Json);
  setMtnError : option (option Json);
  setProcessedAt : option (option Z);
  setCompletedAt : option (option Z)
}.

Definition pick {A : Type} (new : option A) (old : A) : A :=
  match new with
  | Some a => a
  | None => old
  end.

Definition assign (q : Patch) (s : t) : t :=
  {| _id := _id s; userId := userId s; amount := amount s;
     currency := currency s; numberOfMonths := numberOfMonths s;
     paymentChannel := paymentChannel s; msisdn := msisdn s;
     transactionId := transactionId s;
     airtelMoneyId := pick (setAirtelMoneyId q) (airtelMoneyId s);
     mtnReferenceId := pick (setMtnReferenceId q) (mtnReferenceId s);
     status := pick (setStatus q) (status s);
     airtelStatus := pick (setAirtelStatus q) (airtelStatus s);
     mtnStatus := pick (setMtnStatus q) (mtnStatus s);
     startDate := pick (setStartDate q) (startDate s);
     endDate := pick (setEndDate q) (endDate s);
     airtelResponse := pick (setAirtelResponse q) (airtelResponse s);
     airtelError := pick (setAirtelError q) (airtelError s);
     mtnResponse := pick (setMtnResponse q) (mtnResponse s);
     mtnError := pick (setMtnError q) (mtnError s);
     processedAt := pick (setProcessedAt q) (processedAt s);
     completedAt := pick (setCompletedAt q) (completedAt s);
     createdAt := createdAt s; updatedAt := updatedAt s |}.

(** The validators of the schema. *)
Definition validationErrors (s : t) : list string :=
  (requiredString "userId" (Some (userId s))
   ++ minNumber "amount" 0 (Some (amount s))
   ++ enumString "currency" ["RWF"; "UGX"; "KES"; "TZS"; "EUR"; "USD"; "XAF"; "XOF"]
                 (Some (currency s))
   ++ minNumber "numberOfMonths" 1 (Some (numberOfMonths s))
   ++ firstOf (requiredString "paymentChannel" (Some (paymentChannel s)))
              (enumString "paymentChannel" ["MTN"; "AIRTEL"] (Some (paymentChannel s)))
   ++ requiredString "msisdn" (Some (msisdn s))
   ++ enumString "status" statusEnum (Some (status s))
   ++ enumString "airtelStatus" ["TS"; "TF"; "TA"; "TIP"; "TE"] (airtelStatus s)
   ++ enumString "mtnStatus" statusEnum (mtnStatus s))%list.

Definition stamp (now : Z) (s : t) : t :=
  {| _id := _id s; userId := userId s; amount := amount s;
     currency := currency s; numberOfMonths := numberOfMonths s;
     paymentChannel := paymentChannel s; msisdn := msisdn s;
     transactionId := transactionId s;
     airtelMoneyId := airtelMoneyId s; mtnReferenceId := mtnReferenceId s;
     status := status s; airtelStatus := airtelStatus s;
     mtnStatus := mtnStatus s; startDate := startDate s; endDate := endDate s;
     airtelResponse := airtelResponse s; airtelError := airtelError s;
     mtnResponse := mtnResponse s; mtnError := mtnError s;
     processedAt := processedAt s; completedAt := completedAt s;
     createdAt := match createdAt s with Some c => Some c | None => Some now end;
     updatedAt := Some now |}.

(** [toSubscriptionDTO()]. Dates are written as their epoch time. *)
Definition toSubscriptionDTO (s : t) : Json :=
  let str (k : string) (v : option string) :=
    match v with Some x => [(k, JStr x)] | None => [] end in
  let date (k : string) (v : option Z) :=
    match v with Some x => [(k, JNum x)] | None => [] end in
  JObj (([("id", JNum (Z.of_nat (_id s)));
          ("userId", JStr (userId s));
          ("amount", JNum (amount s));
          ("currency", JStr (currency s));
          ("numberOfMonths", JNum (numberOfMonths s));
          ("paymentChannel", JStr (paymentChannel s));
          ("msisdn", JStr (msisdn s))]
           ++ str "transactionId" (transactionId s)
           ++ str "airtelMoneyId" (airtelMoneyId s)
           ++ str "mtnReferenceId" (mtnReferenceId s)
           ++ [("status", JStr (status s))]
           ++ str "airtelStatus" (airtelStatus s)
           ++ str "mtnStatus" (mtnStatus s)
           ++ date "startDate" (startDate s)
           ++ date "endDate" (endDate s)
           ++ date "createdAt" (createdAt s)
           ++ date "updatedAt" (updatedAt s))%list).

End Subscription.

(** models/MTNCallback.js. *)
Module MTNCallback.

Record t := {
  _id : nat;
  financialTransactionId : option Json;
  externalId : option Json;
  amount : option Json;
  currency : option Json;
  status : option Json;
  payee : option Json;
  payeeNote : option Json;
  payerMessage : option Json;
  callbackData : option Json;
  processed : bool;
  processedAt : option Z;
  processingError : option string;
  ipAddress : option string;
  userAgent : option string;
  createdAt : option Z;
  updatedAt : option Z
}.

(** The assignments of [markAsProcessed()]. *)
Definition processedNow (now : Z) (c : t) : t :=
  {| _id := _id c; financialTransactionId := financialTransactionId c;
     externalId := externalId c; amount := amount c; currency := currency c;
     status := status c; payee := payee c; payeeNote := payeeNote c;
     payerMessage := payerMessage c; callbackData := callbackData c;
     processed := true; processedAt := Some now;
     processingError := processingError c;
     ipAddress := ipAddress c; userAgent := userAgent c;
     createdAt := createdAt c; updatedAt := updatedAt c |}.

(** The validators of the nested [payee] path on the value assigned to it:
    of an object the two strings are cast and the type is checked against
    its enumeration; [null] and an array set nothing; any other value is
    not an object. *)
Definition payeeErrors (v : option Json) : list string :=
  match v with
  | Some (JObj fields) =>
      (castPath "payee.partyIdType" (assoc "partyIdType" fields)
                (enumString "payee.partyIdType" partyIdTypes)
       ++ castPath "payee.partyId" (assoc "partyId" fields) (fun _ => []))%list
  | Some (JBool true) => [castError "Object" "payee" (JBool true)]
  | Some (JNum n) => if Z.eqb n 0 then [] else [castError "Object" "payee" (JNum n)]
  | Some (JStr s) => if String.eqb s "" then [] else [castError "Object" "payee" (JStr s)]
  | _ => []
  end.

(** The validators of the schema, on the values as the handler assigned
    them. *)
Definition validationErrors (c : t) : list string :=
  (castPath "financialTransactionId" (financialTransactionId c) (fun _ => [])
   ++ castPath "externalId" (externalId c) (requiredString "externalId")
   ++ castPath "amount" (amount c) (requiredString "amount")
   ++ castPath "currency" (currency c) (requiredString "currency")
   ++ castPath "status" (status c)
               (fun v => firstOf (requiredString "status" v)
                                 (enumString "status" ["SUCCESSFUL"; "FAILED"; "PENDING"] v))
   ++ payeeErrors (payee c)
   ++ castPath "payeeNote" (payeeNote c) (fun _ => [])
   ++ castPath "payerMessage" (payerMessage c) (fun _ => [])
   ++ match callbackData c with
      | None | Some JNull => [requiredError "callbackData"]
      | Some _ => []
      end)%list.

Definition stamp (now : Z) (c : t) : t :=
  {| _id := _id c; financialTransactionId := financialTransactionId c;
     externalId := externalId c; amount := amount c; currency := currency c;
     status := status c; payee := payee c; payeeNote := payeeNote c;
     payerMessage := payerMessage c; callbackData := callbackData c;
     processed := processed c; processedAt := processedAt c;
     processingError := processingError c;
     ipAddress := ipAddress c; userAgent := userAgent c;
     createdAt := match createdAt c with Some x => Some x | None => Some now end;
     updatedAt := Some now |}.

End MTNCallback.

(** models/AirtelCallback.js, the callback schema. *)
Module AirtelCallback.

Record t := {
  _id : nat;
  transactionId : option Json;
  airtelMoneyId : option Json;
  statusCode : option Json;
  message : option Json;
  callbackData : option Json;
  processed : bool;
  processedAt : option Z;
  processingError : option string;
  ipAddress : option string;
  userAgent : option string;
  createdAt : option Z;
  updatedAt : option Z
}.

(** The assignments of [markAsProcessed()]. *)
Definition processedNow (now : Z) (c : t) : t :=
  {| _id := _id c; transactionId := transactionId c;
     airtelMoneyId := airtelMoneyId c; statusCode := statusCode c;
     message := message c; callbackData := callbackData c;
     processed := true; processedAt := Some now;
     processingError := processingError c;
     ipAddress := ipAddress c; userAgent := userAgent c;
     createdAt := createdAt c; updatedAt := updatedAt c |}.

(** The validators of the schema, on the values as the handler assigned
    them. *)
Definition validationErrors (c : t) : list string :=
  (castPath "transactionId" (transactionId c) (requiredString "transactionId")
   ++ castPath "airtelMoneyId" (airtelMoneyId c) (requiredString "airtelMoneyId")
   ++ castPath "statusCode" (statusCode c)
               (fun v => firstOf (requiredString "statusCode" v)
                                 (enumString "statusCode" ["TS"; "TF"; "TA"; "TIP"; "TE"] v))
   ++ castPath "message" (message c) (requiredString "message")
   ++ match callbackData c with
      | None | Some JNull => [requiredError "callbackData"]
      | Some _ => []
      end)%list.

Definition stamp (now : Z) (c : t) : t :=
  {| _id := _id c; transactionId := transactionId c;
     airtelMoneyId := airtelMoneyId c; statusCode := statusCode c;
     message := message c; callbackData := callbackData c;
     processed := processed c; processedAt := processedAt c;
     processingError := processingError c;
     ipAddress := ipAddress c; userAgent := userAgent c;
     createdAt := match createdAt c with Some x => Some x | None => Some now end;
     updatedAt := Some now |}.

End AirtelCallback.

(* ===================================================================== *)
(** * Effects: the clock, the environment, the providers, the store       *)
(* ===================================================================== *)

(** The collections of the document store. *)
Record Store := {
  nextId : nat;
  mtnUsers : list MTNUser.t;
  airtelUsers : list AirtelUser.t;
  payments : list Payment.t;
  subscriptions : list Subscription.t;
  mtnCallbacks : list MTNCallback.t;
  airtelCallbacks : list AirtelCallback.t
}.

Definition emptyStore : Store :=
  {| nextId := 0; mtnUsers := []; airtelUsers := []; payments := [];
     subscriptions := []; mtnCallbacks := []; airtelCallbacks := [] |}.

(** Everything a method can read or change.
    - [now]: the clock; it moves only when the code waits ([delay]);
    - [env]: [process.env];
    - [uuids], [drawn]: the values [crypto.randomUUID()] returns, and how
      many were taken;
    - [replies]: what the providers answer to the coming requests, in order;
      when none is left the request fails on the way;
    - [sent]: the requests made so far, in order;
    - [faults]: for each coming operation of the database, [Some msg] if it
      throws (a lost connection, a duplicate key of a unique index) and
      [None] if it goes through; when none is left the operation goes
      through;
    - [store]: the documents. *)
Record World := {
  now : Z;
  env : list (string * string);
  uuids : nat -> string;
  drawn : nat;
  replies : list Http.Reply;
  sent : list Http.Request;
  faults : list (option string);
  store : Store
}.

Definition withNow (t : Z) (w : World) : World :=
  {| now := t; env := env w; uuids := uuids w; drawn := drawn w;
     replies := replies w; sent := sent w; faults := faults w;
     store := store w |}.

Definition withDrawn (n : nat) (w : World) : World :=
  {| now := now w; env := env w; uuids := uuids w; drawn := n;
     replies := replies w; sent := sent w; faults := faults w;
     store := store w |}.

Definition withExchange (rs : list Http.Reply) (req : Http.Request) (w : World) : World :=
  {| now := now w; env := env w; uuids := uuids w; drawn := drawn w;
     replies := rs; sent := (sent w ++ [req])%list; faults := faults w;
     store := store w |}.

Definition withFaults (fs : list (option string)) (w : World) : World :=
  {| now := now w; env := env w; uuids := uuids w; drawn := drawn w;
     replies := replies w; sent := sent w; faults := fs;
     store := store w |}.

Definition withStore (s : Store) (w : World) : World :=
  {| now := now w; env := env w; uuids := uuids w; drawn := drawn w;
     replies := replies w; sent := sent w; faults := faults w;
     store := s |}.

(** An [async] method: from the world it starts in to its outcome and the
    world it leaves. *)
Definition M (A : Type) : Type := World -> Result A * World.

Definition ret {A : Type} (a : A) : M A := fun w => (Ok a, w).

Definition bind {A B : Type} (m : M A) (f : A -> M B) : M B :=
  fun w =>
    match m w with
    | (Ok a, w') => f a w'
    | (Throw e, w') => (Throw e, w')
    end.

(** [throw e]. *)
Definition throw {A : Type} (e : Error) : M A := fun w => (Throw e, w).

(** [throw new Error(msg)]. *)
Definition throwError {A : Type} (msg : string) : M A := throw (mkError msg).

(** [try { m } catch (error) { handler }]: what [m] did before it threw
    stays done. *)
Definition tryCatch {A : Type} (m : M A) (handler : Error -> M A) : M A :=
  fun w =>
    match m w with
    | (Ok a, w') => (Ok a, w')
    | (Throw e, w') => handler e w'
    end.

Declare Scope monad_scope.
Delimit Scope monad_scope with monad.
Notation "x <- m ;; k" := (bind m (fun x => k))
  (at level 61, m at next level, right associativity) : monad_scope.
Notation "m ;;; k" := (bind m (fun _ => k))
  (at level 61, right associativity) : monad_scope.
Local Open Scope monad_scope.

(** [new Date()], [Date.now()]. *)
Definition getNow : M Z := fun w => (Ok (now w), w).

(** [process.env.NAME]. *)
Definition getEnv (name : string) : M (option string) :=
  fun w => (Ok (assoc name (env w)), w).

(** [process.env], as a module reads it when it is loaded. *)
Definition getProcessEnv : M (list (string * string)) :=
  fun w => (Ok (env w), w).

(** [crypto.randomUUID()]. *)
Definition randomUUID : M string :=
  fun w => (Ok (uuids w (drawn w)), withDrawn (S (drawn w)) w).

(** [await this.delay(ms)]. *)
Definition delay (ms : Z) : M unit :=
  fun w => (Ok tt, withNow (now w + ms) w).

(** One request to a provider: it is recorded, and the next reply is its
    answer. *)
Definition exchange (req : Http.Request) : M Http.Reply :=
  fun w =>
    match replies w with
    | [] => (Ok (Http.Failed "connect ECONNREFUSED"), withExchange [] req w)
    | r :: rest => (Ok r, withExchange rest req w)
    end.

(** [axios.post] and [axios.get]: resolve on a 2xx status, throw an error
    carrying the response on any other, throw a bare error when no response
    came. The [timeout] option bounds the wait and is not part of what is
    sent. *)
Definition axios (req : Http.Request) : M Http.Response :=
  reply <- exchange req ;;
  match reply with
  | Http.Answered r =>
      if Http.ok r then ret r
      else throw {| message := "Request failed with status code " ++ showZ (Http.status r);
                    response := Some r |}
  | Http.Failed msg => throwError msg
  end.

(** [fetch]: resolves on every status, throws when no response came. *)
Definition fetch (req : Http.Request) : M Http.Response :=
  reply <- exchange req ;;
  match reply with
  | Http.Answered r => ret r
  | Http.Failed _ => throwError "fetch failed"
  end.

(** [await response.json()]: throws on a body that is not JSON. *)
Definition responseJson (r : Http.Response) : M Json :=
  match Http.json r with
  | Some j => ret j
  | None => throwError "Unexpected end of JSON input"
  end.

(** Every store operation first meets the next fault, if there is one. *)
Definition storeOp : M unit :=
  fun w =>
    match faults w with
    | [] => (Ok tt, w)
    | None :: rest => (Ok tt, withFaults rest w)
    | Some msg :: rest => (Throw (mkError msg), withFaults rest w)
    end.

(** A Mongoose model: its name, what its schema refuses, where its
    documents live and what a save stamps. *)
Class Model (D : Type) := {
  modelName : string;
  errorsOf : D -> list string;
  idOf : D -> nat;
  stampOf : Z -> D -> D;
  docs : Store -> list D;
  setDocs : list D -> Store -> Store
}.

#[export] Instance MTNUserModel : Model MTNUser.t := {|
  modelName := "MTNUser";
  errorsOf := MTNUser.validationErrors;
  idOf := MTNUser._id;
  stampOf := MTNUser.stamp;
  docs := mtnUsers;
  setDocs := fun l s =>
    {| nextId := nextId s; mtnUsers := l; airtelUsers := airtelUsers s;
       payments := payments s; subscriptions := subscriptions s;
       mtnCallbacks := mtnCallbacks s; airtelCallbacks := airtelCallbacks s |}
|}.

#[export] Instance AirtelUserModel : Model AirtelUser.t := {|
  modelName := "AirtelUser";
  errorsOf := AirtelUser.validationErrors;
  idOf := AirtelUser._id;
  stampOf := AirtelUser.stamp;
  docs := airtelUsers;
  setDocs := fun l s =>
    {| nextId := nextId s; mtnUsers := mtnUsers s; airtelUsers := l;
       payments := payments s; subscriptions := subscriptions s;
       mtnCallbacks := mtnCallbacks s; airtelCallbacks := airtelCallbacks s |}
|}.

#[export] Instance PaymentModel : Model Payment.t := {|
  modelName := "Payment";
  errorsOf := Payment.validationErrors;
  idOf := Payment._id;
  stampOf := Payment.stamp;
  docs := payments;
  setDocs := fun l s =>
    {| nextId := nextId s; mtnUsers := mtnUsers s; airtelUsers := airtelUsers s;
       payments := l; subscriptions := subscriptions s;
       mtnCallbacks := mtnCallbacks s; airtelCallbacks := airtelCallbacks s |}
|}.

#[export] Instance SubscriptionModel : Model Subscription.t := {|
  modelName := "Subscription";
  errorsOf := Subscription.validationErrors;
  idOf := Subscription._id;
  stampOf := Subscription.stamp;
  docs := subscriptions;
  setDocs := fun l s =>
    {| nextId := nextId s; mtnUsers := mtnUsers s; airtelUsers := airtelUsers s;
       payments := payments s; subscriptions := l;
       mtnCallbacks := mtnCallbacks s; airtelCallbacks := airtelCallbacks s |}
|}.

#[export] Instance MTNCallbackModel : Model MTNCallback.t := {|
  modelName := "MTNCallback";
  errorsOf := MTNCallback.validationErrors;
  idOf := MTNCallback._id;
  stampOf := MTNCallback.stamp;
  docs := mtnCallbacks;
  setDocs := fun l s =>
    {| nextId := nextId s; mtnUsers := mtnUsers s; airtelUsers := airtelUsers s;
       payments := payments s; subscriptions := subscriptions s;
       mtnCallbacks := l; airtelCallbacks := airtelCallbacks s |}
|}.

#[export] Instance AirtelCallbackModel : Model AirtelCallback.t := {|
  modelName := "AirtelCallback";
  errorsOf := AirtelCallback.validationErrors;
  idOf := AirtelCallback._id;
  stampOf := AirtelCallback.stamp;
  docs := airtelCallbacks;
  setDocs := fun l s =>
    {| nextId := nextId s; mtnUsers := mtnUsers s; airtelUsers := airtelUsers s;
       payments := payments s; subscriptions := subscriptions s;
       mtnCallbacks := mtnCallbacks s; airtelCallbacks := l |}
|}.

(** [new Model({...})]: the document gets its [_id] at once; nothing is
    stored yet. *)
Definition create {D : Type} (make : nat -> D) : M D :=
  fun w =>
    let s := store w in
    (Ok (make (nextId s)),
     withStore {| nextId := S (nextId s); mtnUsers := mtnUsers s;
                  airtelUsers := airtelUsers s; payments := payments s;
                  subscriptions := subscriptions s;
                  mtnCallbacks := mtnCallbacks s;
                  airtelCallbacks := airtelCallbacks s |} w).

(** The stored document with the [_id] of [d] is replaced by [d]; a new
    document goes last. *)
Definition upsert {D : Type} `{Model D} (d : D) (l : list D) : list D :=
  if existsb (fun x => Nat.eqb (idOf x) (idOf d)) l
  then map (fun x => if Nat.eqb (idOf x) (idOf d) then d else x) l
  else (l ++ [d])%list.

(** The message of the [ValidationError] a save throws. *)
Definition validationFailed {D : Type} `{Model D} (errors : list string) : string :=
  @modelName D _ ++ " validation failed: " ++ String.concat ", " errors.

(** [await doc.save()]: a document its schema refuses is not written and the
    call throws; one it accepts is stamped and stored, and the stamped
    document is what the caller goes on with. *)
Definition save {D : Type} `{Model D} (d : D) : M D :=
  match errorsOf d with
  | [] =>
      storeOp ;;;
      fun w =>
        let d' := stampOf (now w) d in
        (Ok d', withStore (setDocs (upsert d' (docs (store w))) (store w)) w)
  | errors => throwError (@validationFailed D _ errors)
  end.

(** [doc.save()] on a document some of whose paths took a value as it
    came from a request: [uncast] is what the validation reports when one of
    them did not cast to the type of its path, and nothing is written
    then. *)
Definition saveCast {D : Type} `{Model D} (uncast : list string) (d : D) : M D :=
  match uncast with
  | [] => save d
  | errors => throwError (@validationFailed D _ errors)
  end.

(** [await Model.findOne(filter)]: the first stored document that matches. *)
Definition findOne {D : Type} `{Model D} (filter : D -> bool) : M (option D) :=
  storeOp ;;;
  fun w => (Ok (find filter (docs (store w))), w).

(** [await Model.findById(id)]. *)
Definition findById {D : Type} `{Model D} (id : nat) : M (option D) :=
  findOne (fun d => Nat.eqb (idOf d) id).

(** The document a descending sort on [key] puts first: one with the
    greatest key, documents without the key last; among equals, the one
    stored first. *)
Fixpoint latest {D : Type} (key : D -> option Z) (l : list D) : option D :=
  match l with
  | [] => None
  | d :: l' =>
      match latest key l' with
      | None => Some d
      | Some best =>
          match key d, key best with
          | Some kd, Some kb => if Z.leb kb kd then Some d else Some best
          | Some _, None => Some d
          | None, Some _ => Some best
          | None, None => Some d
          end
      end
  end.

(** [await Model.findOne(filter).sort({ key: -1 })]. *)
Definition findLatest {D : Type} `{Model D} (filter : D -> bool) (key : D -> option Z)
  : M (option D) :=
  storeOp ;;;
  fun w => (Ok (latest key (List.filter filter (docs (store w)))), w).

(** [await Model.deleteMany({})]. *)
Definition deleteMany {D : Type} `{Model D} : M unit :=
  storeOp ;;;
  fun w => (Ok tt, withStore (setDocs (@nil D) (store w)) w).

(** [v.k] where [v] may be [null] or [undefined]: a TypeError then. *)
Definition member (k : string) (v : option Json) : M (option Json) :=
  match v with
  | None =>
      throwError ("Cannot read properties of undefined (reading '" ++ k ++ "')")
  | Some JNull =>
      throwError ("Cannot read properties of null (reading '" ++ k ++ "')")
  | Some _ => ret (prop k v)
  end.

Definition isSpace (c : ascii) : bool :=
  let n := nat_of_ascii c in
  orb (Nat.eqb n 32) (andb (Nat.leb 9 n) (Nat.leb n 13)).

Fixpoint trimStart (s : string) : string :=
  match s with
  | EmptyString => ""
  | String c s' => if isSpace c then trimStart s' else s
  end.

(** The string without its trailing blanks. *)
Fixpoint trimEnd (s : string) : string :=
  match s with
  | EmptyString => ""
  | String c s' =>
      match trimEnd s' with
      | EmptyString => if isSpace c then "" else String c ""
      | rest => String c rest
      end
  end.

(** [s.trim()]. *)
Definition trim (s : string) : string := trimEnd (trimStart s).

(** The value of a digit in the given radix. *)
Definition digitValue (radix : Z) (c : ascii) : option Z :=
  let n := Z.of_nat (nat_of_ascii c) in
  let v := if andb (Z.leb 48 n) (Z.leb n 57) then n - 48
           else if andb (Z.leb 97 n) (Z.leb n 122) then n - 87
           else if andb (Z.leb 65 n) (Z.leb n 90) then n - 55
           else radix in
  if Z.ltb v radix then Some v else None.

(** The number the leading digits of [s] spell; [None] if there is none. *)
Fixpoint leadingDigits (radix : Z) (s : string) (acc : option Z) : option Z :=
  match s with
  | EmptyString => acc
  | String c s' =>
      match digitValue radix c with
      | Some d =>
          leadingDigits radix s'
            (Some (match acc with Some a => a * radix + d | None => d end))
      | None => acc
      end
  end.

(** [parseInt(s)]: blanks, a sign, an optional [0x], then digits; [None]
    is [NaN]. *)
Definition parseInt (s : string) : option Z :=
  let s := trimStart s in
  let signed :=
    match s with
    | String c s' =>
        if Nat.eqb (nat_of_ascii c) 45 then (true, s')
        else if Nat.eqb (nat_of_ascii c) 43 then (false, s')
        else (false, s)
    | EmptyString => (false, s)
    end in
  let based :=
    match snd signed with
    | String c0 (String cx s') =>
        if andb (Nat.eqb (nat_of_ascii c0) 48)
                (orb (Nat.eqb (nat_of_ascii cx) 120) (Nat.eqb (nat_of_ascii cx) 88))
        then (16, s') else (10, snd signed)
    | _ => (10, snd signed)
    end in
  match leadingDigits (fst based) (snd based) None with
  | Some n => Some (if fst signed then - n else n)
  | None => None
  end.

(* ===================================================================== *)
(** * config/paymentConfig.js                                             *)
(* ===================================================================== *)

Module Config.

(** [process.env.NAME || fallback]. *)
Definition envOr (e : list (string * string)) (name fallback : string) : string :=
  match assoc name e with
  | Some v => if String.eqb v "" then fallback else v
  | None => fallback
  end.

(** [parseInt(process.env.NAME) || fallback]; an unset variable parses to
    [NaN]. *)
Definition envIntOr (e : list (string * string)) (name : string) (fallback : Z) : Z :=
  match assoc name e with
  | Some v =>
      match parseInt v with
      | Some n => if Z.eqb n 0 then fallback else n
      | None => fallback
      end
  | None => fallback
  end.

Record Retry := {
  maxRetries : Z;
  retryDelay : Z;
  timeout : Z
}.

Record Mtn := {
  mtnBaseURL : string;
  mtnProviderCallbackHost : string;
  mtnSubscriptionKeys : SubscriptionKeys;
  mtnRetry : Retry
}.

Record Airtel := {
  airtelBaseURL : string;
  airtelClientId : option string;
  airtelClientSecret : option string;
  airtelMsisdn : option string;
  airtelRetry : Retry
}.

(** [config.mtn]. *)
Definition mtn (e : list (string * string)) : Mtn :=
  {| mtnBaseURL := envOr e "MTN_BASE_URL" "https://proxy.momoapi.mtn.co.rw";
     mtnProviderCallbackHost :=
       envOr e "MTN_PROVIDER_CALLBACK_HOST" "https://webhook.site/your-unique-id";
     mtnSubscriptionKeys :=
       {| collectionWidget :=
            envOr e "MTN_COLLECTION_WIDGET_KEY" "18ecd8220a7d4987986376d398993e91";
          collections :=
            envOr e "MTN_COLLECTIONS_KEY" "a79e8f7a265e740368c761377537fd095";
          disbursements :=
            envOr e "MTN_DISBURSEMENTS_KEY" "1ab10f676c994372b198ed461d9687b6";
          remittances :=
            envOr e "MTN_REMITTANCES_KEY" "a01aed515cc143a5a38d3f704ad9de0c" |};
     mtnRetry :=
       {| maxRetries := envIntOr e "MTN_MAX_RETRIES" 3;
          retryDelay := envIntOr e "MTN_RETRY_DELAY" 1000;
          timeout := envIntOr e "MTN_API_TIMEOUT" 10000 |} |}.

(** [config.airtel]. *)
Definition airtel (e : list (string * string)) : Airtel :=
  {| airtelBaseURL := envOr e "AIRTEL_BASE_URL" "https://openapiuat.airtel.africa";
     airtelClientId := assoc "AIRTEL_CLIENT_ID" e;
     airtelClientSecret := assoc "AIRTEL_CLIENT_SECRET" e;
     airtelMsisdn := assoc "AIRTEL_MSISDN" e;
     airtelRetry :=
       {| maxRetries := envIntOr e "AIRTEL_MAX_RETRIES" 3;
          retryDelay := envIntOr e "AIRTEL_RETRY_DELAY" 1000;
          timeout := envIntOr e "AIRTEL_API_TIMEOUT" 10000 |} |}.

(** [config.payment], the part the DTOs and services read. *)
Definition maxAmount (e : list (string * string)) : Z :=
  envIntOr e "PAYMENT_MAX_AMOUNT" 1000000.

Definition defaultCurrency (e : list (string * string)) : string :=
  envOr e "PAYMENT_DEFAULT_CURRENCY" "EUR".

End Config.

(** [getServiceConfig('mtn')], as a service's constructor reads it. *)
Definition mtnConfig : M Config.Mtn := fun w => (Ok (Config.mtn (env w)), w).

(** [getServiceConfig('airtel')]. *)
Definition airtelConfig : M Config.Airtel := fun w => (Ok (Config.airtel (env w)), w).

(* ===================================================================== *)
(** * services/MTNAuthService.js                                          *)
(* ===================================================================== *)

(** [await mtnUser.updateCollectionToken(token, expiresIn)]. *)
Definition updateCollectionToken (token : option string) (expiresIn : option Z)
           (u : MTNUser.t) : M MTNUser.t :=
  t <- getNow ;;
  save (MTNUser.setCollectionToken token expiresIn t u).

(** [await mtnUser.updateDisbursementToken(token, expiresIn)]. *)
Definition updateDisbursementToken (token : option string) (expiresIn : option Z)
           (u : MTNUser.t) : M MTNUser.t :=
  t <- getNow ;;
  save (MTNUser.setDisbursementToken token expiresIn t u).

(** [await mtnUser.incrementUsage(success)]. *)
Definition mtnIncrementUsage (success : option bool) (u : MTNUser.t) : M MTNUser.t :=
  t <- getNow ;;
  save (MTNUser.bump success t u).

Module MTNAuthService.

(** The request of [createAPIUser]. *)
Definition apiUserRequest (cfg : Config.Mtn) (xReferenceId : string) : Http.Request :=
  {| Http.method := "POST";
     Http.url := Config.mtnBaseURL cfg ++ "/v1_0/apiuser";
     Http.headers :=
       [("X-Reference-Id", xReferenceId);
        ("Content-Type", "application/json");
        ("Ocp-Apim-Subscription-Key", collections (Config.mtnSubscriptionKeys cfg))];
     Http.data :=
       Some (JObj [("providerCallbackHost", JStr (Config.mtnProviderCallbackHost cfg))]) |}.

Definition createAPIUser (xReferenceId : string) : M Json :=
  cfg <- mtnConfig ;;
  tryCatch
    (response <- axios (apiUserRequest cfg xReferenceId) ;;
     ret (Http.body response))
    (fun error =>
       match responseStatus error with
       | Some 409 => ret (JObj [("message", JStr "User already exists")])
       | _ => throwError ("Failed to create API user: " ++ message error)
       end).

(** The request of [createAPIKey]. *)
Definition apiKeyRequest (cfg : Config.Mtn) (xReferenceId : string) : Http.Request :=
  {| Http.method := "POST";
     Http.url := Config.mtnBaseURL cfg ++ "/v1_0/apiuser/" ++ xReferenceId ++ "/apikey";
     Http.headers :=
       [("Content-Type", "application/json");
        ("Ocp-Apim-Subscription-Key", collections (Config.mtnSubscriptionKeys cfg))];
     Http.data := Some (JObj []) |}.

Definition createAPIKey (xReferenceId : string) : M (option string) :=
  cfg <- mtnConfig ;;
  tryCatch
    (response <- axios (apiKeyRequest cfg xReferenceId) ;;
     key <- member "apiKey" (Some (Http.body response)) ;;
     ret (asString key))
    (fun error =>
       match responseStatus error with
       | Some 409 => throwError "API key already exists but cannot be retrieved"
       | _ => throwError ("Failed to create API key: " ++ message error)
       end).

(** The request of [createCollectionToken]. *)
Definition collectionTokenRequest (cfg : Config.Mtn) (xReferenceId : string)
           (apiKey : option string) : Http.Request :=
  {| Http.method := "POST";
     Http.url := Config.mtnBaseURL cfg ++ "/collection/token/";
     Http.headers :=
       [("Authorization", "Basic " ++ base64 (xReferenceId ++ ":" ++ showS apiKey));
        ("Content-Type", "application/json");
        ("Ocp-Apim-Subscription-Key", collections (Config.mtnSubscriptionKeys cfg))];
     Http.data := Some (JObj []) |}.

Definition createCollectionToken (xReferenceId : string) (apiKey : option string) : M Json :=
  cfg <- mtnConfig ;;
  tryCatch
    (response <- axios (collectionTokenRequest cfg xReferenceId apiKey) ;;
     ret (Http.body response))
    (fun error => throwError ("Failed to create collection token: " ++ message error)).

(** The request of [createDisbursementToken]. *)
Definition disbursementTokenRequest (cfg : Config.Mtn) (xReferenceId : string)
           (apiKey : option string) : Http.Request :=
  {| Http.method := "POST";
     Http.url := Config.mtnBaseURL cfg ++ "/disbursement/token/";
     Http.headers :=
       [("Authorization", "Basic " ++ base64 (xReferenceId ++ ":" ++ showS apiKey));
        ("Content-Type", "application/json");
        ("Ocp-Apim-Subscription-Key", disbursements (Config.mtnSubscriptionKeys cfg))];
     Http.data := Some (JObj []) |}.

Definition createDisbursementToken (xReferenceId : string) (apiKey : option string) : M Json :=
  cfg <- mtnConfig ;;
  tryCatch
    (response <- axios (disbursementTokenRequest cfg xReferenceId apiKey) ;;
     ret (Http.body response))
    (fun error => throwError ("Failed to create disbursement token: " ++ message error)).

(** [const refreshThreshold = 5 * 60 * 1000]. *)
Definition refreshThreshold : Z := 5 * 60 * 1000.

(** The test of [refreshTokensIfNeeded] on the collection token. *)
Definition collectionRefreshDue (u : MTNUser.t) (t : Z) : bool :=
  orb (negb (MTNUser.collectionTokenValid u t))
      (match MTNUser.collectionTokenExpiresAt u with
       | Some expiresAt => Z.leb (expiresAt - refreshThreshold) t
       | None => false
       end).

(** The test of [refreshTokensIfNeeded] on the disbursement token. *)
Definition disbursementRefreshDue (u : MTNUser.t) (t : Z) : bool :=
  orb (negb (MTNUser.disbursementTokenValid u t))
      (match MTNUser.disbursementTokenExpiresAt u with
       | Some expiresAt => Z.leb (expiresAt - refreshThreshold) t
       | None => false
       end).

(** [refreshTokensIfNeeded(mtnUser)]. The caller's document is updated in
    place; here the updated document is returned. *)
Definition refreshTokensIfNeeded (mtnUser : MTNUser.t) : M MTNUser.t :=
  t <- getNow ;;
  tryCatch
    (mtnUser <-
       (if collectionRefreshDue mtnUser t then
          collectionToken <-
            createCollectionToken (MTNUser.xReferenceId mtnUser) (MTNUser.apiKey mtnUser) ;;
          token <- member "access_token" (Some collectionToken) ;;
          updateCollectionToken (asString token)
                                (asNumber (prop "expires_in" (Some collectionToken)))
                                mtnUser
        else ret mtnUser) ;;
     if disbursementRefreshDue mtnUser t then
       disbursementToken <-
         createDisbursementToken (MTNUser.xReferenceId mtnUser) (MTNUser.apiKey mtnUser) ;;
       token <- member "access_token" (Some disbursementToken) ;;
       updateDisbursementToken (asString token)
                               (asNumber (prop "expires_in" (Some disbursementToken)))
                               mtnUser
     else ret mtnUser)
    (fun error => throwError ("Failed to refresh tokens: " ++ message error)).

(** [createNewMTNUser()]. A token answer without [expires_in] gives an
    invalid [Date], which the save refuses. *)
Definition createNewMTNUser : M MTNUser.t :=
  cfg <- mtnConfig ;;
  tryCatch
    (xReferenceId <- randomUUID ;;
     createAPIUser xReferenceId ;;;
     delay 500 ;;;
     apiKey <- createAPIKey xReferenceId ;;
     delay 500 ;;;
     collectionToken <- createCollectionToken xReferenceId apiKey ;;
     delay 500 ;;;
     disbursementToken <- createDisbursementToken xReferenceId apiKey ;;
     collectionAccess <- member "access_token" (Some collectionToken) ;;
     disbursementAccess <- member "access_token" (Some disbursementToken) ;;
     t <- getNow ;;
     let collectionExpiresIn := asNumber (prop "expires_in" (Some collectionToken)) in
     let disbursementExpiresIn := asNumber (prop "expires_in" (Some disbursementToken)) in
     mtnUser <- create (fun id =>
       {| MTNUser._id := id;
          MTNUser.xReferenceId := xReferenceId;
          MTNUser.apiKey := apiKey;
          MTNUser.providerCallbackHost := Config.mtnProviderCallbackHost cfg;
          MTNUser.collectionToken := asString collectionAccess;
          MTNUser.disbursementToken := asString disbursementAccess;
          MTNUser.collectionTokenExpiresAt :=
            option_map (fun n => t + n * 1000) collectionExpiresIn;
          MTNUser.disbursementTokenExpiresAt :=
            option_map (fun n => t + n * 1000) disbursementExpiresIn;
          MTNUser.subscriptionKeys := Config.mtnSubscriptionKeys cfg;
          MTNUser.isActive := true;
          MTNUser.usageStats := noUsage;
          MTNUser.createdAt := None;
          MTNUser.updatedAt := None |}) ;;
     match collectionExpiresIn, disbursementExpiresIn with
     | Some _, Some _ => save mtnUser
     | _, _ => throwError "MTNUser validation failed: Cast to date failed"
     end)
    (fun error => throwError ("Failed to create new MTN user: " ++ message error)).

(** [initializeMTNUser()]. *)
Definition initializeMTNUser : M (option MTNUser.t) :=
  tryCatch
    (found <- findOne MTNUser.isActive ;;
     match found with
     | None =>
         mtnUser <- createNewMTNUser ;;
         ret (Some mtnUser)
     | Some mtnUser =>
         refreshTokensIfNeeded mtnUser ;;;
         findById (MTNUser._id mtnUser)
     end)
    (fun error => throwError ("Failed to initialize MTN user: " ++ message error)).

(** [getCollectionToken()]. *)
Definition getCollectionToken : M (option string) :=
  mtnUser <- initializeMTNUser ;;
  match mtnUser with
  | Some u => ret (MTNUser.collectionToken u)
  | None => throwError "Cannot read properties of null (reading 'collectionToken')"
  end.

(** [getDisbursementToken()]. *)
Definition getDisbursementToken : M (option string) :=
  mtnUser <- initializeMTNUser ;;
  match mtnUser with
  | Some u => ret (MTNUser.disbursementToken u)
  | None => throwError "Cannot read properties of null (reading 'disbursementToken')"
  end.

(** [getMTNUser()]. *)
Definition getMTNUser : M (option MTNUser.t) := initializeMTNUser.

(** [updateUsageStats(success = true)]: a failure is logged, not thrown. *)
Definition updateUsageStats (success : option bool) : M unit :=
  tryCatch
    (found <- findOne MTNUser.isActive ;;
     match found with
     | Some mtnUser => mtnIncrementUsage success mtnUser ;;; ret tt
     | None => ret tt
     end)
    (fun _ => ret tt).

(** [resetMTNUser()]. *)
Definition resetMTNUser : M bool :=
  tryCatch
    (@deleteMany MTNUser.t _ ;;; ret true)
    (fun error => throwError ("Failed to reset MTN user: " ++ message error)).

End MTNAuthService.

(* ===================================================================== *)
(** * services/AirtelAuthService.js                                       *)
(* ===================================================================== *)

(** [await airtelUser.updateToken(token, expiresIn, tokenType, scope)]. *)
Definition updateToken (token : option string) (expiresIn : option Z)
           (tokenType scope : option string) (u : AirtelUser.t) : M AirtelUser.t :=
  t <- getNow ;;
  save (AirtelUser.setToken token expiresIn tokenType scope t u).

(** [await airtelUser.incrementUsage(success)]. *)
Definition airtelIncrementUsage (success : option bool) (u : AirtelUser.t) : M AirtelUser.t :=
  t <- getNow ;;
  save (AirtelUser.bump success t u).

(** [baseURL.replace(/\/$/, '')]: the URL without one trailing slash. *)
Fixpoint dropTrailingSlash (s : string) : string :=
  match s with
  | EmptyString => ""
  | String c EmptyString => if Nat.eqb (nat_of_ascii c) 47 then "" else s
  | String c s' => String c (dropTrailingSlash s')
  end.

Module AirtelAuthService.

(** [inputBody] of [getAccessToken]. *)
Definition tokenRequestBody (clientId clientSecret : string) : Json :=
  JObj [("client_id", JStr clientId);
        ("client_secret", JStr clientSecret);
        ("grant_type", JStr "client_credentials")].

(** The request of [getAccessToken]. *)
Definition tokenRequest (cfg : Config.Airtel) (clientId clientSecret : string)
  : Http.Request :=
  {| Http.method := "POST";
     Http.url := dropTrailingSlash (Config.airtelBaseURL cfg) ++ "/auth/oauth2/token";
     Http.headers :=
       [("Content-Type", "application/json");
        ("Accept", "*/*");
        ("Connection", "close");
        ("Cookie", "visid_incap_2967769=OuF6ejqtT/mBvA/Oxh+1LKzE52gAAAAAQUIPAAAAAAAm07DTETctcaDQz8F8Rq0B")];
     Http.data := Some (tokenRequestBody clientId clientSecret) |}.

(** [getAccessToken()]. *)
Definition getAccessToken : M Json :=
  cfg <- airtelConfig ;;
  tryCatch
    (match Config.airtelClientId cfg, Config.airtelClientSecret cfg with
     | Some clientId, Some clientSecret =>
         if andb (truthyS (Some clientId)) (truthyS (Some clientSecret)) then
           response <- fetch (tokenRequest cfg clientId clientSecret) ;;
           body <- responseJson response ;;
           if negb (Http.ok response) then
             throwError ("Failed to get Airtel access token: "
                           ++ showZ (Http.status response) ++ " "
                           ++ Http.statusText response ++ ". " ++ stringify body)
           else ret body
         else
           throwError "Airtel client credentials (AIRTEL_CLIENT_ID and AIRTEL_CLIENT_SECRET) are not configured"
     | _, _ =>
         throwError "Airtel client credentials (AIRTEL_CLIENT_ID and AIRTEL_CLIENT_SECRET) are not configured"
     end)
    (fun error => throwError ("Failed to get Airtel access token: " ++ message error)).

(** [createNewAirtelUser()]. A token answer without [expires_in] gives an
    invalid [Date], which the save refuses. *)
Definition createNewAirtelUser : M AirtelUser.t :=
  cfg <- airtelConfig ;;
  tryCatch
    (tokenResponse <- getAccessToken ;;
     accessToken <- member "access_token" (Some tokenResponse) ;;
     t <- getNow ;;
     let expiresIn := asNumber (prop "expires_in" (Some tokenResponse)) in
     airtelUser <- create (fun id =>
       {| AirtelUser._id := id;
          AirtelUser.clientId := showS (Config.airtelClientId cfg);
          AirtelUser.accessToken := asString accessToken;
          AirtelUser.tokenExpiresAt := option_map (fun n => t + n * 1000) expiresIn;
          AirtelUser.tokenType :=
            orS (asString (prop "token_type" (Some tokenResponse))) (Some "Bearer");
          AirtelUser.scope := asString (prop "scope" (Some tokenResponse));
          AirtelUser.isActive := true;
          AirtelUser.usageStats := noUsage;
          AirtelUser.createdAt := None;
          AirtelUser.updatedAt := None |}) ;;
     match expiresIn with
     | Some _ => save airtelUser
     | None => throwError "AirtelUser validation failed: Cast to date failed"
     end)
    (fun error => throwError ("Failed to create new Airtel user: " ++ message error)).

(** [const refreshThreshold = 5 * 60 * 1000]. *)
Definition refreshThreshold : Z := 5 * 60 * 1000.

(** The test of [refreshTokensIfNeeded]. *)
Definition refreshDue (u : AirtelUser.t) (t : Z) : bool :=
  orb (negb (AirtelUser.tokenValid u t))
      (match AirtelUser.tokenExpiresAt u with
       | Some expiresAt => Z.leb (expiresAt - refreshThreshold) t
       | None => false
       end).

(** [refreshTokensIfNeeded(airtelUser)]. *)
Definition refreshTokensIfNeeded (airtelUser : AirtelUser.t) : M AirtelUser.t :=
  t <- getNow ;;
  tryCatch
    (if refreshDue airtelUser t then
       tokenResponse <- getAccessToken ;;
       accessToken <- member "access_token" (Some tokenResponse) ;;
       updateToken (asString accessToken)
                   (asNumber (prop "expires_in" (Some tokenResponse)))
                   (asString (prop "token_type" (Some tokenResponse)))
                   (asString (prop "scope" (Some tokenResponse)))
                   airtelUser
     else ret airtelUser)
    (fun error => throwError ("Failed to refresh tokens: " ++ message error)).

(** [initializeAirtelUser()]. *)
Definition initializeAirtelUser : M (option AirtelUser.t) :=
  tryCatch
    (found <- findOne AirtelUser.isActive ;;
     match found with
     | None =>
         airtelUser <- createNewAirtelUser ;;
         ret (Some airtelUser)
     | Some airtelUser =>
         refreshTokensIfNeeded airtelUser ;;;
         findById (AirtelUser._id airtelUser)
     end)
    (fun error => throwError ("Failed to initialize Airtel user: " ++ message error)).

(** [getValidAccessToken()]. *)
Definition getValidAccessToken : M (option string) :=
  airtelUser <- initializeAirtelUser ;;
  match airtelUser with
  | Some u => ret (AirtelUser.accessToken u)
  | None => throwError "Cannot read properties of null (reading 'accessToken')"
  end.

(** [getAirtelUser()]. *)
Definition getAirtelUser : M (option AirtelUser.t) := initializeAirtelUser.

(** [updateUsageStats(success = true)]: a failure is logged, not thrown. *)
Definition updateUsageStats (success : option bool) : M unit :=
  tryCatch
    (found <- findOne AirtelUser.isActive ;;
     match found with
     | Some airtelUser => airtelIncrementUsage success airtelUser ;;; ret tt
     | None => ret tt
     end)
    (fun _ => ret tt).

(** [resetAirtelUser()]. *)
Definition resetAirtelUser : M bool :=
  tryCatch
    (@deleteMany AirtelUser.t _ ;;; ret true)
    (fun error => throwError ("Failed to reset Airtel user: " ++ message error)).

End AirtelAuthService.

(** The revision of the class that goes through [axios]: what its
    [getAccessToken] sends, under the same guard on the credentials. *)
Module AirtelAuthServiceAxios.

(** The request of [getAccessToken]. *)
Definition tokenRequest (cfg : Config.Airtel) (clientId clientSecret : string)
  : Http.Request :=
  {| Http.method := "POST";
     Http.url := dropTrailingSlash (Config.airtelBaseURL cfg) ++ "/auth/oauth2/token";
     Http.headers := [("Content-Type", "application/json"); ("Accept", "*/*")];
     Http.data := Some (AirtelAuthService.tokenRequestBody clientId clientSecret) |}.

(** The message of the [catch] block for an error of [axios]: one that
    carries the response of the provider, or else one whose request got no
    response. *)
Definition requestFailure (error : Error) : string :=
  match response error with
  | Some r =>
      let responseData := Http.body r in
      "Failed to get Airtel access token: Request failed with status code "
        ++ showZ (Http.status r) ++ " (" ++ Http.statusText r ++ ")"
        ++ (if truthy (Some responseData) then
              match responseData with
              | JObj _ | JArr _ => ". Response: " ++ stringify responseData
              | _ => ". Response: " ++ stringOf responseData
              end
            else "")
  | None =>
      "Failed to get Airtel access token: No response received from server. "
        ++ message error
  end.

(** [getAccessToken()]. An error of [axios] carries the response or the
    request and gets the message above; the error of the guard on the
    credentials, and the one of reading [access_token] off a body that is
    [null], carry neither, and the [catch] block puts the prefix before
    their message. *)
Definition getAccessToken : M Json :=
  cfg <- airtelConfig ;;
  let prefix := "Failed to get Airtel access token: " in
  let notConfigured :=
    "Airtel client credentials (AIRTEL_CLIENT_ID and AIRTEL_CLIENT_SECRET) are not configured" in
  match Config.airtelClientId cfg, Config.airtelClientSecret cfg with
  | Some clientId, Some clientSecret =>
      if andb (truthyS (Some clientId)) (truthyS (Some clientSecret)) then
        response <- tryCatch (axios (tokenRequest cfg clientId clientSecret))
                             (fun error => throwError (requestFailure error)) ;;
        tryCatch
          (member "access_token" (Some (Http.body response)) ;;;
           ret (Http.body response))
          (fun error => throwError (prefix ++ message error))
      else throwError (prefix ++ notConfigured)
  | _, _ => throwError (prefix ++ notConfigured)
  end.

End AirtelAuthServiceAxios.

(* ===================================================================== *)
(** * services/MTNCollectionService.js (the revision that caches)         *)
(* ===================================================================== *)

Module MTNCollectionService.

(** [this.subscriptionKey] of the constructor. *)
Definition subscriptionKey : M string :=
  cfg <- mtnConfig ;;
  widgetKey <- getEnv "MTN_COLLECTION_WIDGET_KEY" ;;
  ret (match orS widgetKey None with
       | Some k => k
       | None => collections (Config.mtnSubscriptionKeys cfg)
       end).

(** The request of [getToken]. *)
Definition tokenRequest (baseURL key xReferenceId : string) (apiKey : option string)
  : Http.Request :=
  {| Http.method := "POST";
     Http.url := baseURL ++ "/collection/token/";
     Http.headers :=
       [("Authorization", "Basic " ++ base64 (xReferenceId ++ ":" ++ showS apiKey));
        ("Content-Type", "application/json");
        ("Ocp-Apim-Subscription-Key", key)];
     Http.data := None |}.

(** [getToken(xReferenceId, apiKey)]. *)
Definition getToken (xReferenceId : string) (apiKey : option string) : M Json :=
  cfg <- mtnConfig ;;
  key <- subscriptionKey ;;
  tryCatch
    (response <- fetch (tokenRequest (Config.mtnBaseURL cfg) key xReferenceId apiKey) ;;
     body <- responseJson response ;;
     if negb (Http.ok response) then
       throwError ("Failed to get token: " ++ showZ (Http.status response)
                     ++ " " ++ stringify body)
     else ret body)
    (fun error => throwError ("Failed to get collection token: " ++ message error)).

(** [getMTNUser()]. *)
Definition getMTNUser : M MTNUser.t :=
  cfg <- mtnConfig ;;
  found <- findOne MTNUser.isActive ;;
  match found with
  | Some mtnUser => ret mtnUser
  | None =>
      xReferenceId <- getEnv "MTN_API_USER" ;;
      apiKey <- getEnv "MTN_API_KEY" ;;
      callbackHost <- getEnv "MTN_PROVIDER_CALLBACK_HOST" ;;
      widgetKey <- getEnv "MTN_COLLECTION_WIDGET_KEY" ;;
      disbursementsKey <- getEnv "MTN_DISBURSEMENTS_KEY" ;;
      remittancesKey <- getEnv "MTN_REMITTANCES_KEY" ;;
      match xReferenceId with
      | Some xRef =>
          if andb (truthyS xReferenceId) (truthyS apiKey) then
            let keys := Config.mtnSubscriptionKeys cfg in
            let or (v : option string) (d : string) :=
              match orS v None with Some k => k | None => d end in
            let subscriptionKeys :=
              {| collectionWidget := or widgetKey (collectionWidget keys);
                 collections := or widgetKey (collections keys);
                 disbursements := or disbursementsKey (disbursements keys);
                 remittances := or remittancesKey (remittances keys) |} in
            token <-
              tryCatch
                (tokenResponse <- getToken xRef apiKey ;;
                 accessToken <- member "access_token" (Some tokenResponse) ;;
                 t <- getNow ;;
                 let expiresIn :=
                   match asNumber (prop "expires_in" (Some tokenResponse)) with
                   | Some n => if Z.eqb n 0 then 180 else n
                   | None => 180
                   end in
                 ret (asString accessToken, Some (t + expiresIn * 1000)))
                (fun _ => ret (None, None)) ;;
            mtnUser <- create (fun id =>
              {| MTNUser._id := id;
                 MTNUser.xReferenceId := xRef;
                 MTNUser.apiKey := apiKey;
                 MTNUser.providerCallbackHost :=
                   or callbackHost "https://webhook.site/your-unique-id";
                 MTNUser.collectionToken := fst token;
                 MTNUser.disbursementToken := None;
                 MTNUser.collectionTokenExpiresAt := snd token;
                 MTNUser.disbursementTokenExpiresAt := None;
                 MTNUser.subscriptionKeys := subscriptionKeys;
                 MTNUser.isActive := true;
                 MTNUser.usageStats := noUsage;
                 MTNUser.createdAt := None;
                 MTNUser.updatedAt := None |}) ;;
            save mtnUser
          else
            throwError "MTN user not found. Please initialize MTN user first or set MTN_API_USER and MTN_API_KEY environment variables."
      | None =>
          throwError "MTN user not found. Please initialize MTN user first or set MTN_API_USER and MTN_API_KEY environment variables."
      end
  end.

(** [const refreshThreshold = 30 * 1000]. *)
Definition refreshThreshold : Z := 30 * 1000.

(** The test of [getValidToken]: the token is there and still good for
    more than the threshold. *)
Definition cachedTokenUsable (u : MTNUser.t) (t : Z) : bool :=
  andb (truthyS (MTNUser.collectionToken u))
       (match MTNUser.collectionTokenExpiresAt u with
        | Some expiresAt => Z.ltb t (expiresAt - refreshThreshold)
        | None => false
        end).

(** [getValidToken()]. *)
Definition getValidToken : M (option string) :=
  tryCatch
    (mtnUser <- getMTNUser ;;
     t <- getNow ;;
     if cachedTokenUsable mtnUser t then ret (MTNUser.collectionToken mtnUser)
     else
       tokenResponse <- getToken (MTNUser.xReferenceId mtnUser) (MTNUser.apiKey mtnUser) ;;
       accessToken <- member "access_token" (Some tokenResponse) ;;
       let expiresIn :=
         match asNumber (prop "expires_in" (Some tokenResponse)) with
         | Some n => if Z.eqb n 0 then 180 else n
         | None => 180
         end in
       updateCollectionToken (asString accessToken) (Some expiresIn) mtnUser ;;;
       ret (asString accessToken))
    (fun error => throwError ("Failed to get valid token: " ++ message error)).

(** The headers of [requestToPay]. *)
Definition requestToPayHeaders (token : option string) (referenceId targetEnvironment
                                 callbackUrl key : string) : list (string * string) :=
  [("Authorization", "Bearer " ++ showS token);
   ("Content-Type", "application/json");
   ("X-Reference-Id", referenceId);
   ("X-Target-Environment", targetEnvironment);
   ("X-Callback-Url", trim callbackUrl);
   ("Ocp-Apim-Subscription-Key", key)].

(** [body] of [requestToPay]. *)
Definition requestToPayBody (requestData : Json) : Json :=
  let d := Some requestData in
  let orEmpty (v : option Json) : Json :=
    match v with
    | Some j => if truthy v then j else JStr ""
    | None => JStr ""
    end in
  JObj ([("amount", JStr (jsString (prop "amount" d)))]
          ++ (match prop "currency" d with Some j => [("currency", j)] | None => [] end)
          ++ (match prop "externalId" d with Some j => [("externalId", j)] | None => [] end)
          ++ (match prop "payer" d with Some j => [("payer", j)] | None => [] end)
          ++ [("payerMessage", orEmpty (prop "payerMessage" d));
              ("payeeNote", orEmpty (prop "payeeNote" d))])%list.

(** What [requestToPay] returns: [{ status, referenceId }]. *)
Record Accepted := {
  acceptedStatus : Z;
  acceptedReferenceId : string
}.

(** [requestToPay(referenceId, requestData, targetEnvironment, callbackUrl)].
    The [callbackUrl] argument is not read: the URL comes from the
    environment. *)
Definition requestToPay (referenceId : string) (requestData : Json)
           (targetEnvironment : string) (callbackUrl : option string) : M Accepted :=
  cfg <- mtnConfig ;;
  key <- subscriptionKey ;;
  tryCatch
    (token <- getValidToken ;;
     finalCallbackUrl <- getEnv "MTN_CALLBACK_URL" ;;
     match finalCallbackUrl with
     | Some callback =>
         if truthyS finalCallbackUrl then
           (* the log line before the call reads [token.substring(0, 20)] *)
           match token with
           | Some _ => ret tt
           | None => throwError "Cannot read properties of undefined (reading 'substring')"
           end ;;;
           response <- fetch
             {| Http.method := "POST";
                Http.url := Config.mtnBaseURL cfg ++ "/collection/v1_0/requesttopay";
                Http.headers :=
                  requestToPayHeaders token referenceId targetEnvironment callback key;
                Http.data := Some (requestToPayBody requestData) |} ;;
           let errorBody :=
             if String.eqb (Http.text response) "" then JObj []
             else match Http.json response with
                  | Some j => j
                  | None => JObj [("raw", JStr (Http.text response))]
                  end in
           if Z.eqb (Http.status response) 202 then
             ret {| acceptedStatus := Http.status response;
                    acceptedReferenceId := referenceId |}
           else if Z.eqb (Http.status response) 400 then
             throwError ("Bad Request: " ++ stringify errorBody)
           else if Z.eqb (Http.status response) 409 then
             throwError ("Conflict - Reference ID already in use: " ++ stringify errorBody)
           else if Z.eqb (Http.status response) 500 then
             throwError ("Internal Server Error: " ++ stringify errorBody)
           else
             throwError ("Failed to request payment: " ++ showZ (Http.status response)
                           ++ " " ++ stringify errorBody)
         else
           throwError "MTN_CALLBACK_URL environment variable is not set. Please configure it in your .env file."
     | None =>
         throwError "MTN_CALLBACK_URL environment variable is not set. Please configure it in your .env file."
     end)
    (fun error => throwError ("Failed to request payment: " ++ message error)).

End MTNCollectionService.

(* ===================================================================== *)
(** * services/MTNPaymentService.js                                       *)
(* ===================================================================== *)

Module MTNPaymentService.

Record Options := {
  targetEnvironment : option string;
  callbackUrl : option string
}.

(** What [requestPayment] returns. *)
Record Receipt := {
  referenceId : string;
  status : Z;
  userId : string;
  phoneNumber : string;
  amount : Z;
  currency : string;
  paymentId : nat
}.

(** [requestData] of [requestPayment]. *)
Definition requestData (userId phoneNumber : string) (amount : Z) : Json :=
  JObj [("amount", JStr (showZ amount));
        ("currency", JStr "RWF");
        ("externalId", JStr userId);
        ("payer", JObj [("partyIdType", JStr "MSISDN"); ("partyId", JStr phoneNumber)]);
        ("payerMessage", JStr "subscription");
        ("payeeNote", JStr "tsinda")].

(** [requestPayment(userId, phoneNumber, amount, options = {})]. *)
Definition requestPayment (userId phoneNumber : string) (amount : Z) (options : Options)
  : M Receipt :=
  cfg <- mtnConfig ;;
  tryCatch
    (referenceId <- randomUUID ;;
     envTarget <- getEnv "MTN_TARGET_ENVIRONMENT" ;;
     envCallback <- getEnv "MTN_CALLBACK_URL" ;;
     baseUrl <- getEnv "BASE_URL" ;;
     let targetEnvironment :=
       match orS (targetEnvironment options) (orS envTarget None) with
       | Some e => e
       | None => "mtnrwanda"
       end in
     let callbackUrl :=
       match orS (callbackUrl options) (orS envCallback None) with
       | Some u => u
       | None =>
           match orS baseUrl None with
           | Some b => b ++ "/api/mtn-payment/callback"
           | None => "https://oyster-app-lag65.ondigitalocean.app/api/mtn-payment/callback"
           end
       end in
     mtnUser <- MTNCollectionService.getMTNUser ;;
     payment <- create (fun id =>
       {| Payment._id := id;
          Payment.xReferenceId := referenceId;
          Payment.apiUserId := Some (MTNUser.xReferenceId mtnUser);
          Payment.apiKey := MTNUser.apiKey mtnUser;
          Payment.transactionType := "collection";
          Payment.transactionSubType := "request_to_pay";
          Payment.amount := Some amount;
          Payment.currency := "RWF";
          Payment.externalId := Some userId;
          Payment.payer := Some {| partyIdType := "MSISDN"; partyId := Some phoneNumber |};
          Payment.payee := None;
          Payment.payerMessage := Some "subscription";
          Payment.payeeNote := Some "tsinda";
          Payment.referenceIdToRefund := None;
          Payment.status := "PENDING";
          Payment.mtnStatus := Some "PENDING";
          Payment.mtnResponse := None;
          Payment.mtnError := None;
          Payment.processedAt := None;
          Payment.completedAt := None;
          Payment.metadata := [];
          Payment.serviceType := "collections";
          Payment.subscriptionKey := Some (collections (Config.mtnSubscriptionKeys cfg));
          Payment.createdAt := None;
          Payment.updatedAt := None |}) ;;
     payment <- save payment ;;
     result <- MTNCollectionService.requestToPay
                 referenceId (requestData userId phoneNumber amount)
                 targetEnvironment (Some callbackUrl) ;;
     payment <- save (Payment.assign
                        (Some (Some (JObj
                           [("status", JNum (MTNCollectionService.acceptedStatus result));
                            ("referenceId",
                             JStr (MTNCollectionService.acceptedReferenceId result))])))
                        None None None None payment) ;;
     ret {| referenceId := MTNCollectionService.acceptedReferenceId result;
            status := MTNCollectionService.acceptedStatus result;
            userId := userId;
            phoneNumber := phoneNumber;
            amount := amount;
            currency := "RWF";
            paymentId := Payment._id payment |})
    (fun error => throwError ("Failed to request payment: " ++ message error)).

(** [requestPayment] in the revision of the file that calls the provider
    first and stores the payment of an accepted request afterwards. Without
    a callback URL in the options or the environment it passes [null]. *)
Definition requestPaymentSavingLast (userId phoneNumber : string) (amount : Z)
           (options : Options) : M Receipt :=
  cfg <- mtnConfig ;;
  tryCatch
    (referenceId <- randomUUID ;;
     envTarget <- getEnv "MTN_TARGET_ENVIRONMENT" ;;
     let targetEnvironment :=
       match orS (targetEnvironment options) (orS envTarget None) with
       | Some e => e
       | None => "mtnrwanda"
       end in
     mtnUser <- MTNCollectionService.getMTNUser ;;
     envCallback <- getEnv "MTN_CALLBACK_URL" ;;
     baseUrl <- getEnv "BASE_URL" ;;
     let callbackUrl :=
       match orS (callbackUrl options) (orS envCallback None) with
       | Some u => Some u
       | None =>
           match orS baseUrl None with
           | Some b => Some (b ++ "/api/mtn-payment/callback")
           | None => None
           end
       end in
     result <- MTNCollectionService.requestToPay
                 referenceId (requestData userId phoneNumber amount)
                 targetEnvironment callbackUrl ;;
     if Z.eqb (MTNCollectionService.acceptedStatus result) 202 then
       apiUser <- getEnv "MTN_API_USER" ;;
       payment <- create (fun id =>
         {| Payment._id := id;
            Payment.xReferenceId := referenceId;
            Payment.apiUserId := apiUser;
            Payment.apiKey := MTNUser.apiKey mtnUser;
            Payment.transactionType := "collection";
            Payment.transactionSubType := "request_to_pay";
            Payment.amount := Some amount;
            Payment.currency := "RWF";
            Payment.externalId := Some userId;
            Payment.payer := Some {| partyIdType := "MSISDN"; partyId := Some phoneNumber |};
            Payment.payee := None;
            Payment.payerMessage := Some "subscription";
            Payment.payeeNote := Some "tsinda";
            Payment.referenceIdToRefund := None;
            Payment.status := "PENDING";
            Payment.mtnStatus := Some "PENDING";
            Payment.mtnResponse :=
              Some (JObj
                [("status", JNum (MTNCollectionService.acceptedStatus result));
                 ("referenceId",
                  JStr (MTNCollectionService.acceptedReferenceId result))]);
            Payment.mtnError := None;
            Payment.processedAt := None;
            Payment.completedAt := None;
            Payment.metadata := [];
            Payment.serviceType := "collections";
            Payment.subscriptionKey := Some (collections (Config.mtnSubscriptionKeys cfg));
            Payment.createdAt := None;
            Payment.updatedAt := None |}) ;;
       payment <- save payment ;;
       ret {| referenceId := MTNCollectionService.acceptedReferenceId result;
              status := MTNCollectionService.acceptedStatus result;
              userId := userId;
              phoneNumber := phoneNumber;
              amount := amount;
              currency := "RWF";
              paymentId := Payment._id payment |}
     else
       throwError ("Payment request not accepted by MTN. Status: "
                     ++ showZ (MTNCollectionService.acceptedStatus result)))
    (fun error => throwError ("Failed to request payment: " ++ message error)).

End MTNPaymentService.

(* ===================================================================== *)
(** * dto/PaymentDTO.js                                                   *)
(* ===================================================================== *)

(** [s.split(',')]. *)
Fixpoint splitOnComma (s : string) : list string :=
  match s with
  | EmptyString => [""]
  | String c s' =>
      if Nat.eqb (nat_of_ascii c) 44 then "" :: splitOnComma s'
      else match splitOnComma s' with
           | h :: t => String c h :: t
           | [] => [String c ""]
           end
  end.

Module PaymentDTO.

(** [MAX_AMOUNT], [DEFAULT_CURRENCY] and [SUPPORTED_CURRENCIES]. *)
Record Limits := {
  MAX_AMOUNT : Z;
  DEFAULT_CURRENCY : string;
  SUPPORTED_CURRENCIES : list string
}.

Definition limits (e : list (string * string)) : Limits :=
  {| MAX_AMOUNT := Config.envIntOr e "PAYMENT_MAX_AMOUNT" 1000000;
     DEFAULT_CURRENCY := Config.envOr e "PAYMENT_DEFAULT_CURRENCY" "EUR";
     SUPPORTED_CURRENCIES :=
       splitOnComma (Config.envOr e "PAYMENT_SUPPORTED_CURRENCIES" "EUR,USD,XAF,XOF") |}.

(** The fields of [RequestToPayDTO], [TransferDTO] and [RefundDTO]; a DTO
    carries the ones its constructor sets. The constructors keep what the
    request holds. The record reads each field at the type the API documents,
    a number for [amount] and a string for the others: that is what a request
    of these types holds, and the statements about what [validate()] reports
    are made for such requests. A value of another type is read as absent. *)
Record t := {
  amount : option Z;
  currency : string;
  externalId : option string;
  party : option Party;
  payerMessage : option string;
  payeeNote : option string;
  referenceIdToRefund : option string
}.

(** [{ partyIdType: data.payer?.partyIdType || 'MSISDN', partyId: data.payer?.partyId }]. *)
Definition partyOf (v : option Json) : Party :=
  {| partyIdType :=
       match orS (asString (prop "partyIdType" v)) None with
       | Some ty => ty
       | None => "MSISDN"
       end;
     partyId := asString (prop "partyId" v) |}.

Definition currencyOf (lim : Limits) (data : option Json) : string :=
  match orS (asString (prop "currency" data)) None with
  | Some c => c
  | None => DEFAULT_CURRENCY lim
  end.

(** [new RequestToPayDTO(data)]. *)
Definition requestToPay (lim : Limits) (data : Json) : t :=
  let d := Some data in
  {| amount := asNumber (prop "amount" d);
     currency := currencyOf lim d;
     externalId := asString (prop "externalId" d);
     party := Some (partyOf (prop "payer" d));
     payerMessage := asString (prop "payerMessage" d);
     payeeNote := asString (prop "payeeNote" d);
     referenceIdToRefund := None |}.

(** [new TransferDTO(data)]. *)
Definition transfer (lim : Limits) (data : Json) : t :=
  let d := Some data in
  {| amount := asNumber (prop "amount" d);
     currency := currencyOf lim d;
     externalId := asString (prop "externalId" d);
     party := Some (partyOf (prop "payee" d));
     payerMessage := asString (prop "payerMessage" d);
     payeeNote := asString (prop "payeeNote" d);
     referenceIdToRefund := None |}.

(** [new RefundDTO(data)]. *)
Definition refund (lim : Limits) (data : Json) : t :=
  let d := Some data in
  {| amount := asNumber (prop "amount" d);
     currency := currencyOf lim d;
     externalId := asString (prop "externalId" d);
     party := None;
     payerMessage := asString (prop "payerMessage" d);
     payeeNote := asString (prop "payeeNote" d);
     referenceIdToRefund := asString (prop "referenceIdToRefund" d) |}.

Definition check (failed : bool) (msg : string) : list string :=
  if failed then [msg] else [].

(** [v && v.length > 160]. *)
Definition tooLong (v : option string) : bool :=
  match v with
  | Some s => andb (truthyS v) (Z.ltb 160 (jsLength s))
  | None => false
  end.

(** The checks the three [validate()] methods share on amount, currency and
    external id. *)
Definition validateCommon (lim : Limits) (dto : t) : list string :=
  (check (match amount dto with
          | Some a => orb (Z.eqb a 0) (Z.leb a 0)
          | None => true
          end) "Amount must be greater than 0"
   ++ check (match amount dto with
             | Some a => Z.ltb (MAX_AMOUNT lim) a
             | None => false
             end) ("Amount must not exceed " ++ showZ (MAX_AMOUNT lim))
   ++ check (negb (includes (currency dto) (SUPPORTED_CURRENCIES lim)))
            ("Currency must be one of: " ++ String.concat ", " (SUPPORTED_CURRENCIES lim))
   ++ check (negb (truthyS (externalId dto))) "External ID is required")%list.

Definition validateMessages (dto : t) : list string :=
  (check (tooLong (payerMessage dto)) "Payer message must be 160 characters or less"
   ++ check (tooLong (payeeNote dto)) "Payee note must be 160 characters or less")%list.

(** The checks on the payer ([who] is [Payer], [lower] is [payer]) or on
    the payee. *)
Definition validateParty (who lower : string) (dto : t) : list string :=
  match party dto with
  | Some p =>
      (check (negb (truthyS (partyId p))) (who ++ " party ID is required")
       ++ check (negb (includes (partyIdType p) ["MSISDN"; "EMAIL"; "PARTY_CODE"]))
                ("Invalid " ++ lower ++ " party ID type"))%list
  | None => []
  end.

(** [RequestToPayDTO.validate()]. *)
Definition validateRequestToPay (lim : Limits) (dto : t) : list string :=
  (validateCommon lim dto ++ validateParty "Payer" "payer" dto ++ validateMessages dto)%list.

(** [TransferDTO.validate()]. *)
Definition validateTransfer (lim : Limits) (dto : t) : list string :=
  (validateCommon lim dto ++ validateParty "Payee" "payee" dto ++ validateMessages dto)%list.

(** [RefundDTO.validate()]. *)
Definition validateRefund (lim : Limits) (dto : t) : list string :=
  (validateCommon lim dto
   ++ check (negb (truthyS (referenceIdToRefund dto))) "Reference ID to refund is required"
   ++ validateMessages dto)%list.

(** [PaymentResponseDTO.fromPayment(payment)]. Dates are written as their
    epoch time. *)
Definition fromPayment (p : Payment.t) : Json :=
  let str (k : string) (v : option string) :=
    match v with Some x => [(k, JStr x)] | None => [] end in
  let num (k : string) (v : option Z) :=
    match v with Some x => [(k, JNum x)] | None => [] end in
  let who (k : string) (v : option Party) :=
    match v with
    | Some q => [(k, JObj ([("partyIdType", JStr (partyIdType q))]
                             ++ str "partyId" (partyId q))%list)]
    | None => []
    end in
  JObj ([("id", JNum (Z.of_nat (Payment._id p)));
         ("xReferenceId", JStr (Payment.xReferenceId p));
         ("transactionType", JStr (Payment.transactionType p));
         ("transactionSubType", JStr (Payment.transactionSubType p))]
          ++ num "amount" (Payment.amount p)
          ++ [("currency", JStr (Payment.currency p))]
          ++ str "externalId" (Payment.externalId p)
          ++ who "payer" (Payment.payer p)
          ++ who "payee" (Payment.payee p)
          ++ str "payerMessage" (Payment.payerMessage p)
          ++ str "payeeNote" (Payment.payeeNote p)
          ++ [("status", JStr (Payment.status p))]
          ++ str "mtnStatus" (Payment.mtnStatus p)
          ++ num "processedAt" (Payment.processedAt p)
          ++ num "completedAt" (Payment.completedAt p)
          ++ num "createdAt" (Payment.createdAt p)
          ++ num "updatedAt" (Payment.updatedAt p))%list.

End PaymentDTO.

(* ===================================================================== *)
(** * services/PaymentService.js                                          *)
(* ===================================================================== *)

Module PaymentService.

(** [new Payment({...})] of [requestToPay], [transfer] and [refund]: the
    paths the call does not give take the schema defaults. *)
Definition newPayment (xReferenceId transactionType transactionSubType serviceType : string)
           (payer payee : option Party) (dto : PaymentDTO.t) (id : nat) : Payment.t :=
  {| Payment._id := id;
     Payment.xReferenceId := xReferenceId;
     Payment.apiUserId := None;
     Payment.apiKey := None;
     Payment.transactionType := transactionType;
     Payment.transactionSubType := transactionSubType;
     Payment.amount := PaymentDTO.amount dto;
     Payment.currency := PaymentDTO.currency dto;
     Payment.externalId := PaymentDTO.externalId dto;
     Payment.payer := payer;
     Payment.payee := payee;
     Payment.payerMessage := PaymentDTO.payerMessage dto;
     Payment.payeeNote := PaymentDTO.payeeNote dto;
     Payment.referenceIdToRefund := PaymentDTO.referenceIdToRefund dto;
     Payment.status := "PENDING";
     Payment.mtnStatus := None;
     Payment.mtnResponse := None;
     Payment.mtnError := None;
     Payment.processedAt := None;
     Payment.completedAt := None;
     Payment.metadata := [];
     Payment.serviceType := serviceType;
     Payment.subscriptionKey := None;
     Payment.createdAt := None;
     Payment.updatedAt := None |}.

Definition partyJson (k : string) (v : option Party) : list (string * Json) :=
  match v with
  | Some q =>
      [(k, JObj ([("partyIdType", JStr (partyIdType q))]
                   ++ match partyId q with
                      | Some i => [("partyId", JStr i)]
                      | None => []
                      end)%list)]
  | None => []
  end.

Definition optionalString (k : string) (v : option string) : list (string * Json) :=
  match v with
  | Some s => [(k, JStr s)]
  | None => []
  end.

(** [request.data] of the three calls; [dto.amount.toString()] is read
    first and throws on a missing amount, which validation has excluded. *)
Definition requestBody (dto : PaymentDTO.t) (partyKey : string) : Json :=
  JObj ([("amount", JStr (match PaymentDTO.amount dto with
                          | Some a => showZ a
                          | None => "undefined"
                          end));
         ("currency", JStr (PaymentDTO.currency dto))]
          ++ optionalString "externalId" (PaymentDTO.externalId dto)
          ++ partyJson partyKey (PaymentDTO.party dto)
          ++ optionalString "payerMessage" (PaymentDTO.payerMessage dto)
          ++ optionalString "payeeNote" (PaymentDTO.payeeNote dto)
          ++ optionalString "referenceIdToRefund" (PaymentDTO.referenceIdToRefund dto))%list.

Definition requestHeaders (token : option string) (xReferenceId key : string)
  : list (string * string) :=
  [("Authorization", "Bearer " ++ showS token);
   ("X-Target-Environment", "sandbox");
   ("Content-Type", "application/json");
   ("X-Reference-Id", xReferenceId);
   ("Ocp-Apim-Subscription-Key", key)].

(** What [requestToPay], [transfer] and [refund] do once the DTO is built:
    validate, fetch the credentials, store the payment, call the provider,
    store the answer with status PENDING, count the transaction. *)
Definition submit (errors : list string) (dto : PaymentDTO.t)
           (make : string -> nat -> Payment.t)
           (path partyKey : string)
           (tokenOf : MTNUser.t -> option string)
           (keyOf : SubscriptionKeys -> string) : M Json :=
  cfg <- mtnConfig ;;
  match errors with
  | _ :: _ => throwError ("Validation failed: " ++ String.concat ", " errors)
  | [] =>
      mtnUser <- MTNAuthService.getMTNUser ;;
      xReferenceId <- randomUUID ;;
      payment <- create (make xReferenceId) ;;
      payment <- save payment ;;
      match mtnUser with
      | None => throwError "Cannot read properties of null (reading 'collectionToken')"
      | Some mtnUser =>
          response <- axios
            {| Http.method := "POST";
               Http.url := Config.mtnBaseURL cfg ++ path;
               Http.headers :=
                 requestHeaders (tokenOf mtnUser) (Payment.xReferenceId payment)
                                (keyOf (Config.mtnSubscriptionKeys cfg));
               Http.data := Some (requestBody dto partyKey) |} ;;
          payment <- save (Payment.assign (Some (Some (Http.body response)))
                                          None (Some "PENDING") None None payment) ;;
          MTNAuthService.updateUsageStats (Some true) ;;;
          ret (PaymentDTO.fromPayment payment)
      end
  end.

(** [requestToPay(requestData)]. *)
Definition requestToPay (requestData : Json) : M Json :=
  tryCatch
    (e <- getProcessEnv ;;
     let lim := PaymentDTO.limits e in
     let dto := PaymentDTO.requestToPay lim requestData in
     submit (PaymentDTO.validateRequestToPay lim dto) dto
              (fun x => newPayment x "collection" "request_to_pay" "collections"
                                   (PaymentDTO.party dto) None dto)
              "/collection/v1_0/requesttopay" "payer"
              MTNUser.collectionToken collections)
    (fun error => throwError ("Request to pay failed: " ++ message error)).

(** [transfer(requestData)]. *)
Definition transfer (requestData : Json) : M Json :=
  tryCatch
    (e <- getProcessEnv ;;
     let lim := PaymentDTO.limits e in
     let dto := PaymentDTO.transfer lim requestData in
     submit (PaymentDTO.validateTransfer lim dto) dto
              (fun x => newPayment x "disbursement" "transfer" "disbursements"
                                   None (PaymentDTO.party dto) dto)
              "/disbursement/v1_0/transfer" "payee"
              MTNUser.disbursementToken disbursements)
    (fun error => throwError ("Transfer failed: " ++ message error)).

(** [refund(requestData)]. *)
Definition refund (requestData : Json) : M Json :=
  tryCatch
    (e <- getProcessEnv ;;
     let lim := PaymentDTO.limits e in
     let dto := PaymentDTO.refund lim requestData in
     submit (PaymentDTO.validateRefund lim dto) dto
              (fun x => newPayment x "disbursement" "refund" "disbursements"
                                   None None dto)
              "/disbursement/v1_0/refund" "payer"
              MTNUser.disbursementToken disbursements)
    (fun error => throwError ("Refund failed: " ++ message error)).

(** The assignments of [getPaymentStatus] once the provider has answered
    with [mtnStatus]. *)
Definition recordStatus (mtnStatus : option string) (answer : Json) (t : Z)
           (payment : Payment.t) : Payment.t :=
  let settled (s : string) :=
    match mtnStatus with
    | Some st => String.eqb st s
    | None => false
    end in
  if settled "SUCCESSFUL" then
    Payment.assign (Some (Some answer)) (Some mtnStatus) (Some "SUCCESSFUL")
                   (Some (Some t)) None payment
  else if settled "FAILED" then
    Payment.assign (Some (Some answer)) (Some mtnStatus) (Some "FAILED")
                   (Some (Some t)) None payment
  else
    Payment.assign (Some (Some answer)) (Some mtnStatus) None None None payment.

(** [getPaymentStatus(paymentId)]. *)
Definition getPaymentStatus (paymentId : nat) : M Json :=
  cfg <- mtnConfig ;;
  tryCatch
    (found <- findById paymentId ;;
     match found with
     | None => throwError "Payment not found"
     | Some payment =>
         mtnUser <- MTNAuthService.getMTNUser ;;
         match mtnUser with
         | None => throwError "MTN user not found"
         | Some mtnUser =>
             let base := Config.mtnBaseURL cfg in
             let xRef := Payment.xReferenceId payment in
             let keys := Config.mtnSubscriptionKeys cfg in
             let target :=
               if String.eqb (Payment.transactionType payment) "collection" then
                 (Some (base ++ "/collection/v1_0/requesttopay/" ++ xRef),
                  MTNUser.collectionToken mtnUser, Some (collections keys))
               else if String.eqb (Payment.transactionType payment) "disbursement" then
                 ((if String.eqb (Payment.transactionSubType payment) "transfer"
                   then Some (base ++ "/disbursement/v1_0/transfer/" ++ xRef)
                   else if String.eqb (Payment.transactionSubType payment) "refund"
                   then Some (base ++ "/disbursement/v1_0/refund/" ++ xRef)
                   else None),
                  MTNUser.disbursementToken mtnUser, Some (disbursements keys))
               else (None, None, None) in
             match target with
             | (Some statusUrl, token, key) =>
                 response <- axios
                   {| Http.method := "GET";
                      Http.url := statusUrl;
                      Http.headers :=
                        [("Authorization", "Bearer " ++ showS token);
                         ("X-Target-Environment", "sandbox");
                         ("Ocp-Apim-Subscription-Key", showS key)];
                      Http.data := None |} ;;
                 mtnStatus <- member "status" (Some (Http.body response)) ;;
                 t <- getNow ;;
                 payment <- save (recordStatus (asString mtnStatus) (Http.body response)
                                               t payment) ;;
                 ret (PaymentDTO.fromPayment payment)
             | (None, _, _) => throwError "Invalid URL"
             end
         end
     end)
    (fun error => throwError ("Failed to get payment status: " ++ message error)).

End PaymentService.

(* ===================================================================== *)
(** * services/SubscriptionService.js                                     *)
(* ===================================================================== *)

Definition isHexDigit (c : ascii) : bool :=
  let n := nat_of_ascii c in
  orb (andb (Nat.leb 48 n) (Nat.leb n 57))
      (orb (andb (Nat.leb 97 n) (Nat.leb n 102))
           (andb (Nat.leb 65 n) (Nat.leb n 70))).

(** The rest of [s] after [n] hexadecimal digits, if it starts with them. *)
Fixpoint afterHex (n : nat) (s : string) : option string :=
  match n with
  | O => Some s
  | S n' =>
      match s with
      | String c s' => if isHexDigit c then afterHex n' s' else None
      | EmptyString => None
      end
  end.

(** The rest of [s] after a dash. *)
Definition afterDash (s : string) : option string :=
  match s with
  | String c s' => if Nat.eqb (nat_of_ascii c) 45 then Some s' else None
  | EmptyString => None
  end.

Definition andThen {A B : Type} (v : option A) (f : A -> option B) : option B :=
  match v with
  | Some a => f a
  | None => None
  end.

(** [uuidRegex.test(s)] for
    [/^[0-9a-f]{8}-[0-9a-f]{4}-[0-9a-f]{4}-[0-9a-f]{4}-[0-9a-f]{12}$/i]. *)
Definition uuidRegexTest (s : string) : bool :=
  match andThen (andThen (andThen (andThen (andThen (andThen (andThen (andThen
          (afterHex 8 s) afterDash) (afterHex 4)) afterDash) (afterHex 4)) afterDash)
          (afterHex 4)) afterDash) (afterHex 12) with
  | Some EmptyString => true
  | _ => false
  end.

Module SubscriptionService.

Section Service.

(** [this.airtelPaymentService.ussdPushPayment] and
    [this.mtnPaymentService.requestToPay], the two collaborators the
    constructor creates. *)
Variable ussdPushPayment : Json -> string -> string -> M Json.
Variable requestToPay : Json -> M Json.

(** [endDate.setMonth(endDate.getMonth() + months)] on a copy of the start
    date: calendar arithmetic in local time. *)
Variable addMonths : Z -> Z -> Z.

(** The assignment of [calculateEndDate()], made before it saves. *)
Definition withEndDate (s : Subscription.t) : Subscription.t :=
  match Subscription.startDate s with
  | Some start =>
      if String.eqb (Subscription.status s) "SUCCESSFUL" then
        Subscription.assign
          {| Subscription.setAirtelMoneyId := None; Subscription.setMtnReferenceId := None;
             Subscription.setStatus := None; Subscription.setAirtelStatus := None;
             Subscription.setMtnStatus := None; Subscription.setStartDate := None;
             Subscription.setEndDate :=
               Some (Some (addMonths start (Subscription.numberOfMonths s)));
             Subscription.setAirtelResponse := None; Subscription.setAirtelError := None;
             Subscription.setMtnResponse := None; Subscription.setMtnError := None;
             Subscription.setProcessedAt := None; Subscription.setCompletedAt := None |} s
      else s
  | None => s
  end.

(** The test of [calculateEndDate]. *)
Definition endDateDue (s : Subscription.t) : bool :=
  match Subscription.startDate s with
  | Some _ => String.eqb (Subscription.status s) "SUCCESSFUL"
  | None => false
  end.

(** [await subscription.calculateEndDate()]. *)
Definition calculateEndDate (s : Subscription.t) : M Subscription.t :=
  if endDateDue s then save (withEndDate s) else ret s.

(** The assignments of the inner [catch]. *)
Definition markFailed (paymentChannel : string) (error : Error) (t : Z)
           (s : Subscription.t) : Subscription.t :=
  let report := Some (Some (JObj [("message", JStr (message error))])) in
  Subscription.assign
    {| Subscription.setAirtelMoneyId := None; Subscription.setMtnReferenceId := None;
       Subscription.setStatus := Some "FAILED";
       Subscription.setAirtelStatus := None; Subscription.setMtnStatus := None;
       Subscription.setStartDate := None; Subscription.setEndDate := None;
       Subscription.setAirtelResponse := None;
       Subscription.setAirtelError :=
         if String.eqb paymentChannel "AIRTEL" then report else None;
       Subscription.setMtnResponse := None;
       Subscription.setMtnError :=
         if String.eqb paymentChannel "AIRTEL" then None
         else if String.eqb paymentChannel "MTN" then report else None;
       Subscription.setProcessedAt := None;
       Subscription.setCompletedAt := Some (Some t) |} s.

(** The inner [catch (error)], entered with the document as the [try] block
    left it. *)
Definition onPaymentError {A : Type} (paymentChannel : string) (s : Subscription.t)
           (error : Error) : M A :=
  t <- getNow ;;
  save (markFailed paymentChannel error t s) ;;;
  throw error.

(** A step of the inner [try] block, with the document as it stands while
    the step runs. *)
Definition attempt {A : Type} (paymentChannel : string) (s : Subscription.t) (m : M A) : M A :=
  tryCatch m (onPaymentError paymentChannel s).

(** The main status an Airtel transaction status stands for. *)
Definition statusOfAirtel (transactionStatus : option string) : string :=
  match transactionStatus with
  | Some s =>
      if String.eqb s "TS" then "SUCCESSFUL"
      else if String.eqb s "TF" then "FAILED"
      else "PENDING"
  | None => "PENDING"
  end.

(** The main status an MTN status stands for. *)
Definition statusOfMtn (mtnStatus : option string) : string :=
  match mtnStatus with
  | Some s =>
      if String.eqb s "SUCCESSFUL" then "SUCCESSFUL"
      else if String.eqb s "FAILED" then "FAILED"
      else "PENDING"
  | None => "PENDING"
  end.

(** The assignments that follow a main status: the dates of a success or of
    a failure. *)
Definition settle (newStatus : string) (t : Z) (q : Subscription.Patch) : Subscription.Patch :=
  {| Subscription.setAirtelMoneyId := Subscription.setAirtelMoneyId q;
     Subscription.setMtnReferenceId := Subscription.setMtnReferenceId q;
     Subscription.setStatus := Some newStatus;
     Subscription.setAirtelStatus := Subscription.setAirtelStatus q;
     Subscription.setMtnStatus := Subscription.setMtnStatus q;
     Subscription.setStartDate :=
       if String.eqb newStatus "SUCCESSFUL" then Some (Some t) else None;
     Subscription.setEndDate := None;
     Subscription.setAirtelResponse := Subscription.setAirtelResponse q;
     Subscription.setAirtelError := None;
     Subscription.setMtnResponse := Subscription.setMtnResponse q;
     Subscription.setMtnError := None;
     Subscription.setProcessedAt :=
       if String.eqb newStatus "SUCCESSFUL" then Some (Some t) else None;
     Subscription.setCompletedAt :=
       if String.eqb newStatus "FAILED" then Some (Some t) else None |}.

(** The assignments of the Airtel branch once the provider has answered. *)
Definition applyAirtelResponse (paymentResponse : Json) (t : Z) (s : Subscription.t)
  : Subscription.t :=
  let data := prop "data" (Some paymentResponse) in
  let transaction := prop "transaction" data in
  let answered :=
    {| Subscription.setAirtelMoneyId := None; Subscription.setMtnReferenceId := None;
       Subscription.setStatus := None; Subscription.setAirtelStatus := None;
       Subscription.setMtnStatus := None; Subscription.setStartDate := None;
       Subscription.setEndDate := None;
       Subscription.setAirtelResponse := Some (Some paymentResponse);
       Subscription.setAirtelError := None; Subscription.setMtnResponse := None;
       Subscription.setMtnError := None; Subscription.setProcessedAt := None;
       Subscription.setCompletedAt := None |} in
  if andb (truthy data) (truthy transaction) then
    let transactionStatus := asString (prop "status" transaction) in
    let moneyId := prop "airtel_money_id" transaction in
    Subscription.assign
      (settle (statusOfAirtel transactionStatus) t
         {| Subscription.setAirtelMoneyId :=
              if truthy moneyId then Some (Some (jsString moneyId)) else None;
            Subscription.setMtnReferenceId := None;
            Subscription.setStatus := None;
            Subscription.setAirtelStatus := Some transactionStatus;
            Subscription.setMtnStatus := None; Subscription.setStartDate := None;
            Subscription.setEndDate := None;
            Subscription.setAirtelResponse := Some (Some paymentResponse);
            Subscription.setAirtelError := None; Subscription.setMtnResponse := None;
            Subscription.setMtnError := None; Subscription.setProcessedAt := None;
            Subscription.setCompletedAt := None |}) s
  else Subscription.assign answered s.

(** The assignments of the MTN branch once the provider has answered. *)
Definition applyMtnResponse (paymentResponse : Json) (t : Z) (s : Subscription.t)
  : Subscription.t :=
  let reference := prop "xReferenceId" (Some paymentResponse) in
  let mtnStatus := prop "status" (Some paymentResponse) in
  let answered :=
    {| Subscription.setAirtelMoneyId := None;
       Subscription.setMtnReferenceId :=
         if truthy reference then Some (Some (jsString reference)) else None;
       Subscription.setStatus := None; Subscription.setAirtelStatus := None;
       Subscription.setMtnStatus := None; Subscription.setStartDate := None;
       Subscription.setEndDate := None;
       Subscription.setAirtelResponse := None; Subscription.setAirtelError := None;
       Subscription.setMtnResponse := Some (Some paymentResponse);
       Subscription.setMtnError := None; Subscription.setProcessedAt := None;
       Subscription.setCompletedAt := None |} in
  if truthy mtnStatus then
    Subscription.assign
      (settle (statusOfMtn (asString mtnStatus)) t
         {| Subscription.setAirtelMoneyId := None;
            Subscription.setMtnReferenceId := Subscription.setMtnReferenceId answered;
            Subscription.setStatus := None; Subscription.setAirtelStatus := None;
            Subscription.setMtnStatus := Some (Some (jsString mtnStatus));
            Subscription.setStartDate := None; Subscription.setEndDate := None;
            Subscription.setAirtelResponse := None; Subscription.setAirtelError := None;
            Subscription.setMtnResponse := Some (Some paymentResponse);
            Subscription.setMtnError := None; Subscription.setProcessedAt := None;
            Subscription.setCompletedAt := None |}) s
  else Subscription.assign answered s.

(** The Airtel answer takes the branch that computes the end date. *)
Definition airtelSucceeded (paymentResponse : Json) : bool :=
  let data := prop "data" (Some paymentResponse) in
  let transaction := prop "transaction" data in
  andb (andb (truthy data) (truthy transaction))
       (String.eqb (statusOfAirtel (asString (prop "status" transaction))) "SUCCESSFUL").

(** The MTN answer takes the branch that computes the end date. *)
Definition mtnSucceeded (paymentResponse : Json) : bool :=
  let mtnStatus := prop "status" (Some paymentResponse) in
  andb (truthy mtnStatus)
       (String.eqb (statusOfMtn (asString mtnStatus)) "SUCCESSFUL").

(** [paymentData] of the Airtel branch. *)
Definition airtelPaymentData (subscriptionData : Json) (months : Z)
           (country currency transactionId : string) : Json :=
  let d := Some subscriptionData in
  let optional (k : string) (v : option Json) :=
    match v with
    | Some j => if truthy v then [(k, j)] else []
    | None => []
    end in
  JObj [("reference", JStr ("Subscription payment for " ++ showZ months ++ " month(s)"));
        ("subscriber",
         JObj ([("country", JStr country); ("currency", JStr currency)]
                 ++ match prop "msisdn" d with Some j => [("msisdn", j)] | None => [] end)%list);
        ("transaction",
         JObj ((match prop "amount" d with Some j => [("amount", j)] | None => [] end)
                 ++ [("id", JStr transactionId)]
                 ++ optional "country" (prop "transactionCountry" d)
                 ++ optional "currency" (prop "transactionCurrency" d))%list)].

(** [paymentData] of the MTN branch. *)
Definition mtnPaymentData (subscriptionData : Json) (months : Z)
           (currency transactionId : string) : Json :=
  let d := Some subscriptionData in
  JObj ((match prop "amount" d with Some j => [("amount", j)] | None => [] end)
          ++ [("currency", JStr currency);
              ("externalId", JStr transactionId);
              ("payer",
               JObj ([("partyIdType", JStr "MSISDN")]
                       ++ match prop "msisdn" d with
                          | Some j => [("partyId", j)]
                          | None => []
                          end)%list);
              ("payerMessage",
               JStr ("Subscription payment for " ++ showZ months ++ " month(s)"));
              ("payeeNote",
               JStr ("Tsinda subscription - " ++ showZ months ++ " month(s)"))])%list.

(** The inner [try] block: the provider call, the assignments from its
    answer, the saves. *)
Definition processPayment (subscriptionData : Json) (paymentChannel : string) (months : Z)
           (country currency transactionId : string) (subscription : Subscription.t)
  : M Json :=
  afterAnswer <-
    (if String.eqb paymentChannel "AIRTEL" then
       paymentResponse <-
         attempt paymentChannel subscription
           (ussdPushPayment
              (airtelPaymentData subscriptionData months country currency transactionId)
              country currency) ;;
       t <- getNow ;;
       let answered := applyAirtelResponse paymentResponse t subscription in
       attempt paymentChannel answered (member "data" (Some paymentResponse)) ;;;
       if airtelSucceeded paymentResponse
       then attempt paymentChannel (withEndDate answered) (calculateEndDate answered)
       else ret answered
     else if String.eqb paymentChannel "MTN" then
       paymentResponse <-
         attempt paymentChannel subscription
           (requestToPay (mtnPaymentData subscriptionData months currency transactionId)) ;;
       t <- getNow ;;
       let answered := applyMtnResponse paymentResponse t subscription in
       attempt paymentChannel answered (member "xReferenceId" (Some paymentResponse)) ;;;
       if mtnSucceeded paymentResponse
       then attempt paymentChannel (withEndDate answered) (calculateEndDate answered)
       else ret answered
     else ret subscription) ;;
  saved <- attempt paymentChannel afterAnswer (save afterAnswer) ;;
  ret (Subscription.toSubscriptionDTO saved).

(** What the first part of [createSubscriptionPayment] hands to the inner
    [try] block. *)
Record Opened := {
  paymentChannel : string;
  months : Z;
  country : string;
  currency : string;
  transactionId : string;
  subscription : Subscription.t
}.

(** What a String path of the new document holds. *)
Definition castText (v : option Json) : string :=
  match castToString v with
  | Text s => s
  | _ => ""
  end.

(** The paths of the new subscription that take a value of the request as
    it came: what the save reports of them when one does not cast to a
    string. The other paths hold what the checks before let through. *)
Definition uncast (d currencyGiven : option Json) : list string :=
  match castToString (prop "userId" d), castToString currencyGiven,
        castToString (prop "msisdn" d) with
  | Text _, Text _, Text _ => []
  | _, _, _ =>
      (castPath "userId" (prop "userId" d) (requiredString "userId")
       ++ castPath "currency" currencyGiven
                   (enumString "currency"
                               ["RWF"; "UGX"; "KES"; "TZS"; "EUR"; "USD"; "XAF"; "XOF"])
       ++ castPath "msisdn" (prop "msisdn" d) (requiredString "msisdn"))%list
  end.

(** [createSubscriptionPayment], up to the inner [try]: the checks on the
    input, then the subscription record, stored with status PENDING. *)
Definition openSubscription (subscriptionData : Json) : M Opened :=
  let d := Some subscriptionData in
  if negb (andb (truthy (prop "userId" d))
          (andb (truthy (prop "amount" d))
          (andb (truthy (prop "numberOfMonths" d))
          (andb (truthy (prop "msisdn" d))
                (truthy (prop "paymentChannel" d))))))
  then throwError "Missing required fields: userId, amount, numberOfMonths, msisdn, paymentChannel"
  else
    match asString (prop "paymentChannel" d) with
    | None => throwError "subscriptionData.paymentChannel.toUpperCase is not a function"
    | Some channel =>
        let paymentChannel := toUpperCase channel in
        if negb (includes paymentChannel ["MTN"; "AIRTEL"]) then
          throwError ("Invalid payment channel. Must be " ++ quote ++ "MTN" ++ quote
                        ++ " or " ++ quote ++ "AIRTEL" ++ quote)
        else
          match asNumber (prop "amount" d) with
          | None => throwError "Amount must be a positive number"
          | Some amount =>
              if Z.leb amount 0 then throwError "Amount must be a positive number"
              else
                match asNumber (prop "numberOfMonths" d) with
                | None => throwError "Number of months must be at least 1"
                | Some months =>
                    if Z.ltb months 1 then
                      throwError "Number of months must be at least 1"
                    else if negb (uuidRegexTest (jsString (prop "userId" d))) then
                      throwError "Invalid userId format. Must be a valid UUID"
                    else
                      let country :=
                        if truthy (prop "country" d) then jsString (prop "country" d)
                        else "RW" in
                      let currencyGiven :=
                        if truthy (prop "currency" d) then prop "currency" d
                        else Some (JStr "RWF") in
                      let currency := jsString currencyGiven in
                      uuid <- randomUUID ;;
                      let transactionId := "SUB-" ++ uuid in
                      subscription <- create (fun id =>
                        {| Subscription._id := id;
                           Subscription.userId := castText (prop "userId" d);
                           Subscription.amount := amount;
                           Subscription.currency := castText currencyGiven;
                           Subscription.numberOfMonths := months;
                           Subscription.paymentChannel := paymentChannel;
                           Subscription.msisdn := castText (prop "msisdn" d);
                           Subscription.transactionId := Some transactionId;
                           Subscription.airtelMoneyId := None;
                           Subscription.mtnReferenceId := None;
                           Subscription.status := "PENDING";
                           Subscription.airtelStatus := None;
                           Subscription.mtnStatus := None;
                           Subscription.startDate := None;
                           Subscription.endDate := None;
                           Subscription.airtelResponse := None;
                           Subscription.airtelError := None;
                           Subscription.mtnResponse := None;
                           Subscription.mtnError := None;
                           Subscription.processedAt := None;
                           Subscription.completedAt := None;
                           Subscription.createdAt := None;
                           Subscription.updatedAt := None |}) ;;
                      subscription <- saveCast (uncast d currencyGiven) subscription ;;
                      ret {| paymentChannel := paymentChannel;
                             months := months;
                             country := country;
                             currency := currency;
                             transactionId := transactionId;
                             subscription := subscription |}
                end
          end
    end.

(** [createSubscriptionPayment(subscriptionData)]. *)
Definition createSubscriptionPayment (subscriptionData : Json) : M Json :=
  tryCatch
    (opened <- openSubscription subscriptionData ;;
     processPayment subscriptionData (paymentChannel opened) (months opened)
                    (country opened) (currency opened) (transactionId opened)
                    (subscription opened))
    (fun error => throwError ("Subscription payment failed: " ++ message error)).

End Service.

End SubscriptionService.

(* ===================================================================== *)
(** * The webhook controllers                                             *)
(* ===================================================================== *)

(** What a handler reads of the Express request. *)
Record Req := {
  body : option Json;
  ip : option string;
  remoteAddress : option string;
  forwardedFor : option string;
  userAgent : option string
}.

(** What a handler answers: [res.status(code).json(payload)]. *)
Record Res := {
  statusCode : Z;
  payload : Json
}.

(** How Mongoose casts the value of a query on a String path: as it casts
    the value assigned to such a path. What does not cast fails the query;
    in the handler below the save of the notice has refused such a value
    before the query is made. *)
Definition castString (v : option Json) : M (option string) :=
  match castToString v with
  | Unset => ret None
  | Text s => ret (Some s)
  | NoCast _ => throwError "Cast to string failed"
  end.

Definition sameString (a b : option string) : bool :=
  match a, b with
  | Some x, Some y => String.eqb x y
  | None, None => true
  | _, _ => false
  end.

Module MTNPaymentController.

(** All of [externalId], [status], [amount] and [currency] are there. *)
Definition requiredFields (callbackData : option Json) : bool :=
  andb (truthy (prop "externalId" callbackData))
       (andb (truthy (prop "status" callbackData))
             (andb (truthy (prop "amount" callbackData))
                   (truthy (prop "currency" callbackData)))).

(** [v || null]. *)
Definition orNull (v : option Json) : option Json :=
  if truthy v then v else Some JNull.

(** The assignments the handler makes to the payment it found, when it goes
    on to save it: on the statuses PENDING, SUCCESSFUL and FAILED. On any
    other status the document is not saved. *)
Definition reconcile (callbackData : Json) (t : Z) (payment : Payment.t) : option Payment.t :=
  let d := Some callbackData in
  let financialId := prop "financialTransactionId" d in
  let metadata :=
    match financialId with
    | Some j =>
        if truthy financialId
        then Some (setKey "financialTransactionId" j (Payment.metadata payment))
        else None
    | None => None
    end in
  match prop "status" d with
  | Some (JStr s) =>
      if String.eqb s "PENDING" then
        Some (Payment.assign (Some d) (Some (Some "PENDING")) (Some "PENDING")
                             None metadata payment)
      else if String.eqb s "SUCCESSFUL" then
        Some (Payment.assign (Some d) (Some (Some "SUCCESSFUL")) (Some "SUCCESSFUL")
                             (Some (Some t)) metadata payment)
      else if String.eqb s "FAILED" then
        Some (Payment.assign (Some d) (Some (Some "FAILED")) (Some "FAILED")
                             (Some None) metadata payment)
      else None
  | _ => None
  end.

(** [new MTNCallback({...})] of the [try] block. *)
Definition newCallback (req : Req) (id : nat) : MTNCallback.t :=
  let d := body req in
  {| MTNCallback._id := id;
     MTNCallback.financialTransactionId := orNull (prop "financialTransactionId" d);
     MTNCallback.externalId := prop "externalId" d;
     MTNCallback.amount := prop "amount" d;
     MTNCallback.currency := prop "currency" d;
     MTNCallback.status := prop "status" d;
     MTNCallback.payee := orNull (prop "payee" d);
     MTNCallback.payeeNote := orNull (prop "payeeNote" d);
     MTNCallback.payerMessage := orNull (prop "payerMessage" d);
     MTNCallback.callbackData := d;
     MTNCallback.processed := false;
     MTNCallback.processedAt := None;
     MTNCallback.processingError := None;
     MTNCallback.ipAddress := orS (ip req) (orS (remoteAddress req) (forwardedFor req));
     MTNCallback.userAgent := orS (userAgent req) (Some "Unknown");
     MTNCallback.createdAt := None;
     MTNCallback.updatedAt := None |}.

(** [new MTNCallback({...})] of the [catch] block. *)
Definition failedCallback (req : Req) (error : Error) (id : nat) : MTNCallback.t :=
  let d := body req in
  {| MTNCallback._id := id;
     MTNCallback.financialTransactionId := None;
     MTNCallback.externalId := prop "externalId" d;
     MTNCallback.amount := None;
     MTNCallback.currency := None;
     MTNCallback.status := None;
     MTNCallback.payee := None;
     MTNCallback.payeeNote := None;
     MTNCallback.payerMessage := None;
     MTNCallback.callbackData := d;
     MTNCallback.processed := false;
     MTNCallback.processedAt := None;
     MTNCallback.processingError := Some (message error);
     MTNCallback.ipAddress := orS (ip req) (remoteAddress req);
     MTNCallback.userAgent := orS (userAgent req) (Some "Unknown");
     MTNCallback.createdAt := None;
     MTNCallback.updatedAt := None |}.

Definition badRequest (msg : string) : Res :=
  {| statusCode := 400;
     payload := JObj [("success", JBool false); ("message", JStr msg)] |}.

(** [callback(req, res)]. *)
Definition callback (req : Req) : M Res :=
  tryCatch
    (match body req with
     | None => ret (badRequest "Invalid callback data")
     | Some callbackData =>
         if negb (truthy (body req)) then ret (badRequest "Invalid callback data")
         else if negb (requiredFields (body req)) then
           ret (badRequest "Missing required fields: externalId, status, amount, currency")
         else
           callback <- create (newCallback req) ;;
           callback <- save callback ;;
           externalId <- castString (prop "externalId" (body req)) ;;
           payment <- findLatest
                        (fun p => sameString (Payment.externalId p) externalId)
                        Payment.createdAt ;;
           match payment with
           | Some payment =>
               t <- getNow ;;
               match reconcile callbackData t payment with
               | Some updated => save updated ;;; ret tt
               | None => ret tt
               end
           | None => ret tt
           end ;;;
           t <- getNow ;;
           callback <- save (MTNCallback.processedNow t callback) ;;
           ret {| statusCode := 200;
                  payload :=
                    JObj [("success", JBool true);
                          ("message", JStr "Callback received and processed");
                          ("callbackId", JNum (Z.of_nat (MTNCallback._id callback)))] |}
     end)
    (fun error =>
       tryCatch
         (if andb (truthy (body req)) (truthy (prop "externalId" (body req))) then
            failed <- create (failedCallback req error) ;;
            save failed ;;;
            ret tt
          else ret tt)
         (fun _ => ret tt) ;;;
       ret {| statusCode := 200;
              payload :=
                JObj [("success", JBool false);
                      ("message", JStr "Callback received but processing failed");
                      ("error", JStr (message error))] |}).

End MTNPaymentController.

Module AirtelPaymentController.

(** All of [id], [status_code] and [airtel_money_id] of the transaction are
    there. *)
Definition requiredFields (transaction : option Json) : bool :=
  andb (truthy (prop "id" transaction))
       (andb (truthy (prop "status_code" transaction))
             (truthy (prop "airtel_money_id" transaction))).

(** [v || d]. *)
Definition orElse (v : option Json) (d : Json) : option Json :=
  if truthy v then v else Some d.

(** [new AirtelCallback({...})] of the [try] block. *)
Definition newCallback (req : Req) (id : nat) : AirtelCallback.t :=
  let transaction := prop "transaction" (body req) in
  {| AirtelCallback._id := id;
     AirtelCallback.transactionId := prop "id" transaction;
     AirtelCallback.airtelMoneyId := prop "airtel_money_id" transaction;
     AirtelCallback.statusCode := prop "status_code" transaction;
     AirtelCallback.message := orElse (prop "message" transaction) (JStr "");
     AirtelCallback.callbackData := body req;
     AirtelCallback.processed := false;
     AirtelCallback.processedAt := None;
     AirtelCallback.processingError := None;
     AirtelCallback.ipAddress := orS (ip req) (remoteAddress req);
     AirtelCallback.userAgent := orS (userAgent req) (Some "Unknown");
     AirtelCallback.createdAt := None;
     AirtelCallback.updatedAt := None |}.

(** [new AirtelCallback({...})] of the [catch] block. *)
Definition failedCallback (req : Req) (error : Error) (id : nat) : AirtelCallback.t :=
  let transaction := prop "transaction" (body req) in
  {| AirtelCallback._id := id;
     AirtelCallback.transactionId := orElse (prop "id" transaction) (JStr "unknown");
     AirtelCallback.airtelMoneyId :=
       orElse (prop "airtel_money_id" transaction) (JStr "unknown");
     AirtelCallback.statusCode := orElse (prop "status_code" transaction) (JStr "TF");
     AirtelCallback.message :=
       orElse (prop "message" transaction) (JStr "Processing failed");
     AirtelCallback.callbackData := body req;
     AirtelCallback.processed := false;
     AirtelCallback.processedAt := None;
     AirtelCallback.processingError := Some (message error);
     AirtelCallback.ipAddress := orS (ip req) (remoteAddress req);
     AirtelCallback.userAgent := orS (userAgent req) (Some "Unknown");
     AirtelCallback.createdAt := None;
     AirtelCallback.updatedAt := None |}.

Definition badRequest (msg : string) : Res :=
  {| statusCode := 400;
     payload := JObj [("success", JBool false); ("message", JStr msg)] |}.

(** [callback(req, res)]. Between the two saves the handler only logs: the
    update of a transaction record is left as a comment in the source. *)
Definition callback (req : Req) : M Res :=
  tryCatch
    (let transaction := prop "transaction" (body req) in
     if negb (andb (truthy (body req)) (truthy transaction)) then
       ret (badRequest "Invalid callback data")
     else if negb (requiredFields transaction) then
       ret (badRequest "Missing required transaction fields")
     else
       callback <- create (newCallback req) ;;
       callback <- save callback ;;
       t <- getNow ;;
       callback <- save (AirtelCallback.processedNow t callback) ;;
       ret {| statusCode := 200;
              payload :=
                JObj ([("success", JBool true);
                       ("message", JStr "Callback received and processed")]
                        ++ (match prop "id" transaction with
                            | Some j => [("transactionId", j)]
                            | None => []
                            end)
                        ++ [("callbackId", JNum (Z.of_nat (AirtelCallback._id callback)))])%list |})
    (fun error =>
       tryCatch
         (if andb (truthy (body req)) (truthy (prop "transaction" (body req))) then
            failed <- create (failedCallback req error) ;;
            save failed ;;;
            ret tt
          else ret tt)
         (fun _ => ret tt) ;;;
       ret {| statusCode := 200;
              payload :=
                JObj [("success", JBool false);
                      ("message", JStr "Callback received but processing failed");
                      ("error", JStr (message error))] |}).

End AirtelPaymentController.

(* ===================================================================== *)
(** * The [updateStatus] methods of the payment and subscription models   *)
(* ===================================================================== *)

(** [await payment.updateStatus(newStatus, mtnResponse = null)]. The
    method assigns whatever status it is given; the save refuses one outside
    the enumeration of the schema. *)
Definition paymentUpdateStatus (newStatus : string) (mtnResponse : option Json)
           (p : Payment.t) : M Payment.t :=
  t <- getNow ;;
  save (Payment.setStatus newStatus mtnResponse t p).

(** The assignments of the subscription's
    [updateStatus(newStatus, airtelResponse = null)]. *)
Definition subscriptionSetStatus (newStatus : string) (airtelResponse : option Json)
           (t : Z) (s : Subscription.t) : Subscription.t :=
  Subscription.assign
    {| Subscription.setAirtelMoneyId := None; Subscription.setMtnReferenceId := None;
       Subscription.setStatus := Some newStatus;
       Subscription.setAirtelStatus := None; Subscription.setMtnStatus := None;
       Subscription.setStartDate := None; Subscription.setEndDate := None;
       Subscription.setAirtelResponse :=
         if truthy airtelResponse then Some airtelResponse else None;
       Subscription.setAirtelError := None; Subscription.setMtnResponse := None;
       Subscription.setMtnError := None; Subscription.setProcessedAt := None;
       Subscription.setCompletedAt :=
         if orb (String.eqb newStatus "SUCCESSFUL") (String.eqb newStatus "FAILED")
         then Some (Some t) else None |} s.

(** [await subscription.updateStatus(newStatus, airtelResponse = null)]. *)
Definition subscriptionUpdateStatus (newStatus : string) (airtelResponse : option Json)
           (s : Subscription.t) : M Subscription.t :=
  t <- getNow ;;
  save (subscriptionSetStatus newStatus airtelResponse t s).

(* ===================================================================== *)
(** * The retry helper of the MoMo API suite (MomoAPIFixedToken)          *)
(* ===================================================================== *)

Module Retry.

(** [this.retryConfig] of the constructor. *)
Definition retryConfig : Config.Retry :=
  {| Config.maxRetries := 3; Config.retryDelay := 1000; Config.timeout := 10000 |}.

(** What a run leaves behind, in order: each invocation of [apiCall] with
    its attempt number and each [this.delay(ms)]. *)
Inductive Event :=
| Attempt (n : Z)
| Delay (ms : Z).

(** How [retryAPICall] ends: [return result] or [throw lastError], where
    [lastError] is still [undefined] ([None]) if the loop body never ran. *)
Inductive Outcome (E A : Type) :=
| Returned (result : A)
| Thrown (lastError : option E).
Arguments Returned {E A} result.
Arguments Thrown {E A} lastError.

Section RetryAPICall.

Context {St E A : Type}.

(** [apiCall] is a closure over the suite: it may change the state it runs
    in and either returns ([inr]) or throws ([inl]). *)
Variable apiCall : St -> (E + A) * St.
Variable cfg : Config.Retry.

(** The [for (attempt = 1; attempt <= maxRetries; attempt++)] loop, one
    iteration per unit of [fuel]. *)
Fixpoint retryLoop (fuel : nat) (maxR attempt : Z) (lastError : option E)
         (s : St) (log : list Event) : Outcome E A * St * list Event :=
  match fuel with
  | O => (Thrown lastError, s, log)
  | S fuel' =>
      if Z.leb attempt maxR then
        match apiCall s with
        | (inr result, s') => (Returned result, s', (log ++ [Attempt attempt])%list)
        | (inl error, s') =>
            let log' := (log ++ [Attempt attempt])%list in
            let log'' := if Z.ltb attempt maxR
                         then (log' ++ [Delay (Config.retryDelay cfg)])%list
                         else log' in
            retryLoop fuel' maxR (attempt + 1) (Some error) s' log''
        end
      else (Thrown lastError, s, log)
  end.

(** [retryAPICall(apiCall, maxRetries = this.retryConfig.maxRetries)]. The
    loop body runs at most [maxRetries] times, which is the fuel given. *)
Definition retryAPICall (maxRetriesArg : option Z) (s : St)
  : Outcome E A * St * list Event :=
  let maxR := match maxRetriesArg with
              | Some m => m
              | None => Config.maxRetries cfg
              end in
  retryLoop (Z.to_nat maxR) maxR 1 None s [].

(** The state in which invocation number [k + 1] runs, when every
    invocation before it threw. *)
Fixpoint stateBefore (k : nat) (s : St) : St :=
  match k with
  | O => s
  | S k' => snd (apiCall (stateBefore k' s))
  end.

(** The outcome of invocation number [k], counting from 1. *)
Definition attemptOutcome (s : St) (k : nat) : E + A :=
  fst (apiCall (stateBefore (pred k) s)).

Definition attemptsOf (log : list Event) : nat :=
  length (List.filter (fun e => match e with Attempt _ => true | Delay _ => false end) log).

Definition delaysOf (log : list Event) : list Z :=
  flat_map (fun e => match e with Delay ms => [ms] | Attempt _ => [] end) log.

(** The log of [k] attempts numbered from [from], a delay between each two
    and none after the last. *)
Fixpoint attemptsLog (from : Z) (k : nat) : list Event :=
  match k with
  | O => []
  | S k' =>
      match k' with
      | O => [Attempt from]
      | S _ => Attempt from :: Delay (Config.retryDelay cfg) :: attemptsLog (from + 1) k'
      end
  end.

End RetryAPICall.

End Retry.

(* ===================================================================== *)
(** * Vocabulary of the properties                                        *)
(* ===================================================================== *)

(** A cached token is usable at [t] with the margin [buffer]: it is there
    and its expiry, less the margin, is still ahead. *)
Definition Fresh (token : option string) (expiresAt : option Z) (buffer t : Z) : Prop :=
  truthyS token = true /\ exists e, expiresAt = Some e /\ t < e - buffer.

(** The provider's answer to a token request: a 2xx response whose JSON
    body holds the token and its lifetime in seconds. *)
Definition TokenAnswer (r : Http.Response) (token : string) (expiresIn : Z) : Prop :=
  Http.ok r = true /\
  exists answer, Http.json r = Some answer /\
    prop "access_token" (Some answer) = Some (JStr token) /\
    prop "expires_in" (Some answer) = Some (JNum expiresIn).

(** The provider does not answer the coming request with a 2xx status: it
    answers with another status, or the request fails on the way. *)
Definition Unanswered (w : World) : Prop :=
  match replies w with
  | Http.Answered r :: _ => Http.ok r = false
  | _ => True
  end.

(** The lifetime the collection service gives a token the provider declared
    [expiresIn] seconds for: 180 seconds when none or zero was declared. *)
Definition collectionLifetime (expiresIn : option Z) : Z :=
  match expiresIn with
  | Some n => if Z.eqb n 0 then 180 else n
  | None => 180
  end.

(** The stored document with a given [_id]. *)
Definition stored {D : Type} `{Model D} (id : nat) (w : World) : option D :=
  find (fun d => Nat.eqb (idOf d) id) (docs (store w)).

(** [total = successful + failed]. *)
Definition usageConsistent (u : UsageStats) : Prop :=
  totalTransactions u = successfulTransactions u + failedTransactions u.


(** Every stored payment and subscription has a status of [statusEnum]. *)
Definition StatusInv (w : World) : Prop :=
  Forall (fun p => In (Payment.status p) statusEnum) (payments (store w)) /\
  Forall (fun s => In (Subscription.status s) statusEnum) (subscriptions (store w)).

(** [m] keeps [I] whatever its outcome, and a value it returns satisfies
    [Q]. *)
Definition hoare {A : Type} (I : World -> Prop) (m : M A) (Q : A -> Prop) : Prop :=
  forall w, I w ->
    I (snd (m w)) /\ forall a, fst (m w) = Ok a -> Q a.

(** The inputs of a world: everything but the documents. Between two calls
    the inputs may change in any way. *)
Definition sameStore (w w' : World) : Prop := store w' = store w.

(** The store takes the next write. *)
Definition storeAccepts (w : World) : Prop := fst (storeOp w) = Ok tt.

(** [w] holds the payments and the subscriptions of [w0]. *)
Definition recordsAs (w0 w : World) : Prop :=
  payments (store w) = payments (store w0) /\
  subscriptions (store w) = subscriptions (store w0).

Definition goodPayment (p : Payment.t) : Prop := In (Payment.status p) statusEnum.

Definition goodSubscription (s : Subscription.t) : Prop :=
  In (Subscription.status s) statusEnum.

(** What an effect returns, whatever it does to the world. *)
Definition returns {A : Type} (m : M A) (Q : A -> Prop) : Prop :=
  hoare (fun _ => True) m Q.

(** An effect that never throws. *)
Definition total {A : Type} (m : M A) : Prop :=
  forall w, exists a w', m w = (Ok a, w').

(** Properties of the world that do not look at one of its parts. *)
Definition NowFree (I : World -> Prop) : Prop := forall t w, I w -> I (withNow t w).

Definition FaultFree (I : World -> Prop) : Prop := forall fs w, I w -> I (withFaults fs w).

Definition ExchangeFree (I : World -> Prop) : Prop :=
  forall rs req w, I w -> I (withExchange rs req w).

Definition DrawFree (I : World -> Prop) : Prop := forall n w, I w -> I (withDrawn n w).

Definition StoreFree (I : World -> Prop) : Prop := forall s w, I w -> I (withStore s w).

(** [create] takes the next [_id] and leaves the documents. *)
Definition CreateFree (I : World -> Prop) : Prop :=
  forall w, I w ->
    I (withStore {| nextId := S (nextId (store w)); mtnUsers := mtnUsers (store w);
                    airtelUsers := airtelUsers (store w);
                    payments := payments (store w);
                    subscriptions := subscriptions (store w);
                    mtnCallbacks := mtnCallbacks (store w);
                    airtelCallbacks := airtelCallbacks (store w) |} w).

(** ** Token requests *)

(** The value of a Basic [Authorization] header. *)
Definition basicAuth (xReferenceId apiKey : string) : string :=
  "Basic " ++ base64 (xReferenceId ++ ":" ++ apiKey).

(** A request whose JSON body is an OAuth2 client-credentials grant. *)
Definition clientCredentials (clientId clientSecret : string) (req : Http.Request) : Prop :=
  exists body,
    Http.data req = Some body /\
    prop "client_id" (Some body) = Some (JStr clientId) /\
    prop "client_secret" (Some body) = Some (JStr clientSecret) /\
    prop "grant_type" (Some body) = Some (JStr "client_credentials").

(** ** Request to pay *)

(** The header that names the transaction to the provider. *)
Definition carries (referenceId : string) (req : Http.Request) : Prop :=
  assoc "X-Reference-Id" (Http.headers req) = Some referenceId.

(** A request-to-pay call of the collection API. *)
Definition isRequestToPay (cfg : Config.Mtn) (req : Http.Request) : Prop :=
  Http.method req = "POST" /\
  Http.url req = Config.mtnBaseURL cfg ++ "/collection/v1_0/requesttopay".

(** ** Callbacks *)

(** The body of the answer to a callback whose processing threw. *)
Definition failurePayload (error : Error) : Json :=
  JObj [("success", JBool false);
        ("message", JStr "Callback received but processing failed");
        ("error", JStr (message error))].

(** The answer to a callback that was processed. *)
Definition succeeded (res : Res) : Prop :=
  statusCode res = 200 /\ prop "success" (Some (payload res)) = Some (JBool true).

(** ** Subscription payments *)

(** How the message of every error of [createSubscriptionPayment] starts. *)
Definition failedPrefix : string := "Subscription payment failed: ".

Section ProviderCall.

Variable ussdPushPayment : Json -> string -> string -> M Json.
Variable requestToPay : Json -> M Json.

(** The call to the provider that the inner [try] block makes first. *)
Definition providerCall (subscriptionData : Json) (opened : SubscriptionService.Opened)
  : M Json :=
  if String.eqb (SubscriptionService.paymentChannel opened) "AIRTEL" then
    ussdPushPayment
      (SubscriptionService.airtelPaymentData subscriptionData
         (SubscriptionService.months opened) (SubscriptionService.country opened)
         (SubscriptionService.currency opened) (SubscriptionService.transactionId opened))
      (SubscriptionService.country opened) (SubscriptionService.currency opened)
  else
    requestToPay
      (SubscriptionService.mtnPaymentData subscriptionData
         (SubscriptionService.months opened) (SubscriptionService.currency opened)
         (SubscriptionService.transactionId opened)).

End ProviderCall.

(** ** The worlds the backend can reach *)

(** A collaborator that writes no payment and no subscription of its own,
    as [AirtelPaymentService.ussdPushPayment] does not. *)
Definition keepsStatus (ussdPushPayment : Json -> string -> string -> M Json) : Prop :=
  forall paymentData country currency,
    hoare StatusInv (ussdPushPayment paymentData country currency) (fun _ => True).

(** One call of an operation that writes a payment or a subscription, or a
    change of the inputs between two calls. The subscription service calls
    MTN through [PaymentService.requestToPay], as its constructor sets up. *)
Inductive Step : World -> World -> Prop :=
| step_inputs (w w' : World) :
    sameStore w w' -> Step w w'
| step_createSubscriptionPayment
    (ussdPushPayment : Json -> string -> string -> M Json) (addMonths : Z -> Z -> Z)
    (subscriptionData : Json) (w : World) :
    keepsStatus ussdPushPayment ->
    Step w (snd (SubscriptionService.createSubscriptionPayment
                   ussdPushPayment PaymentService.requestToPay addMonths
                   subscriptionData w))
| step_mtnCallback (req : Req) (w : World) :
    Step w (snd (MTNPaymentController.callback req w))
| step_airtelCallback (req : Req) (w : World) :
    Step w (snd (AirtelPaymentController.callback req w))
| step_requestPayment (userId phoneNumber : string) (amount : Z)
    (options : MTNPaymentService.Options) (w : World) :
    Step w (snd (MTNPaymentService.requestPayment userId phoneNumber amount options w))
| step_requestPaymentSavingLast (userId phoneNumber : string) (amount : Z)
    (options : MTNPaymentService.Options) (w : World) :
    Step w (snd (MTNPaymentService.requestPaymentSavingLast
                   userId phoneNumber amount options w))
| step_requestToPay (requestData : Json) (w : World) :
    Step w (snd (PaymentService.requestToPay requestData w))
| step_transfer (requestData : Json) (w : World) :
    Step w (snd (PaymentService.transfer requestData w))
| step_refund (requestData : Json) (w : World) :
    Step w (snd (PaymentService.refund requestData w))
| step_getPaymentStatus (paymentId : nat) (w : World) :
    Step w (snd (PaymentService.getPaymentStatus paymentId w))
| step_paymentUpdateStatus (newStatus : string) (mtnResponse : option Json)
    (p : Payment.t) (w : World) :
    Step w (snd (paymentUpdateStatus newStatus mtnResponse p w))
| step_subscriptionUpdateStatus (newStatus : string) (airtelResponse : option Json)
    (s : Subscription.t) (w : World) :
    Step w (snd (subscriptionUpdateStatus newStatus airtelResponse s w)).

(** From a store without payments and subscriptions, any number of steps. *)
Inductive Reachable : World -> Prop :=
| reach_start (w : World) :
    payments (store w) = [] -> subscriptions (store w) = [] -> Reachable w
| reach_step (w w' : World) :
    Reachable w -> Step w w' -> Reachable w'.

(** ** Retries *)

Section LoopSpec.

Context {St E A : Type}.
Variable apiCall : St -> (E + A) * St.
Variable cfg : Config.Retry.

(** What a run of the loop from attempt number [attempt] comes to, with
    [fuel] iterations left: [n] invocations were made, all but the last
    threw, and the run ended on a result or on the last error. *)
Definition LoopSpec (fuel : nat) (attempt : Z) (lastError : option E) (s : St)
           (log : list Retry.Event) (run : Retry.Outcome E A * St * list Retry.Event) : Prop :=
  exists n : nat,
    (n <= fuel)%nat /\
    snd run = (log ++ Retry.attemptsLog cfg attempt n)%list /\
    (forall j, (S j < n)%nat -> exists e, fst (apiCall (Retry.stateBefore apiCall j s)) = inl e) /\
    match fst (fst run) with
    | Retry.Returned r =>
        (1 <= n)%nat /\
        fst (apiCall (Retry.stateBefore apiCall (pred n) s)) = inr r /\
        snd (fst run) = snd (apiCall (Retry.stateBefore apiCall (pred n) s))
    | Retry.Thrown e =>
        n = fuel /\
        snd (fst run) = Retry.stateBefore apiCall n s /\
        match n with
        | O => e = lastError
        | S m => exists err,
            fst (apiCall (Retry.stateBefore apiCall m s)) = inl err /\ e = Some err
        end
    end.

End LoopSpec.

(* ===================================================================== *)
(** * Sample worlds                                                       *)
(* ===================================================================== *)

(** An MTN credential record whose collection token is good for another
    hundred seconds at the instant of [checkout]. *)
Definition merchant : MTNUser.t :=
  {| MTNUser._id := 0%nat;
     MTNUser.xReferenceId := "9f1c2d3e-0000-4000-8000-000000000001";
     MTNUser.apiKey := Some "secret";
     MTNUser.providerCallbackHost := "https://example.org";
     MTNUser.collectionToken := Some "token-0123456789abcdefghij";
     MTNUser.disbursementToken := None;
     MTNUser.collectionTokenExpiresAt := Some 1700000100000;
     MTNUser.disbursementTokenExpiresAt := None;
     MTNUser.subscriptionKeys :=
       {| collectionWidget := "k"; collections := "k";
          disbursements := "k"; remittances := "k" |};
     MTNUser.isActive := true;
     MTNUser.usageStats := noUsage;
     MTNUser.createdAt := Some 1600000000000;
     MTNUser.updatedAt := Some 1600000000000 |}.

(** A credential record whose collection token is good for another hour
    at the instant of [offline] and which has no disbursement token yet. *)
Definition collector : MTNUser.t :=
  {| MTNUser._id := 0%nat;
     MTNUser.xReferenceId := "9f1c2d3e-0000-4000-8000-000000000001";
     MTNUser.apiKey := Some "secret";
     MTNUser.providerCallbackHost := "https://example.org";
     MTNUser.collectionToken := Some "token-0123456789abcdefghij";
     MTNUser.disbursementToken := None;
     MTNUser.collectionTokenExpiresAt := Some 1700003600000;
     MTNUser.disbursementTokenExpiresAt := None;
     MTNUser.subscriptionKeys :=
       {| collectionWidget := "k"; collections := "k";
          disbursements := "k"; remittances := "k" |};
     MTNUser.isActive := true;
     MTNUser.usageStats := noUsage;
     MTNUser.createdAt := Some 1600000000000;
     MTNUser.updatedAt := Some 1600000000000 |}.

(** The store holds [collector]; the provider cannot be reached. *)
Definition offline : World :=
  {| now := 1700000000000; env := []; uuids := fun _ => "";
     drawn := 0; replies := []; sent := []; faults := [];
     store := {| nextId := 1; mtnUsers := [collector]; airtelUsers := [];
                 payments := []; subscriptions := [];
                 mtnCallbacks := []; airtelCallbacks := [] |} |}.

(** A provider's answer to a token request. *)
Definition token200 (token : string) : Http.Response :=
  {| Http.status := 200; Http.statusText := "OK"; Http.text := "";
     Http.json := Some (JObj [("access_token", JStr token); ("token_type", JStr "access_token");
                              ("expires_in", JNum 3600)]) |}.

(** The store holds [merchant], whose collection token is valid for another
    hundred seconds; the provider answers two token requests. *)
Definition renewal : World :=
  {| now := 1700000000000; env := []; uuids := fun _ => "";
     drawn := 0;
     replies := [Http.Answered (token200 "collection-token");
                 Http.Answered (token200 "disbursement-token")];
     sent := []; faults := [];
     store := {| nextId := 1; mtnUsers := [merchant]; airtelUsers := [];
                 payments := []; subscriptions := [];
                 mtnCallbacks := []; airtelCallbacks := [] |} |}.

Definition accepted202 : Http.Response :=
  {| Http.status := 202; Http.statusText := "Accepted"; Http.text := ""; Http.json := None |}.

(** The provider accepts the next request; the store holds [merchant]. *)
Definition checkout : World :=
  {| now := 1700000000000;
     env := [("MTN_CALLBACK_URL", "https://example.org/api/mtn-payment/callback")];
     uuids := fun n => if Nat.eqb n 0 then "5b2e8d5c-7a41-4c0e-9d3f-2f6a1b0c4e77"
                       else "00000000-0000-4000-8000-000000000000";
     drawn := 0;
     replies := [Http.Answered accepted202];
     sent := [];
     faults := [];
     store := {| nextId := 1; mtnUsers := [merchant]; airtelUsers := [];
                 payments := []; subscriptions := [];
                 mtnCallbacks := []; airtelCallbacks := [] |} |}.

Definition noOptions : MTNPaymentService.Options :=
  {| MTNPaymentService.targetEnvironment := None; MTNPaymentService.callbackUrl := None |}.

(** A store that refuses the next write. *)
Definition outage : World :=
  {| now := 1700000000000; env := []; uuids := fun _ => "";
     drawn := 0; replies := []; sent := [];
     faults := [Some "connection lost"]; store := emptyStore |}.

Definition mtnNotice : Req :=
  {| body := Some (JObj [("externalId", JStr "user-1"); ("status", JStr "SUCCESSFUL");
                         ("amount", JStr "100"); ("currency", JStr "EUR")]);
     ip := Some "10.0.0.1"; remoteAddress := None; forwardedFor := None;
     userAgent := None |}.

Definition airtelNotice : Req :=
  {| body := Some (JObj [("transaction",
                          JObj [("id", JStr "TX1"); ("message", JStr "Paid");
                                ("status_code", JStr "TS");
                                ("airtel_money_id", JStr "AM1")])]);
     ip := Some "10.0.0.1"; remoteAddress := None; forwardedFor := None;
     userAgent := None |}.

(** A payment of [user-1], pending since [created]. *)
Definition paymentOf (id : nat) (reference : string) (created : Z) : Payment.t :=
  {| Payment._id := id;
     Payment.xReferenceId := reference;
     Payment.apiUserId := Some "9f1c2d3e-0000-4000-8000-000000000001";
     Payment.apiKey := Some "secret";
     Payment.transactionType := "collection";
     Payment.transactionSubType := "request_to_pay";
     Payment.amount := Some 100;
     Payment.currency := "EUR";
     Payment.externalId := Some "user-1";
     Payment.payer := Some {| partyIdType := "MSISDN"; partyId := Some "250788000000" |};
     Payment.payee := None;
     Payment.payerMessage := None;
     Payment.payeeNote := None;
     Payment.referenceIdToRefund := None;
     Payment.status := "PENDING";
     Payment.mtnStatus := Some "PENDING";
     Payment.mtnResponse := None;
     Payment.mtnError := None;
     Payment.processedAt := None;
     Payment.completedAt := None;
     Payment.metadata := [];
     Payment.serviceType := "collections";
     Payment.subscriptionKey := Some "k";
     Payment.createdAt := Some created;
     Payment.updatedAt := Some created |}.


(** A subscription paid through Airtel, pending. *)
Definition pendingSubscription : Subscription.t :=
  {| Subscription._id := 0%nat;
     Subscription.userId := "3f2b8c1e-5d4a-4b6f-9e0a-1c2d3e4f5a6b";
     Subscription.amount := 5000;
     Subscription.currency := "RWF";
     Subscription.numberOfMonths := 1;
     Subscription.paymentChannel := "AIRTEL";
     Subscription.msisdn := "250730000000";
     Subscription.transactionId := Some "SUB-5b2e8d5c-7a41-4c0e-9d3f-2f6a1b0c4e77";
     Subscription.airtelMoneyId := None;
     Subscription.mtnReferenceId := None;
     Subscription.status := "PENDING";
     Subscription.airtelStatus := None;
     Subscription.mtnStatus := None;
     Subscription.startDate := None;
     Subscription.endDate := None;
     Subscription.airtelResponse := None;
     Subscription.airtelError := None;
     Subscription.mtnResponse := None;
     Subscription.mtnError := None;
     Subscription.processedAt := None;
     Subscription.completedAt := None;
     Subscription.createdAt := Some 1700000000000;
     Subscription.updatedAt := Some 1700000000000 |}.



(** A request for one month through Airtel. *)
Definition subscriptionRequest : Json :=
  JObj [("userId", JStr "3f2b8c1e-5d4a-4b6f-9e0a-1c2d3e4f5a6b");
        ("amount", JNum 5000);
        ("numberOfMonths", JNum 1);
        ("msisdn", JStr "250730000000");
        ("paymentChannel", JStr "airtel")].

(** An Airtel service that cannot reach the provider. *)
Definition providerDown (paymentData : Json) (country currency : string) : M Json :=
  throwError "USSD Push payment failed: connect ECONNREFUSED".

(** [endDate.setMonth(...)] with months of thirty days, for the samples. *)
Definition thirtyDayMonths (start months : Z) : Z :=
  start + months * 30 * 24 * 60 * 60 * 1000.

Definition signup : World :=
  {| now := 1700000000000; env := [];
     uuids := fun _ => "5b2e8d5c-7a41-4c0e-9d3f-2f6a1b0c4e77";
     drawn := 0; replies := []; sent := []; faults := [];
     store := emptyStore |}.

(** What [openSubscription] hands on for [subscriptionRequest] in
    [signup]. *)
Definition signupOpened : SubscriptionService.Opened :=
  {| SubscriptionService.paymentChannel := "AIRTEL";
     SubscriptionService.months := 1;
     SubscriptionService.country := "RW";
     SubscriptionService.currency := "RWF";
     SubscriptionService.transactionId := "SUB-5b2e8d5c-7a41-4c0e-9d3f-2f6a1b0c4e77";
     SubscriptionService.subscription := pendingSubscription |}.

(** ** What a run sends *)

(** A request that names a transaction names [referenceId]. *)
Definition namesOnly (referenceId : string) (req : Http.Request) : Prop :=
  forall id, assoc "X-Reference-Id" (Http.headers req) = Some id -> id = referenceId.

(** Since [w0], only requests that name no transaction but [referenceId]
    were sent. *)
Definition sentSince (w0 : World) (referenceId : string) (w : World) : Prop :=
  exists new, sent w = (sent w0 ++ new)%list /\ Forall (namesOnly referenceId) new.

(* ===================================================================== *)
(** * More of the code: configuration checks, status reports, controllers *)
(* ===================================================================== *)

(** ** config/paymentConfig.js: [validateConfig] *)

(** [config.payment.supportedCurrencies]. *)
Definition supportedCurrencies (e : list (string * string)) : list string :=
  splitOnComma (Config.envOr e "PAYMENT_SUPPORTED_CURRENCIES" "EUR,USD,XAF,XOF").

(** The list [errors] that [validateConfig()] builds. The configuration
    object and [process.env.MONGODB_URI] are read from the same
    environment. *)
Definition validateConfigErrors (e : list (string * string)) : list string :=
  let keys := Config.mtnSubscriptionKeys (Config.mtn e) in
  (PaymentDTO.check (negb (truthyS (assoc "MONGODB_URI" e))) "MONGODB_URI is required"
   ++ PaymentDTO.check (negb (truthyS (Some (collections keys))))
        "MTN_COLLECTIONS_KEY is required"
   ++ PaymentDTO.check (negb (truthyS (Some (disbursements keys))))
        "MTN_DISBURSEMENTS_KEY is required"
   ++ PaymentDTO.check (negb (truthyS (Config.airtelClientId (Config.airtel e))))
        "AIRTEL_CLIENT_ID is required"
   ++ PaymentDTO.check (negb (truthyS (Config.airtelClientSecret (Config.airtel e))))
        "AIRTEL_CLIENT_SECRET is required"
   ++ PaymentDTO.check (Z.leb (Config.maxAmount e) 0)
        "PAYMENT_MAX_AMOUNT must be greater than 0"
   ++ PaymentDTO.check (negb (includes (Config.defaultCurrency e) (supportedCurrencies e)))
        "PAYMENT_DEFAULT_CURRENCY must be in PAYMENT_SUPPORTED_CURRENCIES")%list.

(** [validateConfig()]. *)
Definition validateConfig : M unit :=
  e <- getProcessEnv ;;
  match validateConfigErrors e with
  | [] => ret tt
  | _ :: _ =>
      throwError ("Configuration validation failed: "
                    ++ String.concat ", " (validateConfigErrors e))
  end.

(** ** Vocabulary *)

(** The characters of [[0-9a-f]] under the flag [i]. *)
Definition hexAlphabet : list ascii := list_ascii_of_string "0123456789abcdefABCDEF".

(** A string of [n] hexadecimal digits. *)
Definition hexString (n : nat) (s : string) : Prop :=
  String.length s = n /\ Forall (fun c => In c hexAlphabet) (list_ascii_of_string s).

(** A string without a comma. *)
Definition noComma (s : string) : Prop :=
  ~ In ","%char (list_ascii_of_string s).

(** An optional message of at most 160 characters (UTF-16 units, as
    [.length] counts them). *)
Definition shortEnough (v : option string) : Prop :=
  forall s, v = Some s -> jsLength s <= 160.

(** A field of a request body that is absent or holds a string, and one
    that is absent or holds a number: the values the typed readings
    [asString] and [asNumber] take as the code takes them. *)
Definition textField (v : option Json) : Prop :=
  match v with
  | None | Some JNull | Some (JStr _) => True
  | Some _ => False
  end.

Definition numberField (v : option Json) : Prop :=
  match v with
  | None | Some JNull | Some (JNum _) => True
  | Some _ => False
  end.

(** A payment request whose fields have the types the API documents: an
    object with a numeric [amount] and strings elsewhere, in the body and in
    its [payer] and [payee]. *)
Definition typedRequest (data : Json) : Prop :=
  (exists fields, data = JObj fields) /\
  numberField (prop "amount" (Some data)) /\
  textField (prop "currency" (Some data)) /\
  textField (prop "externalId" (Some data)) /\
  textField (prop "payerMessage" (Some data)) /\
  textField (prop "payeeNote" (Some data)) /\
  textField (prop "referenceIdToRefund" (Some data)) /\
  textField (prop "partyIdType" (prop "payer" (Some data))) /\
  textField (prop "partyId" (prop "payer" (Some data))) /\
  textField (prop "partyIdType" (prop "payee" (Some data))) /\
  textField (prop "partyId" (prop "payee" (Some data))).

(** ** Sample worlds *)

(** A provider that answers the next request with a conflict. *)
Definition conflict409 : Http.Response :=
  {| Http.status := 409; Http.statusText := "Conflict"; Http.text := ""; Http.json := None |}.

Definition provisioningTwice : World :=
  {| now := 1700000000000; env := []; uuids := fun _ => "9f1c2d3e-0000-4000-8000-000000000002";
     drawn := 0; replies := [Http.Answered conflict409]; sent := [];
     faults := []; store := emptyStore |}.

(** The provider's answer to the creation of an API key: a 2xx response
    whose JSON body holds the key. *)
Definition KeyAnswer (r : Http.Response) (apiKey : string) : Prop :=
  Http.ok r = true /\
  exists answer, Http.json r = Some answer /\
    prop "apiKey" (Some answer) = Some (JStr apiKey).

Definition created201 : Http.Response :=
  {| Http.status := 201; Http.statusText := "Created"; Http.text := ""; Http.json := None |}.

Definition key201 : Http.Response :=
  {| Http.status := 201; Http.statusText := "Created"; Http.text := "";
     Http.json := Some (JObj [("apiKey", JStr "f1db798c98df4bcf83b538175893bbf0")]) |}.

(** A first start: no credential record, a provider that answers the four
    provisioning requests. *)
Definition firstStart : World :=
  {| now := 1700000000000; env := []; uuids := fun _ => "9f1c2d3e-0000-4000-8000-000000000002";
     drawn := 0;
     replies := [Http.Answered created201; Http.Answered key201;
                 Http.Answered (token200 "collection-token");
                 Http.Answered (token200 "disbursement-token")];
     sent := []; faults := []; store := emptyStore |}.

(** [w] holds the documents of [w0], collection by collection. *)
Definition documentsAs (w0 w : World) : Prop :=
  mtnUsers (store w) = mtnUsers (store w0) /\
  airtelUsers (store w) = airtelUsers (store w0) /\
  payments (store w) = payments (store w0) /\
  subscriptions (store w) = subscriptions (store w0) /\
  mtnCallbacks (store w) = mtnCallbacks (store w0) /\
  airtelCallbacks (store w) = airtelCallbacks (store w0).

(** [m] keeps [I] whenever it throws. *)
Definition throwsKeeping {A : Type} (I : World -> Prop) (m : M A) : Prop :=
  forall w e w', I w -> m w = (Throw e, w') -> I w'.

(** A provider that is down. *)
Definition providerOff : World :=
  {| now := 1700000000000; env := [("AIRTEL_CLIENT_ID", "client"); ("AIRTEL_CLIENT_SECRET", "secret")];
     uuids := fun _ => "9f1c2d3e-0000-4000-8000-000000000002";
     drawn := 0; replies := []; sent := []; faults := []; store := emptyStore |}.

(** Since [w0] the environment is what it was and only requests that
    satisfy [P] were sent. *)
Definition sentOnly (P : Http.Request -> Prop) (w0 w : World) : Prop :=
  env w = env w0 /\
  exists new, sent w = (sent w0 ++ new)%list /\ Forall P new.

(** A token request of the collection API. *)
Definition isCollectionTokenRequest (e : list (string * string)) (req : Http.Request) : Prop :=
  Http.method req = "POST" /\
  Http.url req = Config.mtnBaseURL (Config.mtn e) ++ "/collection/token/".

(** [checkout] without the callback URL in the environment. *)
Definition checkoutWithoutCallback : World :=
  {| now := now checkout; env := []; uuids := uuids checkout; drawn := drawn checkout;
     replies := replies checkout; sent := []; faults := []; store := store checkout |}.

(** The status request of a collection payment. *)
Definition collectionStatusRequest (cfg : Config.Mtn) (token : option string)
           (xReferenceId : string) : Http.Request :=
  {| Http.method := "GET";
     Http.url := Config.mtnBaseURL cfg ++ "/collection/v1_0/requesttopay/" ++ xReferenceId;
     Http.headers :=
       [("Authorization", "Bearer " ++ showS token);
        ("X-Target-Environment", "sandbox");
        ("Ocp-Apim-Subscription-Key", collections (Config.mtnSubscriptionKeys cfg))];
     Http.data := None |}.

(** The status a provider status settles a payment to, if it settles it. *)
Definition settledBy (mtnStatus : string) (before : string) : string :=
  if String.eqb mtnStatus "SUCCESSFUL" then "SUCCESSFUL"
  else if String.eqb mtnStatus "FAILED" then "FAILED"
  else before.

(** A credential record whose two tokens are good for an hour at the
    instant of the sample worlds. *)
Definition teller : MTNUser.t :=
  {| MTNUser._id := 0%nat;
     MTNUser.xReferenceId := "9f1c2d3e-0000-4000-8000-000000000001";
     MTNUser.apiKey := Some "secret";
     MTNUser.providerCallbackHost := "https://example.org";
     MTNUser.collectionToken := Some "collection-token";
     MTNUser.disbursementToken := Some "disbursement-token";
     MTNUser.collectionTokenExpiresAt := Some 1700003600000;
     MTNUser.disbursementTokenExpiresAt := Some 1700003600000;
     MTNUser.subscriptionKeys :=
       {| collectionWidget := "w"; collections := "c"; disbursements := "d";
          remittances := "r" |};
     MTNUser.isActive := true;
     MTNUser.usageStats := noUsage;
     MTNUser.createdAt := Some 1699990000000;
     MTNUser.updatedAt := Some 1699990000000 |}.

Definition successful200 : Http.Response :=
  {| Http.status := 200; Http.statusText := "OK"; Http.text := "";
     Http.json := Some (JObj [("status", JStr "SUCCESSFUL");
                              ("financialTransactionId", JStr "363440463")]) |}.

(** A pending collection payment, a credential record with fresh tokens and
    a provider that reports the payment as successful. *)
Definition statusDesk : World :=
  {| now := 1700000000000; env := []; uuids := fun _ => "";
     drawn := 0; replies := [Http.Answered successful200]; sent := [];
     faults := [];
     store := {| nextId := 2; mtnUsers := [teller]; airtelUsers := [];
                 payments := [paymentOf 1 "ref-1" 1699999500000]; subscriptions := [];
                 mtnCallbacks := []; airtelCallbacks := [] |} |}.

(** A subscription request for the MTN channel, in the default currency. *)
Definition mtnSubscriptionRequest : Json :=
  JObj [("userId", JStr "3f2b8c1e-5d4a-4b6f-9e0a-1c2d3e4f5a6b");
        ("amount", JNum 5000);
        ("numberOfMonths", JNum 1);
        ("msisdn", JStr "250780000000");
        ("paymentChannel", JStr "mtn")].

(** A deployment that supports RWF, with fresh MTN credentials and a
    provider that accepts the next request. *)
Definition mtnSignup : World :=
  {| now := 1700000000000;
     env := [("PAYMENT_SUPPORTED_CURRENCIES", "EUR,RWF")];
     uuids := fun n => if Nat.eqb n 0 then "5b2e8d5c-7a41-4c0e-9d3f-2f6a1b0c4e77"
                       else "00000000-0000-4000-8000-000000000000";
     drawn := 0;
     replies := [Http.Answered accepted202];
     sent := []; faults := [];
     store := {| nextId := 1; mtnUsers := [teller]; airtelUsers := [];
                 payments := []; subscriptions := [];
                 mtnCallbacks := []; airtelCallbacks := [] |} |}.


(** An Airtel service whose provider reports the transaction as successful
    at once. *)
Definition airtelAccepts (paymentData : Json) (country currency : string) : M Json :=
  ret (JObj [("data",
              JObj [("transaction",
                     JObj [("id", JStr "SUB-5b2e8d5c-7a41-4c0e-9d3f-2f6a1b0c4e77");
                           ("status", JStr "TS");
                           ("airtel_money_id", JStr "MP240101.1234.A00001")])]);
             ("status",
              JObj [("code", JStr "200"); ("response_code", JStr "DP00800001001");
                    ("success", JBool true)])]).

(** A store that refuses the next write and takes the ones after it. *)
Definition hiccup : World :=
  {| now := 1700000000000; env := []; uuids := fun _ => "";
     drawn := 0; replies := []; sent := [];
     faults := [Some "connection lost"]; store := emptyStore |}.

(** No credential record yet; the environment names the API user and its
    key, and the provider cannot be reached. *)
Definition coldStart : World :=
  {| now := 1700000000000;
     env := [("MTN_API_USER", "9f1c2d3e-0000-4000-8000-000000000001");
             ("MTN_API_KEY", "secret")];
     uuids := fun _ => ""; drawn := 0; replies := []; sent := [];
     faults := []; store := emptyStore |}.

(* ===================================================================== *)
(** * controllers/MTNPaymentController.js: [requestPayment]               *)
(* ===================================================================== *)

(** [s.includes(needle)]. *)
Fixpoint stringIncludes (needle s : string) : bool :=
  orb (String.prefix needle s)
      (match s with
       | EmptyString => false
       | String _ s' => stringIncludes needle s'
       end).

Module MTNPaymentEndpoint.

(** What [requestPayment] reads of the Express request: the body, the
    headers [x-target-environment] and [x-callback-url], and the query
    parameters [targetEnvironment] and [callbackUrl]. *)
Record Req := {
  body : option Json;
  targetEnvironmentHeader : option string;
  callbackUrlHeader : option string;
  targetEnvironmentQuery : option string;
  callbackUrlQuery : option string
}.

(** [new ErrorResponseDTO(error, message)] of dto/PaymentDTO.js, for an
    error made with [new Error], which has no [code] and no [details]: the
    services wrap what they catch in one. *)
Definition errorResponse (error : Error) (fallback : string) (t : Z) : Json :=
  JObj [("error",
         JObj [("code", JStr "UNKNOWN_ERROR");
               ("message", JStr (if String.eqb (message error) "" then fallback
                                 else message error));
               ("details", JNull)]);
        ("timestamp", JNum t)].

(** [new SuccessResponseDTO(data, message)]. *)
Definition successResponse (data : Json) (msg : string) (t : Z) : Json :=
  JObj [("success", JBool true); ("message", JStr msg); ("data", data);
        ("timestamp", JNum t)].

(** The object [requestPayment] of the service returns, as it is written
    into the answer. *)
Definition receiptJson (r : MTNPaymentService.Receipt) : Json :=
  JObj [("referenceId", JStr (MTNPaymentService.referenceId r));
        ("status", JNum (MTNPaymentService.status r));
        ("userId", JStr (MTNPaymentService.userId r));
        ("phoneNumber", JStr (MTNPaymentService.phoneNumber r));
        ("amount", JNum (MTNPaymentService.amount r));
        ("currency", JStr (MTNPaymentService.currency r));
        ("paymentId", JNum (Z.of_nat (MTNPaymentService.paymentId r)))].

(** [statusCode] of the [catch] block. *)
Definition errorStatus (error : Error) : Z :=
  if stringIncludes "Bad Request" (message error) then 400
  else if stringIncludes "Conflict" (message error) then 409
  else 500.

Definition validationError (msg : string) : M Res :=
  t <- getNow ;;
  ret {| statusCode := 400;
         payload := errorResponse (mkError msg) "Validation error" t |}.

Section Handler.

(** [this.paymentService.requestPayment], with [userId] and [phoneNumber]
    as the body carries them. *)
Variable paymentService :
  option Json -> option Json -> Z -> MTNPaymentService.Options
  -> M MTNPaymentService.Receipt.

(** [requestPayment(req, res)]. *)
Definition requestPayment (req : Req) : M Res :=
  tryCatch
    (match body req with
     | None =>
         throwError "Cannot destructure property 'userId' of 'req.body' as it is undefined."
     | Some JNull =>
         throwError "Cannot destructure property 'userId' of 'req.body' as it is null."
     | Some _ =>
         let userId := prop "userId" (body req) in
         let phoneNumber := prop "phoneNumber" (body req) in
         let amount := prop "amount" (body req) in
         if negb (andb (truthy userId) (andb (truthy phoneNumber) (truthy amount))) then
           validationError "Missing required fields: userId, phoneNumber, amount"
         else
           match amount with
           | Some (JNum n) =>
               if Z.leb n 0 then validationError "Amount must be a positive number"
               else
                 envTarget <- getEnv "MTN_TARGET_ENVIRONMENT" ;;
                 let options :=
                   {| MTNPaymentService.targetEnvironment :=
                        orS (targetEnvironmentHeader req)
                            (orS (targetEnvironmentQuery req)
                                 (orS envTarget (Some "mtnrwanda")));
                      MTNPaymentService.callbackUrl :=
                        orS (callbackUrlHeader req) (orS (callbackUrlQuery req) None) |} in
                 result <- paymentService userId phoneNumber n options ;;
                 t <- getNow ;;
                 ret {| statusCode := 202;
                        payload := successResponse (receiptJson result)
                                     "Payment request submitted successfully" t |}
           | _ => validationError "Amount must be a positive number"
           end
     end)
    (fun error =>
       t <- getNow ;;
       ret {| statusCode := errorStatus error;
              payload := errorResponse error "Failed to request payment" t |}).

End Handler.

(** What the body of the provider's refusal is taken to be in
    [requestToPay] of the collection service. *)
Definition refusalBody (r : Http.Response) : Json :=
  if String.eqb (Http.text r) "" then JObj []
  else match Http.json r with
       | Some j => j
       | None => JObj [("raw", JStr (Http.text r))]
       end.

(** The message [requestToPay] of the collection service throws with on a
    status other than 202, before the prefixes of the [catch] blocks. *)
Definition refusalMessage (r : Http.Response) : string :=
  if Z.eqb (Http.status r) 400 then "Bad Request: " ++ stringify (refusalBody r)
  else if Z.eqb (Http.status r) 409 then
    "Conflict - Reference ID already in use: " ++ stringify (refusalBody r)
  else if Z.eqb (Http.status r) 500 then
    "Internal Server Error: " ++ stringify (refusalBody r)
  else "Failed to request payment: " ++ showZ (Http.status r)
         ++ " " ++ stringify (refusalBody r).

End MTNPaymentEndpoint.

(** A request for five hundred francs from [user-1]. *)
Definition fiveHundred : MTNPaymentEndpoint.Req :=
  {| MTNPaymentEndpoint.body :=
       Some (JObj [("userId", JStr "user-1"); ("phoneNumber", JStr "250788000000");
                   ("amount", JNum 500)]);
     MTNPaymentEndpoint.targetEnvironmentHeader := None;
     MTNPaymentEndpoint.callbackUrlHeader := None;
     MTNPaymentEndpoint.targetEnvironmentQuery := None;
     MTNPaymentEndpoint.callbackUrlQuery := None |}.

(** The payment service as the controller calls it, for identifiers that
    are strings. *)
Definition paymentServiceOf
           (requestPayment : string -> string -> Z -> MTNPaymentService.Options
                             -> M MTNPaymentService.Receipt)
           (userId phoneNumber : option Json) : Z -> MTNPaymentService.Options
                                                -> M MTNPaymentService.Receipt :=
  requestPayment (jsString userId) (jsString phoneNumber).

(** The provider refuses the request: the reference is in use. *)
Definition refused409 : Http.Response :=
  {| Http.status := 409; Http.statusText := "Conflict";
     Http.text := "{}"; Http.json := Some (JObj []) |}.

(** [checkout] with a provider that refuses. *)
Definition checkoutRefused : World :=
  {| now := now checkout; env := env checkout; uuids := uuids checkout;
     drawn := 0; replies := [Http.Answered refused409]; sent := [];
     faults := []; store := store checkout |}.

(* ===================================================================== *)
(** * Reasoning about the effects                                       *)
(* ===================================================================== *)

(** ** Running the effects *)

Ltac mrun :=
  cbv beta iota zeta
      delta [bind ret tryCatch throw throwError getNow getEnv getProcessEnv
             mtnConfig airtelConfig responseJson].

Lemma storeOp_quiet (w : World) : faults w = [] -> storeOp w = (Ok tt, w).
Proof. intros H. unfold storeOp. rewrite H. reflexivity. Qed.

Lemma findOne_quiet {D : Type} `{Model D} (f : D -> bool) (w : World) :
  faults w = [] -> findOne f w = (Ok (find f (docs (store w))), w).
Proof. intros Hq. unfold findOne, bind. rewrite (storeOp_quiet w Hq). reflexivity. Qed.

Lemma findById_quiet {D : Type} `{Model D} (id : nat) (w : World) :
  faults w = [] -> findById id w = (Ok (stored id w), w).
Proof. intros Hq. unfold findById. apply findOne_quiet, Hq. Qed.

Lemma save_quiet {D : Type} `{Model D} (d : D) (w : World) :
  faults w = [] -> errorsOf d = [] ->
  save d w = (Ok (stampOf (now w) d),
              withStore (setDocs (upsert (stampOf (now w) d) (docs (store w))) (store w)) w).
Proof.
  intros Hq Hvalid. unfold save, bind. rewrite Hvalid, (storeOp_quiet w Hq). reflexivity.
Qed.

(** A document the schema refuses is not written, whatever the database
    would have done. *)
Lemma save_refused {D : Type} `{Model D} (d : D) (w : World) :
  errorsOf d <> [] ->
  save d w = (Throw (mkError (@validationFailed D _ (errorsOf d))), w).
Proof.
  intros Hbad. unfold save. destruct (errorsOf d) as [|e es]; [contradiction|reflexivity].
Qed.

(** A save that returns has written a document the schema accepts. *)
Lemma save_Ok_inv {D : Type} `{Model D} (d d' : D) (w w' : World) :
  save d w = (Ok d', w') ->
  errorsOf d = [] /\
  exists w1, storeOp w = (Ok tt, w1) /\
    d' = stampOf (now w1) d /\
    w' = withStore (setDocs (upsert d' (docs (store w1))) (store w1)) w1.
Proof.
  unfold save. destruct (errorsOf d) as [|e es]; [|discriminate].
  unfold bind. destruct (storeOp w) as [[[]|e] w1]; [|discriminate].
  intros E. injection E as <- <-. split; [reflexivity|].
  exists w1. repeat split.
Qed.

Lemma saveCast_Ok_inv {D : Type} `{Model D} (uncast : list string) (d d' : D)
      (w w' : World) :
  saveCast uncast d w = (Ok d', w') -> uncast = [] /\ save d w = (Ok d', w').
Proof. unfold saveCast. destruct uncast; [auto|discriminate]. Qed.

Lemma find_upsert {D : Type} `{Model D} (d : D) (l : list D) :
  find (fun x => Nat.eqb (idOf x) (idOf d)) (upsert d l) = Some d.
Proof.
  unfold upsert.
  destruct (existsb (fun x => Nat.eqb (idOf x) (idOf d)) l) eqn:Hex.
  - induction l as [|x l IH]; [discriminate|].
    cbn in Hex |- *. destruct (Nat.eqb (idOf x) (idOf d)) eqn:Hx.
    + cbn. rewrite Nat.eqb_refl. reflexivity.
    + cbn. rewrite Hx. cbn in Hex. auto.
  - induction l as [|x l IH]; cbn.
    + rewrite Nat.eqb_refl. reflexivity.
    + cbn in Hex. apply orb_false_iff in Hex as [Hx Hl].
      rewrite Hx. auto.
Qed.

Lemma fetch_answered (req : Http.Request) (w : World) (r : Http.Response)
      (rest : list Http.Reply) :
  replies w = Http.Answered r :: rest ->
  fetch req w = (Ok r, withExchange rest req w).
Proof. intros H. unfold fetch, bind, exchange. rewrite H. reflexivity. Qed.

Lemma axios_answered (req : Http.Request) (w : World) (r : Http.Response)
      (rest : list Http.Reply) :
  replies w = Http.Answered r :: rest -> Http.ok r = true ->
  axios req w = (Ok r, withExchange rest req w).
Proof. intros H Hok. unfold axios, bind, exchange. rewrite H, Hok. reflexivity. Qed.

Lemma member_present (k : string) (b v : Json) :
  prop k (Some b) = Some v -> member k (Some b) = ret (Some v).
Proof. destruct b; cbn; intros H; try discriminate. rewrite H. reflexivity. Qed.


Lemma create_run {D : Type} (make : nat -> D) (w : World) :
  create make w
  = (Ok (make (nextId (store w))),
     withStore {| nextId := S (nextId (store w)); mtnUsers := mtnUsers (store w);
                  airtelUsers := airtelUsers (store w);
                  payments := payments (store w);
                  subscriptions := subscriptions (store w);
                  mtnCallbacks := mtnCallbacks (store w);
                  airtelCallbacks := airtelCallbacks (store w) |} w).
Proof. reflexivity. Qed.

Lemma storeOp_accepted (w : World) :
  storeAccepts w -> exists w1, storeOp w = (Ok tt, w1) /\ now w1 = now w /\ store w1 = store w.
Proof.
  unfold storeAccepts, storeOp.
  destruct (faults w) as [|[msg|] rest]; cbn; try discriminate; intros _;
    eexists; repeat split.
Qed.

Lemma save_subscription_accepted (s : Subscription.t) (w : World) :
  storeAccepts w -> Subscription.validationErrors s = [] ->
  exists w1,
    save s w = (Ok (Subscription.stamp (now w) s), w1) /\
    stored (Subscription._id s) w1 = Some (Subscription.stamp (now w) s).
Proof.
  intros Hacc Hvalid. revert Hacc.
  unfold storeAccepts, save. cbn [errorsOf SubscriptionModel]. rewrite Hvalid.
  unfold bind, storeOp.
  destruct (faults w) as [|[msg|] rest]; cbn [fst]; try discriminate; intros _;
    eexists; (split; [reflexivity|]); unfold stored;
    cbn [store withStore withFaults docs setDocs SubscriptionModel subscriptions now];
    change (Subscription._id s) with (idOf (stampOf (now w) s));
    apply find_upsert.
Qed.

(** ** Reading a run backwards *)

Lemma bind_Ok_inv {A B : Type} (m : M A) (k : A -> M B) (w w' : World) (b : B) :
  bind m k w = (Ok b, w') ->
  exists a w1, m w = (Ok a, w1) /\ k a w1 = (Ok b, w').
Proof.
  unfold bind. destruct (m w) as [[a|e] w1]; [|discriminate].
  intros H. exists a, w1. split; [reflexivity|exact H].
Qed.

Lemma tryCatch_rethrow_Ok_inv {A : Type} (m : M A) (f : Error -> string)
      (w w' : World) (a : A) :
  tryCatch m (fun error => throwError (f error)) w = (Ok a, w') ->
  m w = (Ok a, w').
Proof.
  unfold tryCatch. destruct (m w) as [[a'|e] w1]; [trivial|].
  unfold throwError, throw. discriminate.
Qed.

(** A handler that rethrows under another message. *)
Lemma tryCatch_rethrow_Throw_inv {A : Type} (m : M A) (f : Error -> string)
      (w w' : World) (e : Error) :
  tryCatch m (fun error => throwError (f error)) w = (Throw e, w') ->
  exists e0, m w = (Throw e0, w') /\ e = mkError (f e0).
Proof.
  unfold tryCatch. destruct (m w) as [[a|e0] w1]; [discriminate|].
  unfold throwError, throw. intros E. injection E as <- <-. now exists e0.
Qed.

(** A document the schema refuses is not saved. *)
Lemma hoare_save_refused {D : Type} `{Model D} (I : World -> Prop) (d : D) :
  errorsOf d <> [] -> hoare I (save d) (fun _ => False).
Proof.
  intros Hrefused. unfold save.
  destruct (errorsOf d); [contradiction|].
  intros w HI. split; [exact HI|]. cbn. discriminate.
Qed.

Lemma append_inv_head (s a b : string) : s ++ a = s ++ b -> a = b.
Proof.
  induction s as [|c s IH]; cbn; [trivial|].
  intros E. injection E as E. apply IH, E.
Qed.

(** ** Required paths *)

Lemma requiredString_set (path s : string) : s <> "" -> requiredString path (Some s) = [].
Proof.
  intros Hs. unfold requiredString. cbn [truthyS].
  rewrite (proj2 (String.eqb_neq s "") Hs). reflexivity.
Qed.

Lemma envOr_nonempty (e : list (string * string)) (name fallback : string) :
  fallback <> "" -> Config.envOr e name fallback <> "".
Proof.
  intros Hf. unfold Config.envOr. destruct (assoc name e) as [v|]; [|exact Hf].
  destruct (String.eqb_spec v ""); assumption.
Qed.

Lemma storeOp_sent (w : World) : sent (snd (storeOp w)) = sent w.
Proof. unfold storeOp. destruct (faults w) as [|[msg|] rest]; reflexivity. Qed.

Lemma save_sent {D : Type} `{Model D} (d : D) (w : World) :
  sent (snd (save d w)) = sent w.
Proof.
  unfold save. destruct (errorsOf d); [|reflexivity].
  unfold bind. rewrite <- (storeOp_sent w).
  destruct (storeOp w) as [[[]|e] w1]; reflexivity.
Qed.

(** ** Rules for [hoare] *)

Lemma hoare_ret {A : Type} (I : World -> Prop) (a : A) (Q : A -> Prop) :
  Q a -> hoare I (ret a) Q.
Proof. intros HQ w HI. split; [exact HI|]. cbn. intros a' E. injection E as <-. exact HQ. Qed.

Lemma hoare_throw {A : Type} (I : World -> Prop) (e : Error) (Q : A -> Prop) :
  hoare I (throw e) Q.
Proof. intros w HI. split; [exact HI|]. cbn. discriminate. Qed.

Lemma hoare_throwError {A : Type} (I : World -> Prop) (msg : string) (Q : A -> Prop) :
  hoare I (throwError msg) Q.
Proof. apply hoare_throw. Qed.

Lemma hoare_bind {A B : Type} (I : World -> Prop) (m : M A) (k : A -> M B)
      (P : A -> Prop) (Q : B -> Prop) :
  hoare I m P -> (forall a, P a -> hoare I (k a) Q) -> hoare I (bind m k) Q.
Proof.
  intros Hm Hk w HI. unfold bind.
  destruct (Hm w HI) as [HI' HP].
  destruct (m w) as [[a|e] w']; cbn in *.
  - apply (Hk a (HP a eq_refl) w' HI').
  - split; [exact HI'|discriminate].
Qed.

Lemma hoare_tryCatch {A : Type} (I : World -> Prop) (m : M A) (h : Error -> M A)
      (Q : A -> Prop) :
  hoare I m Q -> (forall e, hoare I (h e) Q) -> hoare I (tryCatch m h) Q.
Proof.
  intros Hm Hh w HI. unfold tryCatch.
  destruct (Hm w HI) as [HI' HQ].
  destruct (m w) as [[a|e] w']; cbn in *.
  - split; [exact HI'|]. intros a' E. apply HQ, E.
  - apply (Hh e w' HI').
Qed.

Lemma hoare_weaken {A : Type} (I : World -> Prop) (m : M A) (P Q : A -> Prop) :
  hoare I m P -> (forall a, P a -> Q a) -> hoare I m Q.
Proof.
  intros Hm HPQ w HI. destruct (Hm w HI) as [HI' HP].
  split; [exact HI'|]. intros a E. apply HPQ, HP, E.
Qed.

(** An effect that leaves the documents as they are keeps every property
    of the documents. *)
Lemma hoare_read {A : Type} (I : World -> Prop) (m : M A) :
  (forall w, I w -> I (snd (m w))) -> hoare I m (fun _ => True).
Proof. intros H w HI. split; [apply H, HI|trivial]. Qed.

(** ** What an effect returns, whatever it does to the world *)

Lemma returns_any {A : Type} (m : M A) : returns m (fun _ => True).
Proof. intros w _. split; trivial. Qed.

Lemma returns_run {A : Type} (m : M A) (Q : A -> Prop) (w w' : World) (a : A) :
  returns m Q -> m w = (Ok a, w') -> Q a.
Proof. intros H E. destruct (H w I) as [_ HQ]. apply HQ. rewrite E. reflexivity. Qed.

(** ** Effects that never throw *)

Lemma total_ret {A : Type} (a : A) : total (ret a).
Proof. intros w. exists a, w. reflexivity. Qed.

Lemma total_bind {A B : Type} (m : M A) (k : A -> M B) :
  total m -> (forall a, total (k a)) -> total (bind m k).
Proof.
  intros Hm Hk w. unfold bind. destruct (Hm w) as (a & w' & ->). apply Hk.
Qed.

Lemma total_tryCatch {A : Type} (m : M A) (h : Error -> M A) :
  (forall e, total (h e)) -> total (tryCatch m h).
Proof.
  intros Hh w. unfold tryCatch. destruct (m w) as [[a|e] w'].
  - exists a, w'. reflexivity.
  - apply Hh.
Qed.

(** ** What the primitive effects keep *)

Lemma hoare_pure {A : Type} (I : World -> Prop) (m : M A) :
  (forall w, snd (m w) = w) -> hoare I m (fun _ => True).
Proof. intros H w HI. rewrite H. split; trivial. Qed.

Lemma hoare_getNow (I : World -> Prop) : hoare I getNow (fun _ => True).
Proof. apply hoare_pure. reflexivity. Qed.

Lemma hoare_getEnv (I : World -> Prop) (name : string) : hoare I (getEnv name) (fun _ => True).
Proof. apply hoare_pure. reflexivity. Qed.

Lemma hoare_getProcessEnv (I : World -> Prop) : hoare I getProcessEnv (fun _ => True).
Proof. apply hoare_pure. reflexivity. Qed.

Lemma hoare_mtnConfig (I : World -> Prop) : hoare I mtnConfig (fun _ => True).
Proof. apply hoare_pure. reflexivity. Qed.

Lemma hoare_airtelConfig (I : World -> Prop) : hoare I airtelConfig (fun _ => True).
Proof. apply hoare_pure. reflexivity. Qed.

Lemma hoare_responseJson (I : World -> Prop) (r : Http.Response) :
  hoare I (responseJson r) (fun _ => True).
Proof. apply hoare_pure. intros w. unfold responseJson. destruct (Http.json r); reflexivity. Qed.

Lemma hoare_member (I : World -> Prop) (k : string) (v : option Json) :
  hoare I (member k v) (fun _ => True).
Proof. apply hoare_pure. intros w. destruct v as [[]|]; reflexivity. Qed.

Lemma hoare_castString (I : World -> Prop) (v : option Json) :
  hoare I (castString v) (fun _ => True).
Proof.
  apply hoare_pure. intros w. unfold castString.
  destruct (castToString v); reflexivity.
Qed.

Lemma hoare_storeOp (I : World -> Prop) :
  FaultFree I -> hoare I storeOp (fun _ => True).
Proof.
  intros HF w HI. unfold storeOp.
  destruct (faults w) as [|[msg|] rest]; cbn; split; trivial; apply HF, HI.
Qed.

Lemma hoare_findOne {D : Type} `{Model D} (I : World -> Prop) (f : D -> bool) :
  FaultFree I -> hoare I (findOne f) (fun _ => True).
Proof.
  intros HF. unfold findOne.
  apply hoare_bind with (P := fun _ => True); [apply hoare_storeOp, HF|].
  intros _ _. apply hoare_pure. reflexivity.
Qed.

Lemma hoare_findById {D : Type} `{Model D} (I : World -> Prop) (id : nat) :
  FaultFree I -> hoare I (findById id) (fun _ => True).
Proof. apply hoare_findOne. Qed.

Lemma hoare_findLatest {D : Type} `{Model D} (I : World -> Prop) (f : D -> bool)
      (key : D -> option Z) :
  FaultFree I -> hoare I (findLatest f key) (fun _ => True).
Proof.
  intros HF. unfold findLatest.
  apply hoare_bind with (P := fun _ => True); [apply hoare_storeOp, HF|].
  intros _ _. apply hoare_pure. reflexivity.
Qed.

Lemma hoare_exchange (I : World -> Prop) (req : Http.Request) :
  ExchangeFree I -> hoare I (exchange req) (fun _ => True).
Proof.
  intros HE w HI. unfold exchange.
  destruct (replies w); cbn; split; trivial; apply HE, HI.
Qed.

Lemma hoare_axios (I : World -> Prop) (req : Http.Request) :
  ExchangeFree I -> hoare I (axios req) (fun _ => True).
Proof.
  intros HE. unfold axios.
  apply hoare_bind with (P := fun _ => True); [apply hoare_exchange, HE|].
  intros [r|msg] _.
  - destruct (Http.ok r); [apply hoare_ret; trivial|apply hoare_throw].
  - apply hoare_throwError.
Qed.

Lemma hoare_fetch (I : World -> Prop) (req : Http.Request) :
  ExchangeFree I -> hoare I (fetch req) (fun _ => True).
Proof.
  intros HE. unfold fetch.
  apply hoare_bind with (P := fun _ => True); [apply hoare_exchange, HE|].
  intros [r|msg] _; [apply hoare_ret; trivial|apply hoare_throwError].
Qed.

Lemma hoare_delay (I : World -> Prop) (ms : Z) :
  NowFree I -> hoare I (delay ms) (fun _ => True).
Proof. intros HN w HI. split; [apply HN, HI|trivial]. Qed.

Lemma hoare_randomUUID (I : World -> Prop) :
  DrawFree I -> hoare I randomUUID (fun _ => True).
Proof. intros HD w HI. split; [apply HD, HI|trivial]. Qed.

Lemma hoare_create {D : Type} (I : World -> Prop) (make : nat -> D) :
  CreateFree I -> hoare I (create make) (fun d => exists id, d = make id).
Proof.
  intros HC w HI. split; [apply HC, HI|].
  cbn. intros d E. injection E as <-. eexists. reflexivity.
Qed.

(** [save d] keeps [I] when storing the stamped [d] does; only a document
    the schema accepts is stored. *)
Lemma hoare_save_valid {D : Type} `{Model D} (I : World -> Prop) (d : D) :
  FaultFree I ->
  (errorsOf d = [] ->
   forall t w, I w ->
     I (withStore (setDocs (upsert (stampOf t d) (docs (store w))) (store w)) w)) ->
  hoare I (save d) (fun d' => errorsOf d = [] /\ exists t, d' = stampOf t d).
Proof.
  intros HF HS. unfold save.
  destruct (errorsOf d) as [|e es] eqn:Hvalid; [|apply hoare_throwError].
  apply hoare_bind with (P := fun _ => True); [apply hoare_storeOp, HF|].
  intros _ _ w HI. split; [apply HS; [reflexivity|exact HI]|].
  cbn. intros d' E. injection E as <-. split; [reflexivity|]. eexists. reflexivity.
Qed.

Lemma hoare_save {D : Type} `{Model D} (I : World -> Prop) (d : D) :
  FaultFree I ->
  (forall t w, I w -> I (withStore (setDocs (upsert (stampOf t d) (docs (store w))) (store w)) w)) ->
  hoare I (save d) (fun d' => exists t, d' = stampOf t d).
Proof.
  intros HF HS. eapply hoare_weaken.
  - apply hoare_save_valid; [exact HF|]. intros _. exact HS.
  - intros d' [_ Hd]. exact Hd.
Qed.

Lemma hoare_saveCast {D : Type} `{Model D} (I : World -> Prop) (uncast : list string)
      (d : D) :
  FaultFree I ->
  (errorsOf d = [] ->
   forall t w, I w ->
     I (withStore (setDocs (upsert (stampOf t d) (docs (store w))) (store w)) w)) ->
  hoare I (saveCast uncast d) (fun d' => errorsOf d = [] /\ exists t, d' = stampOf t d).
Proof.
  intros HF HS. unfold saveCast.
  destruct uncast; [apply hoare_save_valid; assumption | apply hoare_throwError].
Qed.

Lemma hoare_deleteMany {D : Type} `{Model D} (I : World -> Prop) :
  FaultFree I ->
  (forall w, I w -> I (withStore (setDocs (@nil D) (store w)) w)) ->
  hoare I (@deleteMany D _) (fun _ => True).
Proof.
  intros HF HS. unfold deleteMany.
  apply hoare_bind with (P := fun _ => True); [apply hoare_storeOp, HF|].
  intros _ _ w HI. split; [apply HS, HI|trivial].
Qed.

Lemma StoreFree_CreateFree (I : World -> Prop) : StoreFree I -> CreateFree I.
Proof. intros HS w HI. apply HS, HI. Qed.

(** ** Walking through a method *)

Create HintDb frees discriminated.

Ltac free := solve [eauto with frees].

(** One leaf: a primitive effect, with what it keeps to be shown. *)
Ltac hoare_leaf :=
  first
    [ apply hoare_ret
    | apply hoare_throw
    | apply hoare_throwError
    | apply hoare_getNow
    | apply hoare_getEnv
    | apply hoare_getProcessEnv
    | apply hoare_mtnConfig
    | apply hoare_airtelConfig
    | apply hoare_responseJson
    | apply hoare_member
    | apply hoare_castString
    | apply hoare_storeOp
    | apply hoare_findOne
    | apply hoare_findById
    | apply hoare_findLatest
    | apply hoare_exchange
    | apply hoare_axios
    | apply hoare_fetch
    | apply hoare_delay
    | apply hoare_randomUUID
    | apply hoare_create
    | apply hoare_save
    | apply hoare_deleteMany ].

Ltac settle_post :=
  lazymatch goal with
  | |- @hoare ?A _ _ ?Q => tryif is_evar Q then unify Q (fun _ : A => True) else idtac
  end.

Lemma hoare_ret_eq {A : Type} (I : World -> Prop) (a : A) :
  hoare I (ret a) (fun x => x = a).
Proof. apply hoare_ret. reflexivity. Qed.

Ltac hoare_step_with leaf unf :=
  lazymatch goal with
  | |- hoare _ (throw _) _ => settle_post; apply hoare_throw
  | |- hoare _ (throwError _) _ => settle_post; apply hoare_throwError
  | |- hoare _ (ret _) ?Q =>
      tryif is_evar Q
      then first [ apply hoare_ret_eq | settle_post; apply hoare_ret; exact I ]
      else apply hoare_ret
  | |- hoare _ (bind _ _) _ => eapply hoare_bind; [ | intros ? ? ]
  | |- hoare _ (tryCatch _ _) _ => settle_post; apply hoare_tryCatch; [ | intros ? ]
  | |- hoare _ (match ?x with _ => _ end) _ => settle_post; destruct x eqn:?
  | |- hoare _ (let _ := _ in _) _ => cbv zeta
  | |- hoare _ _ ?Q =>
      first
        [ tryif is_evar Q
          then first [ leaf
                     | settle_post; eapply hoare_weaken; [leaf | intros; exact I] ]
          else (eapply hoare_weaken; [leaf | cbv beta])
        | unf ]
  end.

Ltac hoare_walk_with leaf unf := repeat (hoare_step_with leaf unf).

Ltac hoare_walk unf := hoare_walk_with hoare_leaf unf.

Lemma kept {A : Type} (I : World -> Prop) (m : M A) (Q : A -> Prop)
      (w w' : World) (r : Result A) :
  hoare I m Q -> I w -> m w = (r, w') -> I w'.
Proof. intros H HI E. destruct (H w HI) as [HI' _]. rewrite E in HI'. exact HI'. Qed.

(* ===================================================================== *)
(** * C1. The token cache                                               *)
(* ===================================================================== *)

Lemma fresh_usable (u : MTNUser.t) (t : Z) :
  Fresh (MTNUser.collectionToken u) (MTNUser.collectionTokenExpiresAt u)
        MTNCollectionService.refreshThreshold t <->
  MTNCollectionService.cachedTokenUsable u t = true.
Proof.
  unfold Fresh, MTNCollectionService.cachedTokenUsable. split.
  - intros (Htok & e & He & Hlt). rewrite Htok, He. cbn. apply Z.ltb_lt. exact Hlt.
  - intros H. apply andb_true_iff in H as [Htok He]. split; [exact Htok|].
    destruct (MTNUser.collectionTokenExpiresAt u) as [e|]; [|discriminate].
    exists e. split; [reflexivity|]. apply Z.ltb_lt. exact He.
Qed.

Lemma collection_getValidToken_cached (w : World) (u : MTNUser.t) :
  faults w = [] ->
  find MTNUser.isActive (mtnUsers (store w)) = Some u ->
  Fresh (MTNUser.collectionToken u) (MTNUser.collectionTokenExpiresAt u)
        MTNCollectionService.refreshThreshold (now w) ->
  MTNCollectionService.getValidToken w = (Ok (MTNUser.collectionToken u), w).
Proof.
  intros Hq Hfind Hfresh. apply fresh_usable in Hfresh.
  unfold MTNCollectionService.getValidToken, MTNCollectionService.getMTNUser,
    tryCatch, bind, mtnConfig.
  rewrite (findOne_quiet _ w Hq). cbn [docs MTNUserModel]. rewrite Hfind.
  cbn. rewrite Hfresh. reflexivity.
Qed.

Lemma app_nil_l_inv {A : Type} (l1 l2 : list A) : (l1 ++ l2)%list = [] -> l1 = [].
Proof. destruct l1; [reflexivity|discriminate]. Qed.

Lemma collection_getValidToken_refresh (w : World) (u : MTNUser.t)
      (r : Http.Response) (rest : list Http.Reply) (answer : Json) (token : string)
      (expiresIn : option Z) :
  faults w = [] ->
  find MTNUser.isActive (mtnUsers (store w)) = Some u ->
  MTNUser.validationErrors u = [] ->
  ~ Fresh (MTNUser.collectionToken u) (MTNUser.collectionTokenExpiresAt u)
          MTNCollectionService.refreshThreshold (now w) ->
  replies w = Http.Answered r :: rest ->
  Http.ok r = true ->
  Http.json r = Some answer ->
  prop "access_token" (Some answer) = Some (JStr token) ->
  prop "expires_in" (Some answer) = option_map JNum expiresIn ->
  exists w' key d,
    MTNCollectionService.getValidToken w = (Ok (Some token), w') /\
    sent w' = (sent w ++ [MTNCollectionService.tokenRequest
                            (Config.mtnBaseURL (Config.mtn (env w))) key
                            (MTNUser.xReferenceId u) (MTNUser.apiKey u)])%list /\
    replies w' = rest /\
    stored (MTNUser._id u) w' = Some d /\
    MTNUser.collectionToken d = Some token /\
    MTNUser.collectionTokenExpiresAt d
    = Some (now w + collectionLifetime expiresIn * 1000).
Proof.
  intros Hq Hfind Hvalid Hstale Hreplies Hok Hjson Htoken Hexp.
  assert (Hnot : MTNCollectionService.cachedTokenUsable u (now w) = false).
  { destruct (MTNCollectionService.cachedTokenUsable u (now w)) eqn:E; [|reflexivity].
    exfalso. apply Hstale, fresh_usable, E. }
  eexists. eexists. eexists.
  unfold MTNCollectionService.getValidToken, MTNCollectionService.getMTNUser,
    MTNCollectionService.getToken, MTNCollectionService.subscriptionKey,
    updateCollectionToken.
  mrun. rewrite (findOne_quiet _ w Hq). cbn [docs MTNUserModel]. rewrite Hfind.
  mrun. rewrite Hnot.
  erewrite fetch_answered by exact Hreplies.
  rewrite Hjson. mrun. rewrite Hok. cbn [negb].
  rewrite (member_present _ _ _ Htoken). mrun. cbn [asString].
  rewrite Hexp.
  match goal with
  | |- context [save ?d] =>
      rewrite (save_quiet d) by first [exact Hq | exact Hvalid]
  end.
  cbn [now withExchange withStore sent replies store fst snd].
  split; [reflexivity|]. split; [reflexivity|]. split; [reflexivity|].
  unfold stored. cbn [store withStore docs setDocs MTNUserModel mtnUsers].
  split.
  - match goal with
    | |- find _ (upsert ?d _) = _ => change (MTNUser._id u) with (idOf d)
    end.
    apply find_upsert.
  - split; [reflexivity|].
    destruct expiresIn as [n|]; cbn; [destruct (Z.eqb n 0)|]; reflexivity.
Qed.

Lemma fresh_collection_not_due (u : MTNUser.t) (t : Z) :
  Fresh (MTNUser.collectionToken u) (MTNUser.collectionTokenExpiresAt u)
        MTNAuthService.refreshThreshold t <->
  MTNAuthService.collectionRefreshDue u t = false.
Proof.
  unfold Fresh, MTNAuthService.collectionRefreshDue, MTNUser.collectionTokenValid,
    MTNAuthService.refreshThreshold.
  split.
  - intros (Htok & e & He & Hlt). rewrite Htok, He. cbn [andb negb orb].
    destruct (Z.ltb_spec t e); [|lia]. destruct (Z.leb_spec (e - 5 * 60 * 1000) t); [lia|].
    reflexivity.
  - intros H. apply orb_false_iff in H as [Hvalid Hdue].
    apply negb_false_iff, andb_true_iff in Hvalid as [Htok Hexp].
    split; [exact Htok|].
    destruct (MTNUser.collectionTokenExpiresAt u) as [e|]; [|discriminate].
    exists e. split; [reflexivity|]. apply Z.leb_gt in Hdue. exact Hdue.
Qed.

Lemma fresh_disbursement_not_due (u : MTNUser.t) (t : Z) :
  Fresh (MTNUser.disbursementToken u) (MTNUser.disbursementTokenExpiresAt u)
        MTNAuthService.refreshThreshold t <->
  MTNAuthService.disbursementRefreshDue u t = false.
Proof.
  unfold Fresh, MTNAuthService.disbursementRefreshDue, MTNUser.disbursementTokenValid,
    MTNAuthService.refreshThreshold.
  split.
  - intros (Htok & e & He & Hlt). rewrite Htok, He. cbn [andb negb orb].
    destruct (Z.ltb_spec t e); [|lia]. destruct (Z.leb_spec (e - 5 * 60 * 1000) t); [lia|].
    reflexivity.
  - intros H. apply orb_false_iff in H as [Hvalid Hdue].
    apply negb_false_iff, andb_true_iff in Hvalid as [Htok Hexp].
    split; [exact Htok|].
    destruct (MTNUser.disbursementTokenExpiresAt u) as [e|]; [|discriminate].
    exists e. split; [reflexivity|]. apply Z.leb_gt in Hdue. exact Hdue.
Qed.

Lemma fresh_airtel_not_due (u : AirtelUser.t) (t : Z) :
  Fresh (AirtelUser.accessToken u) (AirtelUser.tokenExpiresAt u)
        AirtelAuthService.refreshThreshold t <->
  AirtelAuthService.refreshDue u t = false.
Proof.
  unfold Fresh, AirtelAuthService.refreshDue, AirtelUser.tokenValid,
    AirtelAuthService.refreshThreshold.
  split.
  - intros (Htok & e & He & Hlt). rewrite Htok, He. cbn [andb negb orb].
    destruct (Z.ltb_spec t e); [|lia]. destruct (Z.leb_spec (e - 5 * 60 * 1000) t); [lia|].
    reflexivity.
  - intros H. apply orb_false_iff in H as [Hvalid Hdue].
    apply negb_false_iff, andb_true_iff in Hvalid as [Htok Hexp].
    split; [exact Htok|].
    destruct (AirtelUser.tokenExpiresAt u) as [e|]; [|discriminate].
    exists e. split; [reflexivity|]. apply Z.leb_gt in Hdue. exact Hdue.
Qed.

Lemma not_false_true (b : bool) : b <> false -> b = true.
Proof. destruct b; congruence. Qed.

Lemma auth_initialize_cached (w : World) (u : MTNUser.t) :
  faults w = [] ->
  find MTNUser.isActive (mtnUsers (store w)) = Some u ->
  stored (MTNUser._id u) w = Some u ->
  Fresh (MTNUser.collectionToken u) (MTNUser.collectionTokenExpiresAt u)
        MTNAuthService.refreshThreshold (now w) ->
  Fresh (MTNUser.disbursementToken u) (MTNUser.disbursementTokenExpiresAt u)
        MTNAuthService.refreshThreshold (now w) ->
  MTNAuthService.initializeMTNUser w = (Ok (Some u), w).
Proof.
  intros Hq Hfind Hid Hc Hd.
  apply fresh_collection_not_due in Hc. apply fresh_disbursement_not_due in Hd.
  unfold MTNAuthService.initializeMTNUser, MTNAuthService.refreshTokensIfNeeded.
  mrun. rewrite (findOne_quiet _ w Hq). cbn [docs MTNUserModel]. rewrite Hfind.
  mrun. rewrite Hc. mrun. rewrite Hd. mrun.
  rewrite (findById_quiet _ w Hq), Hid. reflexivity.
Qed.

Lemma auth_initialize_refresh_collection (w : World) (u : MTNUser.t)
      (r : Http.Response) (rest : list Http.Reply) (token : string) (expiresIn : Z) :
  faults w = [] ->
  find MTNUser.isActive (mtnUsers (store w)) = Some u ->
  MTNUser.validationErrors u = [] ->
  ~ Fresh (MTNUser.collectionToken u) (MTNUser.collectionTokenExpiresAt u)
          MTNAuthService.refreshThreshold (now w) ->
  Fresh (MTNUser.disbursementToken u) (MTNUser.disbursementTokenExpiresAt u)
        MTNAuthService.refreshThreshold (now w) ->
  replies w = Http.Answered r :: rest ->
  TokenAnswer r token expiresIn ->
  exists w' d,
    MTNAuthService.initializeMTNUser w = (Ok (Some d), w') /\
    sent w' = (sent w ++ [MTNAuthService.collectionTokenRequest
                            (Config.mtn (env w))
                            (MTNUser.xReferenceId u) (MTNUser.apiKey u)])%list /\
    replies w' = rest /\
    stored (MTNUser._id u) w' = Some d /\
    MTNUser.collectionToken d = Some token /\
    MTNUser.collectionTokenExpiresAt d = Some (now w + expiresIn * 1000) /\
    MTNUser.disbursementToken d = MTNUser.disbursementToken u /\
    MTNUser.disbursementTokenExpiresAt d = MTNUser.disbursementTokenExpiresAt u.
Proof.
  intros Hq Hfind Hvalid Hc Hd Hreplies (Hok & answer & Hjson & Htoken & Hexp).
  assert (Hdue : MTNAuthService.collectionRefreshDue u (now w) = true).
  { apply not_false_true. intros E. apply Hc, fresh_collection_not_due, E. }
  apply fresh_disbursement_not_due in Hd.
  assert (Hbody : Http.body r = answer) by (unfold Http.body; rewrite Hjson; reflexivity).
  eexists. eexists.
  unfold MTNAuthService.initializeMTNUser, MTNAuthService.refreshTokensIfNeeded,
    MTNAuthService.createCollectionToken, updateCollectionToken.
  mrun. rewrite (findOne_quiet _ w Hq). cbn [docs MTNUserModel]. rewrite Hfind.
  mrun. rewrite Hdue.
  erewrite axios_answered by eassumption.
  mrun. rewrite Hbody. rewrite (member_present _ _ _ Htoken). mrun.
  rewrite Hexp. cbn [asString asNumber].
  rewrite save_quiet by first [exact Hq | exact Hvalid].
  cbn [now withExchange withStore].
  change (MTNAuthService.disbursementRefreshDue
            (stampOf (now w) (MTNUser.setCollectionToken (Some token) (Some expiresIn) (now w) u))
            (now w))
    with (MTNAuthService.disbursementRefreshDue u (now w)).
  rewrite Hd. mrun.
  rewrite findById_quiet by (cbn; exact Hq).
  assert (Hstored : forall w0,
    stored (MTNUser._id u)
      (withStore (setDocs (upsert (stampOf (now w)
         (MTNUser.setCollectionToken (Some token) (Some expiresIn) (now w) u))
         (docs (store w0))) (store w0)) w0)
    = Some (stampOf (now w)
         (MTNUser.setCollectionToken (Some token) (Some expiresIn) (now w) u))).
  { intros w0. unfold stored. cbn [store withStore docs setDocs MTNUserModel mtnUsers].
    change (MTNUser._id u) with
      (idOf (stampOf (now w) (MTNUser.setCollectionToken (Some token) (Some expiresIn) (now w) u))).
    apply find_upsert. }
  rewrite Hstored.
  split; [reflexivity|]. split; [reflexivity|]. split; [reflexivity|].
  split; [apply Hstored|]. repeat split.
Qed.

Lemma auth_initialize_refresh_disbursement (w : World) (u : MTNUser.t)
      (r : Http.Response) (rest : list Http.Reply) (token : string) (expiresIn : Z) :
  faults w = [] ->
  find MTNUser.isActive (mtnUsers (store w)) = Some u ->
  MTNUser.validationErrors u = [] ->
  Fresh (MTNUser.collectionToken u) (MTNUser.collectionTokenExpiresAt u)
        MTNAuthService.refreshThreshold (now w) ->
  ~ Fresh (MTNUser.disbursementToken u) (MTNUser.disbursementTokenExpiresAt u)
          MTNAuthService.refreshThreshold (now w) ->
  replies w = Http.Answered r :: rest ->
  TokenAnswer r token expiresIn ->
  exists w' d,
    MTNAuthService.initializeMTNUser w = (Ok (Some d), w') /\
    sent w' = (sent w ++ [MTNAuthService.disbursementTokenRequest
                            (Config.mtn (env w))
                            (MTNUser.xReferenceId u) (MTNUser.apiKey u)])%list /\
    replies w' = rest /\
    stored (MTNUser._id u) w' = Some d /\
    MTNUser.disbursementToken d = Some token /\
    MTNUser.disbursementTokenExpiresAt d = Some (now w + expiresIn * 1000) /\
    MTNUser.collectionToken d = MTNUser.collectionToken u /\
    MTNUser.collectionTokenExpiresAt d = MTNUser.collectionTokenExpiresAt u.
Proof.
  intros Hq Hfind Hvalid Hc Hd Hreplies (Hok & answer & Hjson & Htoken & Hexp).
  assert (Hdue : MTNAuthService.disbursementRefreshDue u (now w) = true).
  { apply not_false_true. intros E. apply Hd, fresh_disbursement_not_due, E. }
  apply fresh_collection_not_due in Hc.
  assert (Hbody : Http.body r = answer) by (unfold Http.body; rewrite Hjson; reflexivity).
  eexists. eexists.
  unfold MTNAuthService.initializeMTNUser, MTNAuthService.refreshTokensIfNeeded,
    MTNAuthService.createDisbursementToken, updateDisbursementToken.
  mrun. rewrite (findOne_quiet _ w Hq). cbn [docs MTNUserModel]. rewrite Hfind.
  mrun. rewrite Hc. mrun. rewrite Hdue.
  erewrite axios_answered by eassumption.
  mrun. rewrite Hbody. rewrite (member_present _ _ _ Htoken). mrun.
  rewrite Hexp. cbn [asString asNumber].
  rewrite save_quiet by first [exact Hq | exact Hvalid].
  cbn [now withExchange withStore]. mrun.
  rewrite findById_quiet by (cbn; exact Hq).
  assert (Hstored : forall w0,
    stored (MTNUser._id u)
      (withStore (setDocs (upsert (stampOf (now w)
         (MTNUser.setDisbursementToken (Some token) (Some expiresIn) (now w) u))
         (docs (store w0))) (store w0)) w0)
    = Some (stampOf (now w)
         (MTNUser.setDisbursementToken (Some token) (Some expiresIn) (now w) u))).
  { intros w0. unfold stored. cbn [store withStore docs setDocs MTNUserModel mtnUsers].
    change (MTNUser._id u) with
      (idOf (stampOf (now w) (MTNUser.setDisbursementToken (Some token) (Some expiresIn) (now w) u))).
    apply find_upsert. }
  rewrite Hstored.
  split; [reflexivity|]. split; [reflexivity|]. split; [reflexivity|].
  split; [apply Hstored|]. repeat split.
Qed.

Lemma airtel_initialize_cached (w : World) (u : AirtelUser.t) :
  faults w = [] ->
  find AirtelUser.isActive (airtelUsers (store w)) = Some u ->
  stored (AirtelUser._id u) w = Some u ->
  Fresh (AirtelUser.accessToken u) (AirtelUser.tokenExpiresAt u)
        AirtelAuthService.refreshThreshold (now w) ->
  AirtelAuthService.initializeAirtelUser w = (Ok (Some u), w).
Proof.
  intros Hq Hfind Hid Hc.
  apply fresh_airtel_not_due in Hc.
  unfold AirtelAuthService.initializeAirtelUser, AirtelAuthService.refreshTokensIfNeeded.
  mrun. rewrite (findOne_quiet _ w Hq). cbn [docs AirtelUserModel]. rewrite Hfind.
  mrun. rewrite Hc. mrun.
  rewrite (findById_quiet _ w Hq), Hid. reflexivity.
Qed.

Lemma airtel_refreshed_valid (u : AirtelUser.t) (token : string) (expiresIn : option Z)
      (type newScope : option string) (t : Z) :
  AirtelUser.validationErrors u = [] -> token <> "" ->
  AirtelUser.validationErrors (AirtelUser.setToken (Some token) expiresIn type newScope t u)
  = [].
Proof.
  intros Hvalid Hne. unfold AirtelUser.validationErrors in *.
  apply app_nil_l_inv in Hvalid.
  cbn [AirtelUser.setToken AirtelUser.clientId AirtelUser.accessToken
       AirtelUser.tokenExpiresAt requiredValue].
  rewrite Hvalid. unfold requiredString. cbn [truthyS].
  destruct (String.eqb_spec token ""); [contradiction|reflexivity].
Qed.

Lemma airtel_initialize_refresh (w : World) (u : AirtelUser.t)
      (clientId clientSecret : string)
      (r : Http.Response) (rest : list Http.Reply) (token : string) (expiresIn : Z) :
  faults w = [] ->
  find AirtelUser.isActive (airtelUsers (store w)) = Some u ->
  AirtelUser.validationErrors u = [] -> token <> "" ->
  ~ Fresh (AirtelUser.accessToken u) (AirtelUser.tokenExpiresAt u)
          AirtelAuthService.refreshThreshold (now w) ->
  assoc "AIRTEL_CLIENT_ID" (env w) = Some clientId -> clientId <> "" ->
  assoc "AIRTEL_CLIENT_SECRET" (env w) = Some clientSecret -> clientSecret <> "" ->
  replies w = Http.Answered r :: rest ->
  TokenAnswer r token expiresIn ->
  exists w' d,
    AirtelAuthService.initializeAirtelUser w = (Ok (Some d), w') /\
    sent w' = (sent w ++ [AirtelAuthService.tokenRequest
                            (Config.airtel (env w)) clientId clientSecret])%list /\
    replies w' = rest /\
    stored (AirtelUser._id u) w' = Some d /\
    AirtelUser.accessToken d = Some token /\
    AirtelUser.tokenExpiresAt d = Some (now w + expiresIn * 1000).
Proof.
  intros Hq Hfind Hvalid Htne Hc Hid Hidne Hsec Hsecne Hreplies (Hok & answer & Hjson & Htoken & Hexp).
  assert (Hdue : AirtelAuthService.refreshDue u (now w) = true).
  { apply not_false_true. intros E. apply Hc, fresh_airtel_not_due, E. }
  assert (Ht1 : truthyS (Some clientId) = true).
  { cbn. apply negb_true_iff, String.eqb_neq, Hidne. }
  assert (Ht2 : truthyS (Some clientSecret) = true).
  { cbn. apply negb_true_iff, String.eqb_neq, Hsecne. }
  eexists. eexists.
  unfold AirtelAuthService.initializeAirtelUser, AirtelAuthService.refreshTokensIfNeeded,
    AirtelAuthService.getAccessToken, updateToken.
  mrun. rewrite (findOne_quiet _ w Hq). cbn [docs AirtelUserModel]. rewrite Hfind.
  mrun. rewrite Hdue.
  cbn [Config.airtelClientId Config.airtelClientSecret Config.airtel].
  rewrite Hid, Hsec, Ht1, Ht2. cbn [andb].
  erewrite fetch_answered by eassumption.
  rewrite Hjson. mrun. rewrite Hok. cbn [negb].
  rewrite (member_present _ _ _ Htoken). mrun.
  rewrite Hexp. cbn [asString asNumber].
  rewrite save_quiet
    by first [exact Hq | apply airtel_refreshed_valid; assumption].
  cbn [now withExchange withStore]. mrun.
  rewrite findById_quiet by (cbn; exact Hq).
  set (d := stampOf (now w) (AirtelUser.setToken (Some token) (Some expiresIn)
            (asString (prop "token_type" (Some answer)))
            (asString (prop "scope" (Some answer))) (now w) u)).
  assert (Hstored : forall w0,
    stored (AirtelUser._id u)
      (withStore (setDocs (upsert d (docs (store w0))) (store w0)) w0) = Some d).
  { intros w0. unfold stored. cbn [store withStore docs setDocs AirtelUserModel airtelUsers].
    change (AirtelUser._id u) with (idOf d).
    apply find_upsert. }
  rewrite Hstored.
  split; [reflexivity|]. split; [reflexivity|]. split; [reflexivity|].
  split; [apply Hstored|]. repeat split.
Qed.

Lemma auth_initialize_refresh_both (w : World) (u : MTNUser.t)
      (r1 r2 : Http.Response) (rest : list Http.Reply)
      (token1 token2 : string) (expiresIn1 expiresIn2 : Z) :
  faults w = [] ->
  find MTNUser.isActive (mtnUsers (store w)) = Some u ->
  MTNUser.validationErrors u = [] ->
  ~ Fresh (MTNUser.collectionToken u) (MTNUser.collectionTokenExpiresAt u)
          MTNAuthService.refreshThreshold (now w) ->
  ~ Fresh (MTNUser.disbursementToken u) (MTNUser.disbursementTokenExpiresAt u)
          MTNAuthService.refreshThreshold (now w) ->
  replies w = Http.Answered r1 :: Http.Answered r2 :: rest ->
  TokenAnswer r1 token1 expiresIn1 ->
  TokenAnswer r2 token2 expiresIn2 ->
  exists w' d,
    MTNAuthService.initializeMTNUser w = (Ok (Some d), w') /\
    sent w' = (sent w ++ [MTNAuthService.collectionTokenRequest
                            (Config.mtn (env w))
                            (MTNUser.xReferenceId u) (MTNUser.apiKey u);
                          MTNAuthService.disbursementTokenRequest
                            (Config.mtn (env w))
                            (MTNUser.xReferenceId u) (MTNUser.apiKey u)])%list /\
    replies w' = rest /\
    stored (MTNUser._id u) w' = Some d /\
    MTNUser.collectionToken d = Some token1 /\
    MTNUser.collectionTokenExpiresAt d = Some (now w + expiresIn1 * 1000) /\
    MTNUser.disbursementToken d = Some token2 /\
    MTNUser.disbursementTokenExpiresAt d = Some (now w + expiresIn2 * 1000).
Proof.
  intros Hq Hfind Hvalid Hc Hd Hreplies (Hok1 & answer1 & Hjson1 & Htoken1 & Hexp1)
         (Hok2 & answer2 & Hjson2 & Htoken2 & Hexp2).
  assert (Hdue1 : MTNAuthService.collectionRefreshDue u (now w) = true).
  { apply not_false_true. intros E. apply Hc, fresh_collection_not_due, E. }
  assert (Hdue2 : MTNAuthService.disbursementRefreshDue u (now w) = true).
  { apply not_false_true. intros E. apply Hd, fresh_disbursement_not_due, E. }
  assert (Hbody1 : Http.body r1 = answer1) by (unfold Http.body; rewrite Hjson1; reflexivity).
  assert (Hbody2 : Http.body r2 = answer2) by (unfold Http.body; rewrite Hjson2; reflexivity).
  eexists. eexists.
  unfold MTNAuthService.initializeMTNUser, MTNAuthService.refreshTokensIfNeeded,
    MTNAuthService.createCollectionToken, MTNAuthService.createDisbursementToken,
    updateCollectionToken, updateDisbursementToken.
  mrun. rewrite (findOne_quiet _ w Hq). cbn [docs MTNUserModel]. rewrite Hfind.
  mrun. rewrite Hdue1.
  erewrite axios_answered by eassumption.
  mrun. rewrite Hbody1. rewrite (member_present _ _ _ Htoken1). mrun.
  rewrite Hexp1. cbn [asString asNumber].
  rewrite save_quiet by first [exact Hq | exact Hvalid].
  cbn [now withExchange withStore].
  set (d1 := stampOf (now w)
               (MTNUser.setCollectionToken (Some token1) (Some expiresIn1) (now w) u)).
  change (MTNAuthService.disbursementRefreshDue d1 (now w))
    with (MTNAuthService.disbursementRefreshDue u (now w)).
  rewrite Hdue2.
  erewrite axios_answered by (cbn; first [reflexivity | eassumption]).
  mrun. rewrite Hbody2. rewrite (member_present _ _ _ Htoken2). mrun.
  rewrite Hexp2. cbn [asString asNumber].
  rewrite save_quiet by first [exact Hq | exact Hvalid].
  cbn [now withExchange withStore]. mrun.
  rewrite findById_quiet by (cbn; exact Hq).
  set (d2 := stampOf (now w)
               (MTNUser.setDisbursementToken (Some token2) (Some expiresIn2) (now w) d1)).
  assert (Hstored : forall w0 l,
    stored (MTNUser._id d1)
      (withStore (setDocs (upsert d2 l) (store w0)) w0) = Some d2).
  { intros w0 l. unfold stored. cbn [store withStore docs setDocs MTNUserModel mtnUsers].
    change (MTNUser._id d1) with (idOf d2). apply find_upsert. }
  rewrite Hstored.
  split; [reflexivity|]. split.
  { cbn [sent withStore withExchange]. rewrite <- app_assoc. reflexivity. }
  split; [reflexivity|].
  split; [apply Hstored|]. repeat split.
Qed.

Lemma axios_unanswered (req : Http.Request) (w : World) :
  Unanswered w ->
  exists e, axios req w = (Throw e, withExchange (tl (replies w)) req w).
Proof.
  unfold Unanswered, axios, exchange, bind.
  destruct (replies w) as [|[r|msg] rest]; cbn [tl].
  - intros _. eexists. reflexivity.
  - intros Hok. rewrite Hok. eexists. reflexivity.
  - intros _. eexists. reflexivity.
Qed.

(** The refresh of the other token fails: the cached token is not handed
    out. *)
Lemma auth_initialize_disbursement_unanswered (w : World) (u : MTNUser.t) :
  faults w = [] ->
  find MTNUser.isActive (mtnUsers (store w)) = Some u ->
  Fresh (MTNUser.collectionToken u) (MTNUser.collectionTokenExpiresAt u)
        MTNAuthService.refreshThreshold (now w) ->
  ~ Fresh (MTNUser.disbursementToken u) (MTNUser.disbursementTokenExpiresAt u)
          MTNAuthService.refreshThreshold (now w) ->
  Unanswered w ->
  exists reason w',
    MTNAuthService.initializeMTNUser w
    = (Throw (mkError ("Failed to initialize MTN user: Failed to refresh tokens: "
                         ++ "Failed to create disbursement token: " ++ reason)), w') /\
    store w' = store w.
Proof.
  intros Hq Hfind Hc Hd Hun.
  assert (Hdue : MTNAuthService.disbursementRefreshDue u (now w) = true).
  { apply not_false_true. intros E. apply Hd, fresh_disbursement_not_due, E. }
  apply fresh_collection_not_due in Hc.
  destruct (axios_unanswered
              (MTNAuthService.disbursementTokenRequest (Config.mtn (env w))
                 (MTNUser.xReferenceId u) (MTNUser.apiKey u)) w Hun) as [e He].
  exists (message e). eexists.
  unfold MTNAuthService.initializeMTNUser, MTNAuthService.refreshTokensIfNeeded,
    MTNAuthService.createDisbursementToken.
  mrun. rewrite (findOne_quiet _ w Hq). cbn [docs MTNUserModel]. rewrite Hfind.
  mrun. rewrite Hc. mrun. rewrite Hdue. rewrite He. mrun.
  split; reflexivity.
Qed.

Lemma auth_initialize_collection_unanswered (w : World) (u : MTNUser.t) :
  faults w = [] ->
  find MTNUser.isActive (mtnUsers (store w)) = Some u ->
  ~ Fresh (MTNUser.collectionToken u) (MTNUser.collectionTokenExpiresAt u)
          MTNAuthService.refreshThreshold (now w) ->
  Unanswered w ->
  exists reason w',
    MTNAuthService.initializeMTNUser w
    = (Throw (mkError ("Failed to initialize MTN user: Failed to refresh tokens: "
                         ++ "Failed to create collection token: " ++ reason)), w') /\
    store w' = store w.
Proof.
  intros Hq Hfind Hc Hun.
  assert (Hdue : MTNAuthService.collectionRefreshDue u (now w) = true).
  { apply not_false_true. intros E. apply Hc, fresh_collection_not_due, E. }
  destruct (axios_unanswered
              (MTNAuthService.collectionTokenRequest (Config.mtn (env w))
                 (MTNUser.xReferenceId u) (MTNUser.apiKey u)) w Hun) as [e He].
  exists (message e). eexists.
  unfold MTNAuthService.initializeMTNUser, MTNAuthService.refreshTokensIfNeeded,
    MTNAuthService.createCollectionToken.
  mrun. rewrite (findOne_quiet _ w Hq). cbn [docs MTNUserModel]. rewrite Hfind.
  mrun. rewrite Hdue. rewrite He. mrun.
  split; reflexivity.
Qed.

(** C1, as the code has it. Each "get valid token" operation reads the
    active credential record; the store works ([faults w = []]).

    - The buffers are 30 seconds in the MTN collection service and 5 minutes
      in the MTN and Airtel auth services.
    - MTN collection service and Airtel auth service: a token that is there
      with its expiry, less the buffer, strictly ahead of the clock is
      returned and nothing changes.
    - MTN auth service: the cached token is returned with nothing changed
      when BOTH tokens of the record are fresh. When the other token is due
      and the provider gives its request no 2xx answer, the call throws and
      the fresh token is not returned; the record stays as it was.
    - Refresh: the record passes its schema, the provider answers 2xx with
      an [access_token] string and an [expires_in] number (for Airtel a
      non-empty token, and the client credentials are set). The token
      answered is stored and returned; its expiry is [now + expires_in *
      1000], where the collection service takes 180 for a lifetime that is
      missing or 0. *)
Theorem get_valid_token_cached_or_refreshed :
  (MTNCollectionService.refreshThreshold = 30 * 1000 /\
   MTNAuthService.refreshThreshold = 5 * 60 * 1000 /\
   AirtelAuthService.refreshThreshold = 5 * 60 * 1000) /\
  (* the MTN collection service *)
  (forall (w : World) (u : MTNUser.t),
      faults w = [] ->
      find MTNUser.isActive (mtnUsers (store w)) = Some u ->
      (Fresh (MTNUser.collectionToken u) (MTNUser.collectionTokenExpiresAt u)
             MTNCollectionService.refreshThreshold (now w) ->
       MTNCollectionService.getValidToken w = (Ok (MTNUser.collectionToken u), w)) /\
      (~ Fresh (MTNUser.collectionToken u) (MTNUser.collectionTokenExpiresAt u)
               MTNCollectionService.refreshThreshold (now w) ->
       MTNUser.validationErrors u = [] ->
       forall r rest answer token expiresIn,
         replies w = Http.Answered r :: rest ->
         Http.ok r = true ->
         Http.json r = Some answer ->
         prop "access_token" (Some answer) = Some (JStr token) ->
         prop "expires_in" (Some answer) = option_map JNum expiresIn ->
         exists w' key d,
           MTNCollectionService.getValidToken w = (Ok (Some token), w') /\
           sent w' = (sent w ++ [MTNCollectionService.tokenRequest
                                   (Config.mtnBaseURL (Config.mtn (env w))) key
                                   (MTNUser.xReferenceId u) (MTNUser.apiKey u)])%list /\
           stored (MTNUser._id u) w' = Some d /\
           MTNUser.collectionToken d = Some token /\
           MTNUser.collectionTokenExpiresAt d
           = Some (now w + collectionLifetime expiresIn * 1000))) /\
  (* the MTN auth service *)
  (forall (w : World) (u : MTNUser.t),
      faults w = [] ->
      find MTNUser.isActive (mtnUsers (store w)) = Some u ->
      stored (MTNUser._id u) w = Some u ->
      let collectionFresh :=
        Fresh (MTNUser.collectionToken u) (MTNUser.collectionTokenExpiresAt u)
              MTNAuthService.refreshThreshold (now w) in
      let disbursementFresh :=
        Fresh (MTNUser.disbursementToken u) (MTNUser.disbursementTokenExpiresAt u)
              MTNAuthService.refreshThreshold (now w) in
      (collectionFresh -> disbursementFresh ->
       MTNAuthService.getCollectionToken w = (Ok (MTNUser.collectionToken u), w) /\
       MTNAuthService.getDisbursementToken w = (Ok (MTNUser.disbursementToken u), w)) /\
      (collectionFresh -> ~ disbursementFresh -> Unanswered w ->
       exists reason w',
         MTNAuthService.getCollectionToken w
         = (Throw (mkError ("Failed to initialize MTN user: Failed to refresh tokens: "
                              ++ "Failed to create disbursement token: " ++ reason)), w') /\
         stored (MTNUser._id u) w' = Some u) /\
      (~ collectionFresh -> disbursementFresh -> Unanswered w ->
       exists reason w',
         MTNAuthService.getDisbursementToken w
         = (Throw (mkError ("Failed to initialize MTN user: Failed to refresh tokens: "
                              ++ "Failed to create collection token: " ++ reason)), w') /\
         stored (MTNUser._id u) w' = Some u) /\
      (~ collectionFresh -> disbursementFresh ->
       MTNUser.validationErrors u = [] ->
       forall r rest token expiresIn,
         replies w = Http.Answered r :: rest -> TokenAnswer r token expiresIn ->
         exists w' d,
           MTNAuthService.getCollectionToken w = (Ok (Some token), w') /\
           MTNAuthService.getDisbursementToken w = (Ok (MTNUser.disbursementToken u), w') /\
           sent w' = (sent w ++ [MTNAuthService.collectionTokenRequest
                                   (Config.mtn (env w))
                                   (MTNUser.xReferenceId u) (MTNUser.apiKey u)])%list /\
           stored (MTNUser._id u) w' = Some d /\
           MTNUser.collectionToken d = Some token /\
           MTNUser.collectionTokenExpiresAt d = Some (now w + expiresIn * 1000)) /\
      (collectionFresh -> ~ disbursementFresh ->
       MTNUser.validationErrors u = [] ->
       forall r rest token expiresIn,
         replies w = Http.Answered r :: rest -> TokenAnswer r token expiresIn ->
         exists w' d,
           MTNAuthService.getCollectionToken w = (Ok (MTNUser.collectionToken u), w') /\
           MTNAuthService.getDisbursementToken w = (Ok (Some token), w') /\
           sent w' = (sent w ++ [MTNAuthService.disbursementTokenRequest
                                   (Config.mtn (env w))
                                   (MTNUser.xReferenceId u) (MTNUser.apiKey u)])%list /\
           stored (MTNUser._id u) w' = Some d /\
           MTNUser.disbursementToken d = Some token /\
           MTNUser.disbursementTokenExpiresAt d = Some (now w + expiresIn * 1000)) /\
      (~ collectionFresh -> ~ disbursementFresh ->
       MTNUser.validationErrors u = [] ->
       forall r1 r2 rest token1 token2 expiresIn1 expiresIn2,
         replies w = Http.Answered r1 :: Http.Answered r2 :: rest ->
         TokenAnswer r1 token1 expiresIn1 -> TokenAnswer r2 token2 expiresIn2 ->
         exists w' d,
           MTNAuthService.getCollectionToken w = (Ok (Some token1), w') /\
           MTNAuthService.getDisbursementToken w = (Ok (Some token2), w') /\
           stored (MTNUser._id u) w' = Some d /\
           MTNUser.collectionToken d = Some token1 /\
           MTNUser.collectionTokenExpiresAt d = Some (now w + expiresIn1 * 1000) /\
           MTNUser.disbursementToken d = Some token2 /\
           MTNUser.disbursementTokenExpiresAt d = Some (now w + expiresIn2 * 1000))) /\
  (* the Airtel auth service *)
  (forall (w : World) (u : AirtelUser.t),
      faults w = [] ->
      find AirtelUser.isActive (airtelUsers (store w)) = Some u ->
      stored (AirtelUser._id u) w = Some u ->
      (Fresh (AirtelUser.accessToken u) (AirtelUser.tokenExpiresAt u)
             AirtelAuthService.refreshThreshold (now w) ->
       AirtelAuthService.getValidAccessToken w = (Ok (AirtelUser.accessToken u), w)) /\
      (~ Fresh (AirtelUser.accessToken u) (AirtelUser.tokenExpiresAt u)
               AirtelAuthService.refreshThreshold (now w) ->
       AirtelUser.validationErrors u = [] ->
       forall clientId clientSecret r rest token expiresIn,
         assoc "AIRTEL_CLIENT_ID" (env w) = Some clientId -> clientId <> "" ->
         assoc "AIRTEL_CLIENT_SECRET" (env w) = Some clientSecret -> clientSecret <> "" ->
         replies w = Http.Answered r :: rest -> TokenAnswer r token expiresIn ->
         token <> "" ->
         exists w' d,
           AirtelAuthService.getValidAccessToken w = (Ok (Some token), w') /\
           sent w' = (sent w ++ [AirtelAuthService.tokenRequest
                                   (Config.airtel (env w)) clientId clientSecret])%list /\
           stored (AirtelUser._id u) w' = Some d /\
           AirtelUser.accessToken d = Some token /\
           AirtelUser.tokenExpiresAt d = Some (now w + expiresIn * 1000))).
Proof.
  split; [repeat split|]. split; [|split].
  - intros w u Hq Hfind. split.
    + apply collection_getValidToken_cached; assumption.
    + intros Hstale Hvalid r rest answer token expiresIn Hr Hok Hjson Htoken Hexp.
      destruct (collection_getValidToken_refresh w u r rest answer token expiresIn
                  Hq Hfind Hvalid Hstale Hr Hok Hjson Htoken Hexp)
        as (w' & key & d & H1 & H2 & _ & H3 & H4 & H5).
      exists w', key, d. auto.
  - intros w u Hq Hfind Hid collectionFresh disbursementFresh.
    unfold MTNAuthService.getCollectionToken, MTNAuthService.getDisbursementToken, bind.
    split; [|split; [|split; [|split; [|split]]]].
    + intros Hc Hd. rewrite (auth_initialize_cached w u Hq Hfind Hid Hc Hd).
      split; reflexivity.
    + intros Hc Hd Hun.
      destruct (auth_initialize_disbursement_unanswered w u Hq Hfind Hc Hd Hun)
        as (reason & w' & H1 & H2).
      exists reason, w'. rewrite H1. split; [reflexivity|].
      unfold stored in *. rewrite H2. exact Hid.
    + intros Hc Hd Hun.
      destruct (auth_initialize_collection_unanswered w u Hq Hfind Hc Hun)
        as (reason & w' & H1 & H2).
      exists reason, w'. rewrite H1. split; [reflexivity|].
      unfold stored in *. rewrite H2. exact Hid.
    + intros Hc Hd Hvalid r rest token expiresIn Hr Ha.
      destruct (auth_initialize_refresh_collection w u r rest token expiresIn
                  Hq Hfind Hvalid Hc Hd Hr Ha)
        as (w' & d & H1 & H2 & _ & H3 & H4 & H5 & H6 & _).
      exists w', d. rewrite H1. cbn [ret]. rewrite H4, H6. auto 10.
    + intros Hc Hd Hvalid r rest token expiresIn Hr Ha.
      destruct (auth_initialize_refresh_disbursement w u r rest token expiresIn
                  Hq Hfind Hvalid Hc Hd Hr Ha)
        as (w' & d & H1 & H2 & _ & H3 & H4 & H5 & H6 & _).
      exists w', d. rewrite H1. cbn [ret]. rewrite H4, H6. auto 10.
    + intros Hc Hd Hvalid r1 r2 rest token1 token2 expiresIn1 expiresIn2 Hr Ha1 Ha2.
      destruct (auth_initialize_refresh_both w u r1 r2 rest token1 token2
                  expiresIn1 expiresIn2 Hq Hfind Hvalid Hc Hd Hr Ha1 Ha2)
        as (w' & d & H1 & _ & _ & H3 & H4 & H5 & H6 & H7).
      exists w', d. rewrite H1. cbn [ret]. rewrite H4, H6. auto 10.
  - intros w u Hq Hfind Hid.
    unfold AirtelAuthService.getValidAccessToken, bind.
    split.
    + intros Hc. rewrite (airtel_initialize_cached w u Hq Hfind Hid Hc). reflexivity.
    + intros Hc Hvalid clientId clientSecret r rest token expiresIn
             Hcid Hne Hsec Hsne Hr Ha Htne.
      destruct (airtel_initialize_refresh w u clientId clientSecret r rest token expiresIn
                  Hq Hfind Hvalid Htne Hc Hcid Hne Hsec Hsne Hr Ha)
        as (w' & d & H1 & H2 & _ & H3 & H4 & H5).
      exists w', d. rewrite H1. cbn [ret]. rewrite H4. auto 10.
Qed.

(** The MTN auth service in [offline]: the collection token of [collector]
    is good for another hour, the disbursement token is missing and the
    provider cannot be reached, so the call throws and the token is not
    returned. *)
Lemma get_valid_token_cached_or_refreshed_witness :
  exists reason w',
    MTNAuthService.getCollectionToken offline
    = (Throw (mkError ("Failed to initialize MTN user: Failed to refresh tokens: "
                         ++ "Failed to create disbursement token: " ++ reason)), w') /\
    stored (MTNUser._id collector) w' = Some collector.
Proof.
  refine (proj1 (proj2 (proj1 (proj2 (proj2 get_valid_token_cached_or_refreshed))
                          offline collector eq_refl eq_refl eq_refl)) _ _ _).
  - split; [reflexivity|].
    exists 1700003600000. split; reflexivity.
  - intros [_ (t & Ht & _)]. discriminate Ht.
  - exact I.
Defined.

(** C1 as the claim states it fails on the MTN auth path: in [offline] the
    active record holds a collection token whose expiry, less the five
    minutes, is strictly ahead of the clock, and [getCollectionToken] does
    not return it. *)
Lemma fresh_collection_token_is_not_returned :
  find MTNUser.isActive (mtnUsers (store offline)) = Some collector /\
  Fresh (MTNUser.collectionToken collector) (MTNUser.collectionTokenExpiresAt collector)
        MTNAuthService.refreshThreshold (now offline) /\
  fst (MTNAuthService.getCollectionToken offline)
  = Throw (mkError ("Failed to initialize MTN user: Failed to refresh tokens: "
                      ++ "Failed to create disbursement token: connect ECONNREFUSED")) /\
  MTNAuthService.getCollectionToken offline
  <> (Ok (MTNUser.collectionToken collector), offline).
Proof.
  split; [reflexivity|]. split.
  - split; [reflexivity|]. exists 1700003600000. split; reflexivity.
  - split; [vm_compute; reflexivity|].
    intros H. apply (f_equal fst) in H. vm_compute in H. discriminate H.
Qed.

(* ===================================================================== *)
(** * C2. Webhook reconciliation                                        *)
(* ===================================================================== *)

(** ** The document a descending sort puts first *)





(** ** The MTN handler when the store works *)




(** ** What the schemas let through *)

Lemma app_nil_parts {A : Type} (l1 l2 : list A) :
  (l1 ++ l2)%list = [] -> l1 = [] /\ l2 = [].
Proof. destruct l1; [auto|discriminate]. Qed.

Lemma app_nil_intro {A : Type} (l1 l2 : list A) :
  l1 = [] -> l2 = [] -> (l1 ++ l2)%list = [].
Proof. intros -> ->. reflexivity. Qed.

Ltac valid_parts H :=
  repeat (let H1 := fresh "Hpart" in
          apply app_nil_parts in H; destruct H as [H1 H]).

Ltac valid_join :=
  repeat (match goal with
          | |- (_ ++ _)%list = [] => apply app_nil_intro; [|]
          end); try assumption.

(** After a handler's assignments to a payment that passed its schema,
    only the two statuses can fail it. *)
Lemma payment_assign_errors (newResponse : option (option Json))
      (newMtnStatus : option (option string)) (newStatus : option string)
      (newCompletedAt : option (option Z)) (newMetadata : option (list (string * Json)))
      (p : Payment.t) :
  Payment.validationErrors p = [] ->
  Payment.validationErrors
    (Payment.assign newResponse newMtnStatus newStatus newCompletedAt newMetadata p)
  = (enumString "status" statusEnum
                (Some (match newStatus with Some s => s | None => Payment.status p end))
     ++ enumString "mtnStatus" statusEnum
                   (match newMtnStatus with Some s => s | None => Payment.mtnStatus p end))%list.
Proof.
  intros Hvalid.
  unfold Payment.validationErrors in *.
  cbn [Payment.assign Payment.xReferenceId Payment.apiUserId Payment.apiKey
       Payment.transactionType Payment.transactionSubType Payment.amount
       Payment.currency Payment.externalId Payment.payer Payment.payee
       Payment.payerMessage Payment.payeeNote Payment.status Payment.mtnStatus
       Payment.serviceType Payment.subscriptionKey] in *.
  cbv zeta in *.
  valid_parts Hvalid.
  repeat match goal with
         | H : ?l = [] |- context [?l] => rewrite H
         end.
  cbn [app]. rewrite app_nil_r. reflexivity.
Qed.






(** ** What a handler leaves alone *)

Lemma recordsAs_refl (w : World) : recordsAs w w.
Proof. split; reflexivity. Qed.

Lemma recordsAs_NowFree (w0 : World) : NowFree (recordsAs w0).
Proof. intros t w H. exact H. Qed.

Lemma recordsAs_FaultFree (w0 : World) : FaultFree (recordsAs w0).
Proof. intros fs w H. exact H. Qed.

Lemma recordsAs_ExchangeFree (w0 : World) : ExchangeFree (recordsAs w0).
Proof. intros rs req w H. exact H. Qed.

Lemma recordsAs_DrawFree (w0 : World) : DrawFree (recordsAs w0).
Proof. intros n w H. exact H. Qed.

Lemma recordsAs_CreateFree (w0 : World) : CreateFree (recordsAs w0).
Proof. intros w H. exact H. Qed.

#[local] Hint Resolve recordsAs_NowFree recordsAs_FaultFree recordsAs_ExchangeFree
  recordsAs_DrawFree recordsAs_CreateFree : frees.








(* ===================================================================== *)
(** * C3. The status enumeration                                        *)
(* ===================================================================== *)

(** ** The status invariant and the primitive effects *)

Lemma StatusInv_NowFree : NowFree StatusInv.
Proof. intros t w H. exact H. Qed.

Lemma StatusInv_FaultFree : FaultFree StatusInv.
Proof. intros fs w H. exact H. Qed.

Lemma StatusInv_ExchangeFree : ExchangeFree StatusInv.
Proof. intros rs req w H. exact H. Qed.

Lemma StatusInv_DrawFree : DrawFree StatusInv.
Proof. intros n w H. exact H. Qed.

Lemma StatusInv_CreateFree : CreateFree StatusInv.
Proof. intros w H. exact H. Qed.

#[local] Hint Resolve StatusInv_NowFree StatusInv_FaultFree StatusInv_ExchangeFree
  StatusInv_DrawFree StatusInv_CreateFree : frees.

Lemma Forall_upsert {D : Type} `{Model D} (P : D -> Prop) (d : D) (l : list D) :
  P d -> Forall P l -> Forall P (upsert d l).
Proof.
  intros Hd Hl. unfold upsert.
  destruct (existsb _ l).
  - induction Hl as [|x l Hx Hl IH]; cbn; constructor; auto.
    destruct (Nat.eqb _ _); assumption.
  - apply Forall_app. split; [exact Hl|]. constructor; [exact Hd|constructor].
Qed.

Lemma StatusInv_save_payment (p : Payment.t) :
  goodPayment p ->
  forall t w, StatusInv w ->
    StatusInv (withStore (setDocs (upsert (stampOf t p) (docs (store w))) (store w)) w).
Proof.
  intros Hp t w [Hpay Hsub]. split; [|exact Hsub].
  cbn [store withStore docs setDocs PaymentModel payments].
  apply Forall_upsert; [exact Hp|exact Hpay].
Qed.

Lemma StatusInv_save_subscription (s : Subscription.t) :
  goodSubscription s ->
  forall t w, StatusInv w ->
    StatusInv (withStore (setDocs (upsert (stampOf t s) (docs (store w))) (store w)) w).
Proof.
  intros Hs t w [Hpay Hsub]. split; [exact Hpay|].
  cbn [store withStore docs setDocs SubscriptionModel subscriptions].
  apply Forall_upsert; [exact Hs|exact Hsub].
Qed.

(** A payment read from the store has a status of the enumeration. *)
Lemma hoare_find_payment (f : Payment.t -> bool) :
  hoare StatusInv (findOne f) (fun found => forall p, found = Some p -> goodPayment p).
Proof.
  unfold findOne.
  eapply hoare_bind; [apply hoare_storeOp; free|]. intros _ _ w [Hpay Hsub].
  split; [split; assumption|]. cbn. intros found E. injection E as <-.
  intros p Hp. apply find_some in Hp as [Hin _].
  rewrite Forall_forall in Hpay. apply Hpay, Hin.
Qed.

Lemma hoare_findById_payment (id : nat) :
  hoare StatusInv (@findById Payment.t _ id)
        (fun found => forall p, found = Some p -> goodPayment p).
Proof. apply hoare_find_payment. Qed.

Lemma hoare_save_payment (p : Payment.t) :
  goodPayment p ->
  hoare StatusInv (save p) (fun p' => goodPayment p').
Proof.
  intros Hp. eapply hoare_weaken.
  - apply hoare_save; [free|]. apply StatusInv_save_payment, Hp.
  - intros p' [t ->]. exact Hp.
Qed.

Lemma hoare_save_subscription (s : Subscription.t) :
  goodSubscription s ->
  hoare StatusInv (save s) (fun s' => goodSubscription s').
Proof.
  intros Hs. eapply hoare_weaken.
  - apply hoare_save; [free|]. apply StatusInv_save_subscription, Hs.
  - intros s' [t ->]. exact Hs.
Qed.

Lemma hoare_saveCast_subscription (uncast : list string) (s : Subscription.t) :
  hoare StatusInv (saveCast uncast s) (fun s' => goodSubscription s').
Proof.
  eapply hoare_weaken.
  - apply hoare_saveCast; [free|]. intros Hvalid.
    apply StatusInv_save_subscription.
    unfold goodSubscription.
    unfold errorsOf, SubscriptionModel, Subscription.validationErrors in Hvalid.
    repeat (apply app_eq_nil in Hvalid; destruct Hvalid as [? Hvalid]).
    match goal with
    | H : enumString "status" _ _ = [] |- _ => revert H
    end.
    unfold enumString, includes. destruct (existsb _ statusEnum) eqn:E; [|discriminate].
    intros _. apply existsb_exists in E as (x & Hx & Heq).
    apply String.eqb_eq in Heq as ->. exact Hx.
  - cbv beta. intros s' [Hvalid [t ->]].
    unfold goodSubscription. cbn [Subscription.status Subscription.stamp stampOf SubscriptionModel].
    unfold errorsOf, SubscriptionModel, Subscription.validationErrors in Hvalid.
    repeat (apply app_eq_nil in Hvalid; destruct Hvalid as [? Hvalid]).
    match goal with
    | H : enumString "status" _ _ = [] |- _ => revert H
    end.
    unfold enumString, includes. destruct (existsb _ statusEnum) eqn:E; [|discriminate].
    intros _. apply existsb_exists in E as (x & Hx & Heq).
    apply String.eqb_eq in Heq as ->. exact Hx.
Qed.

(** A document of another collection. *)
Lemma hoare_save_mtnUser (u : MTNUser.t) : hoare StatusInv (save u) (fun _ => True).
Proof.
  eapply hoare_weaken; [apply hoare_save; [free|]|trivial].
  intros t w H. exact H.
Qed.

Lemma hoare_save_airtelUser (u : AirtelUser.t) : hoare StatusInv (save u) (fun _ => True).
Proof.
  eapply hoare_weaken; [apply hoare_save; [free|]|trivial].
  intros t w H. exact H.
Qed.

Lemma hoare_save_mtnCallback (c : MTNCallback.t) : hoare StatusInv (save c) (fun _ => True).
Proof.
  eapply hoare_weaken; [apply hoare_save; [free|]|trivial].
  intros t w H. exact H.
Qed.

Lemma hoare_save_airtelCallback (c : AirtelCallback.t) :
  hoare StatusInv (save c) (fun _ => True).
Proof.
  eapply hoare_weaken; [apply hoare_save; [free|]|trivial].
  intros t w H. exact H.
Qed.

Lemma hoare_deleteMany_mtnUsers :
  hoare StatusInv (@deleteMany MTNUser.t _) (fun _ => True).
Proof. apply hoare_deleteMany; [free|]. intros w H. exact H. Qed.

Lemma hoare_create_status {D : Type} (make : nat -> D) :
  hoare StatusInv (create make) (fun d => exists id, d = make id).
Proof. apply hoare_create. free. Qed.

(** ** The statuses the handlers write *)

Lemma statusOfAirtel_enum (transactionStatus : option string) :
  In (SubscriptionService.statusOfAirtel transactionStatus) ["PENDING"; "SUCCESSFUL"; "FAILED"].
Proof.
  unfold SubscriptionService.statusOfAirtel.
  destruct transactionStatus as [s|]; [|cbn; auto].
  destruct (String.eqb s "TS"); [cbn; auto|].
  destruct (String.eqb s "TF"); cbn; auto.
Qed.

Lemma statusOfMtn_enum (mtnStatus : option string) :
  In (SubscriptionService.statusOfMtn mtnStatus) ["PENDING"; "SUCCESSFUL"; "FAILED"].
Proof.
  unfold SubscriptionService.statusOfMtn.
  destruct mtnStatus as [s|]; [|cbn; auto].
  destruct (String.eqb s "SUCCESSFUL"); [cbn; auto|].
  destruct (String.eqb s "FAILED"); cbn; auto.
Qed.

Lemma three_in_enum (s : string) :
  In s ["PENDING"; "SUCCESSFUL"; "FAILED"] -> In s statusEnum.
Proof. unfold statusEnum. cbn. tauto. Qed.

Lemma good_reconcile (callbackData : Json) (t : Z) (payment updated : Payment.t) :
  MTNPaymentController.reconcile callbackData t payment = Some updated ->
  goodPayment updated.
Proof.
  unfold MTNPaymentController.reconcile, goodPayment, statusEnum. cbv zeta.
  destruct (prop "status" (Some callbackData)) as [[| | |s| |]|]; try discriminate.
  repeat (match goal with |- context [if ?b then _ else _] => destruct b end);
    try discriminate; intros E; injection E as <-; cbn; auto.
Qed.

Lemma good_recordStatus (mtnStatus : option string) (answer : Json) (t : Z)
      (payment : Payment.t) :
  goodPayment payment ->
  goodPayment (PaymentService.recordStatus mtnStatus answer t payment).
Proof.
  unfold PaymentService.recordStatus, goodPayment, statusEnum. cbv zeta.
  intros H.
  repeat (match goal with |- context [if ?b then _ else _] => destruct b end);
    cbn; auto.
Qed.

Lemma good_setStatus (newStatus : string) (response : option Json) (t : Z)
      (payment : Payment.t) :
  includes newStatus statusEnum = true ->
  goodPayment (Payment.setStatus newStatus response t payment).
Proof.
  unfold goodPayment, Payment.setStatus, includes. cbn [Payment.status Payment.assign].
  intros H. apply existsb_exists in H as (x & Hx & E).
  apply String.eqb_eq in E as ->. exact Hx.
Qed.

Lemma good_subscriptionSetStatus (newStatus : string) (response : option Json) (t : Z)
      (s : Subscription.t) :
  includes newStatus statusEnum = true ->
  goodSubscription (subscriptionSetStatus newStatus response t s).
Proof.
  unfold goodSubscription, subscriptionSetStatus, includes.
  cbn [Subscription.status Subscription.assign Subscription.setStatus Subscription.pick].
  intros H. apply existsb_exists in H as (x & Hx & E).
  apply String.eqb_eq in E as ->. exact Hx.
Qed.

Lemma good_markFailed (paymentChannel : string) (error : Error) (t : Z)
      (s : Subscription.t) :
  goodSubscription (SubscriptionService.markFailed paymentChannel error t s).
Proof. unfold goodSubscription, statusEnum. cbn. auto. Qed.

Lemma good_applyAirtelResponse (paymentResponse : Json) (t : Z) (s : Subscription.t) :
  goodSubscription s ->
  goodSubscription (SubscriptionService.applyAirtelResponse paymentResponse t s).
Proof.
  unfold goodSubscription, SubscriptionService.applyAirtelResponse. cbv zeta.
  intros H. destruct (andb _ _); [|exact H].
  cbn [Subscription.status Subscription.assign Subscription.setStatus Subscription.pick
       SubscriptionService.settle].
  apply three_in_enum, statusOfAirtel_enum.
Qed.

Lemma good_applyMtnResponse (paymentResponse : Json) (t : Z) (s : Subscription.t) :
  goodSubscription s ->
  goodSubscription (SubscriptionService.applyMtnResponse paymentResponse t s).
Proof.
  unfold goodSubscription, SubscriptionService.applyMtnResponse. cbv zeta.
  intros H. destruct (truthy _); [|exact H].
  cbn [Subscription.status Subscription.assign Subscription.setStatus Subscription.pick
       SubscriptionService.settle].
  apply three_in_enum, statusOfMtn_enum.
Qed.

Lemma good_withEndDate (addMonths : Z -> Z -> Z) (s : Subscription.t) :
  goodSubscription s ->
  goodSubscription (SubscriptionService.withEndDate addMonths s).
Proof.
  unfold goodSubscription, SubscriptionService.withEndDate. intros H.
  destruct (Subscription.startDate s); [|exact H].
  destruct (String.eqb _ _); exact H.
Qed.

Lemma good_stamp_subscription (t : Z) (s : Subscription.t) :
  goodSubscription s -> goodSubscription (Subscription.stamp t s).
Proof. intros H. exact H. Qed.

Lemma good_stamp_payment (t : Z) (p : Payment.t) :
  goodPayment p -> goodPayment (Payment.stamp t p).
Proof. intros H. exact H. Qed.

(** ** The operations keep the invariant *)

Ltac status_leaf :=
  first
    [ apply hoare_save_payment
    | apply hoare_save_subscription
    | apply hoare_saveCast_subscription
    | apply hoare_save_mtnUser
    | apply hoare_save_airtelUser
    | apply hoare_save_mtnCallback
    | apply hoare_save_airtelCallback
    | apply hoare_deleteMany_mtnUsers
    | apply hoare_findById_payment
    | apply hoare_find_payment
    | apply hoare_create_status
    | hoare_leaf ].

Ltac status_side :=
  cbv beta in *;
  repeat match goal with
         | H : exists _, _ |- _ => destruct H as [? H]
         end;
  subst;
  try free;
  try (intros; exact I);
  try solve [ unfold goodPayment, goodSubscription, statusEnum in *; cbn; auto 6 ];
  try solve [ eauto using good_reconcile, good_recordStatus, good_setStatus,
                good_subscriptionSetStatus, good_markFailed, good_applyAirtelResponse,
                good_applyMtnResponse, good_withEndDate ].

Ltac status_walk unf := hoare_walk_with status_leaf unf; status_side.

(** [updateStatus] writes what it is given; the schema lets only a status
    of the enumeration into the store. *)
Lemma enumString_In (path : string) (values : list string) (s : string) :
  enumString path values (Some s) = [] -> In s values.
Proof.
  unfold enumString, includes. destruct (existsb _ values) eqn:E; [|discriminate].
  intros _. apply existsb_exists in E as (x & Hx & Heq).
  apply String.eqb_eq in Heq as ->. exact Hx.
Qed.

Lemma valid_payment_good (p : Payment.t) :
  Payment.validationErrors p = [] -> goodPayment p.
Proof.
  unfold Payment.validationErrors, goodPayment. cbv zeta. intros Hvalid.
  valid_parts Hvalid.
  match goal with
  | H : enumString "status" _ _ = [] |- _ => exact (enumString_In _ _ _ H)
  end.
Qed.

Lemma valid_subscription_good (s : Subscription.t) :
  Subscription.validationErrors s = [] -> goodSubscription s.
Proof.
  unfold Subscription.validationErrors, goodSubscription. intros Hvalid.
  valid_parts Hvalid.
  match goal with
  | H : enumString "status" _ _ = [] |- _ => exact (enumString_In _ _ _ H)
  end.
Qed.

Lemma paymentUpdateStatus_status (newStatus : string) (response : option Json)
      (p : Payment.t) :
  hoare StatusInv (paymentUpdateStatus newStatus response p) goodPayment.
Proof.
  unfold paymentUpdateStatus.
  eapply hoare_bind; [apply hoare_getNow|]. intros t _.
  eapply hoare_weaken.
  - apply hoare_save_valid; [free|]. intros Hvalid.
    apply StatusInv_save_payment, valid_payment_good, Hvalid.
  - cbv beta. intros p' [Hvalid [t' ->]]. apply valid_payment_good, Hvalid.
Qed.

Lemma subscriptionUpdateStatus_status (newStatus : string) (response : option Json)
      (s : Subscription.t) :
  hoare StatusInv (subscriptionUpdateStatus newStatus response s) goodSubscription.
Proof.
  unfold subscriptionUpdateStatus.
  eapply hoare_bind; [apply hoare_getNow|]. intros t _.
  eapply hoare_weaken.
  - apply hoare_save_valid; [free|]. intros Hvalid.
    apply StatusInv_save_subscription, valid_subscription_good, Hvalid.
  - cbv beta. intros s' [Hvalid [t' ->]]. apply valid_subscription_good, Hvalid.
Qed.

Lemma mtn_callback_status (req : Req) :
  hoare StatusInv (MTNPaymentController.callback req) (fun _ => True).
Proof.
  status_walk ltac:(unfold MTNPaymentController.callback).
Qed.

Lemma airtel_callback_status (req : Req) :
  hoare StatusInv (AirtelPaymentController.callback req) (fun _ => True).
Proof.
  status_walk ltac:(unfold AirtelPaymentController.callback).
Qed.

Ltac unfold_mtn :=
  unfold MTNAuthService.getMTNUser, MTNAuthService.initializeMTNUser,
    MTNAuthService.refreshTokensIfNeeded, MTNAuthService.createNewMTNUser,
    MTNAuthService.createAPIUser, MTNAuthService.createAPIKey,
    MTNAuthService.createCollectionToken, MTNAuthService.createDisbursementToken,
    MTNAuthService.updateUsageStats, MTNAuthService.getCollectionToken,
    MTNAuthService.getDisbursementToken, MTNAuthService.resetMTNUser,
    updateCollectionToken, updateDisbursementToken, mtnIncrementUsage,
    MTNCollectionService.requestToPay, MTNCollectionService.getValidToken,
    MTNCollectionService.getMTNUser, MTNCollectionService.getToken,
    MTNCollectionService.subscriptionKey.

Ltac unfold_airtel :=
  unfold AirtelAuthService.getValidAccessToken, AirtelAuthService.initializeAirtelUser,
    AirtelAuthService.refreshTokensIfNeeded, AirtelAuthService.createNewAirtelUser,
    AirtelAuthService.getAccessToken, AirtelAuthService.getAirtelUser,
    AirtelAuthService.updateUsageStats, updateToken, airtelIncrementUsage.

Lemma mtn_getMTNUser_status :
  hoare StatusInv MTNAuthService.getMTNUser (fun _ => True).
Proof. status_walk unfold_mtn. Qed.

Lemma mtn_updateUsageStats_status (success : option bool) :
  hoare StatusInv (MTNAuthService.updateUsageStats success) (fun _ => True).
Proof. status_walk unfold_mtn. Qed.

Lemma mtn_resetMTNUser_status :
  hoare StatusInv MTNAuthService.resetMTNUser (fun _ => True).
Proof. status_walk unfold_mtn. Qed.

Lemma mtn_getCollectionToken_status :
  hoare StatusInv MTNAuthService.getCollectionToken (fun _ => True).
Proof. status_walk unfold_mtn. Qed.

Lemma mtn_getDisbursementToken_status :
  hoare StatusInv MTNAuthService.getDisbursementToken (fun _ => True).
Proof. status_walk unfold_mtn. Qed.

Lemma collection_getValidToken_status :
  hoare StatusInv MTNCollectionService.getValidToken (fun _ => True).
Proof. status_walk unfold_mtn. Qed.

Lemma collection_requestToPay_status (referenceId : string) (requestData : Json)
      (targetEnvironment : string) (callbackUrl : option string) :
  hoare StatusInv
        (MTNCollectionService.requestToPay referenceId requestData targetEnvironment
                                           callbackUrl)
        (fun _ => True).
Proof. status_walk unfold_mtn. Qed.

Lemma airtel_getValidAccessToken_status :
  hoare StatusInv AirtelAuthService.getValidAccessToken (fun _ => True).
Proof. status_walk unfold_airtel. Qed.

Lemma airtel_updateUsageStats_status (success : option bool) :
  hoare StatusInv (AirtelAuthService.updateUsageStats success) (fun _ => True).
Proof. status_walk unfold_airtel. Qed.

Lemma requestPayment_status (userId phoneNumber : string) (amount : Z)
      (options : MTNPaymentService.Options) :
  hoare StatusInv (MTNPaymentService.requestPayment userId phoneNumber amount options)
        (fun _ => True).
Proof.
  status_walk ltac:(first [progress unfold MTNPaymentService.requestPayment | unfold_mtn]).
Qed.

Lemma requestPaymentSavingLast_status (userId phoneNumber : string) (amount : Z)
      (options : MTNPaymentService.Options) :
  hoare StatusInv
        (MTNPaymentService.requestPaymentSavingLast userId phoneNumber amount options)
        (fun _ => True).
Proof.
  status_walk
    ltac:(first [progress unfold MTNPaymentService.requestPaymentSavingLast | unfold_mtn]).
Qed.

Ltac unfold_payments :=
  first [ progress unfold PaymentService.requestToPay, PaymentService.transfer,
            PaymentService.refund, PaymentService.getPaymentStatus, PaymentService.submit
        | unfold_mtn ].

Lemma payments_requestToPay_status (requestData : Json) :
  hoare StatusInv (PaymentService.requestToPay requestData) (fun _ => True).
Proof. status_walk unfold_payments. Qed.

Lemma payments_transfer_status (requestData : Json) :
  hoare StatusInv (PaymentService.transfer requestData) (fun _ => True).
Proof. status_walk unfold_payments. Qed.

Lemma payments_refund_status (requestData : Json) :
  hoare StatusInv (PaymentService.refund requestData) (fun _ => True).
Proof. status_walk unfold_payments. Qed.

Lemma payments_getPaymentStatus_status (paymentId : nat) :
  hoare StatusInv (PaymentService.getPaymentStatus paymentId) (fun _ => True).
Proof. status_walk unfold_payments. Qed.

Section SubscriptionStatus.

Variable ussdPushPayment : Json -> string -> string -> M Json.
Variable requestToPay : Json -> M Json.
Variable addMonths : Z -> Z -> Z.

Hypothesis ussdPushPayment_status :
  forall paymentData country currency,
    hoare StatusInv (ussdPushPayment paymentData country currency) (fun _ => True).
Hypothesis requestToPay_status :
  forall paymentData, hoare StatusInv (requestToPay paymentData) (fun _ => True).

Ltac subscription_leaf :=
  first [ apply ussdPushPayment_status | apply requestToPay_status | status_leaf ].

Ltac unfold_subscription :=
  unfold SubscriptionService.openSubscription, SubscriptionService.processPayment,
    SubscriptionService.attempt, SubscriptionService.onPaymentError,
    SubscriptionService.calculateEndDate.

Lemma openSubscription_status (subscriptionData : Json) :
  hoare StatusInv (SubscriptionService.openSubscription subscriptionData)
        (fun opened => goodSubscription (SubscriptionService.subscription opened)).
Proof.
  hoare_walk_with subscription_leaf unfold_subscription; status_side.
Qed.

Lemma processPayment_status (subscriptionData : Json) (paymentChannel : string) (months : Z)
      (country currency transactionId : string) (subscription : Subscription.t) :
  goodSubscription subscription ->
  hoare StatusInv
        (SubscriptionService.processPayment ussdPushPayment requestToPay addMonths
           subscriptionData paymentChannel months country currency transactionId
           subscription)
        (fun _ => True).
Proof.
  intros Hgood.
  unfold SubscriptionService.processPayment.
  apply hoare_bind with (P := goodSubscription).
  - hoare_walk_with subscription_leaf unfold_subscription; status_side.
  - intros afterAnswer Hafter.
    hoare_walk_with subscription_leaf unfold_subscription; status_side.
Qed.

Lemma createSubscriptionPayment_status (subscriptionData : Json) :
  hoare StatusInv
        (SubscriptionService.createSubscriptionPayment ussdPushPayment requestToPay
           addMonths subscriptionData)
        (fun _ => True).
Proof.
  unfold SubscriptionService.createSubscriptionPayment.
  apply hoare_tryCatch; [|intros error; apply hoare_throwError].
  eapply hoare_bind; [apply openSubscription_status|].
  intros opened Hgood. apply processPayment_status, Hgood.
Qed.

End SubscriptionStatus.

(** ** Every step keeps the invariant *)

Lemma hoare_kept {A : Type} (m : M A) (Q : A -> Prop) (w : World) :
  hoare StatusInv m Q -> StatusInv w -> StatusInv (snd (m w)).
Proof. intros H HI. apply (H w HI). Qed.

Lemma Step_status (w w' : World) : Step w w' -> StatusInv w -> StatusInv w'.
Proof.
  intros Hstep HI. destruct Hstep.
  - unfold sameStore in H. unfold StatusInv in *. rewrite H. exact HI.
  - eapply hoare_kept; [|exact HI].
    apply createSubscriptionPayment_status; [exact H|].
    apply payments_requestToPay_status.
  - eapply hoare_kept; [apply mtn_callback_status|exact HI].
  - eapply hoare_kept; [apply airtel_callback_status|exact HI].
  - eapply hoare_kept; [apply requestPayment_status|exact HI].
  - eapply hoare_kept; [apply requestPaymentSavingLast_status|exact HI].
  - eapply hoare_kept; [apply payments_requestToPay_status|exact HI].
  - eapply hoare_kept; [apply payments_transfer_status|exact HI].
  - eapply hoare_kept; [apply payments_refund_status|exact HI].
  - eapply hoare_kept; [apply payments_getPaymentStatus_status|exact HI].
  - eapply hoare_kept; [apply paymentUpdateStatus_status|exact HI].
  - eapply hoare_kept; [apply subscriptionUpdateStatus_status|exact HI].
Qed.

Lemma Reachable_status (w : World) : Reachable w -> StatusInv w.
Proof.
  induction 1 as [w Hp Hs|w w' _ IH Hstep].
  - split; [rewrite Hp|rewrite Hs]; constructor.
  - exact (Step_status w w' Hstep IH).
Qed.

(** C3: in every world reached from a store without payments and
    subscriptions by the operations that write them (subscription payments
    with their error path, the two webhook handlers, the MTN payment
    request, request to pay, transfer, refund, the status enquiry and the
    two [updateStatus] methods), every stored payment and subscription has a
    main status among PENDING, SUCCESSFUL, FAILED and CANCELLED. A new record
    starts PENDING, and the status written afterwards is the one the
    provider's answer, the callback or the status enquiry names; an error
    writes FAILED. *)
Theorem status_is_always_of_the_enum :
  (* the invariant *)
  (forall w, Reachable w ->
     (forall p, In p (payments (store w)) -> In (Payment.status p) statusEnum) /\
     (forall s, In s (subscriptions (store w)) -> In (Subscription.status s) statusEnum)) /\
  statusEnum = ["PENDING"; "SUCCESSFUL"; "FAILED"; "CANCELLED"] /\
  (* creation *)
  (forall x tt tst st payer payee dto id,
      Payment.status (PaymentService.newPayment x tt tst st payer payee dto id) = "PENDING") /\
  (* the provider's answer decides *)
  (forall transactionStatus,
      SubscriptionService.statusOfAirtel transactionStatus
      = (if sameString transactionStatus (Some "TS") then "SUCCESSFUL"
         else if sameString transactionStatus (Some "TF") then "FAILED"
         else "PENDING")) /\
  (forall mtnStatus,
      SubscriptionService.statusOfMtn mtnStatus
      = (if sameString mtnStatus (Some "SUCCESSFUL") then "SUCCESSFUL"
         else if sameString mtnStatus (Some "FAILED") then "FAILED"
         else "PENDING")) /\
  (forall paymentResponse t s,
      Subscription.status (SubscriptionService.applyAirtelResponse paymentResponse t s)
      = (let data := prop "data" (Some paymentResponse) in
         let transaction := prop "transaction" data in
         if andb (truthy data) (truthy transaction)
         then SubscriptionService.statusOfAirtel (asString (prop "status" transaction))
         else Subscription.status s)) /\
  (forall paymentResponse t s,
      Subscription.status (SubscriptionService.applyMtnResponse paymentResponse t s)
      = (let mtnStatus := prop "status" (Some paymentResponse) in
         if truthy mtnStatus
         then SubscriptionService.statusOfMtn (asString mtnStatus)
         else Subscription.status s)) /\
  (* the callback decides *)
  (forall callbackData t payment updated,
      MTNPaymentController.reconcile callbackData t payment = Some updated ->
      prop "status" (Some callbackData) = Some (JStr (Payment.status updated)) /\
      In (Payment.status updated) ["PENDING"; "SUCCESSFUL"; "FAILED"]) /\
  (* the status enquiry decides *)
  (forall mtnStatus answer t payment,
      Payment.status (PaymentService.recordStatus mtnStatus answer t payment)
      = (if sameString mtnStatus (Some "SUCCESSFUL") then "SUCCESSFUL"
         else if sameString mtnStatus (Some "FAILED") then "FAILED"
         else Payment.status payment)) /\
  (* an error decides *)
  (forall paymentChannel error t s,
      Subscription.status (SubscriptionService.markFailed paymentChannel error t s)
      = "FAILED").
Proof.
  repeat match goal with |- _ /\ _ => split end.
  - intros w Hreach. destruct (Reachable_status w Hreach) as [Hp Hs].
    rewrite Forall_forall in Hp, Hs. split; assumption.
  - reflexivity.
  - reflexivity.
  - intros [s|]; reflexivity.
  - intros [s|]; reflexivity.
  - intros paymentResponse t s. unfold SubscriptionService.applyAirtelResponse. cbv zeta.
    destruct (andb _ _); reflexivity.
  - intros paymentResponse t s. unfold SubscriptionService.applyMtnResponse. cbv zeta.
    destruct (truthy _); reflexivity.
  - intros callbackData t payment updated.
    unfold MTNPaymentController.reconcile. cbv zeta.
    destruct (prop "status" (Some callbackData)) as [[| | |s| |]|]; try discriminate.
    destruct (String.eqb_spec s "PENDING") as [->|_].
    { intros E. injection E as <-. cbn. auto. }
    destruct (String.eqb_spec s "SUCCESSFUL") as [->|_].
    { intros E. injection E as <-. cbn. auto. }
    destruct (String.eqb_spec s "FAILED") as [->|_].
    { intros E. injection E as <-. cbn. auto. }
    discriminate.
  - intros [s|] answer t payment; unfold PaymentService.recordStatus; cbv zeta;
      cbn [sameString]; [|reflexivity].
    destruct (String.eqb s "SUCCESSFUL"); [reflexivity|].
    destruct (String.eqb s "FAILED"); reflexivity.
  - reflexivity.
Qed.

(** After a subscription through Airtel in [signup], which the provider
    reports as successful at once: the one subscription stored is
    SUCCESSFUL. *)
Lemma status_is_always_of_the_enum_witness :
  map Subscription.status
      (subscriptions (store (snd (SubscriptionService.createSubscriptionPayment
                                    airtelAccepts PaymentService.requestToPay
                                    thirtyDayMonths subscriptionRequest signup))))
  = ["SUCCESSFUL"] /\
  (forall p,
      In p (payments (store (snd (SubscriptionService.createSubscriptionPayment
                                    airtelAccepts PaymentService.requestToPay
                                    thirtyDayMonths subscriptionRequest signup)))) ->
      In (Payment.status p) statusEnum) /\
  (forall s,
      In s (subscriptions (store (snd (SubscriptionService.createSubscriptionPayment
                                         airtelAccepts PaymentService.requestToPay
                                         thirtyDayMonths subscriptionRequest signup)))) ->
      In (Subscription.status s) statusEnum).
Proof.
  split; [vm_compute; reflexivity|].
  apply (proj1 status_is_always_of_the_enum).
  apply reach_step with (w := signup).
  - apply reach_start; reflexivity.
  - apply step_createSubscriptionPayment.
    intros paymentData country currency. apply hoare_ret. exact I.
Defined.

(* ===================================================================== *)
(** * C4. When a stored token is valid                                  *)
(* ===================================================================== *)

Lemma valid_iff (token : option string) (expiresAt : option Z) (t : Z) :
  andb (truthyS token)
       (match expiresAt with Some e => Z.ltb t e | None => false end) = true
  <-> (truthyS token = true /\ exists e, expiresAt = Some e /\ t < e).
Proof.
  rewrite andb_true_iff. split.
  - intros [Ht He]. split; [exact Ht|].
    destruct expiresAt as [e|]; [|discriminate].
    exists e. split; [reflexivity|]. apply Z.ltb_lt, He.
  - intros [Ht (e & -> & He)]. split; [exact Ht|]. apply Z.ltb_lt, He.
Qed.

Lemma due_not_fresh (token : option string) (expiresAt : option Z) (buffer t e : Z) :
  expiresAt = Some e -> e - buffer <= t -> ~ Fresh token expiresAt buffer t.
Proof.
  intros He Hdue [_ (e' & He' & Hlt)]. rewrite He in He'. injection He' as <-. lia.
Qed.

(** C4, amended: each of [tokenValid], [collectionTokenValid] and
    [disbursementTokenValid] holds exactly when the token is there and the
    stored expiry is strictly later than the clock. Two records with the
    same token and expiry get the same verdict, and the same decision to
    refresh, whatever else they hold; counting a use, and storing the other
    token of the record, change neither the token nor the verdict; a token
    valid now was valid at every earlier instant. A token the predicate
    still calls valid is, all the same, replaced before its expiry: by the
    refresh once the expiry is within the margin (30 seconds in the
    collection service, 5 minutes in the two auth services; the store
    works, the record passes its schema and the provider answers a token),
    and by [resetMTNUser] and [resetAirtelUser], which delete every
    credential record. *)
Theorem token_valid_iff_present_and_unexpired :
  (* the one condition *)
  (forall (u : MTNUser.t) (t : Z),
      MTNUser.collectionTokenValid u t = true <->
      (truthyS (MTNUser.collectionToken u) = true /\
       exists e, MTNUser.collectionTokenExpiresAt u = Some e /\ t < e)) /\
  (forall (u : MTNUser.t) (t : Z),
      MTNUser.disbursementTokenValid u t = true <->
      (truthyS (MTNUser.disbursementToken u) = true /\
       exists e, MTNUser.disbursementTokenExpiresAt u = Some e /\ t < e)) /\
  (forall (u : AirtelUser.t) (t : Z),
      AirtelUser.tokenValid u t = true <->
      (truthyS (AirtelUser.accessToken u) = true /\
       exists e, AirtelUser.tokenExpiresAt u = Some e /\ t < e)) /\
  (* nothing else of the record counts *)
  (forall (u u' : MTNUser.t) (t : Z),
      MTNUser.collectionToken u = MTNUser.collectionToken u' ->
      MTNUser.collectionTokenExpiresAt u = MTNUser.collectionTokenExpiresAt u' ->
      MTNUser.collectionTokenValid u t = MTNUser.collectionTokenValid u' t /\
      MTNAuthService.collectionRefreshDue u t = MTNAuthService.collectionRefreshDue u' t /\
      MTNCollectionService.cachedTokenUsable u t = MTNCollectionService.cachedTokenUsable u' t) /\
  (forall (u u' : MTNUser.t) (t : Z),
      MTNUser.disbursementToken u = MTNUser.disbursementToken u' ->
      MTNUser.disbursementTokenExpiresAt u = MTNUser.disbursementTokenExpiresAt u' ->
      MTNUser.disbursementTokenValid u t = MTNUser.disbursementTokenValid u' t /\
      MTNAuthService.disbursementRefreshDue u t = MTNAuthService.disbursementRefreshDue u' t) /\
  (forall (u u' : AirtelUser.t) (t : Z),
      AirtelUser.accessToken u = AirtelUser.accessToken u' ->
      AirtelUser.tokenExpiresAt u = AirtelUser.tokenExpiresAt u' ->
      AirtelUser.tokenValid u t = AirtelUser.tokenValid u' t /\
      AirtelAuthService.refreshDue u t = AirtelAuthService.refreshDue u' t) /\
  (* counting a use keeps the token and its validity *)
  (forall (success : option bool) (at_ : Z) (u : MTNUser.t) (t : Z),
      MTNUser.collectionToken (MTNUser.bump success at_ u) = MTNUser.collectionToken u /\
      MTNUser.disbursementToken (MTNUser.bump success at_ u) = MTNUser.disbursementToken u /\
      MTNUser.collectionTokenValid (MTNUser.bump success at_ u) t
        = MTNUser.collectionTokenValid u t /\
      MTNUser.disbursementTokenValid (MTNUser.bump success at_ u) t
        = MTNUser.disbursementTokenValid u t) /\
  (forall (success : option bool) (at_ : Z) (u : AirtelUser.t) (t : Z),
      AirtelUser.accessToken (AirtelUser.bump success at_ u) = AirtelUser.accessToken u /\
      AirtelUser.tokenValid (AirtelUser.bump success at_ u) t = AirtelUser.tokenValid u t) /\
  (* a token valid now was valid at every earlier instant: only time ends it *)
  (forall (u : MTNUser.t) (t t' : Z), t' <= t ->
      (MTNUser.collectionTokenValid u t = true -> MTNUser.collectionTokenValid u t' = true) /\
      (MTNUser.disbursementTokenValid u t = true -> MTNUser.disbursementTokenValid u t' = true)) /\
  (forall (u : AirtelUser.t) (t t' : Z), t' <= t ->
      AirtelUser.tokenValid u t = true -> AirtelUser.tokenValid u t' = true) /\
  (* storing the other token keeps this one *)
  (forall (token : option string) (expiresIn : option Z) (at_ : Z) (u : MTNUser.t) (t : Z),
      MTNUser.collectionToken (MTNUser.setDisbursementToken token expiresIn at_ u)
        = MTNUser.collectionToken u /\
      MTNUser.collectionTokenValid (MTNUser.setDisbursementToken token expiresIn at_ u) t
        = MTNUser.collectionTokenValid u t /\
      MTNUser.disbursementToken (MTNUser.setCollectionToken token expiresIn at_ u)
        = MTNUser.disbursementToken u /\
      MTNUser.disbursementTokenValid (MTNUser.setCollectionToken token expiresIn at_ u) t
        = MTNUser.disbursementTokenValid u t) /\
  (* the refresh inside the margin replaces a token that is still valid *)
  (forall (w : World) (u : MTNUser.t) (e : Z) r rest answer token expiresIn,
      faults w = [] ->
      find MTNUser.isActive (mtnUsers (store w)) = Some u ->
      MTNUser.validationErrors u = [] ->
      MTNUser.collectionTokenValid u (now w) = true ->
      MTNUser.collectionTokenExpiresAt u = Some e ->
      e - MTNCollectionService.refreshThreshold <= now w ->
      replies w = Http.Answered r :: rest ->
      Http.ok r = true ->
      Http.json r = Some answer ->
      prop "access_token" (Some answer) = Some (JStr token) ->
      prop "expires_in" (Some answer) = option_map JNum expiresIn ->
      exists d,
        fst (MTNCollectionService.getValidToken w) = Ok (Some token) /\
        stored (MTNUser._id u) (snd (MTNCollectionService.getValidToken w)) = Some d /\
        MTNUser.collectionToken d = Some token) /\
  (forall (w : World) (u : MTNUser.t) (e : Z) r rest token expiresIn,
      faults w = [] ->
      find MTNUser.isActive (mtnUsers (store w)) = Some u ->
      MTNUser.validationErrors u = [] ->
      MTNUser.collectionTokenValid u (now w) = true ->
      MTNUser.collectionTokenExpiresAt u = Some e ->
      e - MTNAuthService.refreshThreshold <= now w ->
      Fresh (MTNUser.disbursementToken u) (MTNUser.disbursementTokenExpiresAt u)
            MTNAuthService.refreshThreshold (now w) ->
      replies w = Http.Answered r :: rest ->
      TokenAnswer r token expiresIn ->
      exists d,
        fst (MTNAuthService.getCollectionToken w) = Ok (Some token) /\
        stored (MTNUser._id u) (snd (MTNAuthService.getCollectionToken w)) = Some d /\
        MTNUser.collectionToken d = Some token) /\
  (forall (w : World) (u : AirtelUser.t) (e : Z) clientId clientSecret r rest token expiresIn,
      faults w = [] ->
      find AirtelUser.isActive (airtelUsers (store w)) = Some u ->
      AirtelUser.validationErrors u = [] ->
      AirtelUser.tokenValid u (now w) = true ->
      AirtelUser.tokenExpiresAt u = Some e ->
      e - AirtelAuthService.refreshThreshold <= now w ->
      assoc "AIRTEL_CLIENT_ID" (env w) = Some clientId -> clientId <> "" ->
      assoc "AIRTEL_CLIENT_SECRET" (env w) = Some clientSecret -> clientSecret <> "" ->
      replies w = Http.Answered r :: rest ->
      TokenAnswer r token expiresIn -> token <> "" ->
      exists d,
        fst (AirtelAuthService.getValidAccessToken w) = Ok (Some token) /\
        stored (AirtelUser._id u) (snd (AirtelAuthService.getValidAccessToken w)) = Some d /\
        AirtelUser.accessToken d = Some token) /\
  (* a reset deletes the records, whatever their tokens *)
  (forall (w : World), faults w = [] ->
      fst (MTNAuthService.resetMTNUser w) = Ok true /\
      mtnUsers (store (snd (MTNAuthService.resetMTNUser w))) = []) /\
  (forall (w : World), faults w = [] ->
      fst (AirtelAuthService.resetAirtelUser w) = Ok true /\
      airtelUsers (store (snd (AirtelAuthService.resetAirtelUser w))) = []).
Proof.
  repeat match goal with |- _ /\ _ => split end.
  - intros u t. apply valid_iff.
  - intros u t. apply valid_iff.
  - intros u t. apply valid_iff.
  - intros u u' t Ht He.
    unfold MTNAuthService.collectionRefreshDue, MTNCollectionService.cachedTokenUsable,
      MTNUser.collectionTokenValid.
    rewrite Ht, He. auto.
  - intros u u' t Ht He.
    unfold MTNAuthService.disbursementRefreshDue, MTNUser.disbursementTokenValid.
    rewrite Ht, He. auto.
  - intros u u' t Ht He.
    unfold AirtelAuthService.refreshDue, AirtelUser.tokenValid.
    rewrite Ht, He. auto.
  - intros success at_ u t. repeat split.
  - intros success at_ u t. repeat split.
  - intros u t t' Hle. split; intros H.
    + apply valid_iff in H. apply valid_iff.
      destruct H as [Ht (e & He & Hlt)]. split; [exact Ht|]. exists e. split; [exact He|lia].
    + apply valid_iff in H. apply valid_iff.
      destruct H as [Ht (e & He & Hlt)]. split; [exact Ht|]. exists e. split; [exact He|lia].
  - intros u t t' Hle H.
    apply valid_iff in H. apply valid_iff.
    destruct H as [Ht (e & He & Hlt)]. split; [exact Ht|]. exists e. split; [exact He|lia].
  - intros token expiresIn at_ u t. repeat split.
  - intros w u e r rest answer token expiresIn Hq Hfind Hvalid _ He Hdue Hr Hok Hjson
           Htoken Hexp.
    destruct (collection_getValidToken_refresh w u r rest answer token expiresIn
                Hq Hfind Hvalid (due_not_fresh _ _ _ _ _ He Hdue) Hr Hok Hjson Htoken Hexp)
      as (w' & key & d & H1 & _ & _ & H3 & H4 & _).
    exists d. rewrite H1. auto.
  - intros w u e r rest token expiresIn Hq Hfind Hvalid _ He Hdue Hd Hr Ha.
    destruct (auth_initialize_refresh_collection w u r rest token expiresIn
                Hq Hfind Hvalid (due_not_fresh _ _ _ _ _ He Hdue) Hd Hr Ha)
      as (w' & d & H1 & _ & _ & H3 & H4 & _).
    exists d. unfold MTNAuthService.getCollectionToken, bind. rewrite H1. cbn [ret fst snd].
    rewrite H4. auto.
  - intros w u e clientId clientSecret r rest token expiresIn Hq Hfind Hvalid _ He Hdue
           Hcid Hne Hsec Hsne Hr Ha Htne.
    destruct (airtel_initialize_refresh w u clientId clientSecret r rest token expiresIn
                Hq Hfind Hvalid Htne (due_not_fresh _ _ _ _ _ He Hdue) Hcid Hne Hsec Hsne
                Hr Ha)
      as (w' & d & H1 & _ & _ & H3 & H4 & _).
    exists d. unfold AirtelAuthService.getValidAccessToken, bind. rewrite H1.
    cbn [ret fst snd]. rewrite H4. auto.
  - intros w Hq. unfold MTNAuthService.resetMTNUser, tryCatch, deleteMany, bind.
    rewrite (storeOp_quiet w Hq). split; reflexivity.
  - intros w Hq. unfold AirtelAuthService.resetAirtelUser, tryCatch, deleteMany, bind.
    rewrite (storeOp_quiet w Hq). split; reflexivity.
Qed.

(** In [renewal] a reset deletes the record of [merchant], whose
    collection token is valid. *)
Lemma token_valid_iff_present_and_unexpired_witness :
  MTNUser.collectionTokenValid merchant (now renewal) = true /\
  fst (MTNAuthService.resetMTNUser renewal) = Ok true /\
  mtnUsers (store (snd (MTNAuthService.resetMTNUser renewal))) = [].
Proof.
  split; [reflexivity|].
  refine (proj1 (proj2 (proj2 (proj2 (proj2 (proj2 (proj2 (proj2 (proj2 (proj2 (proj2
            (proj2 (proj2 (proj2 (proj2 token_valid_iff_present_and_unexpired))))))))))))))
            renewal eq_refl).
Defined.

(** C4 as the claim states it fails in its last part: in [renewal] the
    stored collection token of [merchant] is valid, and one call of
    [getCollectionToken] replaces it, a hundred seconds before its expiry; a
    reset deletes the record with it. *)
Lemma valid_token_is_replaced_before_its_expiry :
  stored 0 renewal = Some merchant /\
  MTNUser.collectionTokenValid merchant (now renewal) = true /\
  MTNUser.collectionToken merchant = Some "token-0123456789abcdefghij" /\
  option_map MTNUser.collectionToken
             (stored 0 (snd (MTNAuthService.getCollectionToken renewal)))
  = Some (Some "collection-token") /\
  mtnUsers (store (snd (MTNAuthService.resetMTNUser renewal))) = [].
Proof. repeat split; vm_compute; reflexivity. Qed.

(* ===================================================================== *)
(** * C5. The token requests                                            *)
(* ===================================================================== *)

(** What [exchange] leaves in the log, whatever the answer. *)
Lemma exchange_sent (req : Http.Request) (w : World) :
  sent (snd (exchange req w)) = (sent w ++ [req])%list /\
  env (snd (exchange req w)) = env w.
Proof. unfold exchange. destruct (replies w); split; reflexivity. Qed.

Lemma axios_sent (req : Http.Request) (w : World) :
  sent (snd (axios req w)) = (sent w ++ [req])%list.
Proof.
  unfold axios, bind, exchange.
  destruct (replies w) as [|[r|msg] rest]; cbn; try reflexivity.
  destruct (Http.ok r); reflexivity.
Qed.

Lemma fetch_sent (req : Http.Request) (w : World) :
  sent (snd (fetch req w)) = (sent w ++ [req])%list.
Proof.
  unfold fetch, bind, exchange.
  destruct (replies w) as [|[r|msg] rest]; cbn; reflexivity.
Qed.

Lemma createCollectionToken_sent (xReferenceId : string) (apiKey : option string) (w : World) :
  sent (snd (MTNAuthService.createCollectionToken xReferenceId apiKey w))
  = (sent w ++ [MTNAuthService.collectionTokenRequest
                  (Config.mtn (env w)) xReferenceId apiKey])%list.
Proof.
  unfold MTNAuthService.createCollectionToken. mrun.
  rewrite <- (axios_sent _ w).
  destruct (axios _ w) as [[r|e] w']; reflexivity.
Qed.

Lemma createDisbursementToken_sent (xReferenceId : string) (apiKey : option string) (w : World) :
  sent (snd (MTNAuthService.createDisbursementToken xReferenceId apiKey w))
  = (sent w ++ [MTNAuthService.disbursementTokenRequest
                  (Config.mtn (env w)) xReferenceId apiKey])%list.
Proof.
  unfold MTNAuthService.createDisbursementToken. mrun.
  rewrite <- (axios_sent _ w).
  destruct (axios _ w) as [[r|e] w']; reflexivity.
Qed.

Lemma getToken_sent (xReferenceId : string) (apiKey : option string) (w : World) :
  exists key,
    sent (snd (MTNCollectionService.getToken xReferenceId apiKey w))
    = (sent w ++ [MTNCollectionService.tokenRequest
                    (Config.mtnBaseURL (Config.mtn (env w))) key
                    xReferenceId apiKey])%list.
Proof.
  unfold MTNCollectionService.getToken, MTNCollectionService.subscriptionKey. mrun.
  match goal with
  | |- context [fetch (MTNCollectionService.tokenRequest _ ?k _ _) w] => exists k
  end.
  rewrite <- (fetch_sent _ w).
  destruct (fetch _ w) as [[r|e] w']; [|reflexivity].
  cbn [snd]. destruct (Http.json r); [|reflexivity].
  destruct (negb (Http.ok r)); reflexivity.
Qed.

Lemma getAccessToken_configured (w : World) (clientId clientSecret : string) :
  Config.airtelClientId (Config.airtel (env w)) = Some clientId -> clientId <> "" ->
  Config.airtelClientSecret (Config.airtel (env w)) = Some clientSecret ->
  clientSecret <> "" ->
  sent (snd (AirtelAuthService.getAccessToken w))
  = (sent w ++ [AirtelAuthService.tokenRequest
                  (Config.airtel (env w)) clientId clientSecret])%list.
Proof.
  intros Hid Hidne Hsec Hsecne.
  unfold AirtelAuthService.getAccessToken. mrun.
  rewrite Hid, Hsec. cbn [truthyS].
  rewrite (proj2 (String.eqb_neq _ _) Hidne), (proj2 (String.eqb_neq _ _) Hsecne).
  cbn [negb andb].
  rewrite <- (fetch_sent _ w).
  destruct (fetch _ w) as [[r|e] w']; [|reflexivity].
  cbn [snd]. destruct (Http.json r); [|reflexivity].
  destruct (negb (Http.ok r)); reflexivity.
Qed.

Lemma axios_getAccessToken_configured (w : World) (clientId clientSecret : string) :
  Config.airtelClientId (Config.airtel (env w)) = Some clientId -> clientId <> "" ->
  Config.airtelClientSecret (Config.airtel (env w)) = Some clientSecret ->
  clientSecret <> "" ->
  sent (snd (AirtelAuthServiceAxios.getAccessToken w))
  = (sent w ++ [AirtelAuthServiceAxios.tokenRequest
                  (Config.airtel (env w)) clientId clientSecret])%list.
Proof.
  intros Hid Hidne Hsec Hsecne.
  unfold AirtelAuthServiceAxios.getAccessToken. mrun.
  rewrite Hid, Hsec. cbn [truthyS].
  rewrite (proj2 (String.eqb_neq _ _) Hidne), (proj2 (String.eqb_neq _ _) Hsecne).
  cbn [negb andb].
  rewrite <- (axios_sent _ w).
  destruct (axios _ w) as [[r|e] w']; [|reflexivity].
  cbn [snd]. unfold member. destruct (Http.body r); reflexivity.
Qed.

Lemma getAccessToken_not_configured (w : World) :
  andb (truthyS (Config.airtelClientId (Config.airtel (env w))))
       (truthyS (Config.airtelClientSecret (Config.airtel (env w)))) = false ->
  let reason :=
    "Failed to get Airtel access token: "
      ++ "Airtel client credentials (AIRTEL_CLIENT_ID and AIRTEL_CLIENT_SECRET) are not configured" in
  AirtelAuthService.getAccessToken w = (Throw (mkError reason), w) /\
  AirtelAuthServiceAxios.getAccessToken w = (Throw (mkError reason), w).
Proof.
  intros Hmissing. cbv zeta.
  unfold AirtelAuthService.getAccessToken, AirtelAuthServiceAxios.getAccessToken.
  cbv beta iota zeta delta [bind tryCatch airtelConfig].
  destruct (Config.airtelClientId (Config.airtel (env w))) as [clientId|];
    destruct (Config.airtelClientSecret (Config.airtel (env w))) as [clientSecret|];
    try (split; reflexivity).
  rewrite Hmissing. split; reflexivity.
Qed.

(** [base64] on the test vectors of RFC 4648. *)
Example base64_rfc4648 :
  base64 "" = "" /\ base64 "f" = "Zg==" /\ base64 "fo" = "Zm8=" /\
  base64 "foo" = "Zm9v" /\ base64 "foob" = "Zm9vYg==" /\
  base64 "fooba" = "Zm9vYmE=" /\ base64 "foobar" = "Zm9vYmFy".
Proof. repeat split; vm_compute; reflexivity. Qed.

(** C5: every MTN token acquisition (collection and disbursement in the
    auth service, collection in the collection service) sends exactly one
    request, to the token endpoint, whose [Authorization] header is
    ["Basic "] followed by the base64 of [xReferenceId:apiKey]. Every Airtel
    acquisition, in both revisions of the service, sends exactly one
    request when both client credentials are set: a POST to the OAuth2
    token endpoint whose JSON body holds [client_id], [client_secret] and
    [grant_type = "client_credentials"]. When a credential is missing or
    empty no token is acquired: the call throws and nothing is sent. *)
Theorem token_requests_basic_auth_and_client_credentials :
  (* MTN: the one request each acquisition sends, and its header *)
  (forall (xReferenceId apiKey : string) (w : World),
      exists req,
        sent (snd (MTNAuthService.createCollectionToken xReferenceId (Some apiKey) w))
          = (sent w ++ [req])%list /\
        Http.url req = Config.mtnBaseURL (Config.mtn (env w)) ++ "/collection/token/" /\
        assoc "Authorization" (Http.headers req) = Some (basicAuth xReferenceId apiKey)) /\
  (forall (xReferenceId apiKey : string) (w : World),
      exists req,
        sent (snd (MTNAuthService.createDisbursementToken xReferenceId (Some apiKey) w))
          = (sent w ++ [req])%list /\
        Http.url req = Config.mtnBaseURL (Config.mtn (env w)) ++ "/disbursement/token/" /\
        assoc "Authorization" (Http.headers req) = Some (basicAuth xReferenceId apiKey)) /\
  (forall (xReferenceId apiKey : string) (w : World),
      exists req,
        sent (snd (MTNCollectionService.getToken xReferenceId (Some apiKey) w))
          = (sent w ++ [req])%list /\
        Http.url req = Config.mtnBaseURL (Config.mtn (env w)) ++ "/collection/token/" /\
        assoc "Authorization" (Http.headers req) = Some (basicAuth xReferenceId apiKey)) /\
  (* Airtel, with the credentials: the one request, and its body *)
  (forall (w : World) (clientId clientSecret : string),
      Config.airtelClientId (Config.airtel (env w)) = Some clientId -> clientId <> "" ->
      Config.airtelClientSecret (Config.airtel (env w)) = Some clientSecret ->
      clientSecret <> "" ->
      (exists req,
         sent (snd (AirtelAuthService.getAccessToken w)) = (sent w ++ [req])%list /\
         Http.method req = "POST" /\
         Http.url req
         = dropTrailingSlash (Config.airtelBaseURL (Config.airtel (env w)))
             ++ "/auth/oauth2/token" /\
         clientCredentials clientId clientSecret req) /\
      (exists req,
         sent (snd (AirtelAuthServiceAxios.getAccessToken w)) = (sent w ++ [req])%list /\
         Http.method req = "POST" /\
         Http.url req
         = dropTrailingSlash (Config.airtelBaseURL (Config.airtel (env w)))
             ++ "/auth/oauth2/token" /\
         clientCredentials clientId clientSecret req)) /\
  (* Airtel, without them: no acquisition *)
  (forall (w : World),
      andb (truthyS (Config.airtelClientId (Config.airtel (env w))))
           (truthyS (Config.airtelClientSecret (Config.airtel (env w)))) = false ->
      (exists e, AirtelAuthService.getAccessToken w = (Throw e, w)) /\
      (exists e, AirtelAuthServiceAxios.getAccessToken w = (Throw e, w))).
Proof.
  assert (Hcc : forall clientId clientSecret,
             exists body,
               Some (AirtelAuthService.tokenRequestBody clientId clientSecret) = Some body /\
               prop "client_id" (Some body) = Some (JStr clientId) /\
               prop "client_secret" (Some body) = Some (JStr clientSecret) /\
               prop "grant_type" (Some body) = Some (JStr "client_credentials")).
  { intros clientId clientSecret. eexists. split; [reflexivity|]. repeat split. }
  repeat match goal with |- _ /\ _ => split end.
  - intros xReferenceId apiKey w. eexists. split; [apply createCollectionToken_sent|].
    split; reflexivity.
  - intros xReferenceId apiKey w. eexists. split; [apply createDisbursementToken_sent|].
    split; reflexivity.
  - intros xReferenceId apiKey w.
    destruct (getToken_sent xReferenceId (Some apiKey) w) as [key Hkey].
    eexists. split; [exact Hkey|]. split; reflexivity.
  - intros w clientId clientSecret Hid Hidne Hsec Hsecne. split.
    + eexists. split; [apply getAccessToken_configured; eassumption|].
      split; [reflexivity|]. split; [reflexivity|]. apply Hcc.
    + eexists. split; [apply axios_getAccessToken_configured; eassumption|].
      split; [reflexivity|]. split; [reflexivity|]. apply Hcc.
  - intros w Hmissing.
    destruct (getAccessToken_not_configured w Hmissing) as [H1 H2].
    split; eexists; eassumption.
Qed.

(** In [providerOff] both credentials are set: each revision sends its one
    request. *)
Lemma token_requests_basic_auth_and_client_credentials_witness :
  (exists req,
     sent (snd (AirtelAuthService.getAccessToken providerOff))
     = (sent providerOff ++ [req])%list /\
     Http.method req = "POST" /\
     Http.url req
     = dropTrailingSlash (Config.airtelBaseURL (Config.airtel (env providerOff)))
         ++ "/auth/oauth2/token" /\
     clientCredentials "client" "secret" req) /\
  (exists req,
     sent (snd (AirtelAuthServiceAxios.getAccessToken providerOff))
     = (sent providerOff ++ [req])%list /\
     Http.method req = "POST" /\
     Http.url req
     = dropTrailingSlash (Config.airtelBaseURL (Config.airtel (env providerOff)))
         ++ "/auth/oauth2/token" /\
     clientCredentials "client" "secret" req).
Proof.
  apply (proj1 (proj2 (proj2 (proj2 token_requests_basic_auth_and_client_credentials)))
           providerOff "client" "secret" eq_refl);
    [discriminate|reflexivity|discriminate].
Defined.

(* ===================================================================== *)
(** * What a run sends                                                    *)
(* ===================================================================== *)

Lemma sentOnly_refl (P : Http.Request -> Prop) (w : World) : sentOnly P w w.
Proof. split; [reflexivity|]. exists []. split; [symmetry; apply app_nil_r|constructor]. Qed.

Lemma sentOnly_NowFree (P : Http.Request -> Prop) (w0 : World) : NowFree (sentOnly P w0).
Proof. intros t w H. exact H. Qed.

Lemma sentOnly_FaultFree (P : Http.Request -> Prop) (w0 : World) : FaultFree (sentOnly P w0).
Proof. intros fs w H. exact H. Qed.

Lemma sentOnly_DrawFree (P : Http.Request -> Prop) (w0 : World) : DrawFree (sentOnly P w0).
Proof. intros n w H. exact H. Qed.

Lemma sentOnly_StoreFree (P : Http.Request -> Prop) (w0 : World) : StoreFree (sentOnly P w0).
Proof. intros s w H. exact H. Qed.

Lemma sentOnly_CreateFree (P : Http.Request -> Prop) (w0 : World) :
  CreateFree (sentOnly P w0).
Proof. apply StoreFree_CreateFree, sentOnly_StoreFree. Qed.

#[local] Hint Resolve sentOnly_NowFree sentOnly_FaultFree sentOnly_DrawFree
  sentOnly_StoreFree sentOnly_CreateFree : frees.

Lemma hoare_exchange_only (P : Http.Request -> Prop) (w0 : World) (req : Http.Request) :
  P req -> hoare (sentOnly P w0) (exchange req) (fun _ => True).
Proof.
  intros Hreq w (Henv & new & Hsent & Hnew).
  assert (H : sentOnly P w0 (withExchange (tl (replies w)) req w)).
  { split; [exact Henv|]. exists (new ++ [req])%list. split.
    - cbn. rewrite Hsent, app_assoc. reflexivity.
    - apply Forall_app. split; [exact Hnew|]. constructor; [exact Hreq|constructor]. }
  unfold exchange. destruct (replies w); cbn in *; split; trivial; exact H.
Qed.

Lemma hoare_fetch_only (P : Http.Request -> Prop) (w0 : World) (req : Http.Request) :
  P req -> hoare (sentOnly P w0) (fetch req) (fun _ => True).
Proof.
  intros Hreq. unfold fetch.
  apply hoare_bind with (P := fun _ => True); [apply hoare_exchange_only, Hreq|].
  intros [resp|msg] _; [apply hoare_ret; trivial|apply hoare_throwError].
Qed.

Lemma hoare_axios_only (P : Http.Request -> Prop) (w0 : World) (req : Http.Request) :
  P req -> hoare (sentOnly P w0) (axios req) (fun _ => True).
Proof.
  intros Hreq. unfold axios.
  apply hoare_bind with (P := fun _ => True); [apply hoare_exchange_only, Hreq|].
  intros [resp|msg] _; [|apply hoare_throwError].
  destruct (Http.ok resp); [apply hoare_ret; trivial|apply hoare_throw].
Qed.

(** Under [sentOnly] the environment is known. *)
Lemma hoare_getEnv_as (P : Http.Request -> Prop) (w0 : World) (name : string) :
  hoare (sentOnly P w0) (getEnv name) (fun v => v = assoc name (env w0)).
Proof.
  intros w HI. split; [exact HI|]. intros a E. cbn in E. injection E as <-.
  destruct HI as [-> _]. reflexivity.
Qed.

Lemma hoare_mtnConfig_as (P : Http.Request -> Prop) (w0 : World) :
  hoare (sentOnly P w0) mtnConfig (fun cfg => cfg = Config.mtn (env w0)).
Proof.
  intros w HI. split; [exact HI|]. intros a E. cbn in E. injection E as <-.
  destruct HI as [-> _]. reflexivity.
Qed.

Lemma hoare_getProcessEnv_as (P : Http.Request -> Prop) (w0 : World) :
  hoare (sentOnly P w0) getProcessEnv (fun e => e = env w0).
Proof.
  intros w HI. split; [exact HI|]. intros a E. cbn in E. injection E as <-.
  destruct HI as [-> _]. reflexivity.
Qed.

(** A leaf together with what it returns; the value of a configuration
    read is substituted at once. *)
Ltac only_leaf :=
  first [ apply hoare_mtnConfig_as
        | apply hoare_getEnv_as
        | apply hoare_getProcessEnv_as
        | apply hoare_fetch_only
        | apply hoare_axios_only
        | hoare_leaf ].

Lemma getValidToken_sends_token_requests (w0 : World) :
  hoare (sentOnly (isCollectionTokenRequest (env w0)) w0)
        MTNCollectionService.getValidToken (fun _ => True).
Proof.
  hoare_walk_with only_leaf
    ltac:(unfold MTNCollectionService.getValidToken, MTNCollectionService.getMTNUser,
      MTNCollectionService.getToken, MTNCollectionService.subscriptionKey,
      updateCollectionToken);
    cbv beta in *; subst;
    try free; try (intros; exact I);
    try (intros; apply sentOnly_StoreFree; assumption);
    try (split; reflexivity).
Qed.

(* ===================================================================== *)
(** * C6. The reference of an MTN payment request                       *)
(* ===================================================================== *)

Lemma requestToPay_Ok_inv (referenceId : string) (requestData : Json)
      (targetEnvironment : string) (callbackUrl : option string)
      (w w' : World) (accepted : MTNCollectionService.Accepted) :
  MTNCollectionService.requestToPay referenceId requestData targetEnvironment callbackUrl w
    = (Ok accepted, w') ->
  MTNCollectionService.acceptedReferenceId accepted = referenceId /\
  exists earlier req,
    sent w' = (earlier ++ [req])%list /\
    isRequestToPay (Config.mtn (env w)) req /\ carries referenceId req /\
    Http.data req = Some (MTNCollectionService.requestToPayBody requestData).
Proof.
  unfold MTNCollectionService.requestToPay.
  intros H.
  apply bind_Ok_inv in H as (cfg & w1 & Hcfg & H).
  injection Hcfg as <- <-.
  apply bind_Ok_inv in H as (key & w1 & Hkey & H).
  assert (w1 = w) as ->.
  { unfold MTNCollectionService.subscriptionKey in Hkey. revert Hkey. mrun.
    intros E. injection E as _ <-. reflexivity. }
  apply tryCatch_rethrow_Ok_inv in H.
  apply bind_Ok_inv in H as (token & w1 & Htoken & H).
  apply bind_Ok_inv in H as (finalCallbackUrl & w2 & Hcb & H).
  injection Hcb as <- <-.
  destruct (assoc "MTN_CALLBACK_URL" (env w1)) as [callback|]; [|discriminate].
  destruct (truthyS (Some callback)); [|discriminate].
  apply bind_Ok_inv in H as ([] & w2 & Hsub & H).
  destruct token as [token|]; [|discriminate].
  injection Hsub as <-.
  apply bind_Ok_inv in H as (response & w3 & Hfetch & H).
  destruct (Z.eqb (Http.status response) 202);
    [|repeat (match type of H with (if ?b then _ else _) _ = _ => destruct b end);
      discriminate].
  injection H as <- <-.
  split; [reflexivity|].
  pose proof (f_equal (fun x => sent (snd x)) Hfetch) as Hsent. cbn [snd] in Hsent.
  unfold fetch, bind, exchange in Hsent.
  eexists. eexists. split.
  { rewrite <- Hsent. destruct (replies w1) as [|[r|msg] rest]; reflexivity. }
  repeat split.
Qed.

(** A payment that was saved is the stored payment of its [_id]. *)
Lemma save_payment_Ok_inv (p p' : Payment.t) (w w' : World) :
  save p w = (Ok p', w') ->
  Payment.validationErrors p = [] /\
  stored (Payment._id p) w' = Some p' /\
  Payment._id p' = Payment._id p /\
  Payment.xReferenceId p' = Payment.xReferenceId p.
Proof.
  intros H. destruct (save_Ok_inv _ _ _ _ H) as (Hvalid & w1 & _ & -> & ->).
  split; [exact Hvalid|].
  split; [|split; reflexivity].
  unfold stored. cbn [store withStore docs setDocs PaymentModel payments].
  change (Payment._id p) with (idOf (stampOf (now w1) p)).
  apply find_upsert.
Qed.

(** The Payment schema lists EUR, USD, XAF and XOF. *)
Lemma payment_rwf_refused (p : Payment.t) :
  Payment.currency p = "RWF" -> Payment.validationErrors p <> [].
Proof.
  intros Hc Hvalid. unfold Payment.validationErrors in Hvalid. cbv zeta in Hvalid.
  rewrite Hc in Hvalid. valid_parts Hvalid.
  match goal with
  | H : firstOf (requiredString "currency" _) _ = [] |- _ => discriminate H
  end.
Qed.

(** ** What a run sends, whatever its outcome *)

Lemma sentSince_refl (w : World) (referenceId : string) : sentSince w referenceId w.
Proof. exists []. split; [symmetry; apply app_nil_r|constructor]. Qed.

Lemma sentSince_NowFree (w0 : World) (r : string) : NowFree (sentSince w0 r).
Proof. intros t w H. exact H. Qed.

Lemma sentSince_FaultFree (w0 : World) (r : string) : FaultFree (sentSince w0 r).
Proof. intros fs w H. exact H. Qed.

Lemma sentSince_DrawFree (w0 : World) (r : string) : DrawFree (sentSince w0 r).
Proof. intros n w H. exact H. Qed.

Lemma sentSince_StoreFree (w0 : World) (r : string) : StoreFree (sentSince w0 r).
Proof. intros s w H. exact H. Qed.

Lemma sentSince_CreateFree (w0 : World) (r : string) : CreateFree (sentSince w0 r).
Proof. apply StoreFree_CreateFree, sentSince_StoreFree. Qed.

#[local] Hint Resolve sentSince_NowFree sentSince_FaultFree sentSince_DrawFree
  sentSince_StoreFree sentSince_CreateFree : frees.

Lemma hoare_exchange_named (w0 : World) (r : string) (req : Http.Request) :
  namesOnly r req -> hoare (sentSince w0 r) (exchange req) (fun _ => True).
Proof.
  intros Hreq w (new & Hsent & Hnew).
  assert (H : sentSince w0 r (withExchange (tl (replies w)) req w)).
  { exists (new ++ [req])%list. split.
    - cbn. rewrite Hsent, app_assoc. reflexivity.
    - apply Forall_app. split; [exact Hnew|]. constructor; [exact Hreq|constructor]. }
  unfold exchange. destruct (replies w); cbn in *; split; trivial; exact H.
Qed.

Lemma hoare_fetch_named (w0 : World) (r : string) (req : Http.Request) :
  namesOnly r req -> hoare (sentSince w0 r) (fetch req) (fun _ => True).
Proof.
  intros Hreq. unfold fetch.
  apply hoare_bind with (P := fun _ => True); [apply hoare_exchange_named, Hreq|].
  intros [resp|msg] _; [apply hoare_ret; trivial|apply hoare_throwError].
Qed.

Ltac named_leaf :=
  first [ apply hoare_fetch_named | hoare_leaf ].

Lemma requestToPay_named (w0 : World) (referenceId : string) (requestData : Json)
      (targetEnvironment : string) (callbackUrl : option string) :
  hoare (sentSince w0 referenceId)
        (MTNCollectionService.requestToPay referenceId requestData targetEnvironment
                                           callbackUrl)
        (fun _ => True).
Proof.
  hoare_walk_with named_leaf
    ltac:(unfold MTNCollectionService.requestToPay,
      MTNCollectionService.getValidToken, MTNCollectionService.getMTNUser,
      MTNCollectionService.getToken, MTNCollectionService.subscriptionKey,
      updateCollectionToken);
    try free; try (intros; exact I);
    try (intros; apply sentSince_StoreFree; assumption);
    try (intros id Hid; cbn in Hid; congruence).
Qed.

(** ** The revision that stores the payment last *)

Lemma requestPaymentSavingLast_named (userId phoneNumber : string) (amount : Z)
      (options : MTNPaymentService.Options) (w : World) :
  sentSince w (uuids w (drawn w))
            (snd (MTNPaymentService.requestPaymentSavingLast
                    userId phoneNumber amount options w)).
Proof.
  unfold MTNPaymentService.requestPaymentSavingLast.
  unfold bind at 1. unfold mtnConfig at 1. unfold tryCatch at 1. unfold bind at 1.
  unfold randomUUID at 1.
  match goal with
  | |- sentSince _ _ (snd (let (r, w') := ?k ?w1 in _)) =>
      assert (Hk : hoare (sentSince w (uuids w (drawn w))) k (fun _ => True));
      [|destruct (Hk w1 (sentSince_refl w _)) as [Hkept _];
        destruct (k w1) as [[a|e] w2]; exact Hkept]
  end.
  hoare_walk_with ltac:(first [apply requestToPay_named | named_leaf])
    ltac:(unfold MTNCollectionService.getMTNUser,
      MTNCollectionService.getToken, MTNCollectionService.subscriptionKey);
    try free; try (intros; exact I);
    try (intros; apply sentSince_StoreFree; assumption);
    try (intros id Hid; cbn in Hid; congruence).
Qed.

(** ** The payment the schema refuses *)

(** Neither revision returns: the payment it builds has the currency RWF. *)
Lemma requestPayment_never_returns (userId phoneNumber : string) (amount : Z)
      (options : MTNPaymentService.Options) (w : World) (receipt : MTNPaymentService.Receipt) :
  fst (MTNPaymentService.requestPayment userId phoneNumber amount options w) <> Ok receipt.
Proof.
  destruct (MTNPaymentService.requestPayment userId phoneNumber amount options w)
    as [result w'] eqn:Hrun.
  cbn [fst]. intros ->.
  unfold MTNPaymentService.requestPayment in Hrun.
  apply bind_Ok_inv in Hrun as (cfg & w0 & Hcfg & H).
  apply tryCatch_rethrow_Ok_inv in H.
  apply bind_Ok_inv in H as (referenceId & w1 & _ & H).
  apply bind_Ok_inv in H as (envTarget & w2 & _ & H).
  apply bind_Ok_inv in H as (envCallback & w3 & _ & H).
  apply bind_Ok_inv in H as (baseUrl & w4 & _ & H).
  cbv zeta in H.
  apply bind_Ok_inv in H as (mtnUser & w5 & _ & H).
  apply bind_Ok_inv in H as (payment0 & w6 & Hcreate & H).
  apply bind_Ok_inv in H as (payment1 & w7 & Hsave & _).
  apply save_payment_Ok_inv in Hsave as (Hvalid & _).
  rewrite create_run in Hcreate. injection Hcreate as <- _.
  revert Hvalid. apply payment_rwf_refused. reflexivity.
Qed.

Lemma requestPaymentSavingLast_never_returns (userId phoneNumber : string) (amount : Z)
      (options : MTNPaymentService.Options) (w : World) (receipt : MTNPaymentService.Receipt) :
  fst (MTNPaymentService.requestPaymentSavingLast userId phoneNumber amount options w)
  <> Ok receipt.
Proof.
  destruct (MTNPaymentService.requestPaymentSavingLast userId phoneNumber amount options w)
    as [result w'] eqn:Hrun.
  cbn [fst]. intros ->.
  unfold MTNPaymentService.requestPaymentSavingLast in Hrun.
  apply bind_Ok_inv in Hrun as (cfg & w0 & Hcfg & H).
  apply tryCatch_rethrow_Ok_inv in H.
  apply bind_Ok_inv in H as (referenceId & w1 & _ & H).
  apply bind_Ok_inv in H as (envTarget & w2 & _ & H).
  cbv zeta in H.
  apply bind_Ok_inv in H as (mtnUser & w3 & _ & H).
  apply bind_Ok_inv in H as (envCallback & w4 & _ & H).
  apply bind_Ok_inv in H as (baseUrl & w5 & _ & H).
  apply bind_Ok_inv in H as (accepted & w6 & _ & H).
  destruct (Z.eqb (MTNCollectionService.acceptedStatus accepted) 202); [|discriminate].
  apply bind_Ok_inv in H as (apiUser & w7 & _ & H).
  apply bind_Ok_inv in H as (payment0 & w8 & Hcreate & H).
  apply bind_Ok_inv in H as (payment1 & w9 & Hsave & _).
  apply save_payment_Ok_inv in Hsave as (Hvalid & _).
  rewrite create_run in Hcreate. injection Hcreate as <- _.
  revert Hvalid. apply payment_rwf_refused. reflexivity.
Qed.

(** What either revision throws goes through the [catch] block. *)
Lemma requestPayment_throws (userId phoneNumber : string) (amount : Z)
      (options : MTNPaymentService.Options) (w : World) :
  exists reason,
    fst (MTNPaymentService.requestPayment userId phoneNumber amount options w)
    = Throw (mkError ("Failed to request payment: " ++ reason)).
Proof.
  destruct (MTNPaymentService.requestPayment userId phoneNumber amount options w)
    as [[receipt|e] w'] eqn:Hrun.
  - exfalso. apply (requestPayment_never_returns userId phoneNumber amount options w receipt).
    rewrite Hrun. reflexivity.
  - unfold MTNPaymentService.requestPayment in Hrun.
    unfold bind at 1 in Hrun. unfold mtnConfig at 1 in Hrun.
    apply tryCatch_rethrow_Throw_inv in Hrun as (e0 & _ & ->).
    exists (message e0). reflexivity.
Qed.

Lemma requestPaymentSavingLast_throws (userId phoneNumber : string) (amount : Z)
      (options : MTNPaymentService.Options) (w : World) :
  exists reason,
    fst (MTNPaymentService.requestPaymentSavingLast userId phoneNumber amount options w)
    = Throw (mkError ("Failed to request payment: " ++ reason)).
Proof.
  destruct (MTNPaymentService.requestPaymentSavingLast userId phoneNumber amount options w)
    as [[receipt|e] w'] eqn:Hrun.
  - exfalso.
    apply (requestPaymentSavingLast_never_returns userId phoneNumber amount options w receipt).
    rewrite Hrun. reflexivity.
  - unfold MTNPaymentService.requestPaymentSavingLast in Hrun.
    unfold bind at 1 in Hrun. unfold mtnConfig at 1 in Hrun.
    apply tryCatch_rethrow_Throw_inv in Hrun as (e0 & _ & ->).
    exists (message e0). reflexivity.
Qed.

(** The payments and subscriptions stay as they were. *)
Ltac refused_payment :=
  intros; exfalso; cbv beta in *;
  repeat match goal with
         | H : _ /\ _ |- _ => destruct H
         | H : exists _, _ |- _ => destruct H
         end; subst;
  match goal with
  | H : errorsOf _ = [] |- _ =>
      revert H; apply payment_rwf_refused; reflexivity
  | H : Payment.validationErrors _ = [] |- _ =>
      revert H; apply payment_rwf_refused; reflexivity
  end.

Ltac unfold_collection :=
  unfold MTNCollectionService.requestToPay, MTNCollectionService.getValidToken,
    MTNCollectionService.getMTNUser, MTNCollectionService.getToken,
    MTNCollectionService.subscriptionKey, updateCollectionToken.

Lemma requestPayment_records (userId phoneNumber : string) (amount : Z)
      (options : MTNPaymentService.Options) (w0 : World) :
  hoare (recordsAs w0) (MTNPaymentService.requestPayment userId phoneNumber amount options)
        (fun _ => True).
Proof.
  hoare_walk_with ltac:(first [apply hoare_save_valid | hoare_leaf])
    ltac:(first [progress unfold MTNPaymentService.requestPayment | unfold_collection]);
    try free; try (intros; exact I);
    try (intros ? ? ? Hkept; exact Hkept);
    try (intros ? ? Hkept; exact Hkept);
    try refused_payment.
Qed.

Lemma requestPaymentSavingLast_records (userId phoneNumber : string) (amount : Z)
      (options : MTNPaymentService.Options) (w0 : World) :
  hoare (recordsAs w0)
        (MTNPaymentService.requestPaymentSavingLast userId phoneNumber amount options)
        (fun _ => True).
Proof.
  hoare_walk_with ltac:(first [apply hoare_save_valid | hoare_leaf])
    ltac:(first [progress unfold MTNPaymentService.requestPaymentSavingLast
                | unfold_collection]);
    try free; try (intros; exact I);
    try (intros ? ? ? Hkept; exact Hkept);
    try (intros ? ? Hkept; exact Hkept);
    try refused_payment.
Qed.

(** The cited revision stops before the request-to-pay call: what it sends,
    it sends to look up the credential record. *)
Lemma requestPayment_sends_token_requests (userId phoneNumber : string) (amount : Z)
      (options : MTNPaymentService.Options) (w0 : World) :
  hoare (sentOnly (isCollectionTokenRequest (env w0)) w0)
        (MTNPaymentService.requestPayment userId phoneNumber amount options)
        (fun _ => True).
Proof.
  unfold MTNPaymentService.requestPayment.
  eapply hoare_bind; [apply hoare_mtnConfig_as | intros cfg ->].
  apply hoare_tryCatch; [|intros e; apply hoare_throwError].
  eapply hoare_weaken with (P := fun _ => False); [|intros ? []].
  eapply hoare_bind; [apply hoare_randomUUID; free | intros referenceId _].
  eapply hoare_bind; [apply hoare_getEnv_as | intros envTarget _].
  eapply hoare_bind; [apply hoare_getEnv_as | intros envCallback _].
  eapply hoare_bind; [apply hoare_getEnv_as | intros baseUrl _].
  cbv zeta.
  eapply hoare_bind with (P := fun _ => True).
  { hoare_walk_with only_leaf
      ltac:(unfold MTNCollectionService.getMTNUser, MTNCollectionService.getToken,
        MTNCollectionService.subscriptionKey);
      cbv beta in *; subst;
      try free; try (intros; exact I);
      try (intros; apply sentOnly_StoreFree; assumption);
      try (split; reflexivity). }
  intros mtnUser _.
  eapply hoare_bind; [apply hoare_create; free | intros payment [id ->]].
  eapply hoare_bind with (P := fun _ => False); [|intros ? []].
  apply hoare_save_refused. apply payment_rwf_refused. reflexivity.
Qed.

(** C6, on the code: [requestPayment] draws the next UUID of the source and
    builds a payment in the currency RWF, which the Payment schema (EUR,
    USD, XAF, XOF) refuses. So neither revision of the service returns: each
    throws an error that starts with "Failed to request payment: " and
    leaves the payments and subscriptions as they were. The cited revision
    saves before it calls the provider: whatever it sent is a token request
    and no request-to-pay call is made. The revision that saves last names
    no transaction but the UUID in what it sends. In [checkout] the cited
    revision sends nothing and throws on the currency; the other sends the
    request-to-pay call with the UUID in [X-Reference-Id], the provider
    accepts it, and the call throws all the same. *)
Theorem requestPayment_never_returns_the_uuid :
  (forall (userId phoneNumber : string) (amount : Z)
          (options : MTNPaymentService.Options) (w : World),
      let run := MTNPaymentService.requestPayment userId phoneNumber amount options w in
      (exists reason,
          fst run = Throw (mkError ("Failed to request payment: " ++ reason))) /\
      (exists new,
          sent (snd run) = (sent w ++ new)%list /\
          Forall (isCollectionTokenRequest (env w)) new /\
          Forall (fun req => ~ isRequestToPay (Config.mtn (env w)) req) new) /\
      recordsAs w (snd run)) /\
  (forall (userId phoneNumber : string) (amount : Z)
          (options : MTNPaymentService.Options) (w : World),
      let run := MTNPaymentService.requestPaymentSavingLast
                   userId phoneNumber amount options w in
      (exists reason,
          fst run = Throw (mkError ("Failed to request payment: " ++ reason))) /\
      sentSince w (uuids w (drawn w)) (snd run) /\
      recordsAs w (snd run)) /\
  (let run := MTNPaymentService.requestPayment
                "user-1" "250788000000" 500 noOptions checkout in
   fst run
   = Throw (mkError ("Failed to request payment: Payment validation failed: "
                       ++ enumError "currency" "RWF")) /\
   sent (snd run) = [] /\
   payments (store (snd run)) = []) /\
  (let run := MTNPaymentService.requestPaymentSavingLast
                "user-1" "250788000000" 500 noOptions checkout in
   (exists reason,
       fst run
       = Throw (mkError ("Failed to request payment: Payment validation failed: "
                           ++ reason))) /\
   (exists req,
       sent (snd run) = [req] /\
       isRequestToPay (Config.mtn (env checkout)) req /\
       carries (uuids checkout (drawn checkout)) req) /\
   replies (snd run) = [] /\
   payments (store (snd run)) = []).
Proof.
  split; [|split; [|split]].
  - intros userId phoneNumber amount options w. cbv zeta.
    split; [apply requestPayment_throws|]. split.
    + destruct (requestPayment_sends_token_requests userId phoneNumber amount options w w
                  (sentOnly_refl _ w)) as [(_ & new & Hsent & Hnew) _].
      exists new. split; [exact Hsent|]. split; [exact Hnew|].
      eapply Forall_impl; [|exact Hnew].
      intros req [_ Hurl] [_ Hpay]. rewrite Hurl in Hpay.
      apply append_inv_head in Hpay. discriminate Hpay.
    + apply (requestPayment_records userId phoneNumber amount options w w).
      apply recordsAs_refl.
  - intros userId phoneNumber amount options w. cbv zeta.
    split; [apply requestPaymentSavingLast_throws|].
    split; [apply requestPaymentSavingLast_named|].
    apply (requestPaymentSavingLast_records userId phoneNumber amount options w w).
    apply recordsAs_refl.
  - cbv zeta. repeat split; vm_compute; reflexivity.
  - cbv zeta. split; [eexists; vm_compute; reflexivity|]. split.
    + eexists. split; [vm_compute; reflexivity|]. split; [|vm_compute; reflexivity].
      split; vm_compute; reflexivity.
    + split; vm_compute; reflexivity.
Qed.

(* ===================================================================== *)
(** * C7. Retries                                                       *)
(* ===================================================================== *)

Section RetryFacts.

Local Open Scope list_scope.
Local Open Scope Z_scope.

Context {St E A : Type}.
Variable apiCall : St -> (E + A) * St.
Variable cfg : Config.Retry.

Lemma stateBefore_shift (k : nat) (s : St) :
  Retry.stateBefore apiCall (S k) s = Retry.stateBefore apiCall k (snd (apiCall s)).
Proof.
  induction k as [|k IH]; [reflexivity|].
  change (Retry.stateBefore apiCall (S (S k)) s)
    with (snd (apiCall (Retry.stateBefore apiCall (S k) s))).
  rewrite IH. reflexivity.
Qed.

Lemma retryLoop_spec (fuel : nat) :
  forall maxR attempt lastError s log,
    Z.of_nat fuel = maxR - attempt + 1 ->
    LoopSpec apiCall cfg fuel attempt lastError s log
             (Retry.retryLoop apiCall cfg fuel maxR attempt lastError s log).
Proof.
  induction fuel as [|fuel IH]; intros maxR attempt lastError s log Hfuel.
  - exists 0%nat. cbn. rewrite app_nil_r. repeat split; auto. intros j Hj. lia.
  - cbn [Retry.retryLoop].
    destruct (Z.leb_spec attempt maxR) as [Hle|Hgt]; [|lia].
    destruct (apiCall s) as [[err|r] s1] eqn:Hcall.
    + specialize (IH maxR (attempt + 1) (Some err) s1
                     (if attempt <? maxR
                      then (log ++ [Retry.Attempt attempt]) ++ [Retry.Delay (Config.retryDelay cfg)]
                      else log ++ [Retry.Attempt attempt])).
      destruct IH as (n & Hn & Hlog & Hfail & Hout); [lia|].
      assert (Hs1 : forall k, Retry.stateBefore apiCall k s1 = Retry.stateBefore apiCall (S k) s).
      { intros k. rewrite stateBefore_shift, Hcall. reflexivity. }
      exists (S n). split; [lia|]. split; [|split].
      * rewrite Hlog.
        destruct n as [|n].
        -- destruct (Retry.retryLoop apiCall cfg fuel maxR (attempt + 1) (Some err) s1 _)
             as [[[r|e] s2] l2]; cbn in Hout.
           ++ lia.
           ++ destruct Hout as (Hn0 & _). subst fuel.
              destruct (Z.ltb_spec attempt maxR); [lia|].
              cbn. rewrite app_nil_r. reflexivity.
        -- destruct (Z.ltb_spec attempt maxR); [|lia].
           cbn [Retry.attemptsLog]. rewrite <- !app_assoc. reflexivity.
      * intros j Hj. destruct j as [|j].
        -- exists err. cbn. rewrite Hcall. reflexivity.
        -- rewrite <- Hs1. apply Hfail. lia.
      * destruct (Retry.retryLoop apiCall cfg fuel maxR (attempt + 1) (Some err) s1 _)
          as [[[r|e] s2] l2]; cbn in Hout |- *.
        -- destruct Hout as (H1 & Hr & Hs2). split; [lia|].
           destruct n as [|n]; [lia|]. cbn [pred] in *.
           rewrite <- Hs1. auto.
        -- destruct Hout as (Hnf & Hs2 & He). split; [lia|]. split.
           ++ rewrite Hs2. apply Hs1.
           ++ destruct n as [|n].
              ** exists err. cbn. rewrite Hcall. auto.
              ** destruct He as (err' & He1 & He2). exists err'.
                 rewrite <- Hs1. auto.
    + exists 1%nat. cbn. rewrite Hcall. cbn. repeat split; auto; try lia.
Qed.

Lemma attemptsOf_attemptsLog (from : Z) (n : nat) :
  Retry.attemptsOf (Retry.attemptsLog cfg from n) = n.
Proof.
  revert from. induction n as [|n IH]; intros from; [reflexivity|].
  destruct n as [|n]; [reflexivity|].
  change (Retry.attemptsOf (Retry.attemptsLog cfg from (S (S n))))
    with (S (Retry.attemptsOf (Retry.attemptsLog cfg (from + 1) (S n)))).
  rewrite IH. reflexivity.
Qed.

Lemma delaysOf_attemptsLog (from : Z) (n : nat) :
  Retry.delaysOf (Retry.attemptsLog cfg from n) = repeat (Config.retryDelay cfg) (pred n).
Proof.
  revert from. induction n as [|n IH]; intros from; [reflexivity|].
  destruct n as [|n]; [reflexivity|].
  change (Retry.delaysOf (Retry.attemptsLog cfg from (S (S n))))
    with (Config.retryDelay cfg :: Retry.delaysOf (Retry.attemptsLog cfg (from + 1) (S n))).
  rewrite IH. reflexivity.
Qed.

End RetryFacts.

(** C7: [retryAPICall] makes at most [maxRetries] attempts (3 by default,
    also in the MTN and Airtel configurations) and waits the same
    [retryDelay] (1000 ms by default) after each failed attempt but the
    last: the log of a run is [n] attempts numbered from 1 with one delay of
    [retryDelay] between each two. Every attempt before the last failed. A
    run that returns returns the result of its last attempt, and a run that
    throws has made all [maxRetries] attempts and throws the error of the
    last one. *)
Theorem retryAPICall_fixed_count_fixed_delay :
  Config.maxRetries Retry.retryConfig = 3 /\
  Config.retryDelay Retry.retryConfig = 1000 /\
  (forall e, assoc "MTN_MAX_RETRIES" e = None -> assoc "MTN_RETRY_DELAY" e = None ->
     Config.maxRetries (Config.mtnRetry (Config.mtn e)) = 3 /\
     Config.retryDelay (Config.mtnRetry (Config.mtn e)) = 1000) /\
  (forall e, assoc "AIRTEL_MAX_RETRIES" e = None -> assoc "AIRTEL_RETRY_DELAY" e = None ->
     Config.maxRetries (Config.airtelRetry (Config.airtel e)) = 3 /\
     Config.retryDelay (Config.airtelRetry (Config.airtel e)) = 1000) /\
  forall (St E A : Type) (apiCall : St -> (E + A) * St) (cfg : Config.Retry)
         (maxRetriesArg : option Z) (s : St),
    let maxR := match maxRetriesArg with Some m => m | None => Config.maxRetries cfg end in
    let run := Retry.retryAPICall apiCall cfg maxRetriesArg s in
    let n := Retry.attemptsOf (snd run) in
    Z.of_nat n <= Z.max 0 maxR /\
    snd run = Retry.attemptsLog cfg 1 n /\
    Retry.delaysOf (snd run) = repeat (Config.retryDelay cfg) (pred n) /\
    (forall j, (1 <= j < n)%nat -> exists e, Retry.attemptOutcome apiCall s j = inl e) /\
    match fst (fst run) with
    | Retry.Returned r =>
        (1 <= n)%nat /\ Retry.attemptOutcome apiCall s n = inr r
    | Retry.Thrown e =>
        Z.of_nat n = Z.max 0 maxR /\
        match n with
        | O => e = None
        | S _ => exists err, Retry.attemptOutcome apiCall s n = inl err /\ e = Some err
        end
    end.
Proof.
  split; [reflexivity|]. split; [reflexivity|].
  split.
  { intros e H1 H2. unfold Config.mtn, Config.envIntOr. cbn. rewrite H1, H2. auto. }
  split.
  { intros e H1 H2. unfold Config.airtel, Config.envIntOr. cbn. rewrite H1, H2. auto. }
  intros St E A apiCall cfg maxRetriesArg s maxR run n.
  assert (Hspec : LoopSpec apiCall cfg (Z.to_nat maxR) 1 None s [] run).
  { destruct (Z.le_gt_cases 0 maxR) as [Hpos|Hneg].
    - apply retryLoop_spec. lia.
    - unfold run, Retry.retryAPICall. fold maxR.
      replace (Z.to_nat maxR) with 0%nat by lia.
      exists 0%nat. cbn. repeat split; auto. intros j Hj. lia. }
  destruct Hspec as (k & Hk & Hlog & Hfail & Hout).
  cbn [app] in Hlog.
  assert (Hn : n = k).
  { unfold n. rewrite Hlog. apply attemptsOf_attemptsLog. }
  rewrite Hn. split; [lia|]. split; [exact Hlog|]. split.
  { rewrite Hlog. apply delaysOf_attemptsLog. }
  split.
  { intros j Hj. unfold Retry.attemptOutcome.
    destruct j as [|j]; [lia|]. cbn [pred]. apply Hfail. lia. }
  destruct (fst (fst run)) as [r|e].
  - destruct Hout as (H1 & Hr & _). split; [exact H1|exact Hr].
  - destruct Hout as (Hkf & _ & He). split; [lia|].
    destruct k as [|k]; [exact He|exact He].
Qed.

(* ===================================================================== *)
(** * C8. What the callbacks answer                                     *)
(* ===================================================================== *)

Ltac returns_step :=
  first
    [ apply hoare_ret
    | apply hoare_throw
    | apply hoare_throwError
    | eapply hoare_bind; [apply returns_any | intros ? _]
    | match goal with
      | |- hoare _ (match ?x with _ => _ end) _ => destruct x
      | |- hoare _ (if ?b then _ else _) _ => destruct b
      end ].

(** A body without the required fields is answered on the spot. *)
Lemma falsy_body_lacks_fields (callbackData : Json) :
  truthy (Some callbackData) = false ->
  MTNPaymentController.requiredFields (Some callbackData) = false.
Proof. destruct callbackData; cbn; try reflexivity. discriminate. Qed.

Lemma airtel_fields_need_transaction (b : option Json) :
  AirtelPaymentController.requiredFields (prop "transaction" b) = true ->
  andb (truthy b) (truthy (prop "transaction" b)) = true.
Proof.
  unfold AirtelPaymentController.requiredFields.
  destruct b as [[| | | | |fields]|]; cbn; try discriminate.
  destruct (assoc "transaction" fields) as [[| | | | |tr]|]; cbn; try discriminate.
  reflexivity.
Qed.

(** The [catch] block of either callback: what it tries may fail, the
    answer is sent all the same. *)
Lemma swallow_then_ret {A B : Type} (m : M A) (a0 : A) (b : B) (w : World) :
  exists w', (tryCatch m (fun _ => ret a0) ;;; ret b) w = (Ok b, w').
Proof.
  unfold bind, tryCatch, ret. destruct (m w) as [[a|e] w']; eexists; reflexivity.
Qed.

Lemma mtn_callback_answer (req : Req) (w : World) :
  exists res w',
    MTNPaymentController.callback req w = (Ok res, w') /\
    statusCode res = (if MTNPaymentController.requiredFields (body req) then 200 else 400) /\
    (MTNPaymentController.requiredFields (body req) = true ->
     prop "success" (Some (payload res)) = Some (JBool true) \/
     exists error, payload res = failurePayload error).
Proof.
  unfold MTNPaymentController.callback, tryCatch at 1.
  destruct (body req) as [callbackData|] eqn:Hbody.
  2:{ eexists. eexists. split; [reflexivity|]. split; [reflexivity|]. discriminate. }
  destruct (truthy (Some callbackData)) eqn:Htruthy.
  2:{ rewrite (falsy_body_lacks_fields _ Htruthy). cbn [negb].
      eexists. eexists. split; [reflexivity|]. split; [reflexivity|]. discriminate. }
  destruct (MTNPaymentController.requiredFields (Some callbackData)) eqn:Hfields.
  2:{ cbn [negb]. eexists. eexists. split; [reflexivity|]. split; [reflexivity|]. discriminate. }
  cbn [negb].
  match goal with
  | |- context [match ?m w with _ => _ end] =>
      assert (Hret : returns m succeeded)
        by (repeat returns_step; split; reflexivity);
      destruct (m w) as [[res|error] w1] eqn:Hrun
  end.
  - exists res, w1. split; [reflexivity|].
    destruct (returns_run _ _ _ _ _ Hret Hrun) as [H200 Hsuccess]. auto.
  - match goal with
    | |- context [bind (tryCatch ?m _) (fun _ => ret ?r)] =>
        destruct (swallow_then_ret m tt r w1) as [w' Hres]
    end.
    eexists. exists w'. split; [exact Hres|].
    split; [reflexivity|]. intros _. right. exists error. reflexivity.
Qed.

Lemma airtel_callback_answer (req : Req) (w : World) :
  exists res w',
    AirtelPaymentController.callback req w = (Ok res, w') /\
    statusCode res =
      (if AirtelPaymentController.requiredFields (prop "transaction" (body req))
       then 200 else 400) /\
    (AirtelPaymentController.requiredFields (prop "transaction" (body req)) = true ->
     prop "success" (Some (payload res)) = Some (JBool true) \/
     exists error, payload res = failurePayload error).
Proof.
  unfold AirtelPaymentController.callback, tryCatch at 1.
  cbv zeta.
  destruct (AirtelPaymentController.requiredFields (prop "transaction" (body req)))
    eqn:Hfields.
  2:{ destruct (negb (andb _ _)); cbn [negb];
        eexists; eexists; (split; [reflexivity|]); (split; [reflexivity|]); discriminate. }
  rewrite (airtel_fields_need_transaction _ Hfields). cbn [negb].
  match goal with
  | |- context [match ?m w with _ => _ end] =>
      assert (Hret : returns m succeeded)
        by (repeat returns_step; split; reflexivity);
      destruct (m w) as [[res|error] w1] eqn:Hrun
  end.
  - exists res, w1. split; [reflexivity|].
    destruct (returns_run _ _ _ _ _ Hret Hrun) as [H200 Hsuccess]. auto.
  - match goal with
    | |- context [bind (tryCatch ?m _) (fun _ => ret ?r)] =>
        destruct (swallow_then_ret m tt r w1) as [w' Hres]
    end.
    eexists. exists w'. split; [exact Hres|].
    split; [reflexivity|]. intros _. right. exists error. reflexivity.
Qed.

(** While the store refuses writes, both endpoints still answer 200, with
    the failure in the body. *)
Example callbacks_during_outage :
  fst (MTNPaymentController.callback mtnNotice outage)
    = Ok {| statusCode := 200; payload := failurePayload (mkError "connection lost") |} /\
  fst (AirtelPaymentController.callback airtelNotice outage)
    = Ok {| statusCode := 200; payload := failurePayload (mkError "connection lost") |}.
Proof. split; vm_compute; reflexivity. Qed.

(** C8: the two callback handlers never throw. They answer 200 when the
    body has the provider's required fields (MTN: [externalId], [status],
    [amount], [currency]; Airtel: [id], [status_code], [airtel_money_id] of
    the [transaction]), whatever the store does, and 400 when one is
    missing. A 200 answer either reports success or carries the message of
    the error that processing threw. *)
Theorem callbacks_answer_200_unless_fields_missing :
  (forall (req : Req) (w : World),
      exists res w',
        MTNPaymentController.callback req w = (Ok res, w') /\
        statusCode res
          = (if MTNPaymentController.requiredFields (body req) then 200 else 400) /\
        (MTNPaymentController.requiredFields (body req) = true ->
         prop "success" (Some (payload res)) = Some (JBool true) \/
         exists error, payload res = failurePayload error)) /\
  (forall (req : Req) (w : World),
      exists res w',
        AirtelPaymentController.callback req w = (Ok res, w') /\
        statusCode res
          = (if AirtelPaymentController.requiredFields (prop "transaction" (body req))
             then 200 else 400) /\
        (AirtelPaymentController.requiredFields (prop "transaction" (body req)) = true ->
         prop "success" (Some (payload res)) = Some (JBool true) \/
         exists error, payload res = failurePayload error)).
Proof. split; [exact mtn_callback_answer | exact airtel_callback_answer]. Qed.

(* ===================================================================== *)
(** * C9. A provider call that throws                                   *)
(* ===================================================================== *)

Lemma includes_two (s a b : string) :
  includes s [a; b] = true -> s = a \/ s = b.
Proof.
  unfold includes. cbn. rewrite !orb_true_iff.
  intros [H|[H|H]]; [left|right|discriminate]; apply String.eqb_eq, H.
Qed.

(** A subscription that passed its schema passes it again after a handler
    assigned statuses of the enumerations. *)
Lemma subscription_assign_valid (q : Subscription.Patch) (s : Subscription.t) :
  Subscription.validationErrors s = [] ->
  enumString "status" statusEnum
             (Some (Subscription.pick (Subscription.setStatus q) (Subscription.status s))) = [] ->
  enumString "airtelStatus" ["TS"; "TF"; "TA"; "TIP"; "TE"]
             (Subscription.pick (Subscription.setAirtelStatus q) (Subscription.airtelStatus s))
  = [] ->
  enumString "mtnStatus" statusEnum
             (Subscription.pick (Subscription.setMtnStatus q) (Subscription.mtnStatus s)) = [] ->
  Subscription.validationErrors (Subscription.assign q s) = [].
Proof.
  intros Hvalid Hstatus Hairtel Hmtn. unfold Subscription.validationErrors in *.
  cbn [Subscription.assign Subscription.userId Subscription.amount Subscription.currency
       Subscription.numberOfMonths Subscription.paymentChannel Subscription.msisdn
       Subscription.status Subscription.airtelStatus Subscription.mtnStatus].
  valid_parts Hvalid. valid_join.
Qed.

Lemma markFailed_valid (paymentChannel : string) (error : Error) (t : Z)
      (s : Subscription.t) :
  Subscription.validationErrors s = [] ->
  Subscription.validationErrors (SubscriptionService.markFailed paymentChannel error t s) = [].
Proof.
  intros Hvalid. unfold SubscriptionService.markFailed. cbv zeta.
  apply subscription_assign_valid; [exact Hvalid|reflexivity| |];
    cbn [Subscription.pick Subscription.setAirtelStatus Subscription.setMtnStatus];
    unfold Subscription.validationErrors in Hvalid; valid_parts Hvalid; assumption.
Qed.

Section SubscriptionFacts.

Variable ussdPushPayment : Json -> string -> string -> M Json.
Variable requestToPay : Json -> M Json.
Variable addMonths : Z -> Z -> Z.

(** What [openSubscription] leaves when it returns: the record, pending and
    without errors, stored under its [_id]. *)
Lemma openSubscription_Ok_inv (subscriptionData : Json) (w w1 : World)
      (opened : SubscriptionService.Opened) :
  SubscriptionService.openSubscription subscriptionData w = (Ok opened, w1) ->
  (SubscriptionService.paymentChannel opened = "AIRTEL" \/
   SubscriptionService.paymentChannel opened = "MTN") /\
  Subscription.status (SubscriptionService.subscription opened) = "PENDING" /\
  Subscription.airtelError (SubscriptionService.subscription opened) = None /\
  Subscription.mtnError (SubscriptionService.subscription opened) = None /\
  stored (Subscription._id (SubscriptionService.subscription opened)) w1
    = Some (SubscriptionService.subscription opened) /\
  Subscription.validationErrors (SubscriptionService.subscription opened) = [].
Proof.
  unfold SubscriptionService.openSubscription. cbv zeta.
  destruct (negb (andb _ _)); [discriminate|].
  destruct (asString _) as [channel|]; [|discriminate].
  destruct (includes (toUpperCase channel) ["MTN"; "AIRTEL"]) eqn:Hchannel;
    [|discriminate].
  cbn [negb].
  destruct (asNumber (prop "amount" _)) as [amount|]; [|discriminate].
  destruct (Z.leb amount 0); [discriminate|].
  destruct (asNumber (prop "numberOfMonths" _)) as [months|]; [|discriminate].
  destruct (Z.ltb months 1); [discriminate|].
  destruct (negb (uuidRegexTest _)); [discriminate|].
  intros H.
  apply bind_Ok_inv in H as (uuid & w2 & _ & H).
  apply bind_Ok_inv in H as (created & w3 & Hcreate & H).
  apply bind_Ok_inv in H as (saved & w4 & Hsave & H).
  injection H as <- <-.
  cbn [SubscriptionService.paymentChannel SubscriptionService.subscription].
  split.
  { apply includes_two in Hchannel. tauto. }
  injection Hcreate as <- _.
  apply saveCast_Ok_inv in Hsave as [_ Hsave].
  apply save_Ok_inv in Hsave as (Hvalid & w5 & _ & -> & ->).
  split; [reflexivity|]. split; [reflexivity|]. split; [reflexivity|].
  split; [|exact Hvalid].
  unfold stored.
  cbn [store withStore docs setDocs SubscriptionModel subscriptions
       Subscription._id Subscription.stamp stampOf].
  match goal with
  | |- find _ (upsert ?d _) = _ => change (nextId (store w2)) with (idOf d)
  end.
  apply find_upsert.
Qed.

(** C9: when the subscription record was stored, pending, and the call to
    the provider then throws, [createSubscriptionPayment] never returns: it
    throws an error whose message starts with ["Subscription payment
    failed: "]. When the store takes the write of the [catch] block, the
    record is stored with status FAILED, [completedAt] at the instant of
    the failure and [{message}] of the error in [airtelError] on the AIRTEL
    channel and in [mtnError] on the MTN channel (the other stays empty),
    and the message thrown ends with the message of the provider's error. *)
Theorem payment_error_marks_failed_and_rethrows
        (subscriptionData : Json) (w : World)
        (opened : SubscriptionService.Opened) (error : Error) :
  fst (SubscriptionService.openSubscription subscriptionData w) = Ok opened ->
  let w1 := snd (SubscriptionService.openSubscription subscriptionData w) in
  fst (providerCall ussdPushPayment requestToPay subscriptionData opened w1)
    = Throw error ->
  let w2 := snd (providerCall ussdPushPayment requestToPay subscriptionData opened w1) in
  let run := SubscriptionService.createSubscriptionPayment
               ussdPushPayment requestToPay addMonths subscriptionData w in
  let id := Subscription._id (SubscriptionService.subscription opened) in
  (* the record was stored, pending *)
  (stored id w1 = Some (SubscriptionService.subscription opened) /\
   Subscription.status (SubscriptionService.subscription opened) = "PENDING") /\
  (* the call never returns *)
  (exists cause, fst run = Throw (mkError (failedPrefix ++ message cause))) /\
  (* when the store takes the write of the catch block *)
  (storeAccepts w2 ->
   fst run = Throw (mkError (failedPrefix ++ message error)) /\
   exists failed,
     stored id (snd run) = Some failed /\
     Subscription.status failed = "FAILED" /\
     Subscription.completedAt failed = Some (now w2) /\
     (SubscriptionService.paymentChannel opened = "AIRTEL" ->
      Subscription.airtelError failed = Some (JObj [("message", JStr (message error))]) /\
      Subscription.mtnError failed = None) /\
     (SubscriptionService.paymentChannel opened = "MTN" ->
      Subscription.mtnError failed = Some (JObj [("message", JStr (message error))]) /\
      Subscription.airtelError failed = None)).
Proof.
  destruct (SubscriptionService.openSubscription subscriptionData w)
    as [opening w1] eqn:Hopen.
  cbn [fst snd]. intros ->.
  destruct (providerCall ussdPushPayment requestToPay subscriptionData opened w1)
    as [called w2] eqn:Hcall.
  cbn [fst snd]. intros ->. cbv zeta.
  destruct (openSubscription_Ok_inv _ _ _ _ Hopen)
    as (Hchannel & Hpending & Hnoairtel & Hnomtn & Hstored & Hvalid).
  split; [split; assumption|].
  assert (Hrun : forall w3 saved,
             save (SubscriptionService.markFailed
                     (SubscriptionService.paymentChannel opened) error (now w2)
                     (SubscriptionService.subscription opened)) w2 = (saved, w3) ->
             SubscriptionService.createSubscriptionPayment
               ussdPushPayment requestToPay addMonths subscriptionData w
             = (Throw (mkError (failedPrefix
                                  ++ message (match saved with
                                              | Ok _ => error
                                              | Throw e => e
                                              end))), w3)).
  { intros w3 saved Hsave.
    unfold SubscriptionService.createSubscriptionPayment, tryCatch at 1, bind at 1.
    rewrite Hopen.
    unfold SubscriptionService.processPayment.
    unfold providerCall in Hcall.
    destruct Hchannel as [Hc|Hc]; rewrite Hc in *;
      cbn [String.eqb Ascii.eqb Bool.eqb andb] in *;
      unfold SubscriptionService.attempt at 1;
      cbv beta iota delta [bind tryCatch];
      rewrite Hcall;
      unfold SubscriptionService.onPaymentError;
      cbv beta iota delta [bind getNow];
      rewrite Hsave; destruct saved; reflexivity. }
  destruct (save _ w2) as [saved w3] eqn:Hsave in Hrun.
  specialize (Hrun _ _ eq_refl).
  split.
  { eexists. rewrite Hrun. reflexivity. }
  intros Haccepts.
  destruct (save_subscription_accepted
              (SubscriptionService.markFailed
                 (SubscriptionService.paymentChannel opened) error (now w2)
                 (SubscriptionService.subscription opened)) w2 Haccepts
              (markFailed_valid _ _ _ _ Hvalid))
    as (w4 & Hsaved & Hfailed).
  rewrite Hsaved in Hsave. injection Hsave as <- <-.
  rewrite Hrun. cbn [fst snd]. split; [reflexivity|].
  eexists. split; [exact Hfailed|].
  split; [reflexivity|]. split; [reflexivity|].
  split; intros Hc; rewrite Hc; cbn; split; try reflexivity; assumption.
Qed.

End SubscriptionFacts.

(** The Airtel service cannot reach the provider: the subscription of
    [signup] ends FAILED, with the error in [airtelError]. *)
Lemma payment_error_marks_failed_and_rethrows_witness :
  fst (SubscriptionService.createSubscriptionPayment
         providerDown PaymentService.requestToPay thirtyDayMonths
         subscriptionRequest signup)
    = Throw (mkError (failedPrefix
                        ++ "USSD Push payment failed: connect ECONNREFUSED")) /\
  exists failed,
    stored 0 (snd (SubscriptionService.createSubscriptionPayment
                     providerDown PaymentService.requestToPay thirtyDayMonths
                     subscriptionRequest signup))
      = Some failed /\
    Subscription.status failed = "FAILED" /\
    Subscription.completedAt failed = Some 1700000000000 /\
    (SubscriptionService.paymentChannel signupOpened = "AIRTEL" ->
     Subscription.airtelError failed
       = Some (JObj [("message",
                      JStr "USSD Push payment failed: connect ECONNREFUSED")]) /\
     Subscription.mtnError failed = None) /\
    (SubscriptionService.paymentChannel signupOpened = "MTN" ->
     Subscription.mtnError failed
       = Some (JObj [("message",
                      JStr "USSD Push payment failed: connect ECONNREFUSED")]) /\
     Subscription.airtelError failed = None).
Proof.
  refine (proj2 (proj2 (payment_error_marks_failed_and_rethrows
                          providerDown PaymentService.requestToPay thirtyDayMonths
                          subscriptionRequest signup signupOpened
                          (mkError "USSD Push payment failed: connect ECONNREFUSED")
                          _ _)) _).
  - vm_compute. reflexivity.
  - vm_compute. reflexivity.
  - vm_compute. reflexivity.
Defined.

(* ===================================================================== *)
(** * C10. The usage counters                                           *)
(* ===================================================================== *)

Lemma bumpUsage_counts (success : option bool) (t : Z) (u : UsageStats) :
  totalTransactions (bumpUsage success t u) = totalTransactions u + 1 /\
  (success <> Some false ->
     successfulTransactions (bumpUsage success t u) = successfulTransactions u + 1 /\
     failedTransactions (bumpUsage success t u) = failedTransactions u) /\
  (success = Some false ->
     successfulTransactions (bumpUsage success t u) = successfulTransactions u /\
     failedTransactions (bumpUsage success t u) = failedTransactions u + 1).
Proof.
  destruct success as [[|]|]; cbn; repeat split; intros; try congruence; auto.
Qed.

Lemma bumpUsage_consistent (success : option bool) (t : Z) (u : UsageStats) :
  usageConsistent u -> usageConsistent (bumpUsage success t u).
Proof.
  unfold usageConsistent. destruct success as [[|]|]; cbn; lia.
Qed.

Lemma mtnIncrementUsage_saved (success : option bool) (u : MTNUser.t) (w : World) :
  storeAccepts w -> MTNUser.validationErrors u = [] ->
  exists w1,
    mtnIncrementUsage success u w = (Ok (MTNUser.stamp (now w) (MTNUser.bump success (now w) u)), w1) /\
    stored (MTNUser._id u) w1 = Some (MTNUser.stamp (now w) (MTNUser.bump success (now w) u)).
Proof.
  intros Hacc Hvalid. destruct (storeOp_accepted w Hacc) as (w1 & Hop & Hnow & Hstore).
  unfold mtnIncrementUsage, save. mrun.
  change (errorsOf (MTNUser.bump success (now w) u)) with (MTNUser.validationErrors u).
  rewrite Hvalid. mrun. rewrite Hop, Hnow.
  eexists. split; [reflexivity|].
  unfold stored. cbn [store withStore docs setDocs MTNUserModel mtnUsers stampOf].
  change (MTNUser._id u) with (idOf (MTNUser.stamp (now w) (MTNUser.bump success (now w) u))).
  apply find_upsert.
Qed.

Lemma airtelIncrementUsage_saved (success : option bool) (u : AirtelUser.t) (w : World) :
  storeAccepts w -> AirtelUser.validationErrors u = [] ->
  exists w1,
    airtelIncrementUsage success u w
      = (Ok (AirtelUser.stamp (now w) (AirtelUser.bump success (now w) u)), w1) /\
    stored (AirtelUser._id u) w1
      = Some (AirtelUser.stamp (now w) (AirtelUser.bump success (now w) u)).
Proof.
  intros Hacc Hvalid. destruct (storeOp_accepted w Hacc) as (w1 & Hop & Hnow & Hstore).
  unfold airtelIncrementUsage, save. mrun.
  change (errorsOf (AirtelUser.bump success (now w) u)) with (AirtelUser.validationErrors u).
  rewrite Hvalid. mrun. rewrite Hop, Hnow.
  eexists. split; [reflexivity|].
  unfold stored. cbn [store withStore docs setDocs AirtelUserModel airtelUsers stampOf].
  change (AirtelUser._id u)
    with (idOf (AirtelUser.stamp (now w) (AirtelUser.bump success (now w) u))).
  apply find_upsert.
Qed.

(** A record the schema refuses is not written, whatever its counters. *)
Lemma mtnIncrementUsage_refused (success : option bool) (u : MTNUser.t) (w : World) :
  MTNUser.validationErrors u <> [] ->
  mtnIncrementUsage success u w
  = (Throw (mkError ("MTNUser validation failed: "
                       ++ String.concat ", " (MTNUser.validationErrors u))), w).
Proof.
  intros Hrefused. unfold mtnIncrementUsage. mrun.
  rewrite save_refused; [reflexivity | exact Hrefused].
Qed.

Lemma airtelIncrementUsage_refused (success : option bool) (u : AirtelUser.t) (w : World) :
  AirtelUser.validationErrors u <> [] ->
  airtelIncrementUsage success u w
  = (Throw (mkError ("AirtelUser validation failed: "
                       ++ String.concat ", " (AirtelUser.validationErrors u))), w).
Proof.
  intros Hrefused. unfold airtelIncrementUsage. mrun.
  rewrite save_refused; [reflexivity | exact Hrefused].
Qed.

(** C10: [incrementUsage], on an MTN and on an Airtel credential record,
    adds one to [totalTransactions] and one to [successfulTransactions] on a
    success (the default) or to [failedTransactions] on a failure, and
    leaves the other count; so [total = successful + failed] is kept. When
    the store takes the write, the stored record holds these counts: the
    record passes its schema, as every record read from the store does; one
    that does not (it lacks a required field) is refused by the save, the
    call throws and the store keeps the counts it had. A new record starts
    with all counts at zero, and the methods that set a token and the
    stamping of a save leave the counters as they are. *)
Theorem incrementUsage_counts_one :
  (* the assignments of the two methods *)
  (forall (success : option bool) (t : Z) (u : MTNUser.t),
      let before := MTNUser.usageStats u in
      let after := MTNUser.usageStats (MTNUser.bump success t u) in
      totalTransactions after = totalTransactions before + 1 /\
      (success <> Some false ->
         successfulTransactions after = successfulTransactions before + 1 /\
         failedTransactions after = failedTransactions before) /\
      (success = Some false ->
         successfulTransactions after = successfulTransactions before /\
         failedTransactions after = failedTransactions before + 1) /\
      (usageConsistent before -> usageConsistent after)) /\
  (forall (success : option bool) (t : Z) (u : AirtelUser.t),
      let before := AirtelUser.usageStats u in
      let after := AirtelUser.usageStats (AirtelUser.bump success t u) in
      totalTransactions after = totalTransactions before + 1 /\
      (success <> Some false ->
         successfulTransactions after = successfulTransactions before + 1 /\
         failedTransactions after = failedTransactions before) /\
      (success = Some false ->
         successfulTransactions after = successfulTransactions before /\
         failedTransactions after = failedTransactions before + 1) /\
      (usageConsistent before -> usageConsistent after)) /\
  (* the record the methods store *)
  (forall (success : option bool) (u : MTNUser.t) (w : World),
      storeAccepts w ->
      (MTNUser.validationErrors u = [] ->
       exists saved,
         fst (mtnIncrementUsage success u w) = Ok saved /\
         stored (MTNUser._id u) (snd (mtnIncrementUsage success u w)) = Some saved /\
         MTNUser.usageStats saved = bumpUsage success (now w) (MTNUser.usageStats u)) /\
      (MTNUser.validationErrors u <> [] ->
       (exists e, fst (mtnIncrementUsage success u w) = Throw e) /\
       snd (mtnIncrementUsage success u w) = w)) /\
  (forall (success : option bool) (u : AirtelUser.t) (w : World),
      storeAccepts w ->
      (AirtelUser.validationErrors u = [] ->
       exists saved,
         fst (airtelIncrementUsage success u w) = Ok saved /\
         stored (AirtelUser._id u) (snd (airtelIncrementUsage success u w)) = Some saved /\
         AirtelUser.usageStats saved = bumpUsage success (now w) (AirtelUser.usageStats u)) /\
      (AirtelUser.validationErrors u <> [] ->
       (exists e, fst (airtelIncrementUsage success u w) = Throw e) /\
       snd (airtelIncrementUsage success u w) = w)) /\
  (* a new record starts consistent, and the other methods leave the counters *)
  usageConsistent noUsage /\
  (forall token expiresIn t (u : MTNUser.t),
      MTNUser.usageStats (MTNUser.setCollectionToken token expiresIn t u)
        = MTNUser.usageStats u /\
      MTNUser.usageStats (MTNUser.setDisbursementToken token expiresIn t u)
        = MTNUser.usageStats u /\
      MTNUser.usageStats (MTNUser.stamp t u) = MTNUser.usageStats u) /\
  (forall token expiresIn tokenType newScope t (u : AirtelUser.t),
      AirtelUser.usageStats (AirtelUser.setToken token expiresIn tokenType newScope t u)
        = AirtelUser.usageStats u /\
      AirtelUser.usageStats (AirtelUser.stamp t u) = AirtelUser.usageStats u).
Proof.
  repeat match goal with |- _ /\ _ => split end.
  - intros success t u before after; subst before after; cbn.
    pose proof (bumpUsage_counts success t (MTNUser.usageStats u)) as (H1 & H2 & H3).
    repeat split; try (apply H2; assumption); try (apply H3; assumption); auto.
    apply bumpUsage_consistent.
  - intros success t u before after; subst before after; cbn.
    pose proof (bumpUsage_counts success t (AirtelUser.usageStats u)) as (H1 & H2 & H3).
    repeat split; try (apply H2; assumption); try (apply H3; assumption); auto.
    apply bumpUsage_consistent.
  - intros success u w Hacc. split.
    + intros Hvalid.
      destruct (mtnIncrementUsage_saved success u w Hacc Hvalid) as (w1 & Hrun & Hstored).
      rewrite Hrun. eexists. split; [reflexivity|]. split; [exact Hstored|reflexivity].
    + intros Hrefused. rewrite (mtnIncrementUsage_refused success u w Hrefused).
      split; [eexists|]; reflexivity.
  - intros success u w Hacc. split.
    + intros Hvalid.
      destruct (airtelIncrementUsage_saved success u w Hacc Hvalid) as (w1 & Hrun & Hstored).
      rewrite Hrun. eexists. split; [reflexivity|]. split; [exact Hstored|reflexivity].
    + intros Hrefused. rewrite (airtelIncrementUsage_refused success u w Hrefused).
      split; [eexists|]; reflexivity.
  - reflexivity.
  - intros. repeat split.
  - intros. repeat split.
Qed.

(* ===================================================================== *)
(** * The user id of a subscription                                       *)
(* ===================================================================== *)

Lemma append_empty (s : string) : s ++ "" = s.
Proof. induction s as [|c s IH]; simpl; [reflexivity | now rewrite IH]. Qed.

Lemma append_assoc (a b c : string) : (a ++ b) ++ c = a ++ b ++ c.
Proof. induction a as [|x a IH]; simpl; [reflexivity | now rewrite IH]. Qed.

Lemma length_append (a b : string) :
  String.length (a ++ b) = (String.length a + String.length b)%nat.
Proof. induction a as [|x a IH]; simpl; [reflexivity | now rewrite IH]. Qed.

Lemma isHexDigit_alphabet (c : ascii) : isHexDigit c = true <-> In c hexAlphabet.
Proof.
  assert (H : isHexDigit c = existsb (Ascii.eqb c) hexAlphabet).
  { destruct c as [[] [] [] [] [] [] [] []]; reflexivity. }
  rewrite H, existsb_exists. split.
  - intros [x [Hin Heq]]. apply Ascii.eqb_eq in Heq. now subst.
  - intros Hin. exists c. split; [assumption | apply Ascii.eqb_refl].
Qed.

Lemma afterHex_spec (n : nat) (s r : string) :
  afterHex n s = Some r <-> exists h, s = h ++ r /\ hexString n h.
Proof.
  revert s. induction n as [|n IH]; intros s; simpl.
  - split.
    + intros H. injection H as <-. exists "". repeat split. constructor.
    + intros [h [-> [Hlen _]]]. destruct h; [reflexivity | discriminate].
  - destruct s as [|c s].
    + split; [discriminate|].
      intros [h [Heq [Hlen _]]]. destruct h; simpl in *; discriminate.
    + destruct (isHexDigit c) eqn:Hc.
      * rewrite IH. split.
        -- intros [h [-> [Hlen Hall]]]. exists (String c h). repeat split.
           ++ simpl. now rewrite Hlen.
           ++ simpl. constructor; [now apply isHexDigit_alphabet | assumption].
        -- intros [h [Heq [Hlen Hall]]]. destruct h as [|c' h]; [discriminate|].
           simpl in Heq. injection Heq as <- ->. exists h. repeat split.
           ++ simpl in Hlen. now injection Hlen.
           ++ simpl in Hall. now inversion Hall.
      * split; [discriminate|].
        intros [h [Heq [Hlen Hall]]]. destruct h as [|c' h]; [discriminate|].
        simpl in Heq. injection Heq as <- ->. simpl in Hall. inversion Hall; subst.
        apply isHexDigit_alphabet in H1. congruence.
Qed.

Lemma afterDash_spec (s r : string) : afterDash s = Some r <-> s = "-" ++ r.
Proof.
  unfold afterDash. destruct s as [|c s]; simpl.
  - split; discriminate.
  - destruct (Nat.eqb (nat_of_ascii c) 45) eqn:Hc.
    + apply Nat.eqb_eq in Hc.
      assert (c = "-"%char) as ->.
      { rewrite <- (ascii_nat_embedding c), Hc. reflexivity. }
      split; intros H; injection H as ->; reflexivity.
    + split; [discriminate|]. intros H. injection H as -> _. discriminate.
Qed.

Lemma andThen_Some {A B : Type} (v : option A) (f : A -> option B) (b : B) :
  andThen v f = Some b <-> exists a, v = Some a /\ f a = Some b.
Proof.
  destruct v as [a|]; simpl.
  - split; [intros H; now exists a | intros [a' [H1 H2]]; now injection H1 as <-].
  - split; [discriminate | intros [a' [H1 _]]; discriminate].
Qed.

(** X1: The test on [userId] accepts exactly the strings made of five groups
    of 8, 4, 4, 4 and 12 hexadecimal digits, in either case, separated by
    dashes; such a string has 36 characters. *)
Theorem uuidRegexTest_accepts_exactly_the_uuid_shape (s : string) :
  (uuidRegexTest s = true <->
   exists a b c d e,
     s = a ++ "-" ++ b ++ "-" ++ c ++ "-" ++ d ++ "-" ++ e /\
     hexString 8 a /\ hexString 4 b /\ hexString 4 c /\ hexString 4 d /\ hexString 12 e) /\
  (uuidRegexTest s = true -> String.length s = 36%nat).
Proof.
  assert (Hiff : uuidRegexTest s = true <->
   exists a b c d e,
     s = a ++ "-" ++ b ++ "-" ++ c ++ "-" ++ d ++ "-" ++ e /\
     hexString 8 a /\ hexString 4 b /\ hexString 4 c /\ hexString 4 d /\ hexString 12 e).
  { unfold uuidRegexTest. split.
    - destruct (andThen _ (afterHex 12)) as [[|]|] eqn:H; try discriminate. intros _.
      repeat (apply andThen_Some in H; destruct H as [? [H ?]]).
      repeat match goal with
             | Hx : afterHex _ _ = Some _ |- _ => apply afterHex_spec in Hx; destruct Hx as [? [? ?]]
             | Hx : afterDash _ = Some _ |- _ => apply afterDash_spec in Hx
             end.
      subst. rewrite append_empty.
      do 5 eexists. split; [reflexivity|].
      repeat match goal with |- _ /\ _ => split end; assumption.
    - intros [a [b [c [d [e [-> [Ha [Hb [Hc [Hd He]]]]]]]]]].
      assert (Hx : forall n h r, hexString n h -> afterHex n (h ++ r) = Some r).
      { intros n h r Hh. apply afterHex_spec. now exists h. }
      assert (Hy : forall r, afterDash ("-" ++ r) = Some r) by reflexivity.
      rewrite (Hx _ _ _ Ha). cbn [andThen]. rewrite Hy. cbn [andThen].
      rewrite (Hx _ _ _ Hb). cbn [andThen]. rewrite Hy. cbn [andThen].
      rewrite (Hx _ _ _ Hc). cbn [andThen]. rewrite Hy. cbn [andThen].
      rewrite (Hx _ _ _ Hd). cbn [andThen]. rewrite Hy. cbn [andThen].
      rewrite <- (append_empty e) at 1. rewrite (Hx _ _ _ He). reflexivity. }
  split; [exact Hiff|].
  intros H. apply Hiff in H.
  destruct H as [a [b [c [d [e [-> [[Ha _] [[Hb _] [[Hc _] [[Hd _] [He _]]]]]]]]]]].
  repeat rewrite length_append. simpl. lia.
Qed.

(* ===================================================================== *)
(** * The list of supported currencies                                    *)
(* ===================================================================== *)

Lemma comma_char (c : ascii) : Nat.eqb (nat_of_ascii c) 44 = true <-> c = ","%char.
Proof.
  split.
  - intros H. apply Nat.eqb_eq in H.
    rewrite <- (ascii_nat_embedding c), H. reflexivity.
  - intros ->. reflexivity.
Qed.

Lemma splitOnComma_nonempty (s : string) : splitOnComma s <> [].
Proof.
  induction s as [|c s IH]; simpl; [discriminate|].
  destruct (Nat.eqb (nat_of_ascii c) 44); [discriminate|].
  destruct (splitOnComma s); discriminate.
Qed.

Lemma concat_cons (sep x : string) (l : list string) :
  l <> [] -> String.concat sep (x :: l) = x ++ sep ++ String.concat sep l.
Proof. destruct l; [congruence | reflexivity]. Qed.

Lemma join_splitOnComma (s : string) : String.concat "," (splitOnComma s) = s.
Proof.
  induction s as [|c s IH]; [reflexivity|]. simpl.
  destruct (Nat.eqb (nat_of_ascii c) 44) eqn:Hc.
  - apply comma_char in Hc. subst c.
    rewrite concat_cons by apply splitOnComma_nonempty. rewrite IH. reflexivity.
  - pose proof (splitOnComma_nonempty s) as Hne.
    destruct (splitOnComma s) as [|h t]; [congruence|].
    destruct t as [|h' t].
    + simpl in *. now rewrite IH.
    + rewrite concat_cons by discriminate. rewrite concat_cons in IH by discriminate.
      rewrite <- IH. reflexivity.
Qed.

Lemma splitOnComma_noComma (s : string) : Forall noComma (splitOnComma s).
Proof.
  induction s as [|c s IH]; simpl.
  - constructor; [|constructor]. intros H. exact H.
  - destruct (Nat.eqb (nat_of_ascii c) 44) eqn:Hc.
    + constructor; [intros H; exact H | assumption].
    + destruct (splitOnComma s) as [|h t].
      * constructor; [|constructor]. intros [H|H]; [|exact H].
        subst c. discriminate.
      * inversion IH; subst. constructor; [|assumption].
        intros [H|H]; [subst c; discriminate | now apply H1].
Qed.

Lemma splitOnComma_piece (h r : string) :
  noComma h -> splitOnComma (h ++ "," ++ r) = h :: splitOnComma r.
Proof.
  induction h as [|c h IH]; intros Hh; simpl.
  - reflexivity.
  - destruct (Nat.eqb (nat_of_ascii c) 44) eqn:Hc.
    + apply comma_char in Hc. subst c. exfalso. apply Hh. now left.
    + simpl in IH. rewrite IH; [reflexivity|]. intros H. apply Hh. now right.
Qed.

Lemma splitOnComma_single (h : string) : noComma h -> splitOnComma h = [h].
Proof.
  induction h as [|c h IH]; intros Hh; simpl.
  - reflexivity.
  - destruct (Nat.eqb (nat_of_ascii c) 44) eqn:Hc.
    + apply comma_char in Hc. subst c. exfalso. apply Hh. now left.
    + rewrite IH; [reflexivity|]. intros H. apply Hh. now right.
Qed.

Lemma splitOnComma_join (l : list string) :
  l <> [] -> Forall noComma l -> splitOnComma (String.concat "," l) = l.
Proof.
  induction l as [|h t IH]; intros Hne Hall; [congruence|].
  inversion Hall; subst.
  destruct t as [|h' t].
  - simpl. now apply splitOnComma_single.
  - rewrite concat_cons by discriminate.
    rewrite splitOnComma_piece by assumption.
    rewrite IH; [reflexivity | discriminate | assumption].
Qed.

(** X2: Splitting the currency list on commas and joining the pieces with
    commas are inverse to each other: the pieces hold no comma, joined they
    give the text back, and a non-empty list of comma-free names is what its
    joined text splits into. Nothing is trimmed and an empty text gives
    one empty name. *)
Theorem supported_currencies_split_join :
  (forall s, String.concat "," (splitOnComma s) = s) /\
  (forall s, splitOnComma s <> [] /\ Forall noComma (splitOnComma s)) /\
  (forall l, l <> [] -> Forall noComma l -> splitOnComma (String.concat "," l) = l) /\
  (forall e, assoc "PAYMENT_SUPPORTED_CURRENCIES" e = None ->
             PaymentDTO.SUPPORTED_CURRENCIES (PaymentDTO.limits e)
             = ["EUR"; "USD"; "XAF"; "XOF"]).
Proof.
  split; [exact join_splitOnComma|].
  split; [intros s; split; [apply splitOnComma_nonempty | apply splitOnComma_noComma]|].
  split; [exact splitOnComma_join|].
  intros e He. unfold PaymentDTO.limits, Config.envOr. simpl. rewrite He. reflexivity.
Qed.

(* ===================================================================== *)
(** * The configuration check                                             *)
(* ===================================================================== *)

Lemma includes_In (s : string) (l : list string) : includes s l = true <-> In s l.
Proof.
  unfold includes. rewrite existsb_exists. split.
  - intros [x [Hin Heq]]. apply String.eqb_eq in Heq. now subst.
  - intros Hin. exists s. split; [assumption | apply String.eqb_refl].
Qed.

Lemma truthyS_Some (s : string) : truthyS (Some s) = true <-> s <> "".
Proof.
  simpl. rewrite negb_true_iff. split.
  - intros H ->. discriminate.
  - intros H. destruct (String.eqb s "") eqn:E; [|reflexivity].
    apply String.eqb_eq in E. contradiction.
Qed.

Lemma envOr_truthy (e : list (string * string)) (name fallback : string) :
  fallback <> "" -> truthyS (Some (Config.envOr e name fallback)) = true.
Proof.
  intros Hf. apply truthyS_Some. unfold Config.envOr.
  destruct (assoc name e) as [v|]; [|assumption].
  destruct (String.eqb v "") eqn:E; [assumption|].
  intros ->. discriminate.
Qed.

Lemma envIntOr_nonzero (e : list (string * string)) (name : string) (fallback : Z) :
  fallback <> 0 -> Config.envIntOr e name fallback <> 0.
Proof.
  intros Hf. unfold Config.envIntOr.
  destruct (assoc name e) as [v|]; [|assumption].
  destruct (parseInt v) as [n|]; [|assumption].
  destruct (Z.eqb n 0) eqn:E; [assumption|]. now apply Z.eqb_neq.
Qed.

Lemma check_nil (failed : bool) (msg : string) :
  PaymentDTO.check failed msg = [] <-> failed = false.
Proof. destruct failed; simpl; split; congruence. Qed.

Lemma app_nil_iff {A : Type} (l l' : list A) : (l ++ l')%list = [] <-> l = [] /\ l' = [].
Proof.
  split; [apply app_eq_nil | intros [-> ->]; reflexivity].
Qed.

(** X3: [validateConfig] passes exactly when MONGODB_URI, AIRTEL_CLIENT_ID
    and AIRTEL_CLIENT_SECRET are set to non-empty values, the maximum amount
    is positive and the default currency is one of the supported ones;
    otherwise it throws the list of what is wrong. Its two checks on the MTN
    subscription keys can never fail, because the keys fall back to built-in
    values, and the maximum amount is never 0, because a 0 falls back to
    1000000. *)
Theorem validateConfig_passes_iff (w : World) :
  (forall msg, In msg (validateConfigErrors (env w)) ->
     msg <> "MTN_COLLECTIONS_KEY is required" /\
     msg <> "MTN_DISBURSEMENTS_KEY is required") /\
  Config.maxAmount (env w) <> 0 /\
  (validateConfig w = (Ok tt, w) <->
     truthyS (assoc "MONGODB_URI" (env w)) = true /\
     truthyS (assoc "AIRTEL_CLIENT_ID" (env w)) = true /\
     truthyS (assoc "AIRTEL_CLIENT_SECRET" (env w)) = true /\
     0 < Config.maxAmount (env w) /\
     In (Config.defaultCurrency (env w)) (supportedCurrencies (env w))) /\
  (validateConfig w = (Ok tt, w) \/
   validateConfig w
   = (Throw (mkError ("Configuration validation failed: "
                        ++ String.concat ", " (validateConfigErrors (env w)))), w)).
Proof.
  assert (Hc : truthyS (Some (collections (Config.mtnSubscriptionKeys (Config.mtn (env w)))))
               = true) by (apply envOr_truthy; discriminate).
  assert (Hd : truthyS (Some (disbursements (Config.mtnSubscriptionKeys (Config.mtn (env w)))))
               = true) by (apply envOr_truthy; discriminate).
  assert (Hrun : validateConfig w
                 = match validateConfigErrors (env w) with
                   | [] => (Ok tt, w)
                   | _ :: _ =>
                       (Throw (mkError ("Configuration validation failed: "
                          ++ String.concat ", " (validateConfigErrors (env w)))), w)
                   end).
  { unfold validateConfig. mrun. destruct (validateConfigErrors (env w)); reflexivity. }
  split; [|split; [|split]].
  - intros msg. unfold validateConfigErrors. cbv zeta. rewrite Hc, Hd.
    cbn [negb PaymentDTO.check app].
    rewrite !in_app_iff. unfold PaymentDTO.check.
    intros H.
    repeat match type of H with
           | _ \/ _ => destruct H as [H|H]
           | In _ (if ?b then _ else _) => destruct b
           | In _ [_] => destruct H as [<-|[]]
           | In _ [] => destruct H
           end; split; discriminate.
  - apply envIntOr_nonzero. discriminate.
  - rewrite Hrun.
    assert (Hnil : validateConfigErrors (env w) = [] <->
                   truthyS (assoc "MONGODB_URI" (env w)) = true /\
                   truthyS (assoc "AIRTEL_CLIENT_ID" (env w)) = true /\
                   truthyS (assoc "AIRTEL_CLIENT_SECRET" (env w)) = true /\
                   0 < Config.maxAmount (env w) /\
                   In (Config.defaultCurrency (env w)) (supportedCurrencies (env w))).
    { unfold validateConfigErrors. cbv zeta. rewrite Hc, Hd.
      cbn [negb PaymentDTO.check app].
      rewrite !app_nil_iff, !check_nil, !negb_false_iff, Z.leb_gt, includes_In.
      cbn [Config.airtelClientId Config.airtelClientSecret Config.airtel]. tauto. }
    rewrite <- Hnil.
    destruct (validateConfigErrors (env w)); split; congruence.
  - rewrite Hrun. destruct (validateConfigErrors (env w)); [left | right]; reflexivity.
Qed.

(* ===================================================================== *)
(** * What the DTOs accept                                                *)
(* ===================================================================== *)

Lemma tooLong_false (v : option string) : PaymentDTO.tooLong v = false <-> shortEnough v.
Proof.
  unfold PaymentDTO.tooLong, shortEnough. destruct v as [s|].
  - split.
    + intros H s' Hs. injection Hs as <-.
      apply andb_false_iff in H. destruct H as [H|H].
      * simpl in H. apply negb_false_iff, String.eqb_eq in H. subst. simpl. lia.
      * apply Z.ltb_ge in H. exact H.
    + intros H. apply andb_false_iff. right. apply Z.ltb_ge. now apply H.
  - split; [intros _ s Hs; discriminate | reflexivity].
Qed.

Lemma validateCommon_nil (lim : PaymentDTO.Limits) (dto : PaymentDTO.t) :
  PaymentDTO.validateCommon lim dto = [] <->
  (exists a, PaymentDTO.amount dto = Some a /\ 0 < a <= PaymentDTO.MAX_AMOUNT lim) /\
  In (PaymentDTO.currency dto) (PaymentDTO.SUPPORTED_CURRENCIES lim) /\
  truthyS (PaymentDTO.externalId dto) = true.
Proof.
  unfold PaymentDTO.validateCommon.
  rewrite !app_nil_iff, !check_nil, !negb_false_iff, includes_In.
  destruct (PaymentDTO.amount dto) as [a|].
  - rewrite orb_false_iff, Z.eqb_neq, Z.leb_gt, Z.ltb_ge. split.
    + intros [[_ Ha] [Hmax [Hcur Hext]]]. repeat split; try assumption.
      exists a. split; [reflexivity | lia].
    + intros [[a' [Ha' Hrange]] [Hcur Hext]]. injection Ha' as <-.
      repeat split; try assumption; lia.
  - split.
    + intros [H _]. discriminate.
    + intros [[a [Ha _]] _]. discriminate.
Qed.

Lemma validateMessages_nil (dto : PaymentDTO.t) :
  PaymentDTO.validateMessages dto = [] <->
  shortEnough (PaymentDTO.payerMessage dto) /\ shortEnough (PaymentDTO.payeeNote dto).
Proof.
  unfold PaymentDTO.validateMessages.
  rewrite app_nil_iff, !check_nil, !tooLong_false. tauto.
Qed.

Lemma validateParty_nil (who lower : string) (dto : PaymentDTO.t) (p : Party) :
  PaymentDTO.party dto = Some p ->
  (PaymentDTO.validateParty who lower dto = [] <->
   truthyS (partyId p) = true /\ In (partyIdType p) ["MSISDN"; "EMAIL"; "PARTY_CODE"]).
Proof.
  intros Hp. unfold PaymentDTO.validateParty. rewrite Hp.
  rewrite app_nil_iff, !check_nil, !negb_false_iff, includes_In. tauto.
Qed.

Lemma validate_nil_iff (lim : PaymentDTO.Limits) (dto : PaymentDTO.t) :
  let common :=
    (exists a, PaymentDTO.amount dto = Some a /\ 0 < a <= PaymentDTO.MAX_AMOUNT lim) /\
    In (PaymentDTO.currency dto) (PaymentDTO.SUPPORTED_CURRENCIES lim) /\
    truthyS (PaymentDTO.externalId dto) = true /\
    shortEnough (PaymentDTO.payerMessage dto) /\ shortEnough (PaymentDTO.payeeNote dto) in
  (forall p, PaymentDTO.party dto = Some p ->
     let partyGood :=
       truthyS (partyId p) = true /\ In (partyIdType p) ["MSISDN"; "EMAIL"; "PARTY_CODE"] in
     (PaymentDTO.validateRequestToPay lim dto = [] <-> common /\ partyGood) /\
     (PaymentDTO.validateTransfer lim dto = [] <-> common /\ partyGood)) /\
  (PaymentDTO.validateRefund lim dto = [] <->
     common /\ truthyS (PaymentDTO.referenceIdToRefund dto) = true).
Proof.
  cbv zeta. split.
  - intros p Hp.
    unfold PaymentDTO.validateRequestToPay, PaymentDTO.validateTransfer.
    rewrite !app_nil_iff, validateCommon_nil, validateMessages_nil,
      (validateParty_nil "Payer" "payer" dto p Hp),
      (validateParty_nil "Payee" "payee" dto p Hp).
    tauto.
  - unfold PaymentDTO.validateRefund.
    rewrite !app_nil_iff, validateCommon_nil, validateMessages_nil, check_nil,
      negb_false_iff.
    tauto.
Qed.

(** X4: On a request whose fields have the documented types, the
    request-to-pay DTO validates without an error exactly when the amount
    is a number above 0 and at most the maximum, the currency (the default
    one when the request names none) is a supported one, the external id
    and the payer's party id are non-empty, the party id type (MSISDN when
    the request names none) is MSISDN, EMAIL or PARTY_CODE, and neither
    message is longer than 160 characters. The transfer DTO asks the same of
    the payee; the refund DTO asks for the reference to refund in place of
    the party. *)
Theorem dto_validates_iff (lim : PaymentDTO.Limits) (data : Json) :
  typedRequest data ->
  let d := Some data in
  let common :=
    (exists a, prop "amount" d = Some (JNum a) /\ 0 < a <= PaymentDTO.MAX_AMOUNT lim) /\
    In (PaymentDTO.currencyOf lim d) (PaymentDTO.SUPPORTED_CURRENCIES lim) /\
    (exists e, prop "externalId" d = Some (JStr e) /\ e <> "") /\
    (forall s, prop "payerMessage" d = Some (JStr s) -> jsLength s <= 160) /\
    (forall s, prop "payeeNote" d = Some (JStr s) -> jsLength s <= 160) in
  let partyGood (who : string) :=
    (exists id, prop "partyId" (prop who d) = Some (JStr id) /\ id <> "") /\
    In (partyIdType (PaymentDTO.partyOf (prop who d))) ["MSISDN"; "EMAIL"; "PARTY_CODE"] in
  (PaymentDTO.validateRequestToPay lim (PaymentDTO.requestToPay lim data) = []
   <-> common /\ partyGood "payer") /\
  (PaymentDTO.validateTransfer lim (PaymentDTO.transfer lim data) = []
   <-> common /\ partyGood "payee") /\
  (PaymentDTO.validateRefund lim (PaymentDTO.refund lim data) = []
   <-> common /\
       exists r, prop "referenceIdToRefund" d = Some (JStr r) /\ r <> "").
Proof.
  intros (_ & Hamount & _ & Hext & Hpm & Hpn & Href & _ & Hpayer & _ & Hpayee).
  cbv zeta.
  assert (Hnum : forall v, numberField v ->
            forall (P : Z -> Prop),
              (exists a, asNumber v = Some a /\ P a) <-> (exists a, v = Some (JNum a) /\ P a)).
  { intros [[| | | | |]|] Hv P; cbn in *; try contradiction;
      split; intros (a & E & Ha); try discriminate; exists a; split; try assumption;
      congruence. }
  assert (Htext : forall v, textField v ->
            (truthyS (asString v) = true <-> exists s, v = Some (JStr s) /\ s <> "")).
  { intros [[| | |s| |]|] Hv; cbn in *; try contradiction;
      try (split; [discriminate|intros (s' & E & _); discriminate]).
    rewrite negb_true_iff, String.eqb_neq. split.
    - intros Hs. exists s. split; [reflexivity|exact Hs].
    - intros (s' & E & Hs). injection E as <-. exact Hs. }
  assert (Hshort : forall v, textField v ->
            (shortEnough (asString v) <-> forall s, v = Some (JStr s) -> jsLength s <= 160)).
  { intros [[| | |s| |]|] Hv; cbn in *; try contradiction; unfold shortEnough;
      split; intros H s' E; try discriminate; apply H; congruence. }
  pose proof (validate_nil_iff lim (PaymentDTO.requestToPay lim data)) as [Hpay _].
  pose proof (validate_nil_iff lim (PaymentDTO.transfer lim data)) as [Htransfer _].
  pose proof (validate_nil_iff lim (PaymentDTO.refund lim data)) as [_ Hrefund].
  specialize (Hpay _ eq_refl). specialize (Htransfer _ eq_refl). cbv zeta in *.
  cbn [PaymentDTO.requestToPay PaymentDTO.transfer PaymentDTO.refund PaymentDTO.amount
       PaymentDTO.currency PaymentDTO.externalId PaymentDTO.payerMessage
       PaymentDTO.payeeNote PaymentDTO.referenceIdToRefund PaymentDTO.partyOf partyId]
    in Hpay, Htransfer, Hrefund.
  rewrite (Hnum _ Hamount (fun a => 0 < a <= PaymentDTO.MAX_AMOUNT lim)) in Hpay, Htransfer, Hrefund.
  rewrite (Htext _ Hext), (Hshort _ Hpm), (Hshort _ Hpn) in Hpay, Htransfer, Hrefund.
  rewrite (Htext _ Hpayer) in Hpay. rewrite (Htext _ Hpayee) in Htransfer.
  rewrite (Htext _ Href) in Hrefund.
  split; [apply Hpay|]. split; [apply Htransfer|exact Hrefund].
Qed.

(** A request for 500 EUR from [250788000000] passes the request-to-pay
    validation. *)
Lemma dto_validates_iff_witness :
  PaymentDTO.validateRequestToPay
    (PaymentDTO.limits [])
    (PaymentDTO.requestToPay (PaymentDTO.limits [])
       (JObj [("amount", JNum 500); ("externalId", JStr "user-1");
              ("payer", JObj [("partyId", JStr "250788000000")])])) = [].
Proof.
  apply (proj1 (dto_validates_iff (PaymentDTO.limits [])
                  (JObj [("amount", JNum 500); ("externalId", JStr "user-1");
                         ("payer", JObj [("partyId", JStr "250788000000")])])
                  ltac:(repeat split; try exact I; eexists; reflexivity))).
  cbv zeta. split; [split; [|split; [|split; [|split]]]|split].
  - exists 500. split; [reflexivity|]. vm_compute. split; [reflexivity|discriminate].
  - vm_compute. auto.
  - exists "user-1". split; [reflexivity|discriminate].
  - intros s E. discriminate E.
  - intros s E. discriminate E.
  - exists "250788000000". split; [reflexivity|discriminate].
  - vm_compute. auto.
Defined.

(* ===================================================================== *)
(** * Tokens that live no longer than the refresh margin                  *)
(* ===================================================================== *)

(** X5: A token stored with a lifetime of at most the refresh margin (300 s
    in the two auth services, 30 s in the collection service) is due for a
    refresh from the instant it is stored, so every later call asks the
    provider again; a non-empty token with a longer lifetime is served from
    the store until the margin before its expiry. *)
Theorem short_lived_token_is_never_served_from_the_cache :
  (forall (u : AirtelUser.t) token e type scope t0 s t,
      t0 <= t ->
      let u' := AirtelUser.stamp s (AirtelUser.setToken token (Some e) type scope t0 u) in
      (e * 1000 <= AirtelAuthService.refreshThreshold ->
       AirtelAuthService.refreshDue u' t = true) /\
      (truthyS token = true -> t < t0 + e * 1000 - AirtelAuthService.refreshThreshold ->
       AirtelAuthService.refreshDue u' t = false)) /\
  (forall (u : MTNUser.t) token e t0 s t,
      t0 <= t ->
      let c := MTNUser.stamp s (MTNUser.setCollectionToken token (Some e) t0 u) in
      let d := MTNUser.stamp s (MTNUser.setDisbursementToken token (Some e) t0 u) in
      (e * 1000 <= MTNAuthService.refreshThreshold ->
       MTNAuthService.collectionRefreshDue c t = true /\
       MTNAuthService.disbursementRefreshDue d t = true) /\
      (truthyS token = true -> t < t0 + e * 1000 - MTNAuthService.refreshThreshold ->
       MTNAuthService.collectionRefreshDue c t = false /\
       MTNAuthService.disbursementRefreshDue d t = false) /\
      (e * 1000 <= MTNCollectionService.refreshThreshold ->
       MTNCollectionService.cachedTokenUsable c t = false) /\
      (truthyS token = true -> t < t0 + e * 1000 - MTNCollectionService.refreshThreshold ->
       MTNCollectionService.cachedTokenUsable c t = true)).
Proof.
  split.
  - intros u token e type scope t0 s t Ht. cbv zeta.
    unfold AirtelAuthService.refreshDue, AirtelUser.tokenValid,
      AirtelAuthService.refreshThreshold.
    cbn [AirtelUser.stamp AirtelUser.setToken AirtelUser.accessToken
         AirtelUser.tokenExpiresAt].
    split.
    + intros He. apply orb_true_iff. right. apply Z.leb_le. lia.
    + intros Htok Hlt. apply orb_false_iff. split.
      * rewrite Htok. apply negb_false_iff. apply andb_true_iff. split; [reflexivity|].
        apply Z.ltb_lt. lia.
      * apply Z.leb_gt. lia.
  - intros u token e t0 s t Ht. cbv zeta.
    unfold MTNAuthService.collectionRefreshDue, MTNAuthService.disbursementRefreshDue,
      MTNUser.collectionTokenValid, MTNUser.disbursementTokenValid,
      MTNCollectionService.cachedTokenUsable,
      MTNAuthService.refreshThreshold, MTNCollectionService.refreshThreshold.
    cbn [MTNUser.stamp MTNUser.setCollectionToken MTNUser.setDisbursementToken
         MTNUser.collectionToken MTNUser.collectionTokenExpiresAt
         MTNUser.disbursementToken MTNUser.disbursementTokenExpiresAt].
    split; [|split; [|split]].
    + intros He. split; apply orb_true_iff; right; apply Z.leb_le; lia.
    + intros Htok Hlt. split; apply orb_false_iff; (split; [|apply Z.leb_gt; lia]);
        rewrite Htok; apply negb_false_iff; apply andb_true_iff;
        (split; [reflexivity|]); apply Z.ltb_lt; lia.
    + intros He. apply andb_false_iff. right. apply Z.ltb_ge. lia.
    + intros Htok Hlt. rewrite Htok. apply andb_true_iff. split; [reflexivity|].
      apply Z.ltb_lt. lia.
Qed.

(* ===================================================================== *)
(** * Provisioning an API user                                            *)
(* ===================================================================== *)

Lemma not_409 {A : Type} (z : Z) (a b : A) :
  z <> 409 -> match z with 409 => a | _ => b end = b.
Proof.
  intros Hz. destruct z as [|p|p]; try reflexivity.
  do 9 (destruct p as [p|p|]; try reflexivity).
  exfalso. apply Hz. reflexivity.
Qed.

Lemma axios_refused (req : Http.Request) (w : World) (r : Http.Response)
      (rest : list Http.Reply) :
  replies w = Http.Answered r :: rest -> Http.ok r = false ->
  axios req w
  = (Throw {| message := "Request failed with status code " ++ showZ (Http.status r);
              response := Some r |}, withExchange rest req w).
Proof.
  intros Hr Hok. unfold axios, bind, exchange. rewrite Hr, Hok. reflexivity.
Qed.

(** X6: When the provider answers the creation of the API user with a
    conflict (409), [createAPIUser] returns as if the user had been created;
    the same answer to [createAPIKey] makes it throw, since an existing key
    cannot be read back. Any other refusal makes either throw, with the
    status in the message, and a 2xx answer makes [createAPIUser] return the
    body. One request is sent in every case. *)
Theorem createAPIUser_takes_a_conflict_as_success
        (xReferenceId : string) (w : World) (r : Http.Response) (rest : list Http.Reply) :
  replies w = Http.Answered r :: rest ->
  let afterUser :=
    withExchange rest (MTNAuthService.apiUserRequest (Config.mtn (env w)) xReferenceId) w in
  let afterKey :=
    withExchange rest (MTNAuthService.apiKeyRequest (Config.mtn (env w)) xReferenceId) w in
  (Http.ok r = true ->
   MTNAuthService.createAPIUser xReferenceId w = (Ok (Http.body r), afterUser)) /\
  (Http.status r = 409 ->
   MTNAuthService.createAPIUser xReferenceId w
   = (Ok (JObj [("message", JStr "User already exists")]), afterUser) /\
   MTNAuthService.createAPIKey xReferenceId w
   = (Throw (mkError "API key already exists but cannot be retrieved"), afterKey)) /\
  (Http.ok r = false -> Http.status r <> 409 ->
   MTNAuthService.createAPIUser xReferenceId w
   = (Throw (mkError ("Failed to create API user: Request failed with status code "
                        ++ showZ (Http.status r))), afterUser) /\
   MTNAuthService.createAPIKey xReferenceId w
   = (Throw (mkError ("Failed to create API key: Request failed with status code "
                        ++ showZ (Http.status r))), afterKey)).
Proof.
  intros Hr. cbv zeta.
  unfold MTNAuthService.createAPIUser, MTNAuthService.createAPIKey.
  split; [|split].
  - intros Hok. mrun. cbv beta iota delta [bind tryCatch mtnConfig].
    rewrite (axios_answered _ _ _ _ Hr Hok). reflexivity.
  - intros Hst.
    assert (Hok : Http.ok r = false) by (unfold Http.ok; rewrite Hst; reflexivity).
    split; cbv beta iota delta [bind tryCatch mtnConfig];
      rewrite (axios_refused _ _ _ _ Hr Hok);
      unfold responseStatus; cbn [response]; rewrite Hst; reflexivity.
  - intros Hok Hst.
    split; cbv beta iota delta [bind tryCatch mtnConfig];
      rewrite (axios_refused _ _ _ _ Hr Hok);
      unfold responseStatus; cbn [response message];
      rewrite (not_409 _ _ _ Hst); reflexivity.
Qed.

Lemma createAPIUser_takes_a_conflict_as_success_witness :
  MTNAuthService.createAPIUser "9f1c2d3e-0000-4000-8000-000000000002" provisioningTwice
  = (Ok (JObj [("message", JStr "User already exists")]),
     withExchange [] (MTNAuthService.apiUserRequest (Config.mtn (env provisioningTwice))
                        "9f1c2d3e-0000-4000-8000-000000000002") provisioningTwice).
Proof.
  refine (proj1 (proj1 (proj2 (createAPIUser_takes_a_conflict_as_success
            "9f1c2d3e-0000-4000-8000-000000000002" provisioningTwice conflict409 []
            eq_refl)) eq_refl)).
Defined.

Lemma stored_upsert_mtnUser (d : MTNUser.t) (l : list MTNUser.t) (w0 : World) :
  stored (MTNUser._id d) (withStore (setDocs (upsert d l) (store w0)) w0) = Some d.
Proof.
  unfold stored. cbn [store withStore docs setDocs MTNUserModel mtnUsers].
  change (MTNUser._id d) with (idOf d). apply find_upsert.
Qed.

(** X7: On a first start with a working store and a provider that accepts
    the four steps, [createNewMTNUser] sends, in this order and all under
    the UUID it drew, the creation of the API user, the creation of the API
    key, the collection token request and the disbursement token request,
    the token requests authenticated with the key just received; it waits
    half a second after each of the first three, and stores an active
    credential record with the key, both tokens and their expiries counted
    from the instant after the waits. When the key the provider answered is
    the empty string, the four requests are sent all the same, the schema
    refuses the record, which needs its [apiKey], and the call throws with
    no record stored. *)
Theorem createNewMTNUser_provisions
        (w : World) (r1 r2 r3 r4 : Http.Response) (rest : list Http.Reply)
        (apiKey token1 token2 : string) (expiresIn1 expiresIn2 : Z) :
  faults w = [] ->
  uuids w (drawn w) <> "" ->
  replies w = Http.Answered r1 :: Http.Answered r2 :: Http.Answered r3
                :: Http.Answered r4 :: rest ->
  Http.ok r1 = true ->
  KeyAnswer r2 apiKey ->
  TokenAnswer r3 token1 expiresIn1 ->
  TokenAnswer r4 token2 expiresIn2 ->
  let requests :=
    [MTNAuthService.apiUserRequest (Config.mtn (env w)) (uuids w (drawn w));
     MTNAuthService.apiKeyRequest (Config.mtn (env w)) (uuids w (drawn w));
     MTNAuthService.collectionTokenRequest (Config.mtn (env w)) (uuids w (drawn w))
                                           (Some apiKey);
     MTNAuthService.disbursementTokenRequest (Config.mtn (env w)) (uuids w (drawn w))
                                             (Some apiKey)] in
  (apiKey <> "" ->
   exists w' u,
     MTNAuthService.createNewMTNUser w = (Ok u, w') /\
     sent w' = (sent w ++ requests)%list /\
     replies w' = rest /\
     now w' = now w + 1500 /\
     drawn w' = S (drawn w) /\
     stored (MTNUser._id u) w' = Some u /\
     MTNUser.xReferenceId u = uuids w (drawn w) /\
     MTNUser.apiKey u = Some apiKey /\
     MTNUser.isActive u = true /\
     MTNUser.usageStats u = noUsage /\
     MTNUser.collectionToken u = Some token1 /\
     MTNUser.collectionTokenExpiresAt u = Some (now w + 1500 + expiresIn1 * 1000) /\
     MTNUser.disbursementToken u = Some token2 /\
     MTNUser.disbursementTokenExpiresAt u = Some (now w + 1500 + expiresIn2 * 1000)) /\
  (apiKey = "" ->
   exists w',
     MTNAuthService.createNewMTNUser w
     = (Throw (mkError ("Failed to create new MTN user: MTNUser validation failed: "
                          ++ requiredError "apiKey")), w') /\
     sent w' = (sent w ++ requests)%list /\
     mtnUsers (store w') = mtnUsers (store w)).
Proof.
  intros Hq Huuid Hreplies Hok1 (Hok2 & answer2 & Hjson2 & Hkey)
         (Hok3 & answer3 & Hjson3 & Htoken3 & Hexp3)
         (Hok4 & answer4 & Hjson4 & Htoken4 & Hexp4).
  assert (Hbody2 : Http.body r2 = answer2) by (unfold Http.body; rewrite Hjson2; reflexivity).
  assert (Hbody3 : Http.body r3 = answer3) by (unfold Http.body; rewrite Hjson3; reflexivity).
  assert (Hbody4 : Http.body r4 = answer4) by (unfold Http.body; rewrite Hjson4; reflexivity).
  assert (Hhost : requiredString "providerCallbackHost"
                    (Some (Config.mtnProviderCallbackHost (Config.mtn (env w)))) = []).
  { apply requiredString_set. apply envOr_nonempty. discriminate. }
  assert (Hvalid : forall key,
             key <> "" ->
             (requiredString "xReferenceId" (Some (uuids w (drawn w)))
                ++ requiredString "apiKey" (Some key)
                ++ requiredString "providerCallbackHost"
                     (Some (Config.mtnProviderCallbackHost (Config.mtn (env w)))))%list = []).
  { intros key Hkeyne. rewrite Hhost, !requiredString_set by assumption. reflexivity. }
  cbv zeta.
  split; [intros Hne; eexists; eexists | intros ->; eexists];
    unfold MTNAuthService.createNewMTNUser, MTNAuthService.createAPIUser,
      MTNAuthService.createAPIKey, MTNAuthService.createCollectionToken,
      MTNAuthService.createDisbursementToken;
    mrun; cbv beta iota delta [bind tryCatch randomUUID delay];
    cbn [env withDrawn withNow withExchange];
    (erewrite axios_answered by (cbn; first [eassumption | reflexivity]));
    cbn [env replies withDrawn withNow withExchange];
    (erewrite axios_answered by (cbn; first [eassumption | reflexivity]));
    rewrite Hbody2; rewrite (member_present _ _ _ Hkey); mrun;
    cbn [env replies withDrawn withNow withExchange asString];
    (erewrite axios_answered by (cbn; first [eassumption | reflexivity]));
    cbn [env replies withDrawn withNow withExchange];
    (erewrite axios_answered by (cbn; first [eassumption | reflexivity]));
    rewrite Hbody3, Hbody4;
    rewrite (member_present _ _ _ Htoken3), (member_present _ _ _ Htoken4); mrun;
    rewrite Hexp3, Hexp4; cbn [asNumber asString option_map];
    rewrite create_run.
  - rewrite save_quiet by first [exact Hq | exact (Hvalid apiKey Hne)].
    split; [reflexivity|].
    split. { cbn [sent withStore withExchange withNow withDrawn].
             rewrite <- !app_assoc. reflexivity. }
    split; [reflexivity|].
    split. { cbn [now withStore withExchange withNow withDrawn]. lia. }
    split; [reflexivity|].
    split. { apply stored_upsert_mtnUser. }
    cbn [now withStore withExchange withNow withDrawn stampOf MTNUserModel MTNUser.stamp
         MTNUser.xReferenceId MTNUser.apiKey MTNUser.isActive MTNUser.usageStats
         MTNUser.collectionToken MTNUser.collectionTokenExpiresAt
         MTNUser.disbursementToken MTNUser.disbursementTokenExpiresAt].
    repeat split; f_equal; lia.
  - rewrite save_refused.
    + unfold validationFailed.
      cbn [errorsOf modelName MTNUserModel message].
      unfold MTNUser.validationErrors.
      cbn [MTNUser.xReferenceId MTNUser.apiKey MTNUser.providerCallbackHost].
      rewrite Hhost, requiredString_set by assumption.
      split; [reflexivity|].
      split. { cbn [sent withStore withExchange withNow withDrawn].
               rewrite <- !app_assoc. reflexivity. }
      reflexivity.
    + cbn [errorsOf MTNUserModel]. unfold MTNUser.validationErrors.
      cbn [MTNUser.xReferenceId MTNUser.apiKey MTNUser.providerCallbackHost].
      rewrite Hhost, requiredString_set by assumption. discriminate.
Qed.

Lemma createNewMTNUser_provisions_witness :
  exists w' u,
    MTNAuthService.createNewMTNUser firstStart = (Ok u, w') /\
    List.length (sent w') = 4%nat /\
    now w' = now firstStart + 1500 /\
    stored (MTNUser._id u) w' = Some u /\
    MTNUser.apiKey u = Some "f1db798c98df4bcf83b538175893bbf0" /\
    MTNUser.collectionToken u = Some "collection-token" /\
    MTNUser.disbursementTokenExpiresAt u = Some (now firstStart + 1500 + 3600 * 1000).
Proof.
  destruct (proj1 (createNewMTNUser_provisions firstStart created201 key201
              (token200 "collection-token") (token200 "disbursement-token") []
              "f1db798c98df4bcf83b538175893bbf0" "collection-token" "disbursement-token"
              3600 3600 eq_refl ltac:(discriminate) eq_refl eq_refl
              (conj eq_refl (ex_intro _ _ (conj eq_refl eq_refl)))
              (conj eq_refl (ex_intro _ _ (conj eq_refl (conj eq_refl eq_refl))))
              (conj eq_refl (ex_intro _ _ (conj eq_refl (conj eq_refl eq_refl)))))
              ltac:(discriminate))
    as (w' & u & Hrun & Hsent & _ & Hnow & _ & Hstored & _ & Hkey & _ & _ & Htok & _ & _ & Hexp).
  exists w', u.
  split; [exact Hrun|].
  split; [rewrite Hsent; reflexivity|].
  split; [exact Hnow|].
  split; [exact Hstored|].
  split; [exact Hkey|].
  split; [exact Htok|exact Hexp].
Defined.

(* ===================================================================== *)
(** * What a call that throws leaves behind                               *)
(* ===================================================================== *)

Lemma documentsAs_refl (w : World) : documentsAs w w.
Proof. repeat split. Qed.

Lemma documentsAs_NowFree (w0 : World) : NowFree (documentsAs w0).
Proof. intros t w H. exact H. Qed.

Lemma documentsAs_FaultFree (w0 : World) : FaultFree (documentsAs w0).
Proof. intros fs w H. exact H. Qed.

Lemma documentsAs_ExchangeFree (w0 : World) : ExchangeFree (documentsAs w0).
Proof. intros rs req w H. exact H. Qed.

Lemma documentsAs_DrawFree (w0 : World) : DrawFree (documentsAs w0).
Proof. intros n w H. exact H. Qed.

Lemma documentsAs_CreateFree (w0 : World) : CreateFree (documentsAs w0).
Proof. intros w H. exact H. Qed.

#[local] Hint Resolve documentsAs_NowFree documentsAs_FaultFree documentsAs_ExchangeFree
  documentsAs_DrawFree documentsAs_CreateFree : frees.

Lemma throwsKeeping_hoare {A : Type} (I : World -> Prop) (m : M A) (Q : A -> Prop) :
  hoare I m Q -> throwsKeeping I m.
Proof. intros H w e w' HI E. exact (kept _ _ _ _ _ _ H HI E). Qed.

Lemma throwsKeeping_throw {A : Type} (I : World -> Prop) (e : Error) :
  throwsKeeping I (@throw A e).
Proof. intros w e' w' HI E. injection E as _ <-. exact HI. Qed.

Lemma throwsKeeping_ret {A : Type} (I : World -> Prop) (a : A) : throwsKeeping I (ret a).
Proof. intros w e w' _ E. discriminate. Qed.

Lemma throwsKeeping_bind {A B : Type} (I : World -> Prop) (m : M A) (k : A -> M B)
      (P : A -> Prop) :
  hoare I m P -> (forall a, P a -> throwsKeeping I (k a)) -> throwsKeeping I (bind m k).
Proof.
  intros Hm Hk w e w' HI E. unfold bind in E.
  destruct (Hm w HI) as [HI1 HP].
  destruct (m w) as [[a|e1] w1]; cbn [fst snd] in *.
  - exact (Hk a (HP a eq_refl) w1 e w' HI1 E).
  - injection E as _ <-. exact HI1.
Qed.

Lemma throwsKeeping_tryCatch {A : Type} (I : World -> Prop) (m : M A) (h : Error -> M A) :
  throwsKeeping I m -> (forall e, throwsKeeping I (h e)) -> throwsKeeping I (tryCatch m h).
Proof.
  intros Hm Hh w e w' HI E. unfold tryCatch in E.
  destruct (m w) as [[a|e1] w1] eqn:Em; [discriminate|].
  exact (Hh e1 w1 e w' (Hm w e1 w1 HI Em) E).
Qed.

(** A save that throws has written nothing. *)
Lemma throwsKeeping_save {D : Type} `{Model D} (I : World -> Prop) (d : D) :
  FaultFree I -> throwsKeeping I (save d).
Proof.
  intros HF w e w' HI E. unfold save in E.
  destruct (errorsOf d).
  - unfold bind, storeOp in E.
    destruct (faults w) as [|[msg|] rest]; try discriminate.
    injection E as _ <-. apply HF, HI.
  - injection E as _ <-. exact HI.
Qed.

Ltac throws_step unf :=
  lazymatch goal with
  | |- throwsKeeping _ (throw _) => apply throwsKeeping_throw
  | |- throwsKeeping _ (throwError _) => apply throwsKeeping_throw
  | |- throwsKeeping _ (ret _) => apply throwsKeeping_ret
  | |- throwsKeeping _ (save _) => apply throwsKeeping_save
  | |- throwsKeeping _ (bind _ _) => eapply throwsKeeping_bind; [ | intros ? ? ]
  | |- throwsKeeping _ (tryCatch _ _) => apply throwsKeeping_tryCatch; [ | intros ? ]
  | |- throwsKeeping _ (match ?x with _ => _ end) => destruct x eqn:?
  | |- throwsKeeping _ (let _ := _ in _) => cbv zeta
  | |- hoare _ _ _ => hoare_step_with hoare_leaf unf
  end.

Ltac throws_walk unf := repeat (throws_step unf).

Lemma createNewMTNUser_throwsKeeping (w0 : World) :
  throwsKeeping (documentsAs w0) MTNAuthService.createNewMTNUser.
Proof.
  unfold MTNAuthService.createNewMTNUser.
  throws_walk ltac:(unfold MTNAuthService.createAPIUser, MTNAuthService.createAPIKey,
    MTNAuthService.createCollectionToken, MTNAuthService.createDisbursementToken);
    try free; try (intros; exact I).
Qed.

Lemma createNewAirtelUser_throwsKeeping (w0 : World) :
  throwsKeeping (documentsAs w0) AirtelAuthService.createNewAirtelUser.
Proof.
  unfold AirtelAuthService.createNewAirtelUser.
  throws_walk ltac:(unfold AirtelAuthService.getAccessToken);
    try free; try (intros; exact I).
Qed.

(** X8: A provisioning that throws leaves no credential record behind:
    when [createNewMTNUser] or [createNewAirtelUser] throws, at whatever
    step, every collection of the store holds the documents it held before,
    and the message of the error starts with the method's own prefix. *)
Theorem failed_provisioning_stores_nothing (w w' : World) (e : Error) :
  (MTNAuthService.createNewMTNUser w = (Throw e, w') ->
   documentsAs w w' /\
   exists reason, message e = "Failed to create new MTN user: " ++ reason) /\
  (AirtelAuthService.createNewAirtelUser w = (Throw e, w') ->
   documentsAs w w' /\
   exists reason, message e = "Failed to create new Airtel user: " ++ reason).
Proof.
  split; intros Hrun.
  - split.
    + exact (createNewMTNUser_throwsKeeping w w e w' (documentsAs_refl w) Hrun).
    + unfold MTNAuthService.createNewMTNUser in Hrun.
      unfold bind at 1 in Hrun. unfold mtnConfig at 1 in Hrun.
      apply tryCatch_rethrow_Throw_inv in Hrun as (e0 & _ & ->).
      now exists (message e0).
  - split.
    + exact (createNewAirtelUser_throwsKeeping w w e w' (documentsAs_refl w) Hrun).
    + unfold AirtelAuthService.createNewAirtelUser in Hrun.
      unfold bind at 1 in Hrun. unfold airtelConfig at 1 in Hrun.
      apply tryCatch_rethrow_Throw_inv in Hrun as (e0 & _ & ->).
      now exists (message e0).
Qed.

Lemma failed_provisioning_stores_nothing_witness :
  exists e w',
    MTNAuthService.createNewMTNUser providerOff = (Throw e, w') /\
    documentsAs providerOff w' /\
    exists reason, message e = "Failed to create new MTN user: " ++ reason.
Proof.
  eexists. eexists. split; [reflexivity|].
  apply (proj1 (failed_provisioning_stores_nothing providerOff _ _)). reflexivity.
Defined.

(* ===================================================================== *)
(** * A request to pay returns only when MTN accepted it                   *)
(* ===================================================================== *)

Ltac returns_walk_with known :=
  repeat first
    [ apply hoare_ret
    | apply hoare_throw
    | apply hoare_throwError
    | eapply hoare_bind; [known | intros ? ?]
    | eapply hoare_bind; [apply returns_any | intros ? _]
    | apply hoare_tryCatch; [ | intros ? ]
    | match goal with
      | |- hoare _ (match ?x with _ => _ end) _ => destruct x eqn:?
      end ].

Lemma requestToPay_returns_202 (referenceId : string) (requestData : Json)
      (targetEnvironment : string) (callbackUrl : option string) :
  returns (MTNCollectionService.requestToPay referenceId requestData targetEnvironment
                                             callbackUrl)
          (fun accepted =>
             MTNCollectionService.acceptedStatus accepted = 202 /\
             MTNCollectionService.acceptedReferenceId accepted = referenceId).
Proof.
  unfold returns, MTNCollectionService.requestToPay.
  returns_walk_with fail.
  all: cbn [MTNCollectionService.acceptedStatus MTNCollectionService.acceptedReferenceId].
  all: split; [apply Z.eqb_eq; assumption | reflexivity].
Qed.

(** The run on an accepted request, with the token at hand. *)
Lemma collection_requestToPay_accepted
      (referenceId : string) (requestData : Json) (targetEnvironment : string)
      (callbackUrl : option string)
      (w : World) (u : MTNUser.t) (token callback : string)
      (r : Http.Response) (rest : list Http.Reply) :
  faults w = [] ->
  find MTNUser.isActive (mtnUsers (store w)) = Some u ->
  MTNUser.collectionToken u = Some token ->
  Fresh (MTNUser.collectionToken u) (MTNUser.collectionTokenExpiresAt u)
        MTNCollectionService.refreshThreshold (now w) ->
  assoc "MTN_CALLBACK_URL" (env w) = Some callback -> callback <> "" ->
  replies w = Http.Answered r :: rest ->
  Http.status r = 202 ->
  exists req,
    MTNCollectionService.requestToPay referenceId requestData targetEnvironment callbackUrl w
    = (Ok {| MTNCollectionService.acceptedStatus := 202;
             MTNCollectionService.acceptedReferenceId := referenceId |},
       withExchange rest req w) /\
    isRequestToPay (Config.mtn (env w)) req /\
    carries referenceId req /\
    assoc "Authorization" (Http.headers req) = Some ("Bearer " ++ token) /\
    Http.data req = Some (MTNCollectionService.requestToPayBody requestData).
Proof.
  intros Hq Hfind Htoken Hfresh Hcallback Hne Hreplies H202.
  pose proof (collection_getValidToken_cached w u Hq Hfind Hfresh) as Hcached.
  rewrite Htoken in Hcached.
  assert (Htruthy : truthyS (Some callback) = true).
  { cbn. apply negb_true_iff, String.eqb_neq, Hne. }
  eexists.
  unfold MTNCollectionService.requestToPay, MTNCollectionService.subscriptionKey.
  cbv beta iota delta [bind tryCatch mtnConfig getEnv ret].
  rewrite Hcached. cbv beta iota. rewrite Hcallback, Htruthy. cbv beta iota.
  rewrite (fetch_answered _ _ _ _ Hreplies). cbv beta iota zeta.
  rewrite H202. cbn [Z.eqb Pos.eqb].
  split; [reflexivity|]. repeat split.
Qed.

(** X9: [requestToPay] of the collection service returns only on the status
    202: whenever it returns, the status it reports is 202, the reference
    is the one it was called with, and the last request sent is the
    request-to-pay call with that reference in [X-Reference-Id]. With a
    working store, a cached collection token good for more than 30 seconds
    and MTN_CALLBACK_URL set, it sends that one request; it returns when the
    provider answers 202 and throws, under "Failed to request payment: ",
    on every other status. *)
Theorem requestToPay_returns_only_accepted_requests
        (referenceId : string) (requestData : Json) (targetEnvironment : string)
        (callbackUrl : option string) :
  (forall (w w' : World) (accepted : MTNCollectionService.Accepted),
      MTNCollectionService.requestToPay referenceId requestData targetEnvironment
                                        callbackUrl w = (Ok accepted, w') ->
      MTNCollectionService.acceptedStatus accepted = 202 /\
      MTNCollectionService.acceptedReferenceId accepted = referenceId /\
      exists earlier req,
        sent w' = (earlier ++ [req])%list /\
        isRequestToPay (Config.mtn (env w)) req /\ carries referenceId req) /\
  (forall (w : World) (u : MTNUser.t) (token callback : string)
          (r : Http.Response) (rest : list Http.Reply),
      faults w = [] ->
      find MTNUser.isActive (mtnUsers (store w)) = Some u ->
      MTNUser.collectionToken u = Some token ->
      Fresh (MTNUser.collectionToken u) (MTNUser.collectionTokenExpiresAt u)
            MTNCollectionService.refreshThreshold (now w) ->
      assoc "MTN_CALLBACK_URL" (env w) = Some callback -> callback <> "" ->
      replies w = Http.Answered r :: rest ->
      let run := MTNCollectionService.requestToPay referenceId requestData
                   targetEnvironment callbackUrl w in
      (exists req,
          sent (snd run) = (sent w ++ [req])%list /\
          isRequestToPay (Config.mtn (env w)) req /\
          carries referenceId req /\
          assoc "Authorization" (Http.headers req) = Some ("Bearer " ++ token) /\
          Http.data req = Some (MTNCollectionService.requestToPayBody requestData)) /\
      (Http.status r = 202 ->
       fst run = Ok {| MTNCollectionService.acceptedStatus := 202;
                       MTNCollectionService.acceptedReferenceId := referenceId |}) /\
      (Http.status r <> 202 ->
       exists reason, fst run = Throw (mkError ("Failed to request payment: " ++ reason)))).
Proof.
  split.
  - intros w w' accepted Hrun.
    pose proof (returns_run _ _ _ _ _
                  (requestToPay_returns_202 referenceId requestData targetEnvironment
                     callbackUrl) Hrun) as [H202 Href].
    apply requestToPay_Ok_inv in Hrun as (_ & earlier & req & Hsent & Hreq & Hcarries & _).
    split; [exact H202|]. split; [exact Href|].
    exists earlier, req. auto.
  - intros w u token callback r rest Hq Hfind Htoken Hfresh Hcallback Hne Hreplies.
    cbv zeta.
    pose proof (collection_getValidToken_cached w u Hq Hfind Hfresh) as Hcached.
    rewrite Htoken in Hcached.
    assert (Htruthy : truthyS (Some callback) = true).
    { cbn. apply negb_true_iff, String.eqb_neq, Hne. }
    unfold MTNCollectionService.requestToPay, MTNCollectionService.subscriptionKey.
    cbv beta iota delta [bind tryCatch mtnConfig getEnv ret].
    rewrite Hcached. cbv beta iota. rewrite Hcallback, Htruthy. cbv beta iota.
    rewrite (fetch_answered _ _ _ _ Hreplies). cbv beta iota zeta.
    split.
    + eexists. split.
      * destruct (Z.eqb (Http.status r) 202);
          [|destruct (Z.eqb (Http.status r) 400);
            [|destruct (Z.eqb (Http.status r) 409);
              [|destruct (Z.eqb (Http.status r) 500)]]]; reflexivity.
      * repeat split.
    + split.
      * intros H202. rewrite H202. reflexivity.
      * intros Hnot. rewrite (proj2 (Z.eqb_neq _ _) Hnot).
        destruct (Z.eqb (Http.status r) 400);
          [|destruct (Z.eqb (Http.status r) 409);
            [|destruct (Z.eqb (Http.status r) 500)]];
          eexists; reflexivity.
Qed.

(** In [checkout] the provider accepts the request. *)
Lemma requestToPay_returns_only_accepted_requests_witness :
  fst (MTNCollectionService.requestToPay
         "5b2e8d5c-7a41-4c0e-9d3f-2f6a1b0c4e77"
         (MTNPaymentService.requestData "user-1" "250788000000" 500)
         "mtnrwanda" None checkout)
  = Ok {| MTNCollectionService.acceptedStatus := 202;
          MTNCollectionService.acceptedReferenceId :=
            "5b2e8d5c-7a41-4c0e-9d3f-2f6a1b0c4e77" |}.
Proof.
  refine (proj1 (proj2 (proj2 (requestToPay_returns_only_accepted_requests
            "5b2e8d5c-7a41-4c0e-9d3f-2f6a1b0c4e77"
            (MTNPaymentService.requestData "user-1" "250788000000" 500)
            "mtnrwanda" None)
            checkout merchant "token-0123456789abcdefghij"
            "https://example.org/api/mtn-payment/callback" accepted202 []
            eq_refl eq_refl eq_refl _ eq_refl _ eq_refl)) eq_refl).
  - split; [reflexivity|]. exists 1700000100000. split; reflexivity.
  - discriminate.
Defined.

(* ===================================================================== *)
(** * The callback URL of the environment                                 *)
(* ===================================================================== *)

(** X10: Without [MTN_CALLBACK_URL] in the environment (unset or empty),
    [requestToPay] of the collection service never returns and never calls
    the request-to-pay endpoint: whatever it sends is a token request, and
    it throws an error whose message starts with "Failed to request
    payment: ". The [callbackUrl] argument does not stand in for the
    variable. *)
Theorem requestToPay_needs_the_callback_url_of_the_environment
        (referenceId : string) (requestData : Json) (targetEnvironment : string)
        (callbackUrl : option string) (w : World) :
  truthyS (assoc "MTN_CALLBACK_URL" (env w)) = false ->
  let run := MTNCollectionService.requestToPay referenceId requestData targetEnvironment
                                               callbackUrl w in
  (exists e reason,
      fst run = Throw e /\ message e = "Failed to request payment: " ++ reason) /\
  (exists new,
      sent (snd run) = (sent w ++ new)%list /\
      Forall (isCollectionTokenRequest (env w)) new).
Proof.
  intros Hurl. cbv zeta.
  assert (Hk : hoare (sentOnly (isCollectionTokenRequest (env w)) w)
                 (MTNCollectionService.requestToPay referenceId requestData
                    targetEnvironment callbackUrl)
                 (fun _ => False)).
  { unfold MTNCollectionService.requestToPay.
    eapply hoare_bind; [apply hoare_mtnConfig_as | intros cfg ->].
    eapply hoare_bind with (P := fun _ => True).
    { hoare_walk_with only_leaf ltac:(unfold MTNCollectionService.subscriptionKey);
        intros; exact I. }
    intros key _.
    apply hoare_tryCatch; [|intros e; apply hoare_throwError].
    eapply hoare_bind; [apply getValidToken_sends_token_requests | intros token _].
    eapply hoare_bind; [apply hoare_getEnv_as | intros v ->].
    destruct (assoc "MTN_CALLBACK_URL" (env w)) as [callback|]; [|apply hoare_throwError].
    rewrite Hurl. apply hoare_throwError. }
  destruct (Hk w (sentOnly_refl _ w)) as [(_ & new & Hsent & Hnew) Hnever].
  split; [|exists new; split; assumption].
  destruct (MTNCollectionService.requestToPay referenceId requestData targetEnvironment
              callbackUrl w) as [[accepted|e] w'] eqn:Hrun.
  - destruct (Hnever accepted eq_refl).
  - unfold MTNCollectionService.requestToPay in Hrun.
    unfold bind at 1 in Hrun. unfold mtnConfig at 1 in Hrun.
    unfold bind at 1 in Hrun.
    destruct (MTNCollectionService.subscriptionKey w) as [[key|e1] w1] eqn:Hkey.
    + apply tryCatch_rethrow_Throw_inv in Hrun as (e0 & _ & ->).
      exists (mkError ("Failed to request payment: " ++ message e0)), (message e0).
      split; reflexivity.
    + unfold MTNCollectionService.subscriptionKey in Hkey. revert Hkey. mrun. discriminate.
Qed.

Lemma requestToPay_needs_the_callback_url_of_the_environment_witness :
  (exists e reason,
      fst (MTNCollectionService.requestToPay
             "5b2e8d5c-7a41-4c0e-9d3f-2f6a1b0c4e77" (JObj []) "mtnrwanda"
             (Some "https://example.org/hook") checkoutWithoutCallback) = Throw e /\
      message e = "Failed to request payment: " ++ reason) /\
  (exists new,
      sent (snd (MTNCollectionService.requestToPay
                   "5b2e8d5c-7a41-4c0e-9d3f-2f6a1b0c4e77" (JObj []) "mtnrwanda"
                   (Some "https://example.org/hook") checkoutWithoutCallback))
      = (sent checkoutWithoutCallback ++ new)%list /\
      Forall (isCollectionTokenRequest (env checkoutWithoutCallback)) new).
Proof.
  apply (requestToPay_needs_the_callback_url_of_the_environment
           "5b2e8d5c-7a41-4c0e-9d3f-2f6a1b0c4e77" (JObj []) "mtnrwanda"
           (Some "https://example.org/hook") checkoutWithoutCallback).
  reflexivity.
Defined.

(* ===================================================================== *)
(** * The payment record of an MTN payment request                        *)
(* ===================================================================== *)

(** X11: The two revisions of [requestPayment] differ in what the refusal
    of the payment by its schema costs. With a working store, a cached
    collection token, MTN_CALLBACK_URL set and a provider that would accept
    the request (202): the earlier revision, which saves first, throws
    before it sends anything, and the provider's answer is still to come;
    the later revision, which saves last, sends the request-to-pay call
    under the drawn UUID, has it accepted, and then throws on the save. In
    both, the payments are what they were: the accepted request of the later
    revision leaves no record. *)
Theorem requestPayment_revisions_differ_on_what_they_send
        (userId phoneNumber : string) (amount : Z) (options : MTNPaymentService.Options)
        (w : World) (u : MTNUser.t) (token callback : string)
        (r : Http.Response) (rest : list Http.Reply) :
  faults w = [] ->
  find MTNUser.isActive (mtnUsers (store w)) = Some u ->
  MTNUser.collectionToken u = Some token ->
  Fresh (MTNUser.collectionToken u) (MTNUser.collectionTokenExpiresAt u)
        MTNCollectionService.refreshThreshold (now w) ->
  assoc "MTN_CALLBACK_URL" (env w) = Some callback -> callback <> "" ->
  replies w = Http.Answered r :: rest ->
  Http.status r = 202 ->
  (let run := MTNPaymentService.requestPayment userId phoneNumber amount options w in
   (exists reason,
       fst run = Throw (mkError ("Failed to request payment: Payment validation failed: "
                                   ++ reason))) /\
   sent (snd run) = sent w /\
   replies (snd run) = replies w /\
   payments (store (snd run)) = payments (store w)) /\
  (let run := MTNPaymentService.requestPaymentSavingLast userId phoneNumber amount options w in
   (exists reason,
       fst run = Throw (mkError ("Failed to request payment: Payment validation failed: "
                                   ++ reason))) /\
   (exists req,
       sent (snd run) = (sent w ++ [req])%list /\
       isRequestToPay (Config.mtn (env w)) req /\
       carries (uuids w (drawn w)) req) /\
   replies (snd run) = rest /\
   payments (store (snd run)) = payments (store w)).
Proof.
  intros Hq Hfind Htoken Hfresh Hcallback Hne Hreplies H202.
  split; cbv zeta.
  - unfold MTNPaymentService.requestPayment, MTNCollectionService.getMTNUser.
    mrun. cbv beta iota delta [bind tryCatch randomUUID].
    rewrite findOne_quiet by (cbn; exact Hq).
    cbn [docs MTNUserModel store withDrawn]. rewrite Hfind.
    rewrite create_run.
    rewrite save_refused by (apply payment_rwf_refused; reflexivity).
    cbn [fst snd message throwError throw mkError sent replies store payments
         withStore withDrawn].
    split; [|repeat split].
    eexists. unfold validationFailed. cbn [modelName PaymentModel]. reflexivity.
  - unfold MTNPaymentService.requestPaymentSavingLast, MTNCollectionService.getMTNUser.
    mrun. cbv beta iota delta [bind tryCatch randomUUID].
    rewrite findOne_quiet by (cbn; exact Hq).
    cbn [docs MTNUserModel store withDrawn]. rewrite Hfind.
    match goal with
    | |- context [MTNCollectionService.requestToPay ?a ?b ?c ?d ?w0] =>
        destruct (collection_requestToPay_accepted a b c d w0 u token callback r rest
                    Hq Hfind Htoken Hfresh Hcallback Hne Hreplies H202)
          as (req & Hrun & Hreq & Hcarries & _);
        rewrite Hrun
    end.
    cbn [MTNCollectionService.acceptedStatus MTNCollectionService.acceptedReferenceId
         Z.eqb Pos.eqb].
    cbv beta iota delta [getEnv ret].
    rewrite create_run.
    rewrite save_refused by (apply payment_rwf_refused; reflexivity).
    cbn [fst snd message throwError throw mkError sent replies store payments
         withStore withDrawn withExchange].
    split; [|split; [|split; reflexivity]].
    + eexists. unfold validationFailed. cbn [modelName PaymentModel]. reflexivity.
    + exists req. split; [reflexivity|]. split; assumption.
Qed.

(** In [checkout]: nothing sent by the earlier revision, one accepted
    request and no record by the later one. *)
Lemma requestPayment_revisions_differ_on_what_they_send_witness :
  sent (snd (MTNPaymentService.requestPayment "user-1" "250788000000" 500 noOptions
               checkout)) = sent checkout /\
  (exists req,
      sent (snd (MTNPaymentService.requestPaymentSavingLast
                   "user-1" "250788000000" 500 noOptions checkout))
      = (sent checkout ++ [req])%list /\
      isRequestToPay (Config.mtn (env checkout)) req /\
      carries (uuids checkout (drawn checkout)) req) /\
  payments (store (snd (MTNPaymentService.requestPaymentSavingLast
                          "user-1" "250788000000" 500 noOptions checkout)))
  = payments (store checkout).
Proof.
  destruct (requestPayment_revisions_differ_on_what_they_send
              "user-1" "250788000000" 500 noOptions checkout merchant
              "token-0123456789abcdefghij" "https://example.org/api/mtn-payment/callback"
              accepted202 [] eq_refl eq_refl eq_refl
              (conj eq_refl (ex_intro _ 1700000100000 (conj eq_refl eq_refl)))
              eq_refl ltac:(discriminate) eq_refl eq_refl)
    as [(_ & Hsent1 & _) (_ & Hsent2 & _ & Hpay2)].
  split; [exact Hsent1|]. split; [exact Hsent2|exact Hpay2].
Defined.

(* ===================================================================== *)
(** * The payment service: what is refused, what a status check records   *)
(* ===================================================================== *)

Lemma submit_invalid (errors : list string) (dto : PaymentDTO.t)
      (make : string -> nat -> Payment.t) (path partyKey : string)
      (tokenOf : MTNUser.t -> option string) (keyOf : SubscriptionKeys -> string)
      (w : World) :
  errors <> [] ->
  PaymentService.submit errors dto make path partyKey tokenOf keyOf w
  = (Throw (mkError ("Validation failed: " ++ String.concat ", " errors)), w).
Proof.
  intros Hbad. unfold PaymentService.submit. mrun.
  destruct errors; [congruence | reflexivity].
Qed.

Lemma requestToPay_invalid (requestData : Json) (w : World) :
  PaymentDTO.validateRequestToPay (PaymentDTO.limits (env w))
    (PaymentDTO.requestToPay (PaymentDTO.limits (env w)) requestData) <> [] ->
  PaymentService.requestToPay requestData w
  = (Throw (mkError ("Request to pay failed: " ++ "Validation failed: "
       ++ String.concat ", "
            (PaymentDTO.validateRequestToPay (PaymentDTO.limits (env w))
               (PaymentDTO.requestToPay (PaymentDTO.limits (env w)) requestData)))), w).
Proof.
  intros Hbad. unfold PaymentService.requestToPay.
  cbv beta iota zeta delta [bind tryCatch getProcessEnv].
  rewrite submit_invalid by exact Hbad. reflexivity.
Qed.

(** X12: A request whose fields have the documented types and which fails
    the validation of its DTO has no effect: [requestToPay], [transfer] and
    [refund] throw the list of errors under their own prefix, and the world
    is as it was: no credential record is read or made, no UUID drawn, no
    payment stored, nothing sent. *)
Theorem invalid_payment_request_has_no_effect (requestData : Json) (w : World) :
  typedRequest requestData ->
  let lim := PaymentDTO.limits (env w) in
  let failed (prefix : string) (errors : list string) : Result Json * World :=
    (Throw (mkError (prefix ++ "Validation failed: " ++ String.concat ", " errors)), w) in
  (PaymentDTO.validateRequestToPay lim (PaymentDTO.requestToPay lim requestData) <> [] ->
   PaymentService.requestToPay requestData w
   = failed "Request to pay failed: "
            (PaymentDTO.validateRequestToPay lim (PaymentDTO.requestToPay lim requestData))) /\
  (PaymentDTO.validateTransfer lim (PaymentDTO.transfer lim requestData) <> [] ->
   PaymentService.transfer requestData w
   = failed "Transfer failed: "
            (PaymentDTO.validateTransfer lim (PaymentDTO.transfer lim requestData))) /\
  (PaymentDTO.validateRefund lim (PaymentDTO.refund lim requestData) <> [] ->
   PaymentService.refund requestData w
   = failed "Refund failed: "
            (PaymentDTO.validateRefund lim (PaymentDTO.refund lim requestData))).
Proof.
  intros _. cbv zeta. split; [exact (requestToPay_invalid requestData w)|].
  unfold PaymentService.transfer, PaymentService.refund.
  split; intros Hbad; cbv beta iota zeta delta [bind tryCatch getProcessEnv];
    rewrite submit_invalid by exact Hbad; reflexivity.
Qed.

Lemma invalid_payment_request_has_no_effect_witness :
  PaymentService.requestToPay (JObj [("amount", JNum 0)]) statusDesk
  = (Throw (mkError ("Request to pay failed: " ++ "Validation failed: "
       ++ String.concat ", "
            (PaymentDTO.validateRequestToPay (PaymentDTO.limits (env statusDesk))
               (PaymentDTO.requestToPay (PaymentDTO.limits (env statusDesk))
                  (JObj [("amount", JNum 0)]))))), statusDesk).
Proof.
  apply (proj1 (invalid_payment_request_has_no_effect (JObj [("amount", JNum 0)]) statusDesk
                  ltac:(repeat split; try exact I; eexists; reflexivity))).
  vm_compute. discriminate.
Defined.

Lemma stored_upsert_payment (d : Payment.t) (l : list Payment.t) (w0 : World) :
  stored (Payment._id d) (withStore (setDocs (upsert d l) (store w0)) w0) = Some d.
Proof.
  unfold stored. cbn [store withStore docs setDocs PaymentModel payments].
  change (Payment._id d) with (idOf d). apply find_upsert.
Qed.

(** X13: [getPaymentStatus] on an id that names no stored payment throws
    "Payment not found" under its prefix and asks the provider nothing. On
    a stored collection payment that passes its schema, with fresh
    credentials and a provider that answers a status, it sends one GET for
    the payment's [xReferenceId] with the collection token. When the status
    answered is PENDING, SUCCESSFUL, FAILED or CANCELLED, it stores the
    answer and the provider's status; the payment's own status becomes
    SUCCESSFUL or FAILED when the provider says so, with the completion date
    set to the instant of the check, and stays what it was otherwise. Any
    other status is refused by the schema of [mtnStatus]: the call throws
    and the stored payment is as it was. *)
Theorem getPaymentStatus_records_the_provider_status (paymentId : nat) (w : World) :
  faults w = [] ->
  (@stored Payment.t _ paymentId w = None ->
   PaymentService.getPaymentStatus paymentId w
   = (Throw (mkError "Failed to get payment status: Payment not found"), w)) /\
  (forall (p : Payment.t) (u : MTNUser.t) (r : Http.Response) (rest : list Http.Reply)
          (answer : Json) (s : string),
      stored paymentId w = Some p ->
      Payment.validationErrors p = [] ->
      Payment.transactionType p = "collection" ->
      find MTNUser.isActive (mtnUsers (store w)) = Some u ->
      stored (MTNUser._id u) w = Some u ->
      Fresh (MTNUser.collectionToken u) (MTNUser.collectionTokenExpiresAt u)
            MTNAuthService.refreshThreshold (now w) ->
      Fresh (MTNUser.disbursementToken u) (MTNUser.disbursementTokenExpiresAt u)
            MTNAuthService.refreshThreshold (now w) ->
      replies w = Http.Answered r :: rest ->
      Http.ok r = true ->
      Http.json r = Some answer ->
      prop "status" (Some answer) = Some (JStr s) ->
      let request := collectionStatusRequest (Config.mtn (env w))
                       (MTNUser.collectionToken u) (Payment.xReferenceId p) in
      (In s statusEnum ->
       exists dto w' p',
         PaymentService.getPaymentStatus paymentId w = (Ok dto, w') /\
         sent w' = (sent w ++ [request])%list /\
         stored (Payment._id p) w' = Some p' /\
         dto = PaymentDTO.fromPayment p' /\
         Payment.status p' = settledBy s (Payment.status p) /\
         Payment.mtnStatus p' = Some s /\
         Payment.mtnResponse p' = Some answer /\
         Payment.completedAt p'
         = (if orb (String.eqb s "SUCCESSFUL") (String.eqb s "FAILED")
            then Some (now w) else Payment.completedAt p)) /\
      (~ In s statusEnum ->
       exists w',
         PaymentService.getPaymentStatus paymentId w
         = (Throw (mkError ("Failed to get payment status: Payment validation failed: "
                              ++ enumError "mtnStatus" s)), w') /\
         sent w' = (sent w ++ [request])%list /\
         stored paymentId w' = Some p)).
Proof.
  intros Hq. split.
  - intros Hnone. unfold PaymentService.getPaymentStatus. mrun.
    rewrite findById_quiet by exact Hq. rewrite Hnone. reflexivity.
  - intros p u r rest answer s Hp Hvalid Htype Hfind Hu Hc Hd Hreplies Hok Hjson Hstatus.
    assert (Hbody : Http.body r = answer) by (unfold Http.body; rewrite Hjson; reflexivity).
    assert (Herrors : Payment.validationErrors
                        (PaymentService.recordStatus (Some s) answer (now w) p)
                      = enumString "mtnStatus" statusEnum (Some s)).
    { unfold PaymentService.recordStatus. cbv zeta.
      destruct (String.eqb s "SUCCESSFUL"); [|destruct (String.eqb s "FAILED")];
        rewrite payment_assign_errors by exact Hvalid; try reflexivity.
      unfold Payment.validationErrors in Hvalid. cbv zeta in Hvalid. valid_parts Hvalid.
      match goal with
      | H : enumString "status" _ _ = [] |- _ => rewrite H
      end. reflexivity. }
    cbv zeta. split.
    + intros Hin.
      assert (Hgood : Payment.validationErrors
                        (PaymentService.recordStatus (Some s) answer (now w) p) = []).
      { rewrite Herrors. destruct Hin as [<-|[<-|[<-|[<-|[]]]]]; reflexivity. }
      unfold PaymentService.getPaymentStatus, MTNAuthService.getMTNUser. mrun.
      rewrite findById_quiet by exact Hq. rewrite Hp.
      rewrite (auth_initialize_cached w u Hq Hfind Hu Hc Hd).
      rewrite Htype. cbn [String.eqb Ascii.eqb Bool.eqb andb].
      erewrite axios_answered by eassumption.
      rewrite Hbody. rewrite (member_present _ _ _ Hstatus). mrun.
      rewrite save_quiet by first [exact Hq | exact Hgood].
      cbn [now withExchange withStore asString].
      unfold PaymentService.recordStatus, settledBy.
      destruct (String.eqb s "SUCCESSFUL"); [|destruct (String.eqb s "FAILED")];
        (eexists; eexists; eexists;
         split; [reflexivity|];
         split; [reflexivity|];
         split;
         [ match goal with
           | |- stored _ (withStore (setDocs (upsert ?d _) _) _) = _ =>
               change (Payment._id p) with (Payment._id d)
           end;
           apply stored_upsert_payment
         | split; [reflexivity|]; cbn; repeat split ]).
    + intros Hout.
      assert (Hbad : enumString "mtnStatus" statusEnum (Some s) = [enumError "mtnStatus" s]).
      { unfold enumString. destruct (includes s statusEnum) eqn:E; [|reflexivity].
        exfalso. apply Hout. unfold includes in E.
        apply existsb_exists in E as (x & Hx & Heq).
        apply String.eqb_eq in Heq as ->. exact Hx. }
      eexists.
      unfold PaymentService.getPaymentStatus, MTNAuthService.getMTNUser. mrun.
      rewrite findById_quiet by exact Hq. rewrite Hp.
      rewrite (auth_initialize_cached w u Hq Hfind Hu Hc Hd).
      rewrite Htype. cbn [String.eqb Ascii.eqb Bool.eqb andb].
      erewrite axios_answered by eassumption.
      rewrite Hbody. rewrite (member_present _ _ _ Hstatus). mrun.
      cbn [now withExchange asString].
      rewrite save_refused
        by (cbn [errorsOf PaymentModel]; rewrite Herrors, Hbad; discriminate).
      unfold validationFailed. cbn [errorsOf modelName PaymentModel message].
      rewrite Herrors, Hbad.
      split; [reflexivity|]. split; [reflexivity|]. exact Hp.
Qed.

Lemma getPaymentStatus_records_the_provider_status_witness :
  exists dto w' p',
    PaymentService.getPaymentStatus 1 statusDesk = (Ok dto, w') /\
    stored 1%nat w' = Some p' /\
    Payment.status p' = "SUCCESSFUL" /\
    Payment.completedAt p' = Some (now statusDesk).
Proof.
  destruct (proj1 (proj2 (getPaymentStatus_records_the_provider_status 1 statusDesk eq_refl)
              (paymentOf 1 "ref-1" 1699999500000) teller successful200 []
              (JObj [("status", JStr "SUCCESSFUL");
                     ("financialTransactionId", JStr "363440463")])
              "SUCCESSFUL" eq_refl eq_refl eq_refl eq_refl eq_refl
              (conj eq_refl (ex_intro _ 1700003600000 (conj eq_refl eq_refl)))
              (conj eq_refl (ex_intro _ 1700003600000 (conj eq_refl eq_refl)))
              eq_refl eq_refl eq_refl eq_refl)
              ltac:(cbn; auto))
    as (dto & w' & p' & Hrun & _ & Hstored & _ & Hstatus & _ & _ & Hdone).
  exists dto, w', p'. repeat split; assumption.
Defined.

(* ===================================================================== *)
(** * Subscription payments: what is refused                              *)
(* ===================================================================== *)

Section SubscriptionChecks.

Variable ussdPushPayment : Json -> string -> string -> M Json.
Variable requestToPay : Json -> M Json.
Variable addMonths : Z -> Z -> Z.


End SubscriptionChecks.


(* ===================================================================== *)
(** * Subscription payments through MTN                                   *)
(* ===================================================================== *)

Lemma uuid_nonempty (s : string) : uuidRegexTest s = true -> s <> "".
Proof. intros H ->. discriminate. Qed.

Lemma stored_upsert_subscription (d : Subscription.t) (l : list Subscription.t) (w0 : World) :
  stored (Subscription._id d) (withStore (setDocs (upsert d l) (store w0)) w0) = Some d.
Proof.
  unfold stored. cbn [store withStore docs setDocs SubscriptionModel subscriptions].
  change (Subscription._id d) with (idOf d). apply find_upsert.
Qed.

Lemma unsupported_currency_is_reported (lim : PaymentDTO.Limits) (dto : PaymentDTO.t) :
  ~ In (PaymentDTO.currency dto) (PaymentDTO.SUPPORTED_CURRENCIES lim) ->
  In ("Currency must be one of: " ++ String.concat ", " (PaymentDTO.SUPPORTED_CURRENCIES lim))
     (PaymentDTO.validateRequestToPay lim dto).
Proof.
  intros Hno. unfold PaymentDTO.validateRequestToPay, PaymentDTO.validateCommon.
  rewrite !in_app_iff. left. right. right. left.
  destruct (includes (PaymentDTO.currency dto) (PaymentDTO.SUPPORTED_CURRENCIES lim)) eqn:E.
  - apply includes_In in E. contradiction.
  - left. reflexivity.
Qed.

Section MtnSubscriptions.

Variable ussdPushPayment : Json -> string -> string -> M Json.
Variable addMonths : Z -> Z -> Z.

(** X15: A subscription paid through MTN goes through the validation of the
    MTN payment service, whose list of supported currencies comes from
    PAYMENT_SUPPORTED_CURRENCIES and is EUR, USD, XAF, XOF when the variable
    is unset. A request that is valid for the subscription service, names no
    currency (so RWF is taken) and meets a list without RWF is refused by
    that validation: the call throws, nothing is sent to the provider, no
    payment is stored, and the subscription stays behind with the status
    FAILED and the validation message in [mtnError]. *)
Theorem mtn_subscription_needs_its_currency_supported
        (subscriptionData : Json) (w : World) (userId msisdn channel : string)
        (amount months : Z) :
  faults w = [] ->
  prop "userId" (Some subscriptionData) = Some (JStr userId) ->
  uuidRegexTest userId = true ->
  prop "amount" (Some subscriptionData) = Some (JNum amount) -> 0 < amount ->
  prop "numberOfMonths" (Some subscriptionData) = Some (JNum months) -> 1 <= months ->
  prop "msisdn" (Some subscriptionData) = Some (JStr msisdn) -> msisdn <> "" ->
  prop "paymentChannel" (Some subscriptionData) = Some (JStr channel) ->
  toUpperCase channel = "MTN" ->
  truthy (prop "currency" (Some subscriptionData)) = false ->
  ~ In "RWF" (PaymentDTO.SUPPORTED_CURRENCIES (PaymentDTO.limits (env w))) ->
  exists errors w' failed,
    SubscriptionService.createSubscriptionPayment
      ussdPushPayment PaymentService.requestToPay addMonths subscriptionData w
    = (Throw (mkError (failedPrefix ++ "Request to pay failed: Validation failed: "
                         ++ String.concat ", " errors)), w') /\
    In ("Currency must be one of: "
          ++ String.concat ", " (PaymentDTO.SUPPORTED_CURRENCIES (PaymentDTO.limits (env w))))
       errors /\
    sent w' = sent w /\
    payments (store w') = payments (store w) /\
    stored (nextId (store w)) w' = Some failed /\
    Subscription.status failed = "FAILED" /\
    Subscription.paymentChannel failed = "MTN" /\
    Subscription.currency failed = "RWF" /\
    Subscription.mtnError failed
    = Some (JObj [("message", JStr ("Request to pay failed: Validation failed: "
                                      ++ String.concat ", " errors))]) /\
    Subscription.completedAt failed = Some (now w).
Proof.
  intros Hq Huser Huuid Hamount Hpos Hmonths Hone Hmsisdn Hms Hchannel Hupper Hcur Hrwf.
  assert (Tuser : truthy (Some (JStr userId)) = true).
  { cbn. apply negb_true_iff. destruct (String.eqb userId "") eqn:E; [|reflexivity].
    apply String.eqb_eq in E. subst. discriminate. }
  assert (Tamount : truthy (Some (JNum amount)) = true).
  { cbn. apply negb_true_iff. apply Z.eqb_neq. lia. }
  assert (Tmonths : truthy (Some (JNum months)) = true).
  { cbn. apply negb_true_iff. apply Z.eqb_neq. lia. }
  assert (Tmsisdn : truthy (Some (JStr msisdn)) = true).
  { cbn. apply negb_true_iff. destruct (String.eqb msisdn "") eqn:E; [|reflexivity].
    apply String.eqb_eq in E. contradiction. }
  assert (Tchannel : truthy (Some (JStr channel)) = true).
  { cbn. apply negb_true_iff. destruct (String.eqb channel "") eqn:E; [|reflexivity].
    apply String.eqb_eq in E. subst. discriminate. }
  unfold SubscriptionService.createSubscriptionPayment,
    SubscriptionService.openSubscription.
  cbv zeta.
  rewrite Huser, Hamount, Hmonths, Hmsisdn, Hchannel.
  rewrite Tuser, Tamount, Tmonths, Tmsisdn, Tchannel.
  cbn [andb negb asString asNumber jsString stringOf]. rewrite Hupper.
  cbn [includes existsb String.eqb Ascii.eqb Bool.eqb andb orb negb].
  replace (Z.leb amount 0) with false by (symmetry; apply Z.leb_gt; lia).
  replace (Z.ltb months 1) with false by (symmetry; apply Z.ltb_ge; lia).
  rewrite Huuid. cbn [negb]. rewrite Hcur.
  cbv beta iota delta [bind tryCatch randomUUID ret].
  rewrite create_run. cbv beta iota.
  unfold SubscriptionService.uncast. rewrite Huser, Hmsisdn.
  cbn [castToString saveCast SubscriptionService.castText jsString stringOf].
  assert (Hopened : forall id t,
            Subscription.validationErrors
              {| Subscription._id := id; Subscription.userId := userId;
                 Subscription.amount := amount; Subscription.currency := "RWF";
                 Subscription.numberOfMonths := months;
                 Subscription.paymentChannel := "MTN"; Subscription.msisdn := msisdn;
                 Subscription.transactionId := t;
                 Subscription.airtelMoneyId := None; Subscription.mtnReferenceId := None;
                 Subscription.status := "PENDING"; Subscription.airtelStatus := None;
                 Subscription.mtnStatus := None; Subscription.startDate := None;
                 Subscription.endDate := None; Subscription.airtelResponse := None;
                 Subscription.airtelError := None; Subscription.mtnResponse := None;
                 Subscription.mtnError := None; Subscription.processedAt := None;
                 Subscription.completedAt := None; Subscription.createdAt := None;
                 Subscription.updatedAt := None |} = []).
  { intros id t. unfold Subscription.validationErrors.
    cbn [Subscription.userId Subscription.amount Subscription.currency
         Subscription.numberOfMonths Subscription.paymentChannel Subscription.msisdn
         Subscription.status Subscription.airtelStatus Subscription.mtnStatus].
    rewrite !requiredString_set
      by first [assumption | discriminate | apply uuid_nonempty, Huuid].
    unfold minNumber.
    replace (Z.ltb amount 0) with false by (symmetry; apply Z.ltb_ge; lia).
    replace (Z.ltb months 1) with false by (symmetry; apply Z.ltb_ge; lia).
    reflexivity. }
  rewrite save_quiet by first [exact Hq | apply Hopened]. cbv beta iota.
  cbn [SubscriptionService.paymentChannel SubscriptionService.months
       SubscriptionService.country SubscriptionService.currency
       SubscriptionService.transactionId SubscriptionService.subscription].
  unfold SubscriptionService.processPayment.
  cbn [String.eqb Ascii.eqb Bool.eqb andb].
  unfold SubscriptionService.attempt at 1.
  cbv beta iota delta [bind tryCatch].
  match goal with
  | |- context [PaymentService.requestToPay ?data ?w0] =>
      set (w1 := w0);
      pose proof (unsupported_currency_is_reported (PaymentDTO.limits (env w1))
                    (PaymentDTO.requestToPay (PaymentDTO.limits (env w1)) data)) as Hin;
      set (errors := PaymentDTO.validateRequestToPay (PaymentDTO.limits (env w1))
                       (PaymentDTO.requestToPay (PaymentDTO.limits (env w1)) data)) in *;
      assert (Hrun : PaymentService.requestToPay data w1
                     = (Throw (mkError ("Request to pay failed: " ++ "Validation failed: "
                                          ++ String.concat ", " errors)), w1))
  end.
  { apply requestToPay_invalid. fold errors. intros E.
    rewrite E in Hin. apply Hin.
    unfold SubscriptionService.mtnPaymentData. rewrite Hamount. exact Hrwf. }
  rewrite Hrun.
  unfold SubscriptionService.onPaymentError.
  cbv beta iota delta [bind getNow throw throwError].
  rewrite save_quiet by first [exact Hq | apply markFailed_valid, Hopened].
  cbv beta iota.
  exists errors. eexists. eexists.
  split; [reflexivity|].
  split.
  { apply Hin. unfold SubscriptionService.mtnPaymentData. rewrite Hamount. exact Hrwf. }
  split; [reflexivity|].
  split; [reflexivity|].
  split.
  { match goal with
    | |- stored _ (withStore (setDocs (upsert ?d _) _) _) = _ =>
        change (nextId (store w)) with (Subscription._id d)
    end.
    apply stored_upsert_subscription. }
  repeat split.
Qed.


End MtnSubscriptions.

Lemma mtn_subscription_needs_its_currency_supported_witness :
  exists errors w' failed,
    SubscriptionService.createSubscriptionPayment
      providerDown PaymentService.requestToPay thirtyDayMonths mtnSubscriptionRequest signup
    = (Throw (mkError (failedPrefix ++ "Request to pay failed: Validation failed: "
                         ++ String.concat ", " errors)), w') /\
    In "Currency must be one of: EUR, USD, XAF, XOF" errors /\
    sent w' = [] /\
    stored 0%nat w' = Some failed /\
    Subscription.status failed = "FAILED".
Proof.
  destruct (mtn_subscription_needs_its_currency_supported
              providerDown thirtyDayMonths mtnSubscriptionRequest signup
              "3f2b8c1e-5d4a-4b6f-9e0a-1c2d3e4f5a6b" "250780000000" "mtn" 5000 1
              eq_refl eq_refl eq_refl eq_refl eq_refl eq_refl)
    as (errors & w' & failed & Hrun & Hin & Hsent & _ & Hstored & Hstatus & _).
  - discriminate.
  - reflexivity.
  - discriminate.
  - reflexivity.
  - reflexivity.
  - reflexivity.
  - vm_compute. intuition discriminate.
  - exists errors, w', failed. repeat split; assumption.
Defined.

Lemma attempt_Ok_inv {A : Type} (paymentChannel : string) (s : Subscription.t) (m : M A)
      (w w' : World) (a : A) :
  SubscriptionService.attempt paymentChannel s m w = (Ok a, w') -> m w = (Ok a, w').
Proof.
  unfold SubscriptionService.attempt, tryCatch.
  destruct (m w) as [[a0|e] w1]; [trivial|].
  unfold SubscriptionService.onPaymentError, bind, getNow, throw.
  destruct (save _ w1) as [[x|e1] w2]; discriminate.
Qed.

Lemma save_subscription_Ok_inv (s s' : Subscription.t) (w w' : World) :
  save s w = (Ok s', w') ->
  stored (Subscription._id s') w' = Some s' /\ exists t, s' = Subscription.stamp t s.
Proof.
  intros H. apply save_Ok_inv in H as (_ & w1 & _ & -> & ->).
  split; [apply stored_upsert_subscription | eexists; reflexivity].
Qed.

Lemma toSubscriptionDTO_fields (s : Subscription.t) :
  prop "paymentChannel" (Some (Subscription.toSubscriptionDTO s))
  = Some (JStr (Subscription.paymentChannel s)) /\
  prop "status" (Some (Subscription.toSubscriptionDTO s))
  = Some (JStr (Subscription.status s)).
Proof.
  unfold Subscription.toSubscriptionDTO.
  destruct (Subscription.transactionId s), (Subscription.airtelMoneyId s),
    (Subscription.mtnReferenceId s); split; reflexivity.
Qed.

Lemma withEndDate_channel (addMonths : Z -> Z -> Z) (s : Subscription.t) :
  Subscription.paymentChannel (SubscriptionService.withEndDate addMonths s)
  = Subscription.paymentChannel s.
Proof.
  unfold SubscriptionService.withEndDate.
  destruct (Subscription.startDate s); [|reflexivity].
  destruct (String.eqb (Subscription.status s) "SUCCESSFUL"); reflexivity.
Qed.

Lemma applyAirtelResponse_channel (paymentResponse : Json) (t : Z) (s : Subscription.t) :
  Subscription.paymentChannel (SubscriptionService.applyAirtelResponse paymentResponse t s)
  = Subscription.paymentChannel s.
Proof.
  unfold SubscriptionService.applyAirtelResponse. cbv zeta.
  destruct (andb _ _); reflexivity.
Qed.

Lemma openSubscription_record (subscriptionData : Json) (w w1 : World)
      (opened : SubscriptionService.Opened) :
  SubscriptionService.openSubscription subscriptionData w = (Ok opened, w1) ->
  let s := SubscriptionService.subscription opened in
  Subscription.paymentChannel s = SubscriptionService.paymentChannel opened /\
  Subscription.numberOfMonths s = SubscriptionService.months opened /\
  Subscription.status s = "PENDING" /\
  Subscription.mtnStatus s = None /\
  Subscription.airtelStatus s = None /\
  Subscription.startDate s = None /\
  Subscription.endDate s = None /\
  Subscription.processedAt s = None /\
  Subscription.completedAt s = None /\
  Subscription.validationErrors s = [].
Proof.
  unfold SubscriptionService.openSubscription. cbv zeta.
  destruct (negb (andb _ _)); [discriminate|].
  destruct (asString _) as [channel|]; [|discriminate].
  destruct (negb (includes (toUpperCase channel) ["MTN"; "AIRTEL"])); [discriminate|].
  destruct (asNumber (prop "amount" _)) as [amount|]; [|discriminate].
  destruct (Z.leb amount 0); [discriminate|].
  destruct (asNumber (prop "numberOfMonths" _)) as [months|]; [|discriminate].
  destruct (Z.ltb months 1); [discriminate|].
  destruct (negb (uuidRegexTest _)); [discriminate|].
  intros H.
  apply bind_Ok_inv in H as (uuid & w2 & _ & H).
  apply bind_Ok_inv in H as (created & w3 & Hcreate & H).
  apply bind_Ok_inv in H as (saved & w4 & Hsave & H).
  injection H as <- <-.
  injection Hcreate as <- _.
  apply saveCast_Ok_inv in Hsave as [_ Hsave].
  pose proof (save_Ok_inv _ _ _ _ Hsave) as (Hvalid & _).
  apply save_subscription_Ok_inv in Hsave as (_ & t & ->).
  cbn. repeat split. exact Hvalid.
Qed.

(** ** The payment the MTN payment service builds *)

Lemma newPayment_refused (xReferenceId transactionType transactionSubType serviceType : string)
      (payer payee : option Party) (dto : PaymentDTO.t) (id : nat) :
  Payment.validationErrors
    (PaymentService.newPayment xReferenceId transactionType transactionSubType serviceType
                               payer payee dto id) <> [].
Proof.
  intros Hvalid. unfold Payment.validationErrors in Hvalid. cbv zeta in Hvalid.
  cbn [PaymentService.newPayment Payment.apiUserId] in Hvalid.
  valid_parts Hvalid.
  match goal with
  | H : requiredString "apiUserId" None = [] |- _ => discriminate H
  end.
Qed.

Lemma submit_never_returns (errors : list string) (dto : PaymentDTO.t)
      (make : string -> nat -> Payment.t) (path partyKey : string)
      (tokenOf : MTNUser.t -> option string) (keyOf : SubscriptionKeys -> string)
      (w : World) (a : Json) :
  (forall x id, Payment.validationErrors (make x id) <> []) ->
  fst (PaymentService.submit errors dto make path partyKey tokenOf keyOf w) <> Ok a.
Proof.
  intros Hrefused.
  destruct (PaymentService.submit errors dto make path partyKey tokenOf keyOf w)
    as [result w'] eqn:Hrun.
  cbn [fst]. intros ->.
  unfold PaymentService.submit in Hrun.
  apply bind_Ok_inv in Hrun as (cfg & w0 & _ & H).
  destruct errors; [|discriminate].
  apply bind_Ok_inv in H as (mtnUser & w1 & _ & H).
  apply bind_Ok_inv in H as (x & w2 & _ & H).
  apply bind_Ok_inv in H as (payment & w3 & Hcreate & H).
  apply bind_Ok_inv in H as (saved & w4 & Hsave & _).
  apply save_Ok_inv in Hsave as (Hvalid & _).
  rewrite create_run in Hcreate. injection Hcreate as <- _.
  exact (Hrefused _ _ Hvalid).
Qed.

Lemma submit_records (w0 : World) (errors : list string) (dto : PaymentDTO.t)
      (make : string -> nat -> Payment.t) (path partyKey : string)
      (tokenOf : MTNUser.t -> option string) (keyOf : SubscriptionKeys -> string) :
  (forall x id, Payment.validationErrors (make x id) <> []) ->
  hoare (recordsAs w0) (PaymentService.submit errors dto make path partyKey tokenOf keyOf)
        (fun _ => True).
Proof.
  intros Hrefused.
  hoare_walk_with ltac:(first [apply hoare_save_valid | hoare_leaf])
    ltac:(first [progress unfold PaymentService.submit | unfold_mtn]);
    try free; try (intros; exact I);
    try (intros ? ? ? Hkept; exact Hkept);
    try (intros ? ? Hkept; exact Hkept);
    try (intros; exfalso; cbv beta in *;
         repeat match goal with
                | H : _ /\ _ |- _ => destruct H
                | H : exists _, _ |- _ => destruct H
                end; subst;
         match goal with
         | H : errorsOf (make _ _) = [] |- _ => exact (Hrefused _ _ H)
         end).
Qed.

Lemma guarded_never_returns (m : list (string * string) -> M Json) (prefix : string) (w : World) :
  (forall e w1 a, fst (m e w1) <> Ok a) ->
  (forall e, hoare (recordsAs w) (m e) (fun _ => True)) ->
  let run := tryCatch (e <- getProcessEnv ;; m e)
                      (fun error => throwError (prefix ++ message error)) w in
  (exists reason, fst run = Throw (mkError (prefix ++ reason))) /\
  recordsAs w (snd run).
Proof.
  intros Hnever Hkept. cbv zeta.
  unfold tryCatch, bind, getProcessEnv.
  pose proof (Hnever (env w) w) as Hn.
  destruct (Hkept (env w) w (recordsAs_refl w)) as [Hk _].
  destruct (m (env w) w) as [[a|e] w1]; cbn [fst snd] in *.
  - exfalso. exact (Hn a eq_refl).
  - split; [exists (message e); reflexivity|exact Hk].
Qed.

Lemma payment_service_never_returns (requestData : Json) (w : World) :
  ((exists reason,
       fst (PaymentService.requestToPay requestData w)
       = Throw (mkError ("Request to pay failed: " ++ reason))) /\
   recordsAs w (snd (PaymentService.requestToPay requestData w))) /\
  ((exists reason,
       fst (PaymentService.transfer requestData w)
       = Throw (mkError ("Transfer failed: " ++ reason))) /\
   recordsAs w (snd (PaymentService.transfer requestData w))) /\
  ((exists reason,
       fst (PaymentService.refund requestData w)
       = Throw (mkError ("Refund failed: " ++ reason))) /\
   recordsAs w (snd (PaymentService.refund requestData w))).
Proof.
  split; [|split].
  - apply (guarded_never_returns
             (fun e =>
                let lim := PaymentDTO.limits e in
                let dto := PaymentDTO.requestToPay lim requestData in
                PaymentService.submit (PaymentDTO.validateRequestToPay lim dto) dto
                  (fun x => PaymentService.newPayment x "collection" "request_to_pay"
                              "collections" (PaymentDTO.party dto) None dto)
                  "/collection/v1_0/requesttopay" "payer"
                  MTNUser.collectionToken collections)
             "Request to pay failed: " w).
    + intros e w1 a. apply submit_never_returns. intros. apply newPayment_refused.
    + intros e. apply submit_records. intros. apply newPayment_refused.
  - apply (guarded_never_returns
             (fun e =>
                let lim := PaymentDTO.limits e in
                let dto := PaymentDTO.transfer lim requestData in
                PaymentService.submit (PaymentDTO.validateTransfer lim dto) dto
                  (fun x => PaymentService.newPayment x "disbursement" "transfer"
                              "disbursements" None (PaymentDTO.party dto) dto)
                  "/disbursement/v1_0/transfer" "payee"
                  MTNUser.disbursementToken disbursements)
             "Transfer failed: " w).
    + intros e w1 a. apply submit_never_returns. intros. apply newPayment_refused.
    + intros e. apply submit_records. intros. apply newPayment_refused.
  - apply (guarded_never_returns
             (fun e =>
                let lim := PaymentDTO.limits e in
                let dto := PaymentDTO.refund lim requestData in
                PaymentService.submit (PaymentDTO.validateRefund lim dto) dto
                  (fun x => PaymentService.newPayment x "disbursement" "refund"
                              "disbursements" None None dto)
                  "/disbursement/v1_0/refund" "payer"
                  MTNUser.disbursementToken disbursements)
             "Refund failed: " w).
    + intros e w1 a. apply submit_never_returns. intros. apply newPayment_refused.
    + intros e. apply submit_records. intros. apply newPayment_refused.
Qed.

(** X16: The MTN payment service never takes a payment.  The document that
    [requestToPay], [transfer] and [refund] build has no [apiUserId], no
    [apiKey] and no [subscriptionKey], which the Payment schema requires, so
    the save that precedes the provider call refuses it: each of the three
    throws under its own prefix whatever the request and the state, and
    leaves the payments and the subscriptions as they were.  Hence a
    subscription that [createSubscriptionPayment] returns was paid through
    Airtel, as the one of [signup] is; on the MTN channel the call does not
    return: in [mtnSignup], where RWF is supported, the credentials are
    fresh and the provider would accept, it throws the validation failure,
    sends nothing, leaves the provider's answer unread, stores no payment
    and leaves the subscription FAILED. *)
Theorem mtn_payment_service_never_takes_a_payment :
  (forall (requestData : Json) (w : World),
     ((exists reason,
          fst (PaymentService.requestToPay requestData w)
          = Throw (mkError ("Request to pay failed: " ++ reason))) /\
      recordsAs w (snd (PaymentService.requestToPay requestData w))) /\
     ((exists reason,
          fst (PaymentService.transfer requestData w)
          = Throw (mkError ("Transfer failed: " ++ reason))) /\
      recordsAs w (snd (PaymentService.transfer requestData w))) /\
     ((exists reason,
          fst (PaymentService.refund requestData w)
          = Throw (mkError ("Refund failed: " ++ reason))) /\
      recordsAs w (snd (PaymentService.refund requestData w)))) /\
  (forall (ussdPushPayment : Json -> string -> string -> M Json)
          (addMonths : Z -> Z -> Z) (subscriptionData : Json) (w w' : World) (dto : Json),
     SubscriptionService.createSubscriptionPayment
       ussdPushPayment PaymentService.requestToPay addMonths subscriptionData w
     = (Ok dto, w') ->
     prop "paymentChannel" (Some dto) = Some (JStr "AIRTEL")) /\
  (exists dto,
     fst (SubscriptionService.createSubscriptionPayment
            airtelAccepts PaymentService.requestToPay thirtyDayMonths
            subscriptionRequest signup) = Ok dto /\
     prop "paymentChannel" (Some dto) = Some (JStr "AIRTEL")) /\
  (let run := SubscriptionService.createSubscriptionPayment
                providerDown PaymentService.requestToPay thirtyDayMonths
                mtnSubscriptionRequest mtnSignup in
   (exists reason,
      fst run = Throw (mkError (failedPrefix
                                  ++ "Request to pay failed: Payment validation failed: "
                                  ++ reason))) /\
   sent (snd run) = [] /\
   replies (snd run) = replies mtnSignup /\
   payments (store (snd run)) = [] /\
   map Subscription.status (subscriptions (store (snd run))) = ["FAILED"]).
Proof.
  split; [exact payment_service_never_returns|].
  split.
  { intros ussdPushPayment addMonths subscriptionData w w' dto Hrun.
    unfold SubscriptionService.createSubscriptionPayment in Hrun.
    apply tryCatch_rethrow_Ok_inv in Hrun.
    apply bind_Ok_inv in Hrun as (opened & w1 & Hopen & Hproc).
    destruct (openSubscription_record _ _ _ _ Hopen) as (Hch & _).
    unfold SubscriptionService.processPayment in Hproc.
    apply bind_Ok_inv in Hproc as (afterAnswer & w2 & Hafter & Hrest).
    apply bind_Ok_inv in Hrest as (saved & w3 & Hsave & Hret).
    injection Hret as <- <-.
    apply attempt_Ok_inv in Hsave.
    apply save_subscription_Ok_inv in Hsave as (Hstored & t & ->).
    destruct (toSubscriptionDTO_fields (Subscription.stamp t afterAnswer)) as [-> _].
    cbn [Subscription.stamp Subscription.paymentChannel].
    destruct (String.eqb (SubscriptionService.paymentChannel opened) "AIRTEL") eqn:Ea.
    { apply String.eqb_eq in Ea.
      apply bind_Ok_inv in Hafter as (paymentResponse & w4 & _ & Hafter).
      apply bind_Ok_inv in Hafter as (t0 & w5 & _ & Hafter).
      apply bind_Ok_inv in Hafter as (x & w6 & _ & Hafter).
      assert (Hkeep : Subscription.paymentChannel afterAnswer
                      = Subscription.paymentChannel (SubscriptionService.subscription opened)).
      { destruct (SubscriptionService.airtelSucceeded paymentResponse).
        - apply attempt_Ok_inv in Hafter.
          unfold SubscriptionService.calculateEndDate in Hafter.
          destruct (SubscriptionService.endDateDue _).
          + apply save_subscription_Ok_inv in Hafter as (_ & t1 & ->).
            cbn [Subscription.stamp Subscription.paymentChannel].
            rewrite withEndDate_channel. apply applyAirtelResponse_channel.
          + injection Hafter as <- _. apply applyAirtelResponse_channel.
        - injection Hafter as <- _. apply applyAirtelResponse_channel. }
      rewrite Hkeep, Hch, Ea. reflexivity. }
    exfalso.
    destruct (String.eqb (SubscriptionService.paymentChannel opened) "MTN") eqn:Em.
    - apply bind_Ok_inv in Hafter as (paymentResponse & w4 & Hpay & _).
      apply attempt_Ok_inv in Hpay.
      match type of Hpay with
      | PaymentService.requestToPay ?data ?w0 = _ =>
          destruct (payment_service_never_returns data w0) as [[[reason Hthrow] _] _]
      end.
      rewrite Hpay in Hthrow. discriminate.
    - apply (openSubscription_Ok_inv ussdPushPayment PaymentService.requestToPay addMonths)
        in Hopen as (Hin & _).
      destruct Hin as [Hin|Hin]; rewrite Hin in *; discriminate. }
  split.
  { eexists. split; vm_compute; reflexivity. }
  cbv zeta. split; [eexists; vm_compute; reflexivity|].
  repeat split; vm_compute; reflexivity.
Qed.

(* ===================================================================== *)
(** * Subscription payments through Airtel                                *)
(* ===================================================================== *)

Section AirtelSubscriptions.

Variable ussdPushPayment : Json -> string -> string -> M Json.
Variable requestToPay : Json -> M Json.
Variable addMonths : Z -> Z -> Z.






End AirtelSubscriptions.


(* ===================================================================== *)
(** * The record a callback leaves                                        *)
(* ===================================================================== *)

Lemma stored_upsert_mtnCallback (d : MTNCallback.t) (l : list MTNCallback.t) (w0 : World) :
  stored (MTNCallback._id d) (withStore (setDocs (upsert d l) (store w0)) w0) = Some d.
Proof.
  unfold stored. cbn [store withStore docs setDocs MTNCallbackModel mtnCallbacks].
  change (MTNCallback._id d) with (idOf d). apply find_upsert.
Qed.

Lemma stored_upsert_airtelCallback (d : AirtelCallback.t) (l : list AirtelCallback.t)
      (w0 : World) :
  stored (AirtelCallback._id d) (withStore (setDocs (upsert d l) (store w0)) w0) = Some d.
Proof.
  unfold stored. cbn [store withStore docs setDocs AirtelCallbackModel airtelCallbacks].
  change (AirtelCallback._id d) with (idOf d). apply find_upsert.
Qed.

Lemma callbacks_send_nothing (req : Req) (w : World) :
  sent (snd (MTNPaymentController.callback req w)) = sent w /\
  sent (snd (AirtelPaymentController.callback req w)) = sent w.
Proof.
  assert (Hnone : forall w', sentOnly (fun _ => False) w w' -> sent w' = sent w).
  { intros w' (_ & new & Hsent & Hnew). destruct new as [|r new].
    - rewrite Hsent. apply app_nil_r.
    - inversion Hnew; subst. contradiction. }
  split; apply Hnone.
  - assert (Hk : hoare (sentOnly (fun _ => False) w) (MTNPaymentController.callback req)
                   (fun _ => True)).
    { hoare_walk_with only_leaf ltac:(unfold MTNPaymentController.callback);
        try free; try (intros; exact I);
        try (intros; apply sentOnly_StoreFree; assumption). }
    apply (Hk w (sentOnly_refl _ w)).
  - assert (Hk : hoare (sentOnly (fun _ => False) w) (AirtelPaymentController.callback req)
                   (fun _ => True)).
    { hoare_walk_with only_leaf ltac:(unfold AirtelPaymentController.callback);
        try free; try (intros; exact I);
        try (intros; apply sentOnly_StoreFree; assumption). }
    apply (Hk w (sentOnly_refl _ w)).
Qed.

(** A notice whose first record the schema accepts has all the catch
    block reads, so the failure record is accepted as well. *)
Lemma failedCallback_valid (req : Req) (error : Error) (id id' : nat) :
  AirtelPaymentController.requiredFields (prop "transaction" (body req)) = true ->
  AirtelCallback.validationErrors (AirtelPaymentController.newCallback req id) = [] ->
  AirtelCallback.validationErrors (AirtelPaymentController.failedCallback req error id') = [].
Proof.
  unfold AirtelPaymentController.requiredFields. intros Hfields Hvalid.
  apply andb_prop in Hfields as [Tid Hfields].
  apply andb_prop in Hfields as [Tstatus Tmoney].
  unfold AirtelCallback.validationErrors in *.
  cbn [AirtelPaymentController.newCallback AirtelPaymentController.failedCallback
       AirtelCallback.transactionId AirtelCallback.airtelMoneyId
       AirtelCallback.statusCode AirtelCallback.message AirtelCallback.callbackData] in *.
  cbv zeta in *. unfold AirtelPaymentController.orElse in *.
  rewrite Tid, Tstatus, Tmoney.
  destruct (truthy (prop "message" (prop "transaction" (body req)))).
  - exact Hvalid.
  - exfalso. valid_parts Hvalid.
    match goal with
    | H : castPath "message" _ _ = [] |- _ => discriminate H
    end.
Qed.

(** X18: What a callback that holds the required fields leaves behind.
    When the AirtelCallback schema accepts the notice (the three fields and
    a non-empty [message] are strings, [status_code] one of TS, TF, TA, TIP,
    TE) and the store works, the Airtel handler stores the notice under the
    next id, with the body as received, [processed] true and [processedAt]
    the instant of the call, and answers 200 with that id. When the schema
    accepts it, the first write fails and the next goes through, it answers
    200 with [success] false and the message of the failure, and stores the
    notice under the id after, unprocessed, with the message in
    [processingError]. When the schema refuses the notice, nothing is
    written for it; with a working store the handler answers 200 with
    [success] false and the validation message, and the failure record,
    which takes 'Processing failed' for a missing message, is stored under
    the id after only when the schema accepts that one; otherwise the stored
    callbacks are as they were. A notice it answers with 400 leaves the
    world as it was, and neither handler ever sends a request. *)
Theorem airtel_callback_leaves_an_audit_record (req : Req) (w : World) :
  let transaction := prop "transaction" (body req) in
  let id := nextId (store w) in
  let fresh := AirtelPaymentController.newCallback req id in
  (andb (truthy (body req)) (truthy transaction) = true ->
   AirtelPaymentController.requiredFields transaction = true ->
   (faults w = [] -> AirtelCallback.validationErrors fresh = [] ->
    exists w' c,
      AirtelPaymentController.callback req w
      = (Ok {| statusCode := 200;
               payload :=
                 JObj ([("success", JBool true);
                        ("message", JStr "Callback received and processed")]
                         ++ (match prop "id" transaction with
                             | Some j => [("transactionId", j)]
                             | None => []
                             end)
                         ++ [("callbackId", JNum (Z.of_nat id))])%list |}, w') /\
      stored id w' = Some c /\
      AirtelCallback.callbackData c = body req /\
      AirtelCallback.transactionId c = prop "id" transaction /\
      AirtelCallback.statusCode c = prop "status_code" transaction /\
      AirtelCallback.processed c = true /\
      AirtelCallback.processedAt c = Some (now w) /\
      AirtelCallback.processingError c = None) /\
   (forall msg, faults w = [Some msg] -> AirtelCallback.validationErrors fresh = [] ->
    exists w' c,
      AirtelPaymentController.callback req w
      = (Ok {| statusCode := 200; payload := failurePayload (mkError msg) |}, w') /\
      stored (S id) w' = Some c /\
      AirtelCallback.callbackData c = body req /\
      AirtelCallback.processed c = false /\
      AirtelCallback.processingError c = Some msg) /\
   (faults w = [] -> AirtelCallback.validationErrors fresh <> [] ->
    let failure :=
      mkError (@validationFailed AirtelCallback.t _ (AirtelCallback.validationErrors fresh)) in
    let failed := AirtelPaymentController.failedCallback req failure (S id) in
    exists w',
      AirtelPaymentController.callback req w
      = (Ok {| statusCode := 200; payload := failurePayload failure |}, w') /\
      (AirtelCallback.validationErrors failed = [] ->
       exists c,
         stored (S id) w' = Some c /\
         airtelCallbacks (store w') = upsert c (airtelCallbacks (store w)) /\
         AirtelCallback.callbackData c = body req /\
         AirtelCallback.processed c = false /\
         AirtelCallback.processingError c = Some (message failure)) /\
      (AirtelCallback.validationErrors failed <> [] ->
       airtelCallbacks (store w') = airtelCallbacks (store w)))) /\
  (andb (truthy (body req)) (truthy transaction) = false \/
   AirtelPaymentController.requiredFields transaction = false ->
   exists res,
     AirtelPaymentController.callback req w = (Ok res, w) /\ statusCode res = 400) /\
  sent (snd (AirtelPaymentController.callback req w)) = sent w /\
  sent (snd (MTNPaymentController.callback req w)) = sent w.
Proof.
  cbv zeta. split; [|split; [|split]].
  - intros Hbody Hfields. split; [|split].
    + intros Hq Hvalid. unfold AirtelPaymentController.callback. cbv zeta.
      rewrite Hbody, Hfields. cbn [negb].
      cbv beta iota delta [tryCatch bind getNow ret].
      rewrite create_run. cbv beta iota.
      rewrite save_quiet by first [exact Hq | exact Hvalid]. cbv beta iota.
      rewrite save_quiet by first [exact Hq | exact Hvalid]. cbv beta iota.
      eexists. eexists. split; [reflexivity|].
      split.
      { match goal with
        | |- stored _ (withStore (setDocs (upsert ?d _) _) _) = _ =>
            change (nextId (store w)) with (AirtelCallback._id d)
        end.
        apply stored_upsert_airtelCallback. }
      cbn. repeat split.
    + intros msg Hq Hvalid. unfold AirtelPaymentController.callback. cbv zeta.
      rewrite Hbody, Hfields. cbn [negb].
      cbv beta iota delta [tryCatch bind getNow ret].
      rewrite create_run. cbv beta iota.
      unfold save at 1.
      replace (errorsOf (AirtelPaymentController.newCallback req (nextId (store w))))
        with (@nil string) by (symmetry; exact Hvalid).
      unfold bind at 1, storeOp at 1.
      cbn [faults withStore]. rewrite Hq. cbv beta iota.
      rewrite create_run. cbv beta iota.
      rewrite save_quiet
        by first [reflexivity
                 | exact (failedCallback_valid req _ _ _ Hfields Hvalid)].
      cbv beta iota.
      eexists. eexists. split; [reflexivity|].
      split.
      { match goal with
        | |- stored _ (withStore (setDocs (upsert ?d _) _) _) = _ =>
            change (S (nextId (store w))) with (AirtelCallback._id d)
        end.
        apply stored_upsert_airtelCallback. }
      cbn. repeat split.
    + intros Hq Hrefused. unfold AirtelPaymentController.callback. cbv zeta.
      rewrite Hbody, Hfields. cbn [negb].
      cbv beta iota delta [tryCatch bind getNow ret].
      rewrite create_run. cbv beta iota.
      rewrite save_refused by exact Hrefused. cbv beta iota.
      rewrite create_run. cbv beta iota.
      match goal with
      | |- context [save ?d ?w0] =>
          destruct (list_eq_dec string_dec (AirtelCallback.validationErrors d) [])
            as [Hfailed|Hfailed];
          [rewrite (save_quiet d w0) by first [exact Hq | exact Hfailed]
          |rewrite (save_refused d w0) by exact Hfailed]
      end; cbv beta iota.
      * eexists. split; [reflexivity|]. split; [|intros Hno; contradiction].
        intros _. eexists. split.
        { match goal with
          | |- stored _ (withStore (setDocs (upsert ?d _) _) _) = _ =>
              change (S (nextId (store w))) with (AirtelCallback._id d)
          end.
          apply stored_upsert_airtelCallback. }
        cbn. repeat split.
      * eexists. split; [reflexivity|]. split; [intros Hyes; contradiction|].
        intros _. reflexivity.
  - intros Hbad. unfold AirtelPaymentController.callback. cbv zeta.
    destruct (andb (truthy (body req)) (truthy (prop "transaction" (body req)))) eqn:Hb.
    + destruct Hbad as [Hbad|Hbad]; [discriminate|]. rewrite Hbad.
      eexists. split; reflexivity.
    + eexists. split; reflexivity.
  - apply callbacks_send_nothing.
  - apply callbacks_send_nothing.
Qed.

Lemma airtel_callback_leaves_an_audit_record_witness :
  exists w' c,
    AirtelPaymentController.callback airtelNotice hiccup
    = (Ok {| statusCode := 200;
             payload := failurePayload (mkError "connection lost") |}, w') /\
    stored 1%nat w' = Some c /\
    AirtelCallback.callbackData c = body airtelNotice /\
    AirtelCallback.processed c = false /\
    AirtelCallback.processingError c = Some "connection lost".
Proof.
  apply (proj1 (proj2 (proj1 (airtel_callback_leaves_an_audit_record airtelNotice hiccup)
                         eq_refl eq_refl)) "connection lost" eq_refl eq_refl).
Defined.

(* ===================================================================== *)
(** * Usage counting cannot fail a payment                                *)
(* ===================================================================== *)

Lemma usage_walk_records (w0 : World) (success : option bool) :
  hoare (recordsAs w0) (MTNAuthService.updateUsageStats success) (fun _ => True) /\
  hoare (recordsAs w0) (AirtelAuthService.updateUsageStats success) (fun _ => True).
Proof.
  split.
  - hoare_walk ltac:(unfold MTNAuthService.updateUsageStats, mtnIncrementUsage);
      try free; try (intros; exact I); try (intros ? ? Hkept; exact Hkept).
  - hoare_walk ltac:(unfold AirtelAuthService.updateUsageStats, airtelIncrementUsage);
      try free; try (intros; exact I); try (intros ? ? Hkept; exact Hkept).
Qed.

Lemma usage_walk_sent (w0 : World) (success : option bool) :
  hoare (sentOnly (fun _ => False) w0) (MTNAuthService.updateUsageStats success)
        (fun _ => True) /\
  hoare (sentOnly (fun _ => False) w0) (AirtelAuthService.updateUsageStats success)
        (fun _ => True).
Proof.
  split.
  - hoare_walk_with only_leaf
      ltac:(unfold MTNAuthService.updateUsageStats, mtnIncrementUsage);
      try free; try (intros; exact I);
      try (intros; apply sentOnly_StoreFree; assumption).
  - hoare_walk_with only_leaf
      ltac:(unfold AirtelAuthService.updateUsageStats, airtelIncrementUsage);
      try free; try (intros; exact I);
      try (intros; apply sentOnly_StoreFree; assumption).
Qed.

Lemma sentOnly_nothing (w w' : World) : sentOnly (fun _ => False) w w' -> sent w' = sent w.
Proof.
  intros (_ & new & Hsent & Hnew). destruct new as [|r new].
  - rewrite Hsent. apply app_nil_r.
  - inversion Hnew; subst. contradiction.
Qed.

(** X19: [updateUsageStats], of the MTN and of the Airtel auth service,
    never throws: whatever the store does, it returns. It writes no payment
    and no subscription and sends nothing, so the count of a transaction
    cannot undo or fail the transaction it counts. *)
Theorem updateUsageStats_never_throws (success : option bool) (w : World) :
  (exists w', MTNAuthService.updateUsageStats success w = (Ok tt, w') /\
              recordsAs w w' /\ sent w' = sent w) /\
  (exists w', AirtelAuthService.updateUsageStats success w = (Ok tt, w') /\
              recordsAs w w' /\ sent w' = sent w).
Proof.
  destruct (usage_walk_records w success) as [Hm Ha].
  destruct (usage_walk_sent w success) as [Sm Sa].
  split.
  - assert (Ht : total (MTNAuthService.updateUsageStats success)).
    { apply total_tryCatch. intros e. apply total_ret. }
    destruct (Ht w) as ([] & w' & Hrun). exists w'.
    split; [exact Hrun|]. split.
    + exact (kept _ _ _ _ _ _ Hm (recordsAs_refl w) Hrun).
    + apply sentOnly_nothing. exact (kept _ _ _ _ _ _ Sm (sentOnly_refl _ w) Hrun).
  - assert (Ht : total (AirtelAuthService.updateUsageStats success)).
    { apply total_tryCatch. intros e. apply total_ret. }
    destruct (Ht w) as ([] & w' & Hrun). exists w'.
    split; [exact Hrun|]. split.
    + exact (kept _ _ _ _ _ _ Ha (recordsAs_refl w) Hrun).
    + apply sentOnly_nothing. exact (kept _ _ _ _ _ _ Sa (sentOnly_refl _ w) Hrun).
Qed.

(* ===================================================================== *)
(** * Credentials that are not configured                                 *)
(* ===================================================================== *)

(** X20: Without both AIRTEL_CLIENT_ID and AIRTEL_CLIENT_SECRET set to a
    non-empty value, [getAccessToken] sends nothing and throws; so, with a
    working store that holds no Airtel credential record,
    [getValidAccessToken] throws too, under the prefixes of the three
    methods it went through, and leaves the world as it was. *)
Theorem airtel_token_needs_the_client_credentials (w : World) :
  truthyS (assoc "AIRTEL_CLIENT_ID" (env w)) = false \/
  truthyS (assoc "AIRTEL_CLIENT_SECRET" (env w)) = false ->
  let reason :=
    "Failed to get Airtel access token: "
      ++ "Airtel client credentials (AIRTEL_CLIENT_ID and AIRTEL_CLIENT_SECRET) are not configured" in
  AirtelAuthService.getAccessToken w = (Throw (mkError reason), w) /\
  (faults w = [] -> find AirtelUser.isActive (airtelUsers (store w)) = None ->
   AirtelAuthService.getValidAccessToken w
   = (Throw (mkError ("Failed to initialize Airtel user: "
                        ++ "Failed to create new Airtel user: " ++ reason)), w)).
Proof.
  intros Hmissing. cbv zeta.
  assert (Htoken : AirtelAuthService.getAccessToken w
                   = (Throw (mkError ("Failed to get Airtel access token: "
      ++ "Airtel client credentials (AIRTEL_CLIENT_ID and AIRTEL_CLIENT_SECRET) are not configured")), w)).
  { unfold AirtelAuthService.getAccessToken.
    cbv beta iota delta [bind tryCatch airtelConfig].
    cbn [Config.airtelClientId Config.airtelClientSecret Config.airtel].
    destruct (assoc "AIRTEL_CLIENT_ID" (env w)) as [clientId|];
      destruct (assoc "AIRTEL_CLIENT_SECRET" (env w)) as [clientSecret|];
      try reflexivity.
    destruct Hmissing as [H|H]; rewrite H; [|rewrite andb_false_r]; reflexivity. }
  split; [exact Htoken|].
  intros Hq Hnone.
  unfold AirtelAuthService.getValidAccessToken, AirtelAuthService.initializeAirtelUser,
    AirtelAuthService.createNewAirtelUser.
  cbv beta iota delta [bind tryCatch airtelConfig].
  rewrite findOne_quiet by exact Hq. cbn [docs AirtelUserModel]. rewrite Hnone.
  rewrite Htoken. reflexivity.
Qed.

Lemma airtel_token_needs_the_client_credentials_witness :
  AirtelAuthService.getAccessToken signup
  = (Throw (mkError ("Failed to get Airtel access token: "
       ++ "Airtel client credentials (AIRTEL_CLIENT_ID and AIRTEL_CLIENT_SECRET) are not configured")),
     signup).
Proof.
  apply (proj1 (airtel_token_needs_the_client_credentials signup (or_introl eq_refl))).
Defined.

(* ===================================================================== *)
(** * The credential record the collection service makes                  *)
(* ===================================================================== *)

Lemma find_upsert_first {D : Type} `{Model D} (f : D -> bool) (d : D) (l : list D) :
  find f l = None -> f d = true -> find f (upsert d l) = Some d.
Proof.
  intros Hnone Hd. unfold upsert.
  destruct (existsb (fun x => Nat.eqb (idOf x) (idOf d)) l) eqn:Hex.
  - induction l as [|x l IH]; [discriminate|].
    cbn in Hnone, Hex |- *. destruct (f x) eqn:Hx; [discriminate|].
    destruct (Nat.eqb (idOf x) (idOf d)) eqn:Hid.
    + rewrite Hd. reflexivity.
    + rewrite Hx. cbn in Hex. auto.
  - clear Hex. induction l as [|x l IH]; cbn.
    + rewrite Hd. reflexivity.
    + cbn in Hnone. destruct (f x); [discriminate|]. auto.
Qed.

(** X21: [getMTNUser] of the collection service, on a working store
    without an active credential record. Unless MTN_API_USER and MTN_API_KEY
    are both set to a non-empty value it throws and changes nothing. With
    both set it stores an active record of them even if the token request it
    makes fails: when the provider cannot be reached the record has no
    token, and [getValidToken] then throws after a second token request
    while the record stays stored, unlike the record of [createNewMTNUser],
    which is stored only after every step went through. *)
Theorem collection_user_is_made_from_the_environment (w : World) :
  faults w = [] ->
  find MTNUser.isActive (mtnUsers (store w)) = None ->
  (truthyS (assoc "MTN_API_USER" (env w)) = false \/
   truthyS (assoc "MTN_API_KEY" (env w)) = false ->
   MTNCollectionService.getMTNUser w
   = (Throw (mkError "MTN user not found. Please initialize MTN user first or set MTN_API_USER and MTN_API_KEY environment variables."), w)) /\
  (forall xRef key,
      assoc "MTN_API_USER" (env w) = Some xRef -> xRef <> "" ->
      assoc "MTN_API_KEY" (env w) = Some key -> key <> "" ->
      replies w = [] ->
      exists w' u tokenRequest,
        MTNCollectionService.getValidToken w
        = (Throw (mkError "Failed to get valid token: Failed to get collection token: fetch failed"), w') /\
        sent w' = (sent w ++ [tokenRequest; tokenRequest])%list /\
        Http.url tokenRequest = Config.mtnBaseURL (Config.mtn (env w)) ++ "/collection/token/" /\
        find MTNUser.isActive (mtnUsers (store w')) = Some u /\
        MTNUser.xReferenceId u = xRef /\
        MTNUser.apiKey u = Some key /\
        MTNUser.collectionToken u = None /\
        MTNUser.collectionTokenExpiresAt u = None).
Proof.
  intros Hq Hnone. split.
  - intros Hmissing. unfold MTNCollectionService.getMTNUser.
    cbv beta iota delta [bind mtnConfig getEnv].
    rewrite findOne_quiet by exact Hq. cbn [docs MTNUserModel]. rewrite Hnone.
    destruct (assoc "MTN_API_USER" (env w)) as [xRef|]; [|reflexivity].
    destruct Hmissing as [H|H]; rewrite H; [|rewrite andb_false_r]; reflexivity.
  - intros xRef key Hx Hxne Hk Hkne Hr.
    assert (Tx : truthyS (Some xRef) = true) by (destruct xRef; [contradiction|reflexivity]).
    assert (Tk : truthyS (Some key) = true) by (destruct key; [contradiction|reflexivity]).
    unfold MTNCollectionService.getValidToken, MTNCollectionService.getMTNUser,
      MTNCollectionService.getToken, MTNCollectionService.subscriptionKey.
    cbv beta iota delta [bind tryCatch mtnConfig getEnv getNow fetch exchange ret
                         throwError throw].
    rewrite findOne_quiet by exact Hq. cbn [docs MTNUserModel]. rewrite Hnone.
    rewrite Hx, Hk, Tx, Tk. cbn [andb]. rewrite Hr.
    cbn [env withExchange replies fst snd]. rewrite create_run.
    rewrite save_quiet
      by first [exact Hq
               | change (@errorsOf MTNUser.t _) with MTNUser.validationErrors;
                 unfold MTNUser.validationErrors;
                 cbn [MTNUser.xReferenceId MTNUser.apiKey MTNUser.providerCallbackHost];
                 rewrite !requiredString_set by assumption;
                 destruct (assoc "MTN_PROVIDER_CALLBACK_HOST" (env w)) as [[|c host]|];
                 reflexivity].
    cbn [env withExchange withStore replies now fst snd store faults sent
         stampOf MTNUserModel MTNUser.stamp MTNCollectionService.cachedTokenUsable
         MTNUser.collectionToken MTNUser.collectionTokenExpiresAt truthyS andb
         MTNUser.xReferenceId MTNUser.apiKey message mkError].
    eexists; eexists; eexists. split; [reflexivity|].
    cbn [sent withExchange withStore store mtnUsers docs setDocs MTNUserModel nextId].
    split; [rewrite <- app_assoc; reflexivity|].
    split; [reflexivity|].
    split; [apply find_upsert_first; [exact Hnone|reflexivity]|].
    repeat split.
Qed.

Lemma collection_user_is_made_from_the_environment_witness :
  exists w', MTNCollectionService.getValidToken coldStart
  = (Throw (mkError "Failed to get valid token: Failed to get collection token: fetch failed"), w') /\
  exists u, find MTNUser.isActive (mtnUsers (store w')) = Some u /\
            MTNUser.collectionToken u = None.
Proof.
  destruct (proj2 (collection_user_is_made_from_the_environment coldStart eq_refl eq_refl)
              "9f1c2d3e-0000-4000-8000-000000000001" "secret" eq_refl
              ltac:(discriminate) eq_refl ltac:(discriminate) eq_refl)
    as (w' & u & req & Hrun & _ & _ & Hu & _ & _ & Htok & _).
  exists w'. split; [exact Hrun|]. exists u. split; assumption.
Defined.

(* ===================================================================== *)
(** * The payment request of the MTN controller                           *)
(* ===================================================================== *)

Lemma stringIncludes_unfold (needle s : string) :
  stringIncludes needle s
  = orb (String.prefix needle s)
        (match s with
         | EmptyString => false
         | String _ s' => stringIncludes needle s'
         end).
Proof. destruct s; reflexivity. Qed.

Lemma prefix_append (needle rest : string) : String.prefix needle (needle ++ rest) = true.
Proof.
  induction needle as [|c needle IH]; cbn.
  - destruct rest; reflexivity.
  - destruct (ascii_dec c c) as [_|Hne]; [exact IH|contradiction].
Qed.

Lemma stringIncludes_append (needle before rest : string) :
  stringIncludes needle (before ++ needle ++ rest) = true.
Proof.
  induction before as [|c before IH].
  - cbn [append]. rewrite stringIncludes_unfold, prefix_append. reflexivity.
  - cbn [append]. rewrite stringIncludes_unfold, IH. apply orb_true_r.
Qed.

Lemma errorStatus_cases (e : Error) :
  MTNPaymentEndpoint.errorStatus e = 400 \/
  MTNPaymentEndpoint.errorStatus e = 409 \/
  MTNPaymentEndpoint.errorStatus e = 500.
Proof.
  unfold MTNPaymentEndpoint.errorStatus.
  destruct (stringIncludes "Bad Request" (message e)); [left; reflexivity|].
  destruct (stringIncludes "Conflict" (message e)); [right; left|right; right]; reflexivity.
Qed.

(** X22: [requestPayment] of the MTN payment controller never throws:
    whatever the request and whatever the payment service does, it answers,
    and only with 202, 400, 409 or 500. It answers 202 only when it called
    the service, with a target environment that is never empty, and the
    service returned. A request whose body lacks [userId], [phoneNumber] or
    [amount], or whose [amount] is not a number above zero, is answered
    without a call of the service: the world stays as it was, and the status
    is 400, or 500 when the body is [undefined] or [null]. *)
Theorem requestPayment_handler_always_answers
        (paymentService : option Json -> option Json -> Z -> MTNPaymentService.Options
                          -> M MTNPaymentService.Receipt)
        (req : MTNPaymentEndpoint.Req) (w : World) :
  let userId := prop "userId" (MTNPaymentEndpoint.body req) in
  let phoneNumber := prop "phoneNumber" (MTNPaymentEndpoint.body req) in
  let amount := prop "amount" (MTNPaymentEndpoint.body req) in
  exists res w',
    MTNPaymentEndpoint.requestPayment paymentService req w = (Ok res, w') /\
    In (statusCode res) [202; 400; 409; 500] /\
    (statusCode res = 202 ->
     exists n options receipt,
       amount = Some (JNum n) /\ 0 < n /\
       truthy userId = true /\ truthy phoneNumber = true /\
       truthyS (MTNPaymentService.targetEnvironment options) = true /\
       paymentService userId phoneNumber n options w = (Ok receipt, w')) /\
    (truthy userId = false \/ truthy phoneNumber = false \/
     (forall n, amount = Some (JNum n) -> n <= 0) ->
     w' = w /\
     statusCode res = match MTNPaymentEndpoint.body req with
                      | None | Some JNull => 500
                      | Some _ => 400
                      end).
Proof.
  cbv zeta. unfold MTNPaymentEndpoint.requestPayment, MTNPaymentEndpoint.validationError.
  destruct req as [body teh cbh teq cbq]. cbn [MTNPaymentEndpoint.body
    MTNPaymentEndpoint.targetEnvironmentHeader MTNPaymentEndpoint.callbackUrlHeader
    MTNPaymentEndpoint.targetEnvironmentQuery MTNPaymentEndpoint.callbackUrlQuery].
  destruct body as [[|b|m|s|items|fields]|];
    try (mrun; eexists; eexists; (split; [reflexivity|]);
         (split; [cbn; tauto|]); split;
         [cbn; discriminate|intros _; split; reflexivity]).
  cbn [prop].
  destruct (truthy (assoc "userId" fields)) eqn:Huser;
    [destruct (truthy (assoc "phoneNumber" fields)) eqn:Hphone;
     [destruct (truthy (assoc "amount" fields)) eqn:Hamount|]|];
    cbn [andb negb];
    try (mrun; eexists; eexists; (split; [reflexivity|]);
         (split; [cbn; tauto|]); split;
         [cbn; discriminate|intros _; split; reflexivity]).
  destruct (assoc "amount" fields) as [[|b|n|s|items|fs]|] eqn:Ha;
    try (mrun; eexists; eexists; (split; [reflexivity|]);
         (split; [cbn; tauto|]); split;
         [cbn; discriminate|intros _; split; reflexivity]).
  destruct (Z.leb n 0) eqn:Hn.
  { mrun. eexists; eexists. split; [reflexivity|]. split; [cbn; tauto|]. split.
    - cbn; discriminate.
    - intros _. split; reflexivity. }
  apply Z.leb_gt in Hn. mrun.
  match goal with
  | |- context [paymentService ?u ?p ?a ?o w] =>
      destruct (paymentService u p a o w) as [[receipt|e] w1] eqn:Hrun
  end.
  - eexists; eexists. split; [reflexivity|]. split; [cbn; tauto|]. split.
    + intros _. eexists n, _, receipt.
      split; [reflexivity|]. split; [exact Hn|]. split; [reflexivity|].
      split; [reflexivity|]. split; [|exact Hrun].
      cbn [MTNPaymentService.targetEnvironment]. unfold orS.
      destruct (truthyS teh) eqn:E1; [exact E1|].
      destruct (truthyS teq) eqn:E2; [exact E2|].
      destruct (truthyS (assoc "MTN_TARGET_ENVIRONMENT" (env w))) eqn:E3;
        [exact E3|reflexivity].
    + intros [H|[H|H]]; try discriminate. specialize (H n eq_refl). lia.
  - eexists; eexists. split; [reflexivity|]. cbn [statusCode]. split.
    { cbn [In]. destruct (errorStatus_cases e) as [-> | [-> | ->]]; tauto. }
    split.
    + destruct (errorStatus_cases e) as [-> | [-> | ->]]; discriminate.
    + intros [H|[H|H]]; try discriminate. specialize (H n eq_refl). lia.
Qed.

Lemma requestToPay_refused (referenceId : string) (requestData : Json)
      (targetEnvironment : string) (callbackUrl : option string)
      (w : World) (u : MTNUser.t) (r : Http.Response) (rest : list Http.Reply)
      (callback : string) :
  faults w = [] ->
  find MTNUser.isActive (mtnUsers (store w)) = Some u ->
  Fresh (MTNUser.collectionToken u) (MTNUser.collectionTokenExpiresAt u)
        MTNCollectionService.refreshThreshold (now w) ->
  assoc "MTN_CALLBACK_URL" (env w) = Some callback -> callback <> "" ->
  replies w = Http.Answered r :: rest ->
  Http.status r <> 202 ->
  exists w',
    MTNCollectionService.requestToPay referenceId requestData targetEnvironment callbackUrl w
    = (Throw (mkError ("Failed to request payment: "
                         ++ MTNPaymentEndpoint.refusalMessage r)), w').
Proof.
  intros Hq Hfind Hfresh Hcb Hne Hr Hstatus.
  assert (Tcb : truthyS (Some callback) = true)
    by (destruct callback; [contradiction|reflexivity]).
  unfold MTNCollectionService.requestToPay, MTNCollectionService.subscriptionKey.
  cbv beta iota delta [bind tryCatch mtnConfig getEnv ret].
  rewrite (collection_getValidToken_cached w u Hq Hfind Hfresh).
  rewrite Hcb, Tcb.
  destruct Hfresh as [Htok _].
  destruct (MTNUser.collectionToken u) as [token|]; [|discriminate].
  rewrite (fetch_answered _ w r rest Hr).
  unfold MTNPaymentEndpoint.refusalMessage, MTNPaymentEndpoint.refusalBody.
  destruct (Z.eqb (Http.status r) 202) eqn:E; [apply Z.eqb_eq in E; contradiction|].
  destruct (Z.eqb (Http.status r) 400); [eexists; reflexivity|].
  destruct (Z.eqb (Http.status r) 409); [eexists; reflexivity|].
  destruct (Z.eqb (Http.status r) 500); eexists; reflexivity.
Qed.

Lemma requestPaymentSavingLast_refused (userId phoneNumber : string) (amount : Z)
      (options : MTNPaymentService.Options)
      (w : World) (u : MTNUser.t) (r : Http.Response) (rest : list Http.Reply)
      (callback : string) :
  faults w = [] ->
  find MTNUser.isActive (mtnUsers (store w)) = Some u ->
  Fresh (MTNUser.collectionToken u) (MTNUser.collectionTokenExpiresAt u)
        MTNCollectionService.refreshThreshold (now w) ->
  assoc "MTN_CALLBACK_URL" (env w) = Some callback -> callback <> "" ->
  replies w = Http.Answered r :: rest ->
  Http.status r <> 202 ->
  exists w',
    MTNPaymentService.requestPaymentSavingLast userId phoneNumber amount options w
    = (Throw (mkError ("Failed to request payment: Failed to request payment: "
                         ++ MTNPaymentEndpoint.refusalMessage r)), w').
Proof.
  intros Hq Hfind Hfresh Hcb Hne Hr Hstatus.
  unfold MTNPaymentService.requestPaymentSavingLast, MTNCollectionService.getMTNUser.
  mrun. cbv beta iota delta [bind tryCatch randomUUID].
  rewrite findOne_quiet by (cbn; exact Hq).
  cbn [docs MTNUserModel store withDrawn]. rewrite Hfind.
  match goal with
  | |- context [MTNCollectionService.requestToPay ?a ?b ?c ?d ?w0] =>
      destruct (requestToPay_refused a b c d w0 u r rest callback) as [w' Hrun];
        try assumption
  end.
  rewrite Hrun. eexists. reflexivity.
Qed.

(** The one path of the payment that the schema refuses when the
    credential record and the identifiers are in order. *)
Lemma requestPayment_refused_by_schema (userId phoneNumber : string) (amount : Z)
      (options : MTNPaymentService.Options) (w : World) (u : MTNUser.t) :
  faults w = [] ->
  find MTNUser.isActive (mtnUsers (store w)) = Some u ->
  MTNUser.validationErrors u = [] ->
  uuids w (drawn w) <> "" ->
  userId <> "" -> phoneNumber <> "" -> 0 < amount ->
  exists w',
    MTNPaymentService.requestPayment userId phoneNumber amount options w
    = (Throw (mkError ("Failed to request payment: Payment validation failed: "
                         ++ enumError "currency" "RWF")), w') /\
    sent w' = sent w /\ replies w' = replies w /\
    payments (store w') = payments (store w).
Proof.
  intros Hq Hfind Hvalid Huuid Hune Hpne Hpos.
  unfold MTNPaymentService.requestPayment, MTNCollectionService.getMTNUser.
  mrun. cbv beta iota delta [bind tryCatch randomUUID].
  rewrite findOne_quiet by (cbn; exact Hq).
  cbn [docs MTNUserModel store withDrawn]. rewrite Hfind.
  rewrite create_run.
  rewrite save_refused by (apply payment_rwf_refused; reflexivity).
  cbn [fst snd message throwError throw mkError].
  match goal with
  | |- exists w', (_, ?w1) = _ /\ _ => exists w1
  end.
  split; [|repeat split].
  unfold validationFailed. cbn [modelName PaymentModel errorsOf].
  unfold Payment.validationErrors. cbv zeta.
  cbn [Payment.xReferenceId Payment.apiUserId Payment.apiKey Payment.transactionType
       Payment.transactionSubType Payment.amount Payment.currency Payment.externalId
       Payment.payer Payment.payee Payment.payerMessage Payment.payeeNote Payment.status
       Payment.mtnStatus Payment.serviceType Payment.subscriptionKey
       partyIdType partyId].
  unfold MTNUser.validationErrors in Hvalid. valid_parts Hvalid.
  assert (Hid : MTNUser.xReferenceId u <> "").
  { intros E. rewrite E in *. discriminate. }
  rewrite !requiredString_set
    by first [assumption | discriminate | apply envOr_nonempty; discriminate].
  match goal with
  | H : requiredString "apiKey" _ = [] |- _ => rewrite H
  end.
  unfold minNumber.
  replace (Z.ltb amount 0) with false by (symmetry; apply Z.ltb_ge; lia).
  reflexivity.
Qed.

Lemma errorStatus_bad_request (before rest : string) :
  MTNPaymentEndpoint.errorStatus (mkError (before ++ "Bad Request" ++ rest)) = 400.
Proof.
  unfold MTNPaymentEndpoint.errorStatus. cbn [message mkError].
  rewrite stringIncludes_append. reflexivity.
Qed.

Lemma stringIncludes_skip (needle : string) (c : ascii) (s : string) :
  String.prefix needle (String c s) = false ->
  stringIncludes needle (String c s) = stringIncludes needle s.
Proof. intros H. rewrite stringIncludes_unfold, H. reflexivity. Qed.

Ltac skip_prefix :=
  repeat (cbn [append]; rewrite stringIncludes_skip by reflexivity).

(** X23: How the MTN payment controller answers a valid request once
    the payment service has its credentials (a working store, a credential
    record the schema accepts whose token is fresh, MTN_CALLBACK_URL set).
    With the revision of the service that saves the payment first, the
    provider is never asked: the schema refuses the currency RWF, the
    service throws the validation failure and the controller answers 500,
    with nothing sent and the provider's answer unread. With the revision
    that saves last, a refusal of the provider (a status other than 202)
    makes the service throw and the controller answers by what the message
    mentions: 400 on a provider status 400; on a provider status 409 it
    answers 409, and on 500 it answers 500, unless the body the provider
    sent mentions Bad Request (then 400) or, on 500, Conflict (then 409). *)
Theorem provider_refusal_reaches_the_caller
        (req : MTNPaymentEndpoint.Req) (userId phoneNumber : string) (amount : Z)
        (w : World) (u : MTNUser.t) (r : Http.Response) (rest : list Http.Reply)
        (callback : string) :
  prop "userId" (MTNPaymentEndpoint.body req) = Some (JStr userId) -> userId <> "" ->
  prop "phoneNumber" (MTNPaymentEndpoint.body req) = Some (JStr phoneNumber) ->
  phoneNumber <> "" ->
  prop "amount" (MTNPaymentEndpoint.body req) = Some (JNum amount) -> 0 < amount ->
  faults w = [] ->
  find MTNUser.isActive (mtnUsers (store w)) = Some u ->
  MTNUser.validationErrors u = [] ->
  uuids w (drawn w) <> "" ->
  Fresh (MTNUser.collectionToken u) (MTNUser.collectionTokenExpiresAt u)
        MTNCollectionService.refreshThreshold (now w) ->
  assoc "MTN_CALLBACK_URL" (env w) = Some callback -> callback <> "" ->
  replies w = Http.Answered r :: rest ->
  (exists res w',
     MTNPaymentEndpoint.requestPayment
       (paymentServiceOf MTNPaymentService.requestPayment) req w = (Ok res, w') /\
     statusCode res = 500 /\
     prop "message" (prop "error" (Some (payload res)))
     = Some (JStr ("Failed to request payment: Payment validation failed: "
                     ++ enumError "currency" "RWF")) /\
     sent w' = sent w /\ replies w' = replies w /\
     payments (store w') = payments (store w)) /\
  (Http.status r <> 202 ->
   let sentBody := stringify (MTNPaymentEndpoint.refusalBody r) in
   exists res w',
     MTNPaymentEndpoint.requestPayment
       (paymentServiceOf MTNPaymentService.requestPaymentSavingLast) req w = (Ok res, w') /\
     prop "message" (prop "error" (Some (payload res)))
     = Some (JStr ("Failed to request payment: Failed to request payment: "
                     ++ MTNPaymentEndpoint.refusalMessage r)) /\
     (Http.status r = 400 -> statusCode res = 400) /\
     (Http.status r = 409 ->
      statusCode res = if stringIncludes "Bad Request" sentBody then 400 else 409) /\
     (Http.status r = 500 ->
      statusCode res = if stringIncludes "Bad Request" sentBody then 400
                       else if stringIncludes "Conflict" sentBody then 409 else 500)).
Proof.
  intros Huser Hune Hphone Hpne Hamount Hpos Hq Hfind Hvalid Huuid Hfresh Hcb Hcne Hr.
  assert (Tu : truthy (Some (JStr userId)) = true)
    by (destruct userId; [contradiction|reflexivity]).
  assert (Tp : truthy (Some (JStr phoneNumber)) = true)
    by (destruct phoneNumber; [contradiction|reflexivity]).
  assert (Ta : truthy (Some (JNum amount)) = true).
  { cbn. destruct (Z.eqb_spec amount 0); [lia|reflexivity]. }
  assert (Hle : Z.leb amount 0 = false) by (apply Z.leb_gt; exact Hpos).
  split.
  - unfold MTNPaymentEndpoint.requestPayment.
    destruct (MTNPaymentEndpoint.body req) as [[|b|m|s|items|fields]|] eqn:Hbody;
      try discriminate.
    rewrite Huser, Hphone, Hamount, Tu, Tp, Ta, Hle. cbn [andb negb].
    cbv beta iota delta [bind tryCatch getEnv getNow ret].
    unfold paymentServiceOf. cbn [jsString stringOf].
    match goal with
    | |- context [MTNPaymentService.requestPayment _ _ _ ?o w] =>
        destruct (requestPayment_refused_by_schema userId phoneNumber amount o w u
                    Hq Hfind Hvalid Huuid Hune Hpne Hpos)
          as (w' & Hrun & Hsent & Hreplies & Hpayments)
    end.
    rewrite Hrun.
    eexists; eexists. split; [reflexivity|].
    cbn [statusCode payload]. split; [vm_compute; reflexivity|].
    split; [|split; [exact Hsent|split; [exact Hreplies|exact Hpayments]]].
    unfold MTNPaymentEndpoint.errorResponse. cbn [prop assoc String.eqb Ascii.eqb Bool.eqb
      message mkError append]. reflexivity.
  - intros Hstatus. cbv zeta.
    unfold MTNPaymentEndpoint.requestPayment.
    destruct (MTNPaymentEndpoint.body req) as [[|b|m|s|items|fields]|] eqn:Hbody;
      try discriminate.
    rewrite Huser, Hphone, Hamount, Tu, Tp, Ta, Hle. cbn [andb negb].
    cbv beta iota delta [bind tryCatch getEnv getNow ret].
    unfold paymentServiceOf. cbn [jsString stringOf].
    match goal with
    | |- context [MTNPaymentService.requestPaymentSavingLast _ _ _ ?o w] =>
        destruct (requestPaymentSavingLast_refused userId phoneNumber amount o w u r rest
                    callback Hq Hfind Hfresh Hcb Hcne Hr Hstatus) as [w' Hrun]
    end.
    rewrite Hrun.
    eexists; eexists. split; [reflexivity|].
    cbn [statusCode payload]. split.
    { unfold MTNPaymentEndpoint.errorResponse. cbn [prop assoc String.eqb Ascii.eqb Bool.eqb
        message mkError append]. reflexivity. }
    unfold MTNPaymentEndpoint.refusalMessage.
    split; [|split]; intros Hs; rewrite Hs; cbn [Z.eqb Pos.eqb].
    + apply (errorStatus_bad_request
               "Failed to request payment: Failed to request payment: ").
    + unfold MTNPaymentEndpoint.errorStatus. cbn [message mkError].
      replace (stringIncludes "Conflict" _) with true.
      2:{ symmetry.
          apply (stringIncludes_append "Conflict"
                   "Failed to request payment: Failed to request payment: "). }
      skip_prefix. reflexivity.
    + unfold MTNPaymentEndpoint.errorStatus. cbn [message mkError].
      skip_prefix. reflexivity.
Qed.

Lemma provider_refusal_reaches_the_caller_witness :
  (exists res w',
      MTNPaymentEndpoint.requestPayment (paymentServiceOf MTNPaymentService.requestPayment)
                                        fiveHundred checkoutRefused = (Ok res, w') /\
      statusCode res = 500 /\ replies w' = replies checkoutRefused) /\
  (exists res w',
      MTNPaymentEndpoint.requestPayment
        (paymentServiceOf MTNPaymentService.requestPaymentSavingLast)
        fiveHundred checkoutRefused = (Ok res, w') /\
      statusCode res = 409).
Proof.
  destruct (provider_refusal_reaches_the_caller
              fiveHundred "user-1" "250788000000" 500 checkoutRefused merchant refused409 []
              "https://example.org/api/mtn-payment/callback"
              eq_refl ltac:(discriminate)
              eq_refl ltac:(discriminate) eq_refl ltac:(lia)
              eq_refl eq_refl eq_refl ltac:(discriminate)
              ltac:(split; [reflexivity|eexists; split; [reflexivity|vm_compute; reflexivity]])
              eq_refl ltac:(discriminate) eq_refl)
    as [(res & w' & Hrun & Hstatus & _ & _ & Hreplies & _) Hlast].
  split.
  - exists res, w'. split; [exact Hrun|]. split; [exact Hstatus|exact Hreplies].
  - destruct (Hlast ltac:(discriminate)) as (res2 & w2 & Hrun2 & _ & _ & H409 & _).
    exists res2, w2. split; [exact Hrun2|]. exact (H409 eq_refl).
Defined.
